(* ===== verification/_CoqProject ===== *)
-Q . S2P
Prelude.v
PyStr.v
PyDict.v
Chains.v
Types.v
Retriever.v
History.v
Rag.v
Graph.v
Progress.v
Stream.v
Deployment.v
Metadata.v
Feedback.v
Uploads.v
FaissStore.v
DbCreate.v
DbEdit.v
DbList.v
CategorySpec.v
Cache.v
App.v
IndexPage.v
Startup.v
Wrapper.v
