(* ===== verification/Prelude.v ===== *)
(** * A verification development for mma-qa-rag

    mma-qa-rag is a Flask application that answers questions over a chosen
    document corpus with a LangGraph pipeline: retrieve from a hybrid
    (BM25 + FAISS) index, fall back to a web search when nothing was found,
    and generate the answer with an LLM chain.  While a question is being
    answered, the steps taken are pushed into a per-thread queue that a
    second HTTP endpoint streams to the browser.

    ** Parts of the program and how they interact

    - [src/states.py] [GraphState]: the dictionary threaded through the graph.
    - [src/nodes.py]: the three nodes ([RetrieveNode] with its per-question
      memo cache, [WebSearchNode], [RagAnswerNode]) and the router
      [check_documents].
    - [src/rag.py]: [create_rag_chain], which formats the retrieved documents
      and the chat history into the prompt variables of the LLM call.
    - [src/streamlit_wrapper.py]: the process-wide [db_cache] of retrievers
      and compiled graphs ([preload_vector_dbs], [preload_graphs],
      [create_graph], [create_graph_internal], [init_app]).
    - [src/app.py]: the HTTP handlers ([ask], [change_db], [clear],
      [stream_progress]), the session history ([add_message],
      [get_message_history]), and [run_graph], which runs the graph twice
      (once streamed, to publish progress, once with [invoke], for the
      answer) and publishes step labels into [progress_queues].
    - [src/retrievers.py] [init_retriever]: builds the hybrid retriever.
    - [src/chains.py]: grading and rewriting chains (not wired into the
      graph).
    - [src/document_manager.py]: upload, corpus and category management.

    Control flow: [ask] reads the corpus selected in the session, reuses or
    rebuilds the process-global [current_graph] through [create_graph],
    then calls [run_graph], which streams the graph (publishing labels into
    the queue of the request's thread id), publishes ["DONE"], and invokes
    the graph a second time for the result.  [stream_progress] consumes that
    queue with one-second polls and gives up after 60 consecutive empty
    polls.

    ** Files of this development

    - [Prelude] (this file): the state/error monad [stE] of the whole
      development with its notation scope [rag_scope], the Python slice
      [lastn], shared lemmas, tactics and the hint database [rag].
    - [PyStr]: Python's [str.replace], [str.strip] and [sorted(set(...))]
      on UTF-8 strings, with their lemmas and sample evaluations.
    - [PyDict]: Python's insertion-ordered [dict] as an association list
      with distinct keys ([dict_get], [dict_set], [dict_del],
      [dict_update], [dict_filter]), each operation proved to implement
      the corresponding [gmap] operation through [dict_map].
    - [Chains]: chains.py's five chains with their exact prompts and
      pydantic schemas, the f-string template engine of
      [ChatPromptTemplate] (parse, missing-variable check, one-pass
      formatting) and pydantic's validation of the structured output; the
      OpenAI APIs are oracles ([chat_llm], [tool_llm]).
    - [Types]: documents, messages, [GraphState] and LangGraph's update
      merge, the error type, the external services as a class [Services],
      and the process heap [World] (graph objects with their retrieve
      caches, queue objects, the [progress_queues] registry, the log of
      external calls); the monad [M] over it.
    - [Retriever]: retrievers.py's [init_retriever]: [BM25Retriever]
      built from the folder name (one text per character), its top 3, and
      [EnsembleRetriever]'s weighted reciprocal rank fusion with FAISS
      ([ensemble_invoke], in a Section over the BM25 order and the FAISS
      search).
    - [History]: [add_message], [get_message_history]; the 20-message FIFO.
    - [Rag]: rag.py's [format_rag_docs], [format_chat_history] and the
      chain call.
    - [Graph]: the three nodes, [check_documents], the compiled graph of
      [create_graph_internal] as a transition function, and the LangGraph
      run loop with its recursion limit ([run_from], [graph_stream],
      [graph_invoke]).
    - [Progress]: [run_graph] (stream, publish labels, put ["DONE"], invoke
      again) and its queue.
    - [Stream]: [stream_progress] and its generator as a state machine
      ([consumer_step]), the end-to-end requests of Scenarios A and B.
    - [Deployment]: the graph with the retriever of [Retriever] as its
      [Services] instance ([deployed_services]), composing the two.
    - [Metadata]: document_manager.py's metadata file, its repair on load,
      and the category and corpus-deletion handlers.
    - [Feedback]: app.py's [submit_feedback] in [stE] over the feedback
      the LangSmith service has recorded; the client is an oracle.
    - [Uploads]: document_manager.py's [upload_documents],
      [delete_document] and the documents listing, with urllib's [quote]
      and [unquote] byte by byte ([preserve_filename],
      [restore_filename]), [allowed_file], [os.path.join] and the OS's
      resolution of relative paths over a file system [fsys] of
      directories and files.
    - [DbCreate]: [create_vector_db_from_multiple]: Python's [int()] on
      the JSON chunk settings and their clamps ([normalize_chunks]),
      [get_loader_for_file], the loading loop, the folder named after the
      clock second ([db_folder]) and the metadata entry; loaders, the text
      splitter and the embedding service are Section variables, the clock
      readings and the [uuid4] ids of the chunks are arguments.
    - [FaissStore]: the langchain FAISS store the handlers load, edit and
      save: its index (one entry per vector), its docstore dict and its
      [index_to_docstore_id] dict; [FAISS.__add] (numbering new vectors
      from [len(index_to_docstore_id)], with its checks), a search as the
      docstore lookup of the hit positions ([search_hits], raising
      [KeyError] like langchain), the store invariant [vs_wf] with its
      boolean checker, and [save_local]/[load_local] on the state
      [dmstate] of the document manager (metadata file, file system,
      saved stores).
    - [DbEdit]: [add_documents_to_db], [remove_documents_from_db],
      [remove_document_from_db], [remove_documents_by_source] and
      [update_document_custom_name], each as a function of the request,
      the clock reading and the state, returning the response and the
      new state.
    - [DbList]: [get_db_info], [get_vector_dbs] (listing, grouping by
      category), [get_db_documents] (with the 50-character UTF-8
      preview) and the corpus list of the document manager page.
    - [CategorySpec]: the contract of the category handlers as operations
      on an abstract store (sets and maps, [cat_store]) and the
      abstraction [alpha] of the file.
    - [Cache]: streamlit_wrapper.py's [db_cache], [init_app] and
      [create_graph], with concurrent [create_graph] calls as a step
      relation [cg_step], and what [init_app] caches at startup.
    - [App]: app.py's [ask] (split into the selection of [current_graph]
      and the run), [change_db], [clear_conversation], [initialize_app],
      and concurrent [ask] requests as a step relation [ask_step].
    - [IndexPage]: app.py's [index]: the session keys it sets and the
      corpus list it renders from [db_cache] and the metadata file.
    - [Startup]: the import of app.py: the initial globals, the
      module-level [initialize_app()] and [setup_document_manager]'s
      [os.makedirs] of the upload folder.
    - [Wrapper]: streamlit_wrapper.py's [stream_graph],
      [save_system_state] and [restore_system_state] (unused by the Flask
      app), over the graph runs of [Graph] and the cache of [Cache], with
      the pickle files of the working directory as a map.

    ** Theorems

    (The list of properties and their claim ids is in the manifest; each
    theorem's doc comment names its claim.)  Groups:
    - requests end to end (Scenarios A and B): the answer, the external
      calls (the LLM and the web search run twice per request, because
      [run_graph] runs the graph twice) and the events a subscriber sees;
    - the routes of the graph and termination of the run loop under the
      recursion limit; the node functions on every branch; the unbounded
      retrieve cache and its memoisation;
    - the progress queue: it always ends with ["DONE"]; the subscriber's
      termination, timeout and cleanup; a subscription that comes before
      the request misses its progress;
    - the process globals: [current_graph] always belongs to
      [current_db_index]; a request alone queries only its session's
      corpus, but two interleaved requests can answer one session's
      question from the other's corpus (Scenario D); the cache invariant
      under [init_app], [create_graph] and their interleavings, and the
      double build of [create_graph] under concurrency;
    - the metadata file: load/save round trip, the category list and its
      handlers, the duplicate that [rename_category] can create and that
      [delete_category] then fails to remove, and [delete_vector_db]
      removing any directory;
    - the session history's FIFO bound;
    - the deployed retriever: never empty on a corpus folder (its BM25
      half indexes the folder name's characters), a character document
      ranked first, and so no request of the deployed graph ever reaches
      the web search;
    - refinement: every category handler implements its operation on the
      abstract category store, refusals and statuses included;
    - the chains: the exact messages of the rewriter, and the structured outputs (the router is
      closed on yes/no, the graders accept any string);
    - uploads: [restore_filename] inverts [preserve_filename] on every
      valid UTF-8 name, and a name starting with ["../"] is written (and
      deleted) outside the upload folder;
    - corpus creation: the chunk settings are always clamped to a size of
      at least 100 and an overlap below it, and two creations in the same
      second share a folder and a metadata key;
    - the FAISS store: [FAISS.__add] and [update_document_custom_name]
      keep the store invariant, so every search succeeds; the removal
      handlers delete documents but keep their vectors, so a search can
      raise [KeyError], and a removal followed by an addition makes two
      vectors share a position (one document unreachable, one vector
      without an id); a save followed by a load gives the store back;
    - [get_db_info] after a creation reports the recorded settings and a
      document count of 0; [get_vector_dbs] lists only directories;
    - the index page lists each cached corpus once; after the import of
      app.py the cache invariant holds and the page lists exactly the
      corpus folders whose index loads, each with its graph; the import
      leaves the upload folder a directory unless a file has its name;
    - feedback: on success the three scores and the truthy comment are
      recorded on the most recent run of the project (whatever session
      asked); when a call raises, the calls before it stay recorded;
    - the Streamlit helpers: [stream_graph] computes what the [invoke] of
      [run_graph] computes on an empty history (a simulation between
      inputs the nodes read alike); [restore_system_state] ignores the
      saved state and, on a running process, drops every cached graph;
      a save whose first pickle succeeds is restored even when the save
      reports failure.

    ** Bounds and fuel

    The run loop is [Fixpoint run_from] on the recursion limit itself:
    LangGraph raises [GraphRecursionError] when a run needs more
    supersteps than [recursion_limit]; [run_graph] passes 30 and the graph
    is acyclic with at most three supersteps, which the termination
    theorem shows is enough.  The subscriber's loop ([run_consumer]) takes
    fuel counted in generator steps; its theorems give the exact number of
    steps that suffices: the queue's length plus three when ["DONE"] is in
    the queue, and the length plus the 60 empty polls plus three when it
    is not.  [str.strip] is run with fuel equal to the string's length,
    which bounds the number of characters it can remove; the UTF-8
    decoder of [unquote] likewise, since each step consumes a byte.
    [stream_graph] runs with LangGraph's default limit of 25, also above
    the three supersteps, so its run is the run of limit 30.

    ** Not modelled (and why)

    LLM, embedding and Tavily calls are the opaque functions of
    [Services] (they may fail); the FAISS similarity search and the order
    in which BM25 scores its texts are parameters of [Retriever] (the BM25
    order any permutation); loading a FAISS index is the predicate
    [index_loads].  The prompt of rag.py is loaded from the LangChain hub
    and is opaque; the prompts of chains.py are kept verbatim.  Template
    fields with conversions or format specs are not modelled (no prompt
    has one).
    HTML rendering is I/O; the bytes of an uploaded file are an opaque
    string, and document loaders, the text splitter and the embedding
    service are oracles.  A FAISS index is kept as the list of its
    vectors' document ids, not as vectors: the nearest-neighbour ranking
    is not modelled, and a search is given its hit positions.  The pickle
    and index file formats of [save_local] are not modelled: a saved
    store is kept as the value that was saved.  A chunk setting read back
    from the metadata file reaches the splitter only when it is an
    integer ([splitter_arg]); the handlers only write integers there, and
    a float, which the splitter would accept, is taken to raise.
    LangGraph's checkpointer ([MemorySaver]) is not
    modelled: [run_graph] always passes all four state keys, which
    overwrite any checkpointed values.  The order of [db_cache] is not
    kept (a [gmap]): the index page's theorems describe the set of
    corpora it lists, not their order.  What remains of the sources is
    configuration and I/O with nothing to verify: the imports, Flask and
    Flask-Session set-up, the LangSmith logging call, the route
    decorators, the [if __name__ == '__main__'] block, the node classes' constructors
    (names and flags read only by [print]), and rag.py's [load_prompt]
    and [ChatOpenAI] construction, which the opaque [llm_invoke] stands
    for.  Request bodies that are not JSON objects fail in Flask before
    the handlers' code and are not modelled.

    Simplifications a reader should know: the services of [Services] are
    functions of their arguments, so the two runs of [run_graph] see the
    same answers from the LLM and the web search, where the real services
    may answer the second call differently (no theorem compares the
    answers of the two runs); [create_graph_internal] cannot fail (a
    failure of [load_prompt] or of the [ChatOpenAI] constructor is not
    modelled); the [listdir] of [Cache] lists the directories of the
    working directory ([os.path.isdir] folded in); [chars] iterates the
    bytes of the folder name, which agrees with Python's code points on
    the ASCII folder names the code creates; [delete_vector_db] removes
    the folder from a set of top-level directories, not a subtree; [ask]'s
    selection of the graph, including [create_graph], is one atomic step
    of [ask_step]; [add_documents_to_db] refuses only an overlap above the
    size (the splitter's other checks are not modelled); a metadata file
    that does not parse, whose [except] branch answers the default
    categories, and a failed write in [save_db_metadata] are not
    modelled. *)

From stdpp Require Export base gmap strings list.
From Stdlib Require Export ZArith.
From Stdlib Require DecimalString.

Declare Scope rag_scope.
Delimit Scope rag_scope with rag.
Open Scope rag_scope.

Create HintDb rag discriminated.
Create Rewrite HintDb rag_run.

(** ** The state/error monad

    Python code that mutates process-global objects and may raise is
    modelled in [stE S E]: a computation receives the store and returns
    either an exception ([inl]) or a value ([inr]), with the store as it was
    when the computation stopped: effects performed before an exception
    persist, as they do in Python. *)

Definition stE (S E A : Type) : Type := S -> (E + A) * S.

Section StE.
Context {S E : Type}.

#[export] Instance stE_ret : MRet (stE S E) := fun A a s => (inr a, s).
#[export] Instance stE_bind : MBind (stE S E) :=
fun A B f m s => match m s with
               | (inl e, s') => (inl e, s')
               | (inr a, s') => f a s'
               end.
#[export] Instance stE_fmap : FMap (stE S E) :=
fun A B f m => m ≫= fun a => mret (f a).

Definition get_st : stE S E S := fun s => (inr s, s).
Definition put_st (s : S) : stE S E unit := fun _ => (inr tt, s).
Definition modify_st (f : S -> S) : stE S E unit := fun s => (inr tt, f s).
Definition raise {A} (e : E) : stE S E A := fun s => (inl e, s).
(** [try: c except e: h e] *)
Definition catch {A} (c : stE S E A) (h : E -> stE S E A) : stE S E A :=
fun s => match c s with
       | (inl e, s') => h e s'
       | r => r
       end.

Lemma run_ret {A} (a : A) s : (mret a : stE S E A) s = (inr a, s).
Proof. reflexivity. Qed.

Lemma run_bind {A B} (m : stE S E A) (f : A -> stE S E B) s :
(m ≫= f) s = match m s with
           | (inl e, s') => (inl e, s')
           | (inr a, s') => f a s'
           end.
Proof. reflexivity. Qed.

Lemma run_bind_ok {A B} (m : stE S E A) (f : A -> stE S E B) s a s' :
m s = (inr a, s') -> (m ≫= f) s = f a s'.
Proof. intros Hm. by rewrite run_bind, Hm. Qed.

Lemma run_bind_err {A B} (m : stE S E A) (f : A -> stE S E B) s e s' :
m s = (inl e, s') -> (m ≫= f) s = (inl e, s').
Proof. intros Hm. by rewrite run_bind, Hm. Qed.

Lemma run_catch_ok {A} (c : stE S E A) h s a s' :
c s = (inr a, s') -> catch c h s = (inr a, s').
Proof. unfold catch. by intros ->. Qed.

Lemma run_catch_err {A} (c : stE S E A) h s e s' :
c s = (inl e, s') -> catch c h s = h e s'.
Proof. unfold catch. by intros ->. Qed.
End StE.

(** Python's [for x in xs: acc = f(acc, x)] in the monad. *)
Fixpoint fold_m {S E A B} (f : A -> B -> stE S E A) (acc : A) (xs : list B) : stE S E A :=
  match xs with
  | [] => mret acc
  | x :: xs' => a ← f acc x; fold_m f a xs'
  end.

(** A property of the store that every iteration keeps holds after the loop,
    whatever the outcome. *)
Lemma fold_m_preserves {S E A B} (I : S -> Prop) (f : A -> B -> stE S E A) :
  (forall acc x s, I s -> I (f acc x s).2) ->
  forall xs acc s, I s -> I (fold_m f acc xs s).2.
Proof.
  intros Hf xs. induction xs as [|x xs IH]; intros acc s Hs; [done|].
  simpl. rewrite run_bind. specialize (Hf acc x s Hs).
  destruct (f acc x s) as [[e|a] s']; simpl in *; [done|]. by apply IH.
Qed.

Notation "'TRY' c 'EXCEPT' h" := (catch c h)
  (at level 10, c at level 100, h at level 200) : rag_scope.

#[export] Hint Rewrite @run_ret @run_bind : rag_run.

(** ** Strings *)

(** The one-character string ["\n"]. *)
Definition newline : string := String.String (Ascii.ascii_of_nat 10) EmptyString.

(** Python's [str(z)] of an [int]: its decimal digits, with a leading
    ['-'] when negative. *)
Definition show_Z (z : Z) : string := DecimalString.NilZero.string_of_int (Z.to_int z).

(** ** Python list slices *)

(** [l[-n:]]: the last [n] elements of [l] (all of [l] when it is shorter). *)
Definition lastn {A} (n : nat) (l : list A) : list A := drop (length l - n) l.

Section Lastn.
Context {A : Type}.
Implicit Types (l : list A).

Lemma length_lastn n l : length (lastn n l) = Nat.min n (length l).
Proof. unfold lastn. rewrite length_drop. lia. Qed.

Lemma lastn_all n l : length l <= n -> lastn n l = l.
Proof. intros H. unfold lastn. by replace (length l - n) with 0 by lia. Qed.

Lemma lastn_app_r n l1 l2 : length l2 = n -> lastn n (l1 ++ l2) = l2.
Proof.
intros <-. unfold lastn. rewrite length_app.
replace (length l1 + length l2 - length l2) with (length l1) by lia.
by rewrite drop_app_length.
Qed.

Lemma lastn_suffix n l : exists pre, l = pre ++ lastn n l.
Proof. exists (take (length l - n) l). unfold lastn. by rewrite take_drop. Qed.
End Lastn.

#[export] Hint Resolve lastn_all : rag.

(** ** Tactics *)

(** Run a monadic computation one bind at a time, using the hypotheses
    that describe the runs of its parts. *)
Ltac step_run :=
  repeat first
    [ rewrite run_ret
    | erewrite run_bind_ok by eassumption
    | erewrite run_bind_err by eassumption
    | rewrite run_bind ].

Ltac invc H := inversion H; subst; clear H.

(** Prove a decidable proposition about closed values by evaluation. *)
Ltac by_eval := apply (bool_decide_unpack _); vm_compute; exact I.

(** Unfold the monad's operations and reduce. *)
Ltac unfold_m :=
  cbv [mbind mret fmap stE_bind stE_ret stE_fmap get_st put_st modify_st raise catch] in *.

(** Take apart a handler's equation [H : handler ... = (answer, state)]:
    split on the guards and matches that decide its branch, discarding
    the branches whose answer is a different constructor. *)
Ltac split_handler H :=
  repeat match type of H with
  | context [if decide ?P then _ else _] => destruct (decide P); try discriminate H
  | context [if negb ?b then _ else _] => destruct b eqn:?; cbn [negb] in H; try discriminate H
  | context [if ?b then _ else _] => destruct b eqn:?; try discriminate H
  | context [match ?x with _ => _ end] => destruct x eqn:?; try discriminate H
  end.
