(* ===== verification/PyStr.v ===== *)
(** * Python string operations used by the program

    Strings are Rocq [string]s holding the UTF-8 bytes of Python's [str]
    values.  This file gives [str.replace(old, new)], [str.strip()] and
    [sorted(set(xs))] on lists of strings, with the lemmas the components
    use.  Python compares [str] values by code points; on valid UTF-8 the
    byte-wise lexicographic order of [String.leb] is the same order, so
    [sort_uniq] sorts as Python does. *)

From S2P Require Import Prelude.
From Stdlib Require Import Ascii Sorted.

(** ** [s.replace(old, new)] *)

(** The scan of [str.replace] for a non-empty [old]: left to right, each
    non-overlapping occurrence replaced; [skip] counts the bytes of an
    occurrence still to be passed over. *)
Fixpoint replace_scan (old new : string) (skip : nat) (s : string) : string :=
  match s with
  | EmptyString => EmptyString
  | String c s' =>
      match skip with
      | S k => replace_scan old new k s'
      | 0 => if String.prefix old s then new +:+ replace_scan old new (String.length old - 1) s'
             else String c (replace_scan old new 0 s')
      end
  end.

(** [new] before every character and at the end: Python's [s.replace("", new)]. *)
Fixpoint replace_empty (new s : string) : string :=
  match s with
  | EmptyString => new
  | String c s' => new +:+ String c (replace_empty new s')
  end.

Definition str_replace (old new s : string) : string :=
  if String.eqb old "" then replace_empty new s else replace_scan old new 0 s.

(** ** [s.strip()] *)

(** The UTF-8 encodings of the characters for which [str.isspace()] holds. *)
Definition whitespace_codes : list (list nat) :=
  [[9]; [10]; [11]; [12]; [13]; [28]; [29]; [30]; [31]; [32]; [194; 133]; [194; 160];
   [225; 154; 128]; [226; 128; 128]; [226; 128; 129]; [226; 128; 130]; [226; 128; 131];
   [226; 128; 132]; [226; 128; 133]; [226; 128; 134]; [226; 128; 135]; [226; 128; 136];
   [226; 128; 137]; [226; 128; 138]; [226; 128; 168]; [226; 128; 169]; [226; 128; 175];
   [226; 129; 159]; [227; 128; 128]].

Definition whitespace : list (list Ascii.ascii) := map (map Ascii.ascii_of_nat) whitespace_codes.

(** The length of the whitespace character [l] starts with, if any. *)
Fixpoint space_prefix (ws : list (list Ascii.ascii)) (l : list Ascii.ascii) : option nat :=
  match ws with
  | [] => None
  | w :: ws' => if bool_decide (w `prefix_of` l) then Some (length w) else space_prefix ws' l
  end.

(** Drop leading whitespace characters, at most [fuel] of them. *)
Fixpoint lstrip_list (ws : list (list Ascii.ascii)) (fuel : nat) (l : list Ascii.ascii) : list Ascii.ascii :=
  match fuel with
  | 0 => l
  | S f => match space_prefix ws l with
           | Some (S n) => lstrip_list ws f (drop (S n) l)
           | _ => l
           end
  end.

Definition py_strip (s : string) : string :=
  let l := String.list_ascii_of_string s in
  let l1 := lstrip_list whitespace (length l) l in
  let l2 := reverse (lstrip_list (map reverse whitespace) (length l1) (reverse l1)) in
  String.string_of_list_ascii l2.

(** ** [sorted(set(xs))] *)

(** Insert into a strictly increasing list, dropping a duplicate. *)
Fixpoint insert_str (x : string) (l : list string) : list string :=
  match l with
  | [] => [x]
  | y :: l' => if decide (x = y) then l
               else if String.leb x y then x :: l
               else y :: insert_str x l'
  end.

Definition sort_uniq (l : list string) : list string := foldr insert_str [] l.

Definition str_lt (a b : string) : Prop := String.le a b /\ a <> b.

(** [sorted(xs)]: insertion sort, stable. *)
Fixpoint insert_le (x : string) (l : list string) : list string :=
  match l with
  | [] => [x]
  | y :: l' => if String.leb x y then x :: l else y :: insert_le x l'
  end.

Definition py_sorted (l : list string) : list string := foldr insert_le [] l.

Section SortUniq.

Lemma elem_of_insert_str z x l : z ∈ insert_str x l <-> z = x \/ z ∈ l.
Proof.
  induction l as [|y l IH]; simpl.
  - rewrite list_elem_of_singleton, elem_of_nil. tauto.
  - case_decide; [subst; rewrite elem_of_cons; tauto|].
    destruct (String.leb x y); rewrite !elem_of_cons, ?IH; tauto.
Qed.

Lemma elem_of_sort_uniq z l : z ∈ sort_uniq l <-> z ∈ l.
Proof.
  induction l as [|x l IH]; simpl; [done|].
  rewrite elem_of_insert_str, IH, elem_of_cons. done.
Qed.

Lemma leb_false_le x y : String.leb x y = false -> String.le y x.
Proof.
  intros H. unfold String.le. destruct (String.leb_total x y) as [H'|H']; [congruence|].
  by rewrite H'.
Qed.

Lemma insert_str_sorted x l : Sorted str_lt l -> Sorted str_lt (insert_str x l).
Proof.
  induction l as [|y l IH]; intros Hs; simpl; [by repeat constructor|].
  case_decide as Hxy; [done|]. destruct (String.leb x y) eqn:Hle.
  - constructor; [done|]. constructor. split; [by unfold String.le; rewrite Hle | done].
  - apply Sorted_inv in Hs as [Hs Hh]. constructor; [by apply IH|].
    destruct l as [|z l]; simpl.
    + constructor. split; [by apply leb_false_le | done].
    + apply HdRel_inv in Hh. case_decide; [by constructor|].
      destruct (String.leb x z); constructor; [split; [by apply leb_false_le | done] | done].
Qed.

(** [sort_uniq] sorts strictly: the result is increasing and has no duplicates. *)
Lemma sort_uniq_sorted l : Sorted str_lt (sort_uniq l).
Proof. induction l as [|x l IH]; simpl; [constructor | by apply insert_str_sorted]. Qed.

(** [sorted] leaves a strictly increasing list as it is. *)
Lemma py_sorted_id l : Sorted str_lt l -> py_sorted l = l.
Proof.
  induction 1 as [|x l Hs IH Hh]; [done|]. simpl. rewrite IH.
  destruct Hh as [|y l [Hle _]]; simpl; [done|]. unfold String.le in Hle.
  by destruct (String.leb x y).
Qed.

End SortUniq.

#[export] Hint Resolve sort_uniq_sorted : rag.

(** ** The operations on sample inputs, as CPython computes them *)

Example str_replace_samples :
  str_replace "ab" "X" "aabab" = "aXX"
  /\ str_replace "aa" "b" "aaa" = "ba"
  /\ str_replace "" "-" "ab" = "-a-b-"
  /\ str_replace "LANGCHAIN_DB_INDEX_" "" "LANGCHAIN_DB_INDEX_LANGCHAIN_DB_INDEX_x" = "x".
Proof. vm_compute. auto. Qed.

Example py_strip_samples :
  py_strip ("  a b " +:+ newline) = "a b"
  /\ py_strip "　기타　" = "기타"
  /\ py_strip "   " = "".
Proof. vm_compute. auto. Qed.

Example sort_uniq_sample : sort_uniq ["b"; "기타"; "a"; "b"; "A"] = ["A"; "a"; "b"; "기타"].
Proof. vm_compute. reflexivity. Qed.
