(* ===== verification/PyDict.v ===== *)
(** * Python dictionaries

    A Python [dict] keeps its keys in insertion order: iterating it, or
    serialising it, follows that order, and [d[k] = v] on a key already
    there keeps its place.  The docstore and the index map of a FAISS
    store (langchain's [InMemoryDocstore._dict] and
    [FAISS.index_to_docstore_id]) and the metadata of a document are such
    dictionaries, and the handlers of document_manager.py list documents
    in their order.  A dictionary is an association list whose keys are
    distinct ([dict_wf]); [dict_map] abstracts it into a [gmap], which
    forgets the order, and each operation implements the corresponding
    [gmap] operation.  The order itself is described by the lemmas on
    [dict_keys]. *)

From S2P Require Import Prelude.

Section PyDict.
Context {K V : Type} `{Countable K}.
Implicit Types (d e : list (K * V)) (k : K) (v : V).

(** [d.get(k)] *)
Fixpoint dict_get d k : option V :=
  match d with
  | [] => None
  | (k', v') :: d' => if decide (k = k') then Some v' else dict_get d' k
  end.

(** [d[k] = v]: in place when [k] is a key, at the end otherwise. *)
Fixpoint dict_set d k v : list (K * V) :=
  match d with
  | [] => [(k, v)]
  | (k', v') :: d' => if decide (k = k') then (k, v) :: d' else (k', v') :: dict_set d' k v
  end.

(** [del d[k]] on a key of [d], [d.pop(k, None)] on any key. *)
Definition dict_del d k : list (K * V) := filter (fun kv => kv.1 <> k) d.

(** [d.update(e)], and [{**d, **e}]. *)
Definition dict_update d e : list (K * V) := foldl (fun acc kv => dict_set acc kv.1 kv.2) d e.

(** [{k: v for k, v in d.items() if P(k, v)}] *)
Definition dict_filter (P : K -> V -> bool) d : list (K * V) := filter (fun kv => P kv.1 kv.2 = true) d.

(** [list(d)]: the keys in order. *)
Definition dict_keys d : list K := d.*1.

(** A dictionary has no duplicate key. *)
Definition dict_wf d : Prop := NoDup (dict_keys d).

(** The abstraction: the map a dictionary stands for. *)
Definition dict_map d : gmap K V := list_to_map d.

(** ** Refinement of [gmap] *)

Lemma dict_map_get d k : dict_map d !! k = dict_get d k.
Proof.
  induction d as [|[k' v'] d IH]; [done|]. unfold dict_map in *. simpl.
  case_decide; subst; [by rewrite lookup_insert_eq | by rewrite lookup_insert_ne].
Qed.

Lemma dict_get_set d k k' v : dict_get (dict_set d k v) k' = if decide (k' = k) then Some v else dict_get d k'.
Proof.
  induction d as [|[k0 v0] d IH]; simpl; [by repeat case_decide|].
  repeat (case_decide; simpl); subst; try done; congruence.
Qed.

Lemma dict_get_del d k k' : dict_get (dict_del d k) k' = if decide (k' = k) then None else dict_get d k'.
Proof.
  unfold dict_del. induction d as [|[k0 v0] d IH]; simpl; [by case_decide|].
  rewrite filter_cons. simpl. repeat (case_decide; simpl); subst; try done; congruence.
Qed.

Lemma dict_map_set d k v : dict_map (dict_set d k v) = <[k := v]> (dict_map d).
Proof.
  apply map_eq. intros k'. rewrite dict_map_get, dict_get_set.
  case_decide; subst; [by rewrite lookup_insert_eq | by rewrite lookup_insert_ne, dict_map_get].
Qed.

Lemma dict_map_del d k : dict_map (dict_del d k) = delete k (dict_map d).
Proof.
  apply map_eq. intros k'. rewrite dict_map_get, dict_get_del.
  case_decide; subst; [by rewrite lookup_delete_eq | by rewrite lookup_delete_ne, dict_map_get].
Qed.

Lemma dict_map_update d e :
  dict_map (dict_update d e) = foldl (fun m kv => <[kv.1 := kv.2]> m) (dict_map d) e.
Proof.
  revert d. induction e as [|[k v] e IH]; intros d; [done|]. simpl. by rewrite IH, dict_map_set.
Qed.

Lemma elem_of_dict_keys d k : k ∈ dict_keys d <-> is_Some (dict_get d k).
Proof.
  induction d as [|[k' v'] d IH]; simpl; [split; [inversion 1 | by intros []]|].
  unfold dict_keys in *. simpl. rewrite elem_of_cons, IH. case_decide; naive_solver.
Qed.

Lemma dict_get_filter P d k :
  dict_wf d -> dict_get (dict_filter P d) k = match dict_get d k with
                                             | Some v => if P k v then Some v else None
                                             | None => None end.
Proof.
  unfold dict_wf, dict_keys, dict_filter. induction d as [|[k' v'] d IH]; intros Hnd; [done|].
  simpl in *. apply NoDup_cons in Hnd as [Hk Hnd]. rewrite filter_cons.
  destruct (decide (k = k')) as [->|Hne].
  - case_decide as HP; simpl in *; rewrite ?decide_True by done; [by rewrite HP|].
    rewrite IH by done. destruct (dict_get d k') eqn:Hg.
    + exfalso. apply Hk, (elem_of_dict_keys d). by eexists.
    + by destruct (P k' v').
  - case_decide; simpl; rewrite ?decide_False by done; by apply IH.
Qed.

(** The key order: [d[k] = v] keeps the keys in place, and appends a new one. *)
Lemma dict_keys_set d k v :
  dict_keys (dict_set d k v) = if decide (k ∈ dict_keys d) then dict_keys d else dict_keys d ++ [k].
Proof.
  unfold dict_keys. induction d as [|[k' v'] d IH]; [done|]. cbn [dict_set]. rewrite !fmap_cons.
  destruct (decide (k = k')) as [->|Hne]; [rewrite decide_True by set_solver; reflexivity|].
  rewrite fmap_cons, IH. simpl. destruct (decide (k ∈ d.*1)); [rewrite !decide_True by set_solver | rewrite !decide_False by set_solver]; done.
Qed.

(** A key of [d.update(e)] is a key of [d] or of [e]; its value is that
    of [e] or, when [e] has none, that of [d]. *)
Lemma dict_update_keys d e k :
  is_Some (dict_get (dict_update d e) k) <-> is_Some (dict_get d k) \/ k ∈ dict_keys e.
Proof.
  revert d. induction e as [|[k' v'] e IH]; intros d.
  - unfold dict_keys. simpl. rewrite elem_of_nil. tauto.
  - change (dict_update d ((k', v') :: e)) with (dict_update (dict_set d k' v') e).
    rewrite IH, dict_get_set. unfold dict_keys. rewrite fmap_cons, elem_of_cons. simpl.
    case_decide; subst; naive_solver.
Qed.

Lemma dict_update_get d e k v :
  dict_get (dict_update d e) k = Some v -> dict_get d k = Some v \/ (k, v) ∈ e.
Proof.
  revert d. induction e as [|[k' v'] e IH]; intros d; simpl; [by left|].
  intros [Hg|Hin]%IH; [|right; by right].
  rewrite dict_get_set in Hg. case_decide; subst; [injection Hg as <-; right; left | by left].
Qed.

(** [for k in ks: del d[k]] *)
Lemma dict_get_del_all d ks k :
  dict_get (foldl dict_del d ks) k = if decide (k ∈ ks) then None else dict_get d k.
Proof.
  revert d. induction ks as [|k' ks IH]; intros d; simpl; [done|].
  rewrite IH, dict_get_del. repeat case_decide; set_solver.
Qed.

Lemma dict_update_notin d e k : k ∉ dict_keys e -> dict_get (dict_update d e) k = dict_get d k.
Proof.
  revert d. induction e as [|[k' v'] e IH]; intros d Hk; [done|].
  change (dict_update d ((k', v') :: e)) with (dict_update (dict_set d k' v') e).
  unfold dict_keys in Hk. rewrite fmap_cons, elem_of_cons in Hk. simpl in Hk.
  rewrite IH by tauto. rewrite dict_get_set. case_decide; [tauto | done].
Qed.

(** With distinct keys in [e], [d.update(e)] has [e]'s value at each of its keys. *)
Lemma dict_update_in d e k v : NoDup (dict_keys e) -> (k, v) ∈ e -> dict_get (dict_update d e) k = Some v.
Proof.
  revert d. induction e as [|[k' v'] e IH]; intros d Hnd Hin; [by apply elem_of_nil in Hin|].
  change (dict_update d ((k', v') :: e)) with (dict_update (dict_set d k' v') e).
  unfold dict_keys in Hnd. rewrite fmap_cons in Hnd. apply NoDup_cons in Hnd as [Hk Hnd].
  apply elem_of_cons in Hin as [[= -> ->]|Hin].
  - rewrite dict_update_notin by done. rewrite dict_get_set. by rewrite decide_True.
  - by apply IH.
Qed.

(** A dictionary has as many items as the map it stands for. *)
Lemma dict_wf_length d : dict_wf d -> length d = size (dict_map d).
Proof. intros Hwf. unfold dict_map. by rewrite map_size_list_to_map. Qed.

Lemma dict_get_Some d k v : dict_wf d -> dict_get d k = Some v <-> (k, v) ∈ d.
Proof.
  unfold dict_wf, dict_keys. induction d as [|[k' v'] d IH]; intros Hnd; simpl.
  - rewrite elem_of_nil. done.
  - rewrite fmap_cons in Hnd. apply NoDup_cons in Hnd as [Hk Hnd]. rewrite elem_of_cons, <- IH by done.
    case_decide; subst; split.
    + intros [= ->]. by left.
    + intros [[= ->]|Hin]; [done|]. exfalso. apply Hk, (elem_of_dict_keys d). by eexists.
    + intros Hg. by right.
    + intros [[= -> ->]|Hg]; [done | exact Hg].
Qed.

(** ** The invariant *)

Lemma dict_set_wf d k v : dict_wf d -> dict_wf (dict_set d k v).
Proof.
  unfold dict_wf. rewrite dict_keys_set. case_decide; [done|].
  intros Hnd. apply NoDup_app. split; [done|]. split; [set_solver | apply NoDup_singleton].
Qed.

Lemma dict_update_wf d e : dict_wf d -> dict_wf (dict_update d e).
Proof.
  revert d. induction e as [|[k v] e IH]; intros d Hd; [done|]. apply IH, dict_set_wf, Hd.
Qed.

Lemma filter_wf (Q : K * V -> Prop) `{!forall kv, Decision (Q kv)} d : dict_wf d -> dict_wf (filter Q d).
Proof.
  unfold dict_wf, dict_keys. induction d as [|[k v] d IH]; intros Hnd; [constructor|].
  rewrite fmap_cons in Hnd. apply NoDup_cons in Hnd as [Hk Hnd]. rewrite filter_cons.
  case_decide; [rewrite fmap_cons; constructor|]; auto.
  intros Hin. apply Hk. apply list_elem_of_fmap in Hin as ([k' v'] & -> & Hin').
  apply list_elem_of_filter in Hin' as [_ Hin']. apply list_elem_of_fmap. by exists (k', v').
Qed.

Lemma dict_filter_wf P d : dict_wf d -> dict_wf (dict_filter P d).
Proof. apply filter_wf. Qed.

Lemma dict_del_wf d k : dict_wf d -> dict_wf (dict_del d k).
Proof. apply filter_wf. Qed.

End PyDict.
