(* ===== verification/Chains.v ===== *)
(** * The grading and rewriting chains ([src/chains.py])

    Five chains, each a [ChatPromptTemplate] piped into [ChatOpenAI]
    ([MODEL_NAME] ["gpt-4o"], temperature 0): the question router and the
    three graders ask for a structured output (a pydantic model with one
    field [binary_score]), the question rewriter for plain text.  The
    application does not call them (the graph of [Graph] has no grading
    step); they are modelled as the primitives they are.

    This file holds the f-string template engine of [ChatPromptTemplate]
    ([from_messages] parses each template, [invoke] checks that every
    input variable is given and substitutes the values in one pass), the
    pydantic validation of the structured output ([Literal["yes", "no"]]
    for [RouteQuery], [str] for the three graders), and the five chains
    with their exact prompts.  The LLM is an oracle: [chat_llm] returns
    the text of an answer, [tool_llm] the arguments of the function call
    [with_structured_output] asks for, [None] when the API call fails.

    The parser covers the replacement fields the templates use ([{name}],
    [{{] and [}}]); a field with a conversion ([!r]), a format spec ([:x]),
    attribute access or indexing, nested braces or an empty name is
    reported as [UnsupportedField], where Python would accept some of them. *)

From S2P Require Import Prelude PyStr.
From Stdlib Require Import Ascii.

(** ** f-string templates *)

Inductive seg := Lit (s : string) | Var (name : string).

#[export] Instance seg_eq_dec : EqDecision seg.
Proof. solve_decision. Defined.

Inductive parse_error := SingleClose | UnclosedField | UnsupportedField.

#[export] Instance parse_error_eq_dec : EqDecision parse_error.
Proof. solve_decision. Defined.

(** Pending literal text becomes a [Lit] segment, unless empty. *)
Definition flush (lit : list ascii) (segs : list seg) : list seg :=
  match lit with [] => segs | _ => Lit (String.string_of_list_ascii lit) :: segs end.

(** Characters that make a replacement field more than a plain name. *)
Definition field_special (c : ascii) : bool :=
  bool_decide (c ∈ ["{"; "!"; ":"; "["; "]"; "."]%char).

(** [string.Formatter().parse]: literal text, with [{{] and [}}] read as
    one brace, and [{name}] fields; a single [}] or an unclosed [{] is a
    [ValueError]. *)
Fixpoint ptext (l lit : list ascii) {struct l} : parse_error + list seg :=
  match l with
  | [] => inr (flush lit [])
  | c :: r =>
      if decide (c = "{"%char) then
        match r with
        | c2 :: r2 => if decide (c2 = "{"%char) then ptext r2 (lit ++ [c]) else pfield r [] lit
        | [] => inl UnclosedField
        end
      else if decide (c = "}"%char) then
        match r with
        | c2 :: r2 => if decide (c2 = "}"%char) then ptext r2 (lit ++ [c]) else inl SingleClose
        | [] => inl SingleClose
        end
      else ptext r (lit ++ [c])
  end
with pfield (l name lit : list ascii) {struct l} : parse_error + list seg :=
  match l with
  | [] => inl UnclosedField
  | c :: r =>
      if decide (c = "}"%char) then
        if decide (name = []) then inl UnsupportedField else
        match ptext r [] with
        | inl e => inl e
        | inr segs => inr (flush lit (Var (String.string_of_list_ascii name) :: segs))
        end
      else if field_special c then inl UnsupportedField
      else pfield r (name ++ [c]) lit
  end.

Definition parse_template (t : string) : parse_error + list seg := ptext (String.list_ascii_of_string t) [].

(** The variables of a template, in order of appearance. *)
Definition template_vars (segs : list seg) : list string :=
  omap (fun s => match s with Var n => Some n | Lit _ => None end) segs.

(** ** [ChatPromptTemplate] *)

Inductive role := System | Human.

#[export] Instance role_eq_dec : EqDecision role.
Proof. solve_decision. Defined.

(** What [invoke] of a chain can raise. *)
Inductive chain_error :=
| TemplateError (e : parse_error)       (** [ValueError] of the template parser *)
| MissingVariables (vs : list string)   (** [KeyError]: input variables not given *)
| APIError                              (** the OpenAI call failed *)
| ValidationError.                      (** pydantic rejected the structured output *)

#[export] Instance chain_error_eq_dec : EqDecision chain_error.
Proof. solve_decision. Defined.

(** [StrictFormatter.format]: one pass, the values inserted as they are. *)
Fixpoint render (inputs : gmap string string) (segs : list seg) : chain_error + string :=
  match segs with
  | [] => inr ""
  | Lit s :: r => match render inputs r with inl e => inl e | inr t => inr (s +:+ t) end
  | Var n :: r =>
      match inputs !! n with
      | None => inl (MissingVariables [n])
      | Some v => match render inputs r with inl e => inl e | inr t => inr (v +:+ t) end
      end
  end.

(** [ChatPromptTemplate.from_messages]: every template parsed. *)
Fixpoint from_messages (ms : list (role * string)) : parse_error + list (role * list seg) :=
  match ms with
  | [] => inr []
  | (r, t) :: ms' =>
      match parse_template t, from_messages ms' with
      | inl e, _ | _, inl e => inl e
      | inr segs, inr p => inr ((r, segs) :: p)
      end
  end.

(** [input_variables]: [sorted] set of the variables of all messages. *)
Definition input_variables (p : list (role * list seg)) : list string :=
  sort_uniq (mjoin ((template_vars ∘ snd) <$> p)).

Fixpoint render_all (inputs : gmap string string) (p : list (role * list seg)) : chain_error + list (role * string) :=
  match p with
  | [] => inr []
  | (r, segs) :: p' =>
      match render inputs segs, render_all inputs p' with
      | inl e, _ | _, inl e => inl e
      | inr s, inr ms => inr ((r, s) :: ms)
      end
  end.

(** [invoke]: the missing variables are reported before any formatting. *)
Definition format_messages (p : list (role * list seg)) (inputs : gmap string string)
    : chain_error + list (role * string) :=
  match filter (fun v => inputs !! v = None) (input_variables p) with
  | [] => render_all inputs p
  | missing => inl (MissingVariables missing)
  end.

(** ** Structured output *)

Inductive field_ty := FLiteral (allowed : list string) | FStr.

(** A pydantic model with its one field [binary_score]. *)
Record schema := mkSchema {
  schema_name : string;
  schema_doc : option string;
  field_name : string;
  field_desc : string;
  field_type : field_ty
}.

(** A JSON value of the function call's arguments: a string or anything else. *)
Inductive jvalue := JString (s : string) | JOther.

(** Pydantic's validation of the arguments: the field must be present and
    a string, and one of the literals for a [Literal] field. *)
Definition validate (sc : schema) (args : gmap string jvalue) : chain_error + string :=
  match args !! field_name sc with
  | Some (JString s) =>
      match field_type sc with
      | FStr => inr s
      | FLiteral allowed => if decide (s ∈ allowed) then inr s else inl ValidationError
      end
  | _ => inl ValidationError
  end.

(** ** The prompts and models of chains.py, character for character *)

(** [MODEL_NAME] (line 13). *)
Definition MODEL_NAME : string := "gpt-4o".

Definition router_system : string :=
  "You are an expert at routing user questions." +:+ newline +:+
  "    The vectorstore contains documents related to RAG (Retrieval Augmented Generation)." +:+ newline +:+
  "    Always search the vectorstore first when processing any user query." +:+ newline +:+
  "    Always return 'yes' regardless of the question content to ensure the vectorstore is queried." +:+ newline +:+
  "    This approach guarantees that all questions, including follow-up questions in a conversation, " +:+ newline +:+
  "    will be checked against the available documents before proceeding with other knowledge sources.".

Definition rewrite_system : string :=
  "You are a question re-writer that converts an input question to a better version that is optimized for vectorstore retrieval." +:+ newline +:+
  "      Look at the input and try to reason about the underlying semantic intent / meaning. Always output results in Korean, " +:+ newline +:+
  "      but if there are English terms in the input, include both Korean and English for those terms in your output. " +:+ newline +:+
  "    If multiple languages are mixed in the input, maintain the same mix of languages in your output.".

Definition grader_system : string :=
  "You are a grader assessing relevance of a retrieved document to a user question." +:+ newline +:+
  "        You should be generous in your assessment of relevance." +:+ newline +:+
  "        If the document contains ANY keywords, concepts, or information that might help answer the user's question, grade it as relevant." +:+ newline +:+
  "        Even if the document doesn't perfectly match the question, but has some related information, consider it relevant." +:+ newline +:+
  "        This is NOT a stringent test - the goal is to include potentially useful documents while filtering out completely irrelevant ones." +:+ newline +:+
  "        When in doubt, consider the document relevant (return 'yes')." +:+ newline +:+
  "        Give a binary score 'yes' or 'no' to indicate whether the document is relevant to the question.".

Definition groundedness_system : string :=
  "You are a grader assessing whether an LLM generation is grounded in / supported by a set of retrieved facts. " +:+ newline +:+
  " " +:+ newline +:+
  "        Give a binary score 'yes' or 'no'. 'Yes' means that the answer is grounded in / supported by the set of facts.".

Definition answer_grade_system : string :=
  "You are a grader assessing whether an answer addresses / resolves a question " +:+ newline +:+
  " " +:+ newline +:+
  "        Give a binary score 'yes' or 'no'. Yes' means that the answer resolves the question.".

Definition route_query_desc : string :=
  "Given a user question, determine if it needs to be retrieved from vectorstore or not. Return 'yes' if it needs to be retrieved from vectorstore, otherwise return 'no'.".

Definition grade_documents_desc : string :=
  "Documents are relevant to the question, 'yes' or 'no'".

Definition groundedness_desc : string :=
  "Answer is grounded in the facts(given context), 'yes' or 'no'".

Definition grade_answer_desc : string :=
  "Indicate 'yes' or 'no' whether the answer solves the question".

Definition rewrite_human : string :=
  "Here is the initial question: " +:+ newline +:+
  "" +:+ newline +:+
  " {question} " +:+ newline +:+
  " Formulate an improved question.".

Definition grader_human : string :=
  "Retrieved document: " +:+ newline +:+
  "" +:+ newline +:+
  " {document} " +:+ newline +:+
  "" +:+ newline +:+
  " User question: {question}".

Definition groundedness_human : string :=
  "Set of facts: " +:+ newline +:+
  "" +:+ newline +:+
  " {documents} " +:+ newline +:+
  "" +:+ newline +:+
  " LLM generation: {generation}".

Definition answer_grade_human : string :=
  "User question: " +:+ newline +:+
  "" +:+ newline +:+
  " {question} " +:+ newline +:+
  "" +:+ newline +:+
  " LLM generation: {generation}".

(** [RouteQuery] (lines 16-22). *)
Definition RouteQuery : schema :=
  mkSchema "RouteQuery" None "binary_score" route_query_desc (FLiteral ["yes"; "no"]).

(** [GradeDocuments] (lines 86-91). *)
Definition GradeDocuments : schema :=
  mkSchema "GradeDocuments" (Some "Binary score for relevance check on retrieved documents.")
    "binary_score" grade_documents_desc FStr.

(** [AnswerGroundedness] (lines 126-131). *)
Definition AnswerGroundedness : schema :=
  mkSchema "AnswerGroundedness" (Some "Binary score for answer groundedness.")
    "binary_score" groundedness_desc FStr.

(** [GradeAnswer] (lines 165-170). *)
Definition GradeAnswer : schema :=
  mkSchema "GradeAnswer" (Some "Binary scoring to evaluate the appropriateness of answers to questions")
    "binary_score" grade_answer_desc FStr.

(** ** The chains *)

(** [ChatOpenAI(model=..., temperature=...)] *)
Record llm_config := mkLLM { llm_model : string; llm_temperature : Z }.

Definition chat_openai : llm_config := mkLLM MODEL_NAME 0.

(** [prompt | llm.with_structured_output(schema)] and [prompt | llm | StrOutputParser()]. *)
Inductive chain :=
| StructuredChain (p : list (role * list seg)) (cfg : llm_config) (sc : schema)
| TextChain (p : list (role * list seg)) (cfg : llm_config).

Definition structured (ms : list (role * string)) (sc : schema) : parse_error + chain :=
  match from_messages ms with inl e => inl e | inr p => inr (StructuredChain p chat_openai sc) end.

(** [create_question_router_chain()] (lines 28-53). *)
Definition create_question_router_chain : parse_error + chain :=
  structured [(System, router_system); (Human, "{question}")] RouteQuery.

(** [create_question_rewrite_chain()] (lines 56-82). *)
Definition create_question_rewrite_chain : parse_error + chain :=
  match from_messages [(System, rewrite_system); (Human, rewrite_human)] with
  | inl e => inl e
  | inr p => inr (TextChain p chat_openai)
  end.

(** [create_retrieval_grader_chain()] (lines 96-122). *)
Definition create_retrieval_grader_chain : parse_error + chain :=
  structured [(System, grader_system); (Human, grader_human)] GradeDocuments.

(** [create_groundedness_checker_chain()] (lines 134-162). *)
Definition create_groundedness_checker_chain : parse_error + chain :=
  structured [(System, groundedness_system); (Human, groundedness_human)] AnswerGroundedness.

(** [create_answer_grade_chain()] (lines 173-195). *)
Definition create_answer_grade_chain : parse_error + chain :=
  structured [(System, answer_grade_system); (Human, answer_grade_human)] GradeAnswer.

Section Invoke.
(** The OpenAI chat completion: the text of the answer. *)
Variable chat_llm : llm_config -> list (role * string) -> option string.
(** The same with a function to call: the arguments of the call. *)
Variable tool_llm : llm_config -> schema -> list (role * string) -> option (gmap string jvalue).

(** [chain.invoke(inputs)]: the binary score or the rewritten question. *)
Definition chain_invoke (c : chain) (inputs : gmap string string) : chain_error + string :=
  match c with
  | StructuredChain p cfg sc =>
      match format_messages p inputs with
      | inl e => inl e
      | inr msgs => match tool_llm cfg sc msgs with None => inl APIError | Some args => validate sc args end
      end
  | TextChain p cfg =>
      match format_messages p inputs with
      | inl e => inl e
      | inr msgs => match chat_llm cfg msgs with None => inl APIError | Some s => inr s end
      end
  end.
End Invoke.

(** ** The template engine *)

Lemma string_app_empty_r (s : string) : s +:+ "" = s.
Proof. induction s as [|c s IH]; [reflexivity | exact (f_equal (String c) IH)]. Qed.

Lemma string_app_assoc (s1 s2 s3 : string) : s1 +:+ (s2 +:+ s3) = (s1 +:+ s2) +:+ s3.
Proof. induction s1 as [|c s1 IH]; [reflexivity | exact (f_equal (String c) IH)]. Qed.

Lemma render_app inputs s1 s2 : render inputs (s1 ++ s2) =
  match render inputs s1, render inputs s2 with
  | inl e, _ | _, inl e => inl e
  | inr t1, inr t2 => inr (t1 +:+ t2)
  end.
Proof.
  induction s1 as [|[s|n] s1 IH]; simpl; [by destruct (render inputs s2)| |].
  - rewrite IH. destruct (render inputs s1), (render inputs s2); simpl; try done. by rewrite <- string_app_assoc.
  - destruct (inputs !! n); [|done]. rewrite IH.
    destruct (render inputs s1), (render inputs s2); simpl; try done. by rewrite <- string_app_assoc.
Qed.

(** Rendering succeeds when every variable of the template is given. *)
Lemma render_ok inputs segs :
  (forall n, n ∈ template_vars segs -> is_Some (inputs !! n)) -> exists s, render inputs segs = inr s.
Proof.
  induction segs as [|[s|n] segs IH]; intros Hv; simpl; [eauto| |].
  - destruct IH as [t ->]; [|eauto]. intros n Hn. apply Hv. done.
  - destruct (Hv n) as [v ->]; [simpl; apply elem_of_cons; by left|].
    destruct IH as [t ->]; [|eauto]. intros n' Hn. apply Hv. simpl. apply elem_of_cons. by right.
Qed.

Lemma render_all_ok inputs p :
  (forall n, n ∈ mjoin ((template_vars ∘ snd) <$> p) -> is_Some (inputs !! n)) ->
  exists ms, render_all inputs p = inr ms.
Proof.
  induction p as [|[r segs] p IH]; intros Hv; simpl; [eauto|].
  destruct (render_ok inputs segs) as [s ->]; [intros n Hn; apply Hv; simpl; apply elem_of_app; by left|].
  destruct IH as [ms ->]; [|eauto]. intros n Hn. apply Hv. simpl. apply elem_of_app. by right.
Qed.

Lemma filter_missing_nil (inputs : gmap string string) l :
  (forall v, v ∈ l -> is_Some (inputs !! v)) -> filter (fun v => inputs !! v = None) l = [].
Proof.
  induction l as [|v l IH]; intros Hv; [done|]. rewrite filter_cons.
  destruct (Hv v) as [x Hx]; [apply elem_of_cons; by left|].
  rewrite decide_False by (rewrite Hx; discriminate). apply IH. intros v' Hin. apply Hv, elem_of_cons. by right.
Qed.

(** [invoke] formats the messages when every input variable is given. *)
Lemma format_messages_ok p inputs :
  (forall v, v ∈ input_variables p -> is_Some (inputs !! v)) ->
  exists ms, format_messages p inputs = inr ms.
Proof.
  intros Hv. unfold format_messages. rewrite filter_missing_nil by done.
  apply render_all_ok. intros n Hn. apply Hv. unfold input_variables. by apply elem_of_sort_uniq.
Qed.

(** ** The chains as [from_messages] builds them *)

(** The rewrite prompt: the system text, and the question between the two
    fixed pieces of the human message. *)
Lemma rewrite_chain_built :
  create_question_rewrite_chain =
    inr (TextChain [(System, [Lit rewrite_system]);
                    (Human, [Lit ("Here is the initial question: " +:+ newline +:+ newline +:+ " ");
                             Var "question";
                             Lit (" " +:+ newline +:+ " Formulate an improved question.")])] chat_openai).
Proof. vm_compute. reflexivity. Qed.

Lemma router_chain_built :
  exists p, create_question_router_chain = inr (StructuredChain p chat_openai RouteQuery)
    /\ input_variables p = ["question"].
Proof. eexists. split; [reflexivity | vm_compute; reflexivity]. Qed.

Lemma grader_chain_built :
  exists p, create_retrieval_grader_chain = inr (StructuredChain p chat_openai GradeDocuments)
    /\ input_variables p = ["document"; "question"].
Proof. eexists. split; [reflexivity | vm_compute; reflexivity]. Qed.

Lemma groundedness_chain_built :
  exists p, create_groundedness_checker_chain = inr (StructuredChain p chat_openai AnswerGroundedness)
    /\ input_variables p = ["documents"; "generation"].
Proof. eexists. split; [reflexivity | vm_compute; reflexivity]. Qed.

Lemma answer_grade_chain_built :
  exists p, create_answer_grade_chain = inr (StructuredChain p chat_openai GradeAnswer)
    /\ input_variables p = ["generation"; "question"].
Proof. eexists. split; [reflexivity | vm_compute; reflexivity]. Qed.

Section Outputs.
Variable chat_llm : llm_config -> list (role * string) -> option string.
Variable tool_llm : llm_config -> schema -> list (role * string) -> option (gmap string jvalue).

(** A structured chain whose inputs are all given returns what pydantic
    makes of the arguments the model answered with. *)
Lemma structured_invoke_ok p sc inputs args :
  (forall v, v ∈ input_variables p -> is_Some (inputs !! v)) ->
  (forall msgs, tool_llm chat_openai sc msgs = Some args) ->
  chain_invoke chat_llm tool_llm (StructuredChain p chat_openai sc) inputs = validate sc args.
Proof.
  intros Hv Ht. destruct (format_messages_ok p inputs Hv) as [ms Hms].
  simpl. by rewrite Hms, Ht.
Qed.

Lemma structured_built_ok (create : parse_error + chain) sc vs inputs args :
  (exists p, create = inr (StructuredChain p chat_openai sc) /\ input_variables p = vs) ->
  (forall v, v ∈ vs -> is_Some (inputs !! v)) ->
  (forall msgs, tool_llm chat_openai sc msgs = Some args) ->
  exists c, create = inr c /\ chain_invoke chat_llm tool_llm c inputs = validate sc args.
Proof.
  intros (p & Hc & Hp) Hv Ht. exists (StructuredChain p chat_openai sc). split; [done|].
  apply structured_invoke_ok; [|done]. by rewrite Hp.
Qed.
End Outputs.

(** ** Properties of the chains *)

(** The question rewriter sends the model exactly its system prompt
    and the question between the two fixed pieces of the human message,
    inserted as it is (braces in the question are not read as fields),
    with [gpt-4o] at temperature 0, and returns the model's text; without
    a ["question"] input it raises [KeyError] before any call. *)
Theorem rewrite_chain_invoke chat_llm tool_llm inputs :
  exists c, create_question_rewrite_chain = inr c /\
  chain_invoke chat_llm tool_llm c inputs =
    match inputs !! "question" with
    | None => inl (MissingVariables ["question"])
    | Some q =>
        match chat_llm (mkLLM "gpt-4o" 0)
                [(System, rewrite_system);
                 (Human, "Here is the initial question: " +:+ newline +:+ newline +:+ " " +:+ q
                           +:+ " " +:+ newline +:+ " Formulate an improved question.")] with
        | None => inl APIError
        | Some s => inr s
        end
    end.
Proof.
  eexists. split; [apply rewrite_chain_built|]. simpl. unfold format_messages.
  change (input_variables _) with ["question"]. rewrite filter_cons, filter_nil.
  destruct (inputs !! "question") as [q|] eqn:Hq; simpl; [|done].
  rewrite Hq. simpl. rewrite !string_app_empty_r. reflexivity.
Qed.

(** C36: the router and the three graders answer with the [binary_score]
    the model put in its function call: the router only when it is
    ["yes"] or ["no"] ([Literal]), raising [ValidationError] otherwise; the
    graders whatever string it is (their field is a plain [str]), so a
    grade outside the two values reaches the caller. *)
Theorem structured_outputs chat_llm tool_llm inputs s :
  (forall sc msgs, tool_llm chat_openai sc msgs = Some {["binary_score" := JString s]}) ->
  (forall v, v ∈ ["question"; "document"; "documents"; "generation"] -> is_Some (inputs !! v)) ->
  (exists c, create_question_router_chain = inr c /\
     chain_invoke chat_llm tool_llm c inputs = if decide (s ∈ ["yes"; "no"]) then inr s else inl ValidationError)
  /\ (exists c, create_retrieval_grader_chain = inr c /\ chain_invoke chat_llm tool_llm c inputs = inr s)
  /\ (exists c, create_groundedness_checker_chain = inr c /\ chain_invoke chat_llm tool_llm c inputs = inr s)
  /\ (exists c, create_answer_grade_chain = inr c /\ chain_invoke chat_llm tool_llm c inputs = inr s).
Proof.
  intros Ht Hv.
  assert (forall vs : list string, (forall v, v ∈ vs -> v ∈ ["question"; "document"; "documents"; "generation"]) ->
                     forall v, v ∈ vs -> is_Some (inputs !! v)) as Hsub by (intros vs Hvs v Hin; apply Hv, Hvs, Hin).
  assert (forall sc, field_name sc = "binary_score" -> validate sc {["binary_score" := JString s]} =
            match field_type sc with
            | FStr => inr s
            | FLiteral allowed => if decide (s ∈ allowed) then inr s else inl ValidationError
            end) as Hval by (intros sc Hf; unfold validate; by rewrite Hf, lookup_singleton_eq).
  split; [|split; [|split]];
    [ pose proof router_chain_built as Hb | pose proof grader_chain_built as Hb
    | pose proof groundedness_chain_built as Hb | pose proof answer_grade_chain_built as Hb ];
    (edestruct (structured_built_ok chat_llm tool_llm _ _ _ inputs {["binary_score" := JString s]} Hb) as (c & Hc & Hi);
     [ apply Hsub; intros v; rewrite !elem_of_cons, ?elem_of_nil; tauto
     | apply Ht
     | exists c; split; [exact Hc|]; rewrite Hi, Hval by reflexivity; reflexivity ]).
Qed.

(** Whatever the model answers and whatever the inputs, the question
    router only ever returns ["yes"] or ["no"]. *)
Theorem route_query_closed chat_llm tool_llm inputs c v :
  create_question_router_chain = inr c -> chain_invoke chat_llm tool_llm c inputs = inr v ->
  v = "yes" \/ v = "no".
Proof.
  destruct router_chain_built as (p & Hc & _). rewrite Hc. intros [= <-]. simpl.
  destruct (format_messages p inputs); [done|]. destruct (tool_llm _ _ _) as [args|]; [|done].
  unfold validate. simpl. destruct (args !! "binary_score") as [[s|]|]; [|done|done].
  case_decide as Hin; [|done]. intros [= <-]. rewrite !elem_of_cons, elem_of_nil in Hin. tauto.
Qed.

(** ** Examples *)

Definition demo_tool_llm (s : string) (cfg : llm_config) (sc : schema) (msgs : list (role * string))
  : option (gmap string jvalue) := Some {["binary_score" := JString s]}.

Definition demo_chat_llm (cfg : llm_config) (msgs : list (role * string)) : option string :=
  Some "입영 연기 (postponement of enlistment) 신청 방법".

Definition demo_inputs : gmap string string :=
  list_to_map [("question", "입영 연기는 어떻게 {신청}하나요?"); ("document", "병역법 제61조");
               ("documents", "병역법 제61조"); ("generation", "지방병무청장에게 신청합니다.")].

Definition demo_router : chain :=
  match create_question_router_chain with inr c => c | inl _ => TextChain [] chat_openai end.

(** C36 witness: a model that grades "maybe". *)
Lemma structured_outputs_witness :
  (exists c, create_question_router_chain = inr c /\
     chain_invoke demo_chat_llm (demo_tool_llm "maybe") c demo_inputs
       = if decide ("maybe" ∈ ["yes"; "no"]) then inr "maybe" else inl ValidationError)
  /\ (exists c, create_retrieval_grader_chain = inr c
        /\ chain_invoke demo_chat_llm (demo_tool_llm "maybe") c demo_inputs = inr "maybe")
  /\ (exists c, create_groundedness_checker_chain = inr c
        /\ chain_invoke demo_chat_llm (demo_tool_llm "maybe") c demo_inputs = inr "maybe")
  /\ (exists c, create_answer_grade_chain = inr c
        /\ chain_invoke demo_chat_llm (demo_tool_llm "maybe") c demo_inputs = inr "maybe").
Proof.
  apply (structured_outputs demo_chat_llm (demo_tool_llm "maybe") demo_inputs "maybe");
    [reflexivity|].
  intros v Hin. repeat (apply elem_of_cons in Hin as [->|Hin]; [vm_compute; by eexists|]).
  by apply elem_of_nil in Hin.
Defined.

(** The router on the demo inputs with a model answering "no". *)
Lemma route_query_closed_witness :
  create_question_router_chain = inr demo_router
  /\ chain_invoke demo_chat_llm (demo_tool_llm "no") demo_router demo_inputs = inr "no"
  /\ ("no" = "yes" \/ "no" = "no").
Proof.
  assert (create_question_router_chain = inr demo_router) as Hc by (vm_compute; reflexivity).
  assert (chain_invoke demo_chat_llm (demo_tool_llm "no") demo_router demo_inputs = inr "no") as Hi
    by (vm_compute; reflexivity).
  split; [exact Hc|]. split; [exact Hi|].
  exact (route_query_closed demo_chat_llm (demo_tool_llm "no") demo_inputs demo_router "no" Hc Hi).
Defined.

(** The parser on sample templates, as [string.Formatter().parse] reads them. *)
Example parse_template_samples :
  parse_template "a{{b}}c {q}!" = inr [Lit "a{b}c "; Var "q"; Lit "!"]
  /\ parse_template "{q}}" = inl SingleClose
  /\ parse_template "{q" = inl UnclosedField
  /\ parse_template "" = inr [].
Proof. vm_compute. auto. Qed.
