(* ===== verification/Types.v ===== *)
(** * Data of the pipeline and the process store

    The values that flow through the LangGraph pipeline ([src/states.py]
    [GraphState], LangChain's [Document] and messages, Tavily's results),
    the exceptions the modelled code raises, the external services as the
    class [Services], and the part of the Python process heap the handlers
    share ([World]): compiled graph objects with their [RetrieveNode] memo
    caches, [queue.Queue] objects, the [progress_queues] registry of
    [src/app.py], and a log of the calls made to external services.  [M] is
    the state/error monad over [World]. *)

From S2P Require Import Prelude.

(** ** Documents and messages *)

(** A LangChain [Document]: its text and the two metadata keys the code
    reads, ["source"] and ["page"] (each may be absent). *)
Record document := mkDocument {
  page_content : string;
  doc_source : option string;
  doc_page : option Z
}.

#[export] Instance document_eq_dec : EqDecision document.
Proof. solve_decision. Defined.

(** One Tavily search result: the keys ["content"] and ["url"]. *)
Record web_result := mkWebResult { wr_content : string; wr_url : string }.

(** LangChain chat messages ([HumanMessage] has [type == "human"]). *)
Inductive message :=
| HumanMessage (content : string)
| AIMessage (content : string).

#[export] Instance message_eq_dec : EqDecision message.
Proof. solve_decision. Defined.

(** A message as stored in the Flask session: [{'role': ..., 'content': ...}]. *)
Record session_message := mkSessionMessage { role : string; sm_content : string }.

#[export] Instance session_message_eq_dec : EqDecision session_message.
Proof. solve_decision. Defined.

(** ** GraphState *)

(** [GraphState] is a [TypedDict]: every key may be missing.  A node returns
    a partial state, and LangGraph writes the keys present in it over the
    current values (no reducer is declared on any key). *)
Record GraphState := mkGraphState {
  question : option string;
  documents : option (list document);
  generation : option string;
  chat_history : option (list message)
}.

Definition override {A} (new old : option A) : option A :=
  match new with Some x => Some x | None => old end.

(** LangGraph's application of a node's update [u] to the state [s]. *)
Definition merge_update (s u : GraphState) : GraphState :=
  mkGraphState (override (question u) (question s))
               (override (documents u) (documents s))
               (override (generation u) (generation s))
               (override (chat_history u) (chat_history s)).

(** ** Exceptions *)

Inductive error :=
| KeyError (key : string)         (** [state["question"]] on a missing key *)
| RetrieverError                  (** [self.retriever.invoke] raised *)
| WebSearchError                  (** [TavilySearch.invoke] raised *)
| LLMError                        (** the OpenAI call of the RAG chain raised *)
| InvalidBranch (key : string)    (** a router returned a key with no edge *)
| GraphRecursionError             (** more supersteps than [recursion_limit] *)
| DanglingObject                  (** a reference to an object not in the heap *)
| IndexLoadError (db : string)    (** [FAISS.load_local] of a missing or corrupt index *)
| AttributeError.                 (** a method called on [None] *)

#[export] Instance error_eq_dec : EqDecision error.
Proof. solve_decision. Defined.

(** Whether an outcome is the exception [e]. *)
Definition raised {A} (e : error) (r : error + A) : bool :=
  match r with inl e' => bool_decide (e' = e) | inr _ => false end.

(** ** External services

    The calls the code makes to libraries and remote services, as opaque
    functions: [None] is an exception.  [retriever_invoke db q] is the
    ensemble retriever built by [init_retriever(db)] applied to [q];
    [llm_invoke q ctx hist] is prompt + ChatOpenAI + StrOutputParser on the
    three prompt variables; [unquote] is [urllib.parse.unquote]. *)
Class Services := {
  retriever_invoke : string -> string -> option (list document);
  web_search_invoke : string -> option (list web_result);
  llm_invoke : string -> string -> string -> option string;
  unquote : string -> string
}.

(** The external calls, as logged in [World]. *)
Inductive call :=
| CallRetriever (db q : string)
| CallWebSearch (q : string)
| CallLLM (q ctx hist : string).

#[export] Instance call_eq_dec : EqDecision call.
Proof. solve_decision. Defined.

(** ** The process store *)

(** A compiled graph object of [create_graph_internal]: the corpus its
    [RetrieveNode]'s retriever reads, and that node's [self.cache]. *)
Record graph_obj := mkGraphObj {
  g_db : string;
  g_cache : gmap string (list document)
}.

Record World := mkWorld {
  graphs : gmap nat graph_obj;            (** graph objects by reference *)
  queues : gmap nat (list string);        (** [queue.Queue] objects by reference *)
  progress_queues : gmap string nat;      (** [app.progress_queues] *)
  next_ref : nat;                         (** next free object reference *)
  calls : list call                       (** external calls made, oldest first *)
}.

Definition set_graphs (gs : gmap nat graph_obj) (w : World) : World :=
  mkWorld gs (queues w) (progress_queues w) (next_ref w) (calls w).
Definition set_queues (qs : gmap nat (list string)) (w : World) : World :=
  mkWorld (graphs w) qs (progress_queues w) (next_ref w) (calls w).
Definition set_progress_queues (r : gmap string nat) (w : World) : World :=
  mkWorld (graphs w) (queues w) r (next_ref w) (calls w).
Definition set_next_ref (n : nat) (w : World) : World :=
  mkWorld (graphs w) (queues w) (progress_queues w) n (calls w).
Definition add_call (c : call) (w : World) : World :=
  mkWorld (graphs w) (queues w) (progress_queues w) (next_ref w) (calls w ++ [c]).

Abbreviation M := (stE World error).

(** A call to an external service: logged, then its result or the
    exception [e]. *)
Definition external {A} (c : call) (r : option A) (e : error) : M A :=
  modify_st (add_call c);;
  match r with Some a => mret a | None => raise e end.

Lemma external_run {A} c (r : option A) e w :
  external c r e w = (match r with Some a => inr a | None => inl e end, add_call c w).
Proof. unfold external. destruct r; reflexivity. Qed.

(** The store after [m] was appended to the queue object [r]. *)
Definition put_world (r : nat) (m : string) (w : World) : World :=
  set_queues (alter (fun l => l ++ [m]) r (queues w)) w.

(** [q.put(m)] on the queue object [r]. *)
Definition queue_put (r : nat) (m : string) : M unit := modify_st (put_world r m).

(** [queue.Queue()]: a fresh, empty queue object. *)
Definition new_queue : M nat :=
  w ← get_st;
  put_st (set_next_ref (S (next_ref w))
            (set_queues (<[next_ref w := []]> (queues w)) w));;
  mret (next_ref w).

(** The references in use are below [next_ref]. *)
Definition refs_below (w : World) : Prop :=
  (forall r, is_Some (queues w !! r) -> r < next_ref w) /\
  (forall r, is_Some (graphs w !! r) -> r < next_ref w).
