(* ===== verification/Retriever.v ===== *)
(** * The hybrid retriever ([src/retrievers.py])

    [init_retriever(db_index)] (lines 9-34) builds an [EnsembleRetriever]
    over a BM25 retriever and the FAISS index of the corpus folder, with
    weights 0.7 and 0.3.  The BM25 retriever is built with
    [BM25Retriever.from_texts(db_index)]: the argument is the folder name,
    a string, which the library iterates as a sequence of texts, so the
    BM25 corpus is the folder name's characters, one document each.

    The library parts are modelled from their code: BM25's [get_top_n]
    returns the first [k = 3] documents of an order of all documents by
    descending score (the order, numpy's [argsort] reversed, is the
    parameter [bm25_order], of which only that it is a permutation is
    assumed); [EnsembleRetriever] fuses the lists by weighted reciprocal
    rank ([weight / (rank + 60)] summed per page content), keeps the first
    document of each content, and sorts by descending score with Python's
    stable [sorted].  Scores are exact rationals where Python uses floats;
    the theorems only use gaps far larger than rounding.  The folder names
    the application creates are ASCII ([LANGCHAIN_DB_INDEX_db_<timestamp>],
    document_manager.py, lines 537-539), so iterating bytes and iterating
    characters agree. *)

From S2P Require Import Prelude Types.
From Stdlib Require Import QArith Qfield Lqa Sorted.

(** ** BM25 over the folder name *)

(** [for t in db_index]: the one-character strings of the name. *)
Definition chars (s : string) : list string :=
  (fun c => String.String c EmptyString) <$> String.list_ascii_of_string s.

(** [BM25Retriever.from_texts(texts)]: one [Document] per text, no metadata. *)
Definition bm25_from_texts (texts : list string) : list document :=
  (fun t => mkDocument t None None) <$> texts.

(** [bm25_retriever.k = 3] (line 15). *)
Definition BM25_K : nat := 3.

(** [self.vectorizer.get_top_n(query, self.docs, n=self.k)] with the
    ranking [order] of the document indices. *)
Definition bm25_top (order : list nat) (docs : list document) : list document :=
  take BM25_K (omap (fun i => docs !! i) order).

(** ** Reciprocal rank fusion *)

(** [self.c = 60] and [weights=[0.7, 0.3]] (lines 27-30). *)
Definition RRF_C : Q := 60.
Definition ensemble_weights : list Q := [7 # 10; 3 # 10].

(** [rrf_score[doc.page_content] += weight / (rank + self.c)] *)
Definition rrf_add (sc : gmap string Q) (w : Q) (rank : nat) (d : document) : gmap string Q :=
  <[page_content d := (default 0 (sc !! page_content d) + w / (inject_Z (Z.of_nat rank) + RRF_C))%Q]> sc.

(** [for rank, doc in enumerate(doc_list, start=1)] *)
Fixpoint rrf_list (sc : gmap string Q) (w : Q) (rank : nat) (l : list document) : gmap string Q :=
  match l with
  | [] => sc
  | d :: l' => rrf_list (rrf_add sc w rank d) w (S rank) l'
  end.

(** [for doc_list, weight in zip(doc_lists, self.weights)] *)
Fixpoint rrf_scores (sc : gmap string Q) (lists : list (list document)) (ws : list Q) : gmap string Q :=
  match lists, ws with
  | l :: ls, w :: ws' => rrf_scores (rrf_list sc w 1 l) ls ws'
  | _, _ => sc
  end.

(** [unique_by_key(all_docs, lambda doc: doc.page_content)] *)
Fixpoint unique_by_content (seen : gset string) (l : list document) : list document :=
  match l with
  | [] => []
  | d :: l' => if decide (page_content d ∈ seen) then unique_by_content seen l'
               else d :: unique_by_content ({[page_content d]} ∪ seen) l'
  end.

(** [sorted(xs, reverse=True, key=key)]: stable, so elements of equal key
    keep their order; insertion after every element of a key at least as
    large. *)
Fixpoint insert_desc {A} (key : A -> Q) (x : A) (l : list A) : list A :=
  match l with
  | [] => [x]
  | y :: l' => if Qle_bool (key x) (key y) then y :: insert_desc key x l' else x :: l
  end.

Definition sort_desc {A} (key : A -> Q) (l : list A) : list A :=
  fold_left (fun acc x => insert_desc key x acc) l [].

(** [EnsembleRetriever.weighted_reciprocal_rank(doc_lists)] *)
Definition weighted_reciprocal_rank (lists : list (list document)) : list document :=
  let sc := rrf_scores ∅ lists ensemble_weights in
  sort_desc (fun d => default 0 (sc !! page_content d)) (unique_by_content ∅ (concat lists)).

(** ** The retriever [init_retriever] returns *)

Section Ensemble.
(** The ranking of BM25Okapi: the indices of the corpus by descending
    score for a query; only that it orders all documents is assumed. *)
Variable bm25_order : list string -> string -> list nat.
Hypothesis bm25_order_perm : forall texts q, bm25_order texts q ≡ₚ seq 0 (length texts).

(** The FAISS similarity search of the folder's index ([k = fetch_k = 10]);
    [None] when loading the index or the embedding call raises. *)
Variable faiss_search : string -> string -> option (list document).

(** [init_retriever(db).invoke(q)]: both retrievers, BM25 first, fused. *)
Definition ensemble_invoke (db q : string) : option (list document) :=
  let bm25_docs := bm25_from_texts (chars db) in
  let bm := bm25_top (bm25_order (chars db) q) bm25_docs in
  match faiss_search db q with
  | None => None
  | Some fs => Some (weighted_reciprocal_rank [bm; fs])
  end.
End Ensemble.

(** ** Lemmas on the library parts *)

Local Open Scope nat_scope.

Lemma omap_lookup_length (docs : list document) order :
  Forall (fun i => i < length docs) order -> length (omap (fun i => docs !! i) order) = length order.
Proof.
  induction 1 as [|i order Hi _ IH]; [done|]. simpl.
  destruct (lookup_lt_is_Some_2 docs i Hi) as [d Hd]. rewrite Hd. simpl. f_equal. exact IH.
Qed.

Lemma perm_seq_bounded (order : list nat) n : order ≡ₚ seq 0 n -> Forall (fun i => i < n) order.
Proof.
  intros Hp. apply Forall_forall. intros i Hi.
  rewrite Hp in Hi. apply elem_of_seq in Hi. lia.
Qed.

(** [get_top_n] returns [min k n] documents of the corpus. *)
Lemma bm25_top_length order (docs : list document) :
  order ≡ₚ seq 0 (length docs) -> length (bm25_top order docs) = Nat.min BM25_K (length docs).
Proof.
  intros Hp. unfold bm25_top. rewrite length_take, omap_lookup_length.
  - by rewrite Hp, length_seq.
  - by apply perm_seq_bounded.
Qed.

Lemma bm25_top_sub order (docs : list document) d : d ∈ bm25_top order docs -> d ∈ docs.
Proof.
  unfold bm25_top. intros (i & Hi & _)%elem_of_take.
  apply list_elem_of_lookup_2, list_elem_of_omap in Hi as (j & _ & Hj).
  by eapply list_elem_of_lookup_2.
Qed.

(** The BM25 documents of a folder name are its one-character strings. *)
Lemma bm25_doc_char db d :
  d ∈ bm25_from_texts (chars db) ->
  d = mkDocument (page_content d) None None /\ page_content d ∈ chars db.
Proof. unfold bm25_from_texts. intros (t & -> & Ht)%list_elem_of_fmap. done. Qed.

Lemma chars_length_pos db : db <> "" -> 0 < length (chars db).
Proof. destruct db; simpl; [done | lia]. Qed.

(** [unique_by_key] keeps one document per content, the first. *)
Lemma unique_by_content_contents seen l c :
  c ∈ page_content <$> unique_by_content seen l <-> (c ∉ seen) /\ c ∈ page_content <$> l.
Proof.
  revert seen. induction l as [|d l IH]; intros seen; simpl.
  - rewrite !elem_of_nil. tauto.
  - case_decide as Hd.
    + rewrite IH, elem_of_cons. split; [tauto|]. intros [Hc [->|?]]; [done | tauto].
    + simpl. rewrite !elem_of_cons, IH, elem_of_union, elem_of_singleton.
      split; [intros [->|[Hc ?]]; tauto|]. intros [Hc [->|?]]; [by left|].
      destruct (decide (c = page_content d)); [by left | right; tauto].
Qed.

Lemma unique_by_content_nodup seen l : NoDup (page_content <$> unique_by_content seen l).
Proof.
  revert seen. induction l as [|d l IH]; intros seen; simpl; [constructor|].
  case_decide; [apply IH|]. simpl. constructor; [|apply IH].
  rewrite unique_by_content_contents, elem_of_union, elem_of_singleton. tauto.
Qed.

Lemma unique_by_content_sub seen l d : d ∈ unique_by_content seen l -> d ∈ l.
Proof.
  revert seen. induction l as [|d' l IH]; intros seen; simpl; [done|].
  case_decide; [intros Hin; apply elem_of_cons; right; by eapply IH|].
  rewrite !elem_of_cons. intros [->|Hin]; [by left | right; by eapply IH].
Qed.

(** The document kept for a content of the first list comes from it. *)
Lemma unique_by_content_first seen l1 l2 d :
  d ∈ unique_by_content seen (l1 ++ l2) -> page_content d ∈ page_content <$> l1 -> d ∈ l1.
Proof.
  revert seen. induction l1 as [|d1 l1 IH]; intros seen; simpl; [by intros _ ?%elem_of_nil|].
  intros Hd Hc. apply elem_of_cons in Hc. case_decide as H1.
  - destruct Hc as [Hc|Hc]; [|apply elem_of_cons; right; by eapply IH].
    apply (list_elem_of_fmap_2 page_content) in Hd.
    apply unique_by_content_contents in Hd as [Hn _]. by rewrite Hc in Hn.
  - apply elem_of_cons in Hd as [->|Hd]; [by left|]. apply elem_of_cons. right.
    destruct Hc as [Hc|Hc]; [|by eapply IH].
    apply (list_elem_of_fmap_2 page_content) in Hd.
    apply unique_by_content_contents in Hd as [Hn _]. set_solver.
Qed.

(** [sorted] is a permutation, sorts by descending key, and puts first an
    element of maximal key. *)
Lemma insert_desc_perm {A} (key : A -> Q) x l : insert_desc key x l ≡ₚ x :: l.
Proof.
  induction l as [|y l IH]; simpl; [done|].
  destruct (Qle_bool _ _); [|done]. rewrite IH. apply perm_swap.
Qed.

Lemma sort_desc_perm {A} (key : A -> Q) l : sort_desc key l ≡ₚ l.
Proof.
  unfold sort_desc. rewrite <- (app_nil_r l) at 2. generalize (@nil A).
  induction l as [|x l IH]; intros acc; simpl; [done|].
  rewrite IH, insert_desc_perm. by rewrite Permutation_middle.
Qed.

Definition desc {A} (key : A -> Q) (a b : A) : Prop := (key b <= key a)%Q.

Lemma insert_desc_sorted {A} (key : A -> Q) x l :
  Sorted (desc key) l -> Sorted (desc key) (insert_desc key x l).
Proof.
  induction l as [|y l IH]; intros Hs; simpl; [by repeat constructor|].
  destruct (Qle_bool (key x) (key y)) eqn:Hxy.
  - apply Sorted_inv in Hs as [Hs Hh]. constructor; [by apply IH|].
    apply Qle_bool_iff in Hxy. destruct l as [|z l]; simpl; [by constructor|].
    apply HdRel_inv in Hh. destruct (Qle_bool (key x) (key z)); by constructor.
  - constructor; [done|]. constructor. unfold desc. apply Qlt_le_weak, Qnot_le_lt.
    intros H. apply Qle_bool_iff in H. congruence.
Qed.

Lemma sort_desc_sorted {A} (key : A -> Q) l : Sorted (desc key) (sort_desc key l).
Proof.
  unfold sort_desc. assert (Sorted (desc key) (@nil A)) as H0 by constructor. revert H0.
  generalize (@nil A). induction l as [|x l IH]; intros acc Hacc; simpl; [done|].
  apply IH. by apply insert_desc_sorted.
Qed.

#[local] Instance desc_trans {A} (key : A -> Q) : Transitive (desc key).
Proof. intros a b c H1 H2. unfold desc in *. by eapply Qle_trans. Qed.

Lemma sort_desc_head_max {A} (key : A -> Q) l h t :
  sort_desc key l = h :: t -> forall y, y ∈ l -> (key y <= key h)%Q.
Proof.
  intros Hs y Hy. pose proof (sort_desc_sorted key l) as Hsort. rewrite Hs in Hsort.
  apply Sorted_StronglySorted in Hsort; [|apply desc_trans].
  apply StronglySorted_inv in Hsort as [_ Hall].
  rewrite <- (sort_desc_perm key l), Hs in Hy. apply elem_of_cons in Hy as [->|Hy]; [apply Qle_refl|].
  rewrite Forall_forall in Hall. by apply Hall.
Qed.

(** ** Fused scores *)

(** The contribution of the list [l] (ranks from [rank]) to the score of
    the content [c]. *)
Fixpoint rrf_sum (w : Q) (rank : nat) (c : string) (l : list document) : Q :=
  match l with
  | [] => 0
  | d :: l' => ((if decide (page_content d = c) then w / (inject_Z (Z.of_nat rank) + RRF_C) else 0)
               + rrf_sum w (S rank) c l')%Q
  end.

Lemma rrf_list_score sc w rank l c :
  (default 0 (rrf_list sc w rank l !! c) == default 0 (sc !! c) + rrf_sum w rank c l)%Q.
Proof.
  revert sc rank. induction l as [|d l IH]; intros sc rank; simpl; [ring|].
  rewrite IH. unfold rrf_add. destruct (decide (page_content d = c)) as [<-|Hne].
  - rewrite lookup_insert_eq. simpl. ring.
  - rewrite lookup_insert_ne by done. ring.
Qed.

(** The fused score of a content over the BM25 list and the FAISS list. *)
Lemma rrf_scores_pair l1 l2 c :
  (default 0 (rrf_scores ∅ [l1; l2] ensemble_weights !! c)
   == rrf_sum (7 # 10) 1 c l1 + rrf_sum (3 # 10) 1 c l2)%Q.
Proof. simpl. rewrite !rrf_list_score, lookup_empty. simpl. ring. Qed.

Lemma rank_term_nonneg w r : (0 <= w -> 0 <= w / (inject_Z (Z.of_nat r) + RRF_C))%Q.
Proof.
  intros Hw. assert (0 <= inject_Z (Z.of_nat r))%Q as Hr.
  { change 0%Q with (inject_Z 0). rewrite <- Zle_Qle. lia. }
  unfold RRF_C. apply Qle_shift_div_l; [lra|]. rewrite Qmult_0_l. done.
Qed.

Lemma rank_term_le w r :
  (0 <= w)%Q -> 1 <= r -> (w / (inject_Z (Z.of_nat r) + RRF_C) <= w / 61)%Q.
Proof.
  intros Hw Hr. assert (1 <= inject_Z (Z.of_nat r))%Q as Hx.
  { change 1%Q with (inject_Z 1). rewrite <- Zle_Qle. lia. }
  unfold RRF_C, Qdiv. rewrite (Qmult_comm w), (Qmult_comm w).
  apply Qmult_le_compat_r; [|done]. apply Qle_shift_inv_r; [lra|].
  change (/ 61)%Q with (1 # 61)%Q. lra.
Qed.

Lemma rrf_sum_nonneg w rank c l : (0 <= w -> 0 <= rrf_sum w rank c l)%Q.
Proof.
  intros Hw. revert rank. induction l as [|d l IH]; intros rank; simpl; [apply Qle_refl|].
  specialize (IH (S rank)). case_decide; [|lra].
  pose proof (rank_term_nonneg w rank Hw). lra.
Qed.

Lemma rrf_sum_absent w rank c l : c ∉ page_content <$> l -> (rrf_sum w rank c l == 0)%Q.
Proof.
  revert rank. induction l as [|d l IH]; intros rank Hc; simpl; [reflexivity|].
  rewrite fmap_cons, elem_of_cons in Hc. rewrite decide_False by (intros Heq; apply Hc; left; done).
  rewrite IH by tauto. ring.
Qed.

Lemma rrf_sum_once w rank c l :
  (0 <= w)%Q -> 1 <= rank -> NoDup (page_content <$> l) -> (rrf_sum w rank c l <= w / 61)%Q.
Proof.
  intros Hw. revert rank. induction l as [|d l IH]; intros rank Hr Hnd; simpl.
  - apply Qle_shift_div_l; [lra|]. lra.
  - rewrite fmap_cons in Hnd. apply NoDup_cons in Hnd as [Hd Hnd]. case_decide as Hc.
    + subst c. rewrite rrf_sum_absent by done. pose proof (rank_term_le w rank Hw Hr). lra.
    + pose proof (IH (S rank) ltac:(lia) Hnd). lra.
Qed.

Lemma rrf_sum_head w rank d l :
  (0 <= w)%Q -> (w / (inject_Z (Z.of_nat rank) + RRF_C) <= rrf_sum w rank (page_content d) (d :: l))%Q.
Proof.
  intros Hw. simpl. rewrite decide_True by done.
  pose proof (rrf_sum_nonneg w (S rank) (page_content d) l Hw). lra.
Qed.

(** The fused list keeps one document per content of the inputs. *)
Lemma wrr_contents ls c :
  c ∈ page_content <$> weighted_reciprocal_rank ls <-> c ∈ page_content <$> concat ls.
Proof.
  unfold weighted_reciprocal_rank. rewrite (sort_desc_perm _ _), unique_by_content_contents.
  split; [tauto|]. split; [set_solver | done].
Qed.

Lemma wrr_sub ls d : d ∈ weighted_reciprocal_rank ls -> d ∈ unique_by_content ∅ (concat ls).
Proof. unfold weighted_reciprocal_rank. by rewrite (sort_desc_perm _ _). Qed.

Section EnsembleRuns.
Variable bm25_order : list string -> string -> list nat.
Hypothesis bm25_order_perm : forall texts q, bm25_order texts q ≡ₚ seq 0 (length texts).
Variable faiss_search : string -> string -> option (list document).

(** The BM25 half of the retriever on a non-empty folder name returns
    [min 3 n] one-character documents. *)
Lemma bm25_folder_top db q :
  db <> "" ->
  length (bm25_top (bm25_order (chars db) q) (bm25_from_texts (chars db))) = Nat.min BM25_K (length (chars db))
  /\ exists d1 bm, bm25_top (bm25_order (chars db) q) (bm25_from_texts (chars db)) = d1 :: bm.
Proof.
  intros Hdb. pose proof (chars_length_pos db Hdb) as Hpos.
  assert (length (bm25_top (bm25_order (chars db) q) (bm25_from_texts (chars db)))
          = Nat.min BM25_K (length (chars db))) as Hl.
  { rewrite bm25_top_length; [by unfold bm25_from_texts; rewrite length_fmap|].
    unfold bm25_from_texts. rewrite length_fmap. apply bm25_order_perm. }
  split; [done|].
  destruct (bm25_top (bm25_order (chars db) q) (bm25_from_texts (chars db))) as [|d1 bm] eqn:E; [|eauto].
  cbn [length] in Hl. unfold BM25_K in Hl. lia.
Qed.

(** The fused list keeps the content of every BM25 document. *)
Lemma ensemble_bm25_contents db q docs d :
  ensemble_invoke bm25_order faiss_search db q = Some docs ->
  d ∈ bm25_top (bm25_order (chars db) q) (bm25_from_texts (chars db)) ->
  page_content d ∈ page_content <$> docs.
Proof.
  unfold ensemble_invoke. intros Hi Hd.
  destruct (faiss_search db q) as [fs|]; [injection Hi as <-|done].
  apply wrr_contents. simpl. apply list_elem_of_fmap_2. set_solver.
Qed.

(** On a non-empty folder name the fused list is not empty. *)
Lemma ensemble_nonempty db q docs :
  db <> "" -> ensemble_invoke bm25_order faiss_search db q = Some docs -> docs <> [].
Proof.
  intros Hdb Hi Hnil. destruct (bm25_folder_top db q Hdb) as [_ (d1 & bm & Hbm)].
  pose proof (ensemble_bm25_contents db q docs d1 Hi ltac:(rewrite Hbm; left)) as H.
  rewrite Hnil in H. by apply elem_of_nil in H.
Qed.

(** C28: the deployed retriever never returns an empty list for a
    non-empty folder name: whenever the FAISS search succeeds, the fused
    list holds the contents of the [min 3 n] one-character BM25 documents
    of the folder name, so [check_documents] always says
    ["has_documents"] and the web-search fallback is unreachable. *)
Theorem retrieval_never_empty db q docs :
  db <> "" -> ensemble_invoke bm25_order faiss_search db q = Some docs ->
  docs <> []
  /\ length (bm25_top (bm25_order (chars db) q) (bm25_from_texts (chars db))) = Nat.min BM25_K (length (chars db))
  /\ forall d, d ∈ bm25_top (bm25_order (chars db) q) (bm25_from_texts (chars db)) ->
       page_content d ∈ page_content <$> docs.
Proof.
  intros Hdb Hi. split; [by eapply ensemble_nonempty|].
  split; [apply bm25_folder_top, Hdb|]. intros d. by apply ensemble_bm25_contents.
Qed.

(** C29: on a FAISS result without duplicate contents, the document the
    deployed retriever ranks first is one of the one-character documents
    made from the folder name: its fused score is at least [0.7/61], while
    a content that only FAISS returned scores at most [0.3/61]. *)
Theorem folder_char_ranked_first db q fs :
  db <> "" -> faiss_search db q = Some fs -> NoDup (page_content <$> fs) ->
  exists h t, ensemble_invoke bm25_order faiss_search db q = Some (h :: t)
              /\ h ∈ bm25_from_texts (chars db).
Proof.
  intros Hdb Hf Hnd. unfold ensemble_invoke. rewrite Hf.
  destruct (bm25_folder_top db q Hdb) as [_ (d1 & bm' & Hbm)].
  set (bm := bm25_top (bm25_order (chars db) q) (bm25_from_texts (chars db))) in *.
  set (key := fun d => default 0%Q (rrf_scores ∅ [bm; fs] ensemble_weights !! page_content d)).
  assert (weighted_reciprocal_rank [bm; fs] = sort_desc key (unique_by_content ∅ (concat [bm; fs]))) as EW
    by reflexivity.
  assert (page_content d1 ∈ page_content <$> unique_by_content ∅ (concat [bm; fs])) as Hd1.
  { apply unique_by_content_contents. split; [set_solver|]. simpl. rewrite Hbm. left. }
  apply list_elem_of_fmap in Hd1 as (y1 & Hy1c & Hy1).
  destruct (sort_desc key (unique_by_content ∅ (concat [bm; fs]))) as [|h t] eqn:Hs.
  { pose proof (sort_desc_perm key (unique_by_content ∅ (concat [bm; fs]))) as Hp.
    rewrite Hs in Hp. apply Permutation_nil in Hp. rewrite Hp in Hy1. by apply elem_of_nil in Hy1. }
  exists h, t. rewrite EW. split; [done|].
  pose proof (sort_desc_head_max key _ h t Hs y1 Hy1) as Hmax.
  assert (h ∈ unique_by_content ∅ (concat [bm; fs])) as Hh.
  { rewrite <- (sort_desc_perm key), Hs. left. }
  destruct (decide (page_content h ∈ page_content <$> bm)) as [Hin|Hout].
  - apply (bm25_top_sub (bm25_order (chars db) q)).
    exact (unique_by_content_first ∅ bm (fs ++ []) h Hh Hin).
  - exfalso. unfold key in Hmax. rewrite !rrf_scores_pair in Hmax.
    rewrite (rrf_sum_absent _ _ _ bm Hout) in Hmax.
    pose proof (rrf_sum_once (3 # 10) 1 (page_content h) fs ltac:(lra) ltac:(lia) Hnd) as Hfs.
    rewrite <- Hy1c, Hbm in Hmax.
    pose proof (rrf_sum_head (7 # 10) 1 d1 bm' ltac:(lra)) as Hhead.
    pose proof (rrf_sum_nonneg (3 # 10) 1 (page_content d1) fs ltac:(lra)) as Hnn.
    assert ((3 # 10) / 61 < (7 # 10) / (inject_Z (Z.of_nat 1) + RRF_C))%Q as Hgap
      by (vm_compute; reflexivity).
    lra.
Qed.
End EnsembleRuns.

(** ** Examples *)

(** A query made of whole words scores zero on every one-character
    document; for the example the tie order of [argsort] is taken to be the
    index order, which [[::-1]] reverses.  One FAISS hit. *)
Definition demo_bm25_order (texts : list string) (q : string) : list nat :=
  reverse (seq 0 (length texts)).

Lemma demo_bm25_order_perm texts q : demo_bm25_order texts q ≡ₚ seq 0 (length texts).
Proof. apply reverse_Permutation. Qed.

Definition demo_folder : string := "LANGCHAIN_DB_INDEX_db_20250417123045".

Definition demo_hit : document :=
  mkDocument "현역병 입영 연기는 최대 2년까지 가능하다." (Some "병역법.pdf") (Some 12%Z).

Definition demo_faiss (db q : string) : option (list document) := Some [demo_hit].

Definition demo_docs : list document :=
  default [] (ensemble_invoke demo_bm25_order demo_faiss demo_folder "입영 연기").

(** The context handed to the LLM: the last three characters of the folder
    name first, the FAISS hit last. *)
Example demo_retrieval :
  page_content <$> demo_docs = ["5"; "4"; "0"; page_content demo_hit].
Proof. vm_compute. reflexivity. Qed.

(** C28 witness. *)
Lemma retrieval_never_empty_witness :
  demo_docs <> []
  /\ length (bm25_top (demo_bm25_order (chars demo_folder) "입영 연기") (bm25_from_texts (chars demo_folder)))
     = Nat.min BM25_K (length (chars demo_folder))
  /\ forall d, d ∈ bm25_top (demo_bm25_order (chars demo_folder) "입영 연기") (bm25_from_texts (chars demo_folder)) ->
       page_content d ∈ page_content <$> demo_docs.
Proof.
  apply (retrieval_never_empty demo_bm25_order demo_bm25_order_perm demo_faiss demo_folder "입영 연기");
    [discriminate | vm_compute; reflexivity].
Defined.

(** C29 witness. *)
Lemma folder_char_ranked_first_witness :
  exists h t, ensemble_invoke demo_bm25_order demo_faiss demo_folder "입영 연기" = Some (h :: t)
              /\ h ∈ bm25_from_texts (chars demo_folder).
Proof.
  apply (folder_char_ranked_first demo_bm25_order demo_bm25_order_perm demo_faiss demo_folder "입영 연기" [demo_hit]);
    [discriminate | reflexivity | by_eval].
Defined.
