(* ===== verification/History.v ===== *)
(** * The conversation history of a session ([src/app.py])

    The Flask session keeps the chat as a list of [{'role', 'content'}]
    dictionaries under ['messages'].  [add_message] appends one message and
    cuts the list to its last 20 entries; [get_message_history] turns it
    into LangChain messages for the graph.  The theorems: the list never
    holds more than 20 messages, and a sequence of appends keeps exactly
    the most recent 20 (the spec's FIFO law). *)

From S2P Require Import Prelude Types.

(** The keys of the Flask [session] the handlers use. *)
Record session := mkSession {
  s_messages : option (list session_message);
  s_thread_id : option string;
  s_db_index : option string
}.

Definition set_messages (ms : list session_message) (s : session) : session :=
  mkSession (Some ms) (s_thread_id s) (s_db_index s).

(** [session.get('messages', [])] *)
Definition session_messages (s : session) : list session_message :=
  default [] (s_messages s).

(** The bound of [add_message]: 10 user/assistant pairs. *)
Definition max_messages : nat := 20.

(** [add_message(role, content)] (app.py, lines 285-296). *)
Definition add_message (s : session) (r content : string) : session :=
  let ms := session_messages s ++ [mkSessionMessage r content] in
  set_messages (if decide (max_messages < length ms) then lastn max_messages ms else ms) s.

(** [get_message_history()] (app.py, lines 300-307): role ['user'] becomes a
    [HumanMessage], every other role an [AIMessage]. *)
Definition to_message (m : session_message) : message :=
  if decide (role m = "user") then HumanMessage (sm_content m) else AIMessage (sm_content m).

Definition get_message_history (s : session) : list message :=
  map to_message (session_messages s).

(** Appending a list of [(role, content)] turns one by one. *)
Definition add_messages (s : session) (turns : list (string * string)) : session :=
  foldl (fun s' t => add_message s' t.1 t.2) s turns.

Definition turn_message (t : string * string) : session_message := mkSessionMessage t.1 t.2.

(** ** Lemmas *)

Lemma lastn_app_long {A} n (p m : list A) :
  n <= length m -> lastn n (p ++ m) = lastn n m.
Proof.
  intros Hn. unfold lastn. rewrite length_app, drop_app_ge by lia.
  f_equal. lia.
Qed.

Lemma lastn_lastn_app {A} n (l k : list A) :
  lastn n (lastn n l ++ k) = lastn n (l ++ k).
Proof.
  destruct (decide (n <= length l)) as [Hl|Hl].
  - destruct (lastn_suffix n l) as [pre Hpre].
    rewrite Hpre at 2. rewrite <- app_assoc.
    rewrite (lastn_app_long n pre); [done|].
    rewrite length_app, length_lastn. lia.
  - by rewrite (lastn_all n l) by lia.
Qed.

Lemma session_messages_add s r c :
  session_messages (add_message s r c)
  = lastn max_messages (session_messages s ++ [mkSessionMessage r c]).
Proof.
  unfold add_message, session_messages at 1; simpl.
  case_decide; [done|]. symmetry. apply lastn_all. lia.
Qed.

#[export] Hint Rewrite session_messages_add : rag_run.

(** ** Properties *)

(** After [add_message], the session holds exactly the last 20 messages
    of the previous history followed by the new message; in particular it
    never holds more than 20. *)
Theorem add_message_fifo (s : session) (r c : string) :
  session_messages (add_message s r c)
    = lastn 20 (session_messages s ++ [mkSessionMessage r c])
  /\ length (session_messages (add_message s r c)) <= 20.
Proof.
  rewrite session_messages_add. split; [done|].
  rewrite length_lastn. unfold max_messages. lia.
Qed.

(** C20: the FIFO law: starting from a session whose history is empty (or
    absent), appending any sequence of turns leaves exactly the most recent
    20 of them, oldest first. *)
Theorem add_messages_keeps_last_20 (s : session) (turns : list (string * string)) :
  session_messages s = [] ->
  session_messages (add_messages s turns) = lastn 20 (map turn_message turns).
Proof.
  intros Hs. unfold add_messages.
  rewrite <- (rev_involutive turns).
  induction (rev turns) as [|t ts IH]; simpl.
  - rewrite Hs. done.
  - rewrite foldl_app, map_app; simpl.
    rewrite session_messages_add, IH.
    apply lastn_lastn_app.
Qed.

(** The alternating conversation of the spec's FIFO law: [n] turns
    ["q0"; "a1"; "q2"; ...] with roles user, assistant, user, ... *)
Definition alternating_turns (n : nat) : list (string * string) :=
  map (fun i => (if Nat.even i then "user" else "assistant", show_Z (Z.of_nat i))) (seq 0 n).

(** C20 witness: 21 alternating turns from an empty session keep turns 1..20. *)
Lemma add_messages_keeps_last_20_witness :
  session_messages (add_messages (mkSession None None None) (alternating_turns 21))
    = map turn_message (drop 1 (alternating_turns 21)).
Proof.
  rewrite (add_messages_keeps_last_20 (mkSession None None None) _ eq_refl). vm_compute. reflexivity.
Defined.
