(* ===== verification/Rag.v ===== *)
(** * The RAG answer chain ([src/rag.py])

    [create_rag_chain] maps the chain input [{context, question,
    chat_history}] to the three prompt variables, formatting the documents
    as XML-like blocks ([format_rag_docs]) and the history as
    ["User: ..."/"Assistant: ..."] lines ([format_chat_history]), and pipes
    them into the prompt, ChatOpenAI and [StrOutputParser] — the opaque
    [llm_invoke] of [Services].  [rag_chain_invoke] logs the one LLM call
    it makes in the [World]. *)

From S2P Require Import Prelude Types.

Section RagChain.
Context `{Services}.

(** The ["page"] metadata, shown 1-based, or ["N/A"] when absent. *)
Definition format_page (d : document) : string :=
match doc_page d with
| Some p => show_Z (p + 1)
| None => "N/A"
end.

(** One document of [format_rag_docs] (rag.py, line 18). *)
Definition format_rag_doc (d : document) : string :=
"<document><content>" +:+ page_content d +:+ "</content><source>"
+:+ unquote (default "unknown" (doc_source d)) +:+ "</source><page>"
+:+ format_page d +:+ "</page></document>".

(** [format_rag_docs(docs)] (rag.py, lines 14-22): the documents joined by a
blank line. *)
Definition format_rag_docs (docs : list document) : string :=
String.concat (newline +:+ newline) (map format_rag_doc docs).

Definition format_message (m : message) : string :=
match m with
| HumanMessage c => "User: " +:+ c
| AIMessage c => "Assistant: " +:+ c
end.

(** [format_chat_history(chat_history)] (rag.py, lines 25-36) *)
Definition format_chat_history (h : list message) : string :=
match h with
| [] => ""
| _ => String.concat newline (map format_message h)
end.

(** [rag_chain.invoke({"context": docs, "question": q, "chat_history": h})]
(rag.py, lines 45-54): the context is a list here, so it is formatted. *)
Definition rag_chain_invoke (docs : list document) (q : string) (h : list message) : M string :=
let ctx := format_rag_docs docs in
let hist := format_chat_history h in
external (CallLLM q ctx hist) (llm_invoke q ctx hist) LLMError.

(** The chain calls the LLM exactly once, on the formatted prompt
variables, and returns its answer or raises. *)
Lemma rag_chain_invoke_run docs q h w :
rag_chain_invoke docs q h w =
(match llm_invoke q (format_rag_docs docs) (format_chat_history h) with
 | Some a => inr a
 | None => inl LLMError
 end,
 add_call (CallLLM q (format_rag_docs docs) (format_chat_history h)) w).
Proof. apply external_run. Qed.
End RagChain.
