(* ===== verification/Graph.v ===== *)
(** * The LangGraph pipeline ([src/nodes.py], [src/streamlit_wrapper.py])

    The three nodes of [src/nodes.py] as functions in [M]: [RetrieveNode]
    (with its per-question memo cache, kept in the graph object of the
    [World]), [WebSearchNode] and [RagAnswerNode]; the router
    [check_documents]; the graph of [create_graph_internal]
    (START -> retrieve -> (generate_answer | web_search -> generate_answer)
    -> END) as a transition function [next_node]; and the run loop of a
    compiled LangGraph graph: one node per superstep, the node's update
    written over the state, each update handed to the consumer of
    [graph.stream] before the next node runs, and [GraphRecursionError]
    when the run needs more supersteps than [recursion_limit]. *)

From S2P Require Import Prelude Types Rag.

Section Nodes.
Context `{Services}.

(** [state["key"]]: a missing key raises [KeyError]. *)
Definition get_key {A} (k : string) (o : option A) : M A :=
match o with Some a => mret a | None => raise (KeyError k) end.

(** [self.cache[question] = documents] on the graph object [g]. *)
Definition cache_store (g : nat) (q : string) (docs : list document) (w : World) : World :=
set_graphs (alter (fun go => mkGraphObj (g_db go) (<[q := docs]> (g_cache go))) g (graphs w)) w.

(** [GraphState(question=question, documents=documents)] *)
Definition retrieved (q : string) (docs : list document) : GraphState :=
mkGraphState (Some q) (Some docs) None None.

(** [RetrieveNode.execute] (nodes.py, lines 28-41), for the node of the
graph object [g]. *)
Definition retrieve_execute (g : nat) (s : GraphState) : M GraphState :=
q ← get_key "question" (question s);
w ← get_st;
match graphs w !! g with
| None => raise DanglingObject
| Some go =>
  match g_cache go !! q with
  | Some docs => mret (retrieved q docs)
  | None =>
      docs ← external (CallRetriever (g_db go) q) (retriever_invoke (g_db go) q) RetrieverError;
      modify_st (cache_store g q docs);;
      mret (retrieved q docs)
  end
end.

(** A Tavily result as a [Document] (nodes.py, lines 83-89). *)
Definition web_doc (r : web_result) : document :=
mkDocument (wr_content r) (Some (wr_url r)) None.

(** [WebSearchNode.execute] (nodes.py, lines 80-90). *)
Definition web_search_execute (s : GraphState) : M GraphState :=
q ← get_key "question" (question s);
rs ← external (CallWebSearch q) (web_search_invoke q) WebSearchError;
mret (mkGraphState (Some q) (Some (map web_doc rs)) None None).

(** [RagAnswerNode.execute] (nodes.py, lines 50-71): a missing or
[None] chat history is the empty list. *)
Definition rag_answer_execute (s : GraphState) : M GraphState :=
q ← get_key "question" (question s);
docs ← get_key "documents" (documents s);
let h := default [] (chat_history s) in
a ← rag_chain_invoke docs q h;
mret (mkGraphState (Some q) (Some docs) (Some a) (Some h)).

(** [check_documents(state)] (nodes.py, lines 92-95): an absent or
empty document list is falsy. *)
Definition check_documents (s : GraphState) : string :=
match documents s with
| Some (_ :: _) => "has_documents"
| _ => "no_documents"
end.
End Nodes.

(** ** The compiled graph of [create_graph_internal] *)

Inductive node := NRetrieve | NWebSearch | NGenerateAnswer.

#[export] Instance node_eq_dec : EqDecision node.
Proof. solve_decision. Defined.

(** The names the nodes are registered under ([workflow.add_node]). *)
Definition node_name (n : node) : string :=
  match n with
  | NRetrieve => "retrieve"
  | NWebSearch => "web_search"
  | NGenerateAnswer => "generate_answer"
  end.

Inductive target := To (n : node) | ToEnd.

(** The path map of [add_conditional_edges("retrieve", check_documents, ...)]. *)
Definition retrieve_branch (key : string) : error + target :=
  if decide (key = "has_documents") then inr (To NGenerateAnswer)
  else if decide (key = "no_documents") then inr (To NWebSearch)
  else inl (InvalidBranch key).

(** The edges of [create_graph_internal] (streamlit_wrapper.py, lines 69-81),
    evaluated on the state after the node's update. *)
Definition next_node (n : node) (s : GraphState) : error + target :=
  match n with
  | NRetrieve => retrieve_branch (check_documents s)
  | NWebSearch => inr (To NGenerateAnswer)
  | NGenerateAnswer => inr ToEnd
  end.

(** [START -> "retrieve"] *)
Definition entry_node : node := NRetrieve.

Definition lift {A} (r : error + A) : M A :=
  match r with inl e => raise e | inr a => mret a end.

(** The consumer of a run whose chunks nobody reads ([graph.invoke]). *)
Definition no_consumer : unit -> string -> GraphState -> M unit := fun _ _ _ => mret tt.

Section Run.
Context `{Services}.

(** The nodes of the graph object [g] ([workflow.add_node], streamlit_wrapper.py, lines 63-65). *)
Definition run_node (g : nat) (n : node) (s : GraphState) : M GraphState :=
match n with
| NRetrieve => retrieve_execute g s
| NWebSearch => web_search_execute s
| NGenerateAnswer => rag_answer_execute s
end.

(** The LangGraph run loop from node [n], with [fuel] supersteps left.
[on_chunk acc name update] is the consumer of [graph.stream] (stream
mode ["updates"], one chunk [{name: update}] per node), threading an
accumulator of its own. *)
Fixpoint run_from {Acc} (g : nat) (fuel : nat) (n : node) (s : GraphState)
(on_chunk : Acc -> string -> GraphState -> M Acc) (acc : Acc) : M (GraphState * Acc) :=
match fuel with
| 0 => raise GraphRecursionError
| S fuel' =>
  u ← run_node g n s;
  let s' := merge_update s u in
  t ← lift (next_node n s');
  acc' ← on_chunk acc (node_name n) u;
  match t with
  | ToEnd => mret (s', acc')
  | To n' => run_from g fuel' n' s' on_chunk acc'
  end
end.

(** [graph.stream(inputs, config)] with [recursion_limit] [limit]. *)
Definition graph_stream {Acc} (g : nat) (limit : nat) (inputs : GraphState)
(on_chunk : Acc -> string -> GraphState -> M Acc) (acc : Acc) : M (GraphState * Acc) :=
run_from g limit entry_node inputs on_chunk acc.

(** [graph.invoke(inputs, config)]: the final state. *)
Definition graph_invoke (g : nat) (limit : nat) (inputs : GraphState) : M GraphState :=
r ← graph_stream g limit inputs no_consumer tt;
mret r.1.
End Run.

(** The input [run_graph] gives the graph (app.py, lines 323-328). *)
Definition graph_inputs (q : string) (h : list message) : GraphState :=
  mkGraphState (Some q) (Some []) (Some "") (Some h).

(** The stream consumer that records the names of the nodes run. *)
Definition collect_names : list string -> string -> GraphState -> M (list string) :=
  fun acc k _ => mret (acc ++ [k]).

(** ** Lemmas on the nodes and the run loop *)

(** Supersteps from a node to END. *)
Definition depth (n : node) : nat :=
  match n with NRetrieve => 3 | NWebSearch => 2 | NGenerateAnswer => 1 end.

Lemma next_node_depth n s n' : next_node n s = inr (To n') -> depth n' < depth n.
Proof.
  destruct n; simpl; unfold retrieve_branch; repeat case_decide; intros Hn; simplify_eq; simpl; lia.
Qed.

Lemma depth_pos n : 1 <= depth n.
Proof. destruct n; simpl; lia. Qed.

#[export] Hint Resolve next_node_depth depth_pos : rag.

(** The cached result of [RetrieveNode] or, on a miss, the retriever's. *)
Definition lookup_or_retrieve `{Services} (go : graph_obj) (q : string) : option (list document) :=
  match g_cache go !! q with
  | Some docs => Some docs
  | None => retriever_invoke (g_db go) q
  end.

(** The retriever calls [RetrieveNode] makes for [q]: none on a cache hit. *)
Definition retrieve_calls (go : graph_obj) (q : string) : list call :=
  match g_cache go !! q with
  | Some _ => []
  | None => [CallRetriever (g_db go) q]
  end.

Lemma calls_cache_store g q docs w : calls (cache_store g q docs w) = calls w.
Proof. reflexivity. Qed.

Lemma calls_add_call c w : calls (add_call c w) = calls w ++ [c].
Proof. reflexivity. Qed.

#[export] Hint Rewrite calls_cache_store calls_add_call : rag_run.

Section NodeLemmas.
Context `{Services}.

(** The world after [RetrieveNode] answered [q] with [docs]: unchanged on
a cache hit; on a miss, the retriever call logged and the result
stored in the node's cache. *)
Definition retrieve_world (w : World) (g : nat) (go : graph_obj) (q : string)
(docs : list document) : World :=
match g_cache go !! q with
| Some _ => w
| None => cache_store g q docs (add_call (CallRetriever (g_db go) q) w)
end.

Lemma retrieve_execute_ok g s w go q docs :
question s = Some q -> graphs w !! g = Some go ->
lookup_or_retrieve go q = Some docs ->
retrieve_execute g s w = (inr (retrieved q docs), retrieve_world w g go q docs).
Proof.
unfold retrieve_execute, lookup_or_retrieve, retrieve_world, get_key.
intros Hq Hg Hd. rewrite Hq. unfold_m. rewrite Hg.
destruct (g_cache go !! q) as [d|] eqn:Hc; simplify_eq; [done|].
by rewrite external_run, Hd.
Qed.

Lemma retrieve_world_calls w g go q docs :
calls (retrieve_world w g go q docs) = calls w ++ retrieve_calls go q.
Proof.
unfold retrieve_world, retrieve_calls. destruct (g_cache go !! q); simpl; by rewrite ?app_nil_r.
Qed.

Lemma retrieve_world_graph w g go q docs :
graphs w !! g = Some go -> lookup_or_retrieve go q = Some docs ->
graphs (retrieve_world w g go q docs) !! g
= Some (mkGraphObj (g_db go) (<[q := docs]> (g_cache go))).
Proof.
unfold retrieve_world, lookup_or_retrieve. intros Hg Hd.
destruct (g_cache go !! q) eqn:Hc; simplify_eq.
- rewrite insert_id by done. rewrite Hg. by destruct go.
- simpl. by simplify_map_eq.
Qed.

Lemma retrieve_execute_inv g s w u w1 :
retrieve_execute g s w = (inr u, w1) ->
exists q go docs, question s = Some q /\ graphs w !! g = Some go
/\ lookup_or_retrieve go q = Some docs
/\ u = retrieved q docs /\ w1 = retrieve_world w g go q docs.
Proof.
unfold retrieve_execute, get_key. destruct (question s) as [q|]; unfold_m; [|done].
destruct (graphs w !! g) as [go|] eqn:Hg; [|done].
unfold lookup_or_retrieve, retrieve_world.
destruct (g_cache go !! q) as [d|] eqn:Hc; intros Hr.
- simplify_eq. exists q, go, d. by rewrite Hc.
- rewrite external_run in Hr. destruct (retriever_invoke (g_db go) q) as [d|] eqn:Hd;
  simplify_eq. exists q, go, d. by rewrite Hc, Hd.
Qed.

Lemma web_search_execute_ok s w q rs :
question s = Some q -> web_search_invoke q = Some rs ->
web_search_execute s w =
(inr (mkGraphState (Some q) (Some (map web_doc rs)) None None),
 add_call (CallWebSearch q) w).
Proof.
intros Hq Hr. unfold web_search_execute, get_key, external. rewrite Hq. unfold_m. by rewrite Hr.
Qed.

Lemma rag_answer_execute_ok s w q docs a :
question s = Some q -> documents s = Some docs ->
llm_invoke q (format_rag_docs docs) (format_chat_history (default [] (chat_history s))) = Some a ->
rag_answer_execute s w =
(inr (mkGraphState (Some q) (Some docs) (Some a) (Some (default [] (chat_history s)))),
 add_call (CallLLM q (format_rag_docs docs) (format_chat_history (default [] (chat_history s)))) w).
Proof.
intros Hq Hd Ha. unfold rag_answer_execute, get_key, rag_chain_invoke, external.
rewrite Hq, Hd. unfold_m. by rewrite Ha.
Qed.

Lemma run_node_not_recursion g n s w :
raised GraphRecursionError (run_node g n s w).1 = false.
Proof.
destruct n; simpl;
unfold retrieve_execute, web_search_execute, rag_answer_execute, rag_chain_invoke,
  external, get_key; unfold_m;
repeat (case_match; simplify_eq; simpl); done.
Qed.

(** One superstep of the run loop. *)
Lemma run_from_step {Acc} g f n s (cb : Acc -> string -> GraphState -> M Acc) acc w u w1 t acc' w2 :
run_node g n s w = (inr u, w1) ->
next_node n (merge_update s u) = inr t ->
cb acc (node_name n) u w1 = (inr acc', w2) ->
run_from g (S f) n s cb acc w =
match t with
| ToEnd => (inr (merge_update s u, acc'), w2)
| To n' => run_from g f n' (merge_update s u) cb acc' w2
end.
Proof.
intros Hu Ht Hcb. simpl. rewrite run_bind, Hu, run_bind. unfold lift. rewrite Ht.
rewrite run_ret, run_bind, Hcb. by destruct t.
Qed.

(** Extra fuel beyond the depth of the node changes nothing. *)
Lemma run_from_fuel {Acc} g f1 f2 n s (cb : Acc -> string -> GraphState -> M Acc) acc w :
depth n <= f1 -> depth n <= f2 ->
run_from g f1 n s cb acc w = run_from g f2 n s cb acc w.
Proof.
revert f2 n s acc w.
induction f1 as [|f1 IH]; intros f2 n s acc w H1 H2; [pose proof (depth_pos n); lia|].
destruct f2 as [|f2]; [pose proof (depth_pos n); lia|].
simpl. rewrite !run_bind.
destruct (run_node g n s w) as [[e|u] w1]; [done|].
rewrite !run_bind. unfold lift.
destruct (next_node n (merge_update s u)) as [e|t] eqn:Ht; [done|].
rewrite !run_ret, !run_bind. destruct (cb acc (node_name n) u w1) as [[e|acc'] w2]; [done|].
destruct t as [n'|]; [|done].
apply IH; apply next_node_depth in Ht; lia.
Qed.

Lemma run_from_not_recursion {Acc} g f n s (cb : Acc -> string -> GraphState -> M Acc) acc w :
depth n <= f ->
(forall acc k u w, raised GraphRecursionError (cb acc k u w).1 = false) ->
raised GraphRecursionError (run_from g f n s cb acc w).1 = false.
Proof.
intros Hf Hcb. revert n s acc w Hf.
induction f as [|f IH]; intros n s acc w Hf; [pose proof (depth_pos n); lia|].
simpl. rewrite !run_bind.
pose proof (run_node_not_recursion g n s w) as Hn.
destruct (run_node g n s w) as [[e|u] w1]; [exact Hn|].
rewrite run_bind. unfold lift.
destruct (next_node n (merge_update s u)) as [e|t] eqn:Ht.
{ unfold_m. simpl. destruct n; simpl in Ht; unfold retrieve_branch in Ht;
  repeat case_decide; simplify_eq; done. }
rewrite run_ret, run_bind. specialize (Hcb acc (node_name n) u w1).
destruct (cb acc (node_name n) u w1) as [[e|acc'] w2]; [exact Hcb|].
destruct t as [n'|]; [|done].
apply IH. apply next_node_depth in Ht. lia.
Qed.
End NodeLemmas.

(** ** The two routes through the graph

    For a stream consumer that only touches the queues (it neither calls a
    service nor touches a graph object), the run of the graph from START
    is computed exactly: the nodes run, the updates the consumer sees, the
    final state and the world. *)

Section Routes.
Context `{Services}.
Context {Acc : Type} (cb : Acc -> string -> GraphState -> M Acc)
    (F : Acc -> string -> Acc) (G : Acc -> string -> World -> World).
Hypothesis cb_run : forall acc k u w, cb acc k u w = (inr (F acc k), G acc k w).

Lemma stream_has_documents g limit w go q h docs a acc :
2 <= limit -> graphs w !! g = Some go ->
lookup_or_retrieve go q = Some docs -> docs <> [] ->
llm_invoke q (format_rag_docs docs) (format_chat_history h) = Some a ->
run_from g limit entry_node (graph_inputs q h) cb acc w =
(inr (mkGraphState (Some q) (Some docs) (Some a) (Some h),
      F (F acc "retrieve") "generate_answer"),
 G (F acc "retrieve") "generate_answer"
   (add_call (CallLLM q (format_rag_docs docs) (format_chat_history h))
      (G acc "retrieve" (retrieve_world w g go q docs)))).
Proof.
intros Hl Hg Hd Hne Ha.
destruct limit as [|[|limit]]; [lia|lia|].
assert (next_node entry_node (merge_update (graph_inputs q h) (retrieved q docs))
      = inr (To NGenerateAnswer)) as Hn by (destruct docs; [done | reflexivity]).
erewrite run_from_step; [| by apply retrieve_execute_ok | exact Hn | apply cb_run].
cbv beta iota. erewrite run_from_step; [| by apply rag_answer_execute_ok | reflexivity | apply cb_run].
done.
Qed.

Lemma stream_no_documents g limit w go q h rs a acc :
3 <= limit -> graphs w !! g = Some go ->
lookup_or_retrieve go q = Some [] ->
web_search_invoke q = Some rs ->
llm_invoke q (format_rag_docs (map web_doc rs)) (format_chat_history h) = Some a ->
run_from g limit entry_node (graph_inputs q h) cb acc w =
(inr (mkGraphState (Some q) (Some (map web_doc rs)) (Some a) (Some h),
      F (F (F acc "retrieve") "web_search") "generate_answer"),
 G (F (F acc "retrieve") "web_search") "generate_answer"
   (add_call (CallLLM q (format_rag_docs (map web_doc rs)) (format_chat_history h))
      (G (F acc "retrieve") "web_search"
         (add_call (CallWebSearch q)
            (G acc "retrieve" (retrieve_world w g go q [])))))).
Proof.
intros Hl Hg Hd Hr Ha.
destruct limit as [|[|[|limit]]]; [lia|lia|lia|].
erewrite run_from_step; [| by apply retrieve_execute_ok | reflexivity | apply cb_run].
cbv beta iota. erewrite run_from_step; [| by apply web_search_execute_ok | reflexivity | apply cb_run].
cbv beta iota. erewrite run_from_step; [| by apply rag_answer_execute_ok | reflexivity | apply cb_run].
done.
Qed.
End Routes.

Lemma collect_names_run acc k u w : collect_names acc k u w = (inr (acc ++ [k]), w).
Proof. reflexivity. Qed.

(** ** Properties of the graph *)

(** C6 (Scenario A): when the retrieval for the question (cached or fresh)
    is non-empty, the graph runs exactly [retrieve] then [generate_answer]
    (no web search), the answer is the LLM's answer on those documents,
    and the only external calls are the retriever (on a cache miss) and one
    LLM call. *)
Theorem route_has_documents `{Services} g w go q h docs a :
  graphs w !! g = Some go ->
  lookup_or_retrieve go q = Some docs -> docs <> [] ->
  llm_invoke q (format_rag_docs docs) (format_chat_history h) = Some a ->
  exists w',
    graph_stream g 30 (graph_inputs q h) collect_names [] w =
      (inr (mkGraphState (Some q) (Some docs) (Some a) (Some h),
            ["retrieve"; "generate_answer"]), w')
    /\ calls w' = calls w ++ retrieve_calls go q
                  ++ [CallLLM q (format_rag_docs docs) (format_chat_history h)].
Proof.
  intros Hg Hd Hne Ha. eexists. split.
  - unfold graph_stream.
    rewrite (stream_has_documents collect_names (fun acc k => acc ++ [k]) (fun _ _ w => w)
               collect_names_run g 30 w go q h docs a []) by (done || lia); reflexivity.
  - simpl. by rewrite retrieve_world_calls, <- app_assoc.
Qed.

(** C7 (Scenario B): when the retrieval for the question is empty, the graph
    runs [retrieve], [web_search], [generate_answer]; the answer is
    generated from the web results, and the external calls are the
    retriever (on a cache miss), one web search and one LLM call. *)
Theorem route_no_documents `{Services} g w go q h rs a :
  graphs w !! g = Some go ->
  lookup_or_retrieve go q = Some [] ->
  web_search_invoke q = Some rs ->
  llm_invoke q (format_rag_docs (map web_doc rs)) (format_chat_history h) = Some a ->
  exists w',
    graph_stream g 30 (graph_inputs q h) collect_names [] w =
      (inr (mkGraphState (Some q) (Some (map web_doc rs)) (Some a) (Some h),
            ["retrieve"; "web_search"; "generate_answer"]), w')
    /\ calls w' = calls w ++ retrieve_calls go q
                  ++ [CallWebSearch q;
                      CallLLM q (format_rag_docs (map web_doc rs)) (format_chat_history h)].
Proof.
  intros Hg Hd Hr Ha. eexists. split.
  - unfold graph_stream.
    rewrite (stream_no_documents collect_names (fun acc k => acc ++ [k]) (fun _ _ w => w)
               collect_names_run g 30 w go q h rs a []) by (done || lia); reflexivity.
  - simpl. by rewrite retrieve_world_calls, <- !app_assoc.
Qed.

(** C8: the run loop terminates within the recursion limit: with any
    [recursion_limit] of at least 3 (run_graph passes 30), the run of the
    graph is the run with exactly 3 supersteps, and it never ends in
    [GraphRecursionError] unless the stream consumer raises it. *)
Theorem graph_stream_within_limit `{Services} {Acc} g limit inputs
    (cb : Acc -> string -> GraphState -> M Acc) acc w :
  3 <= limit ->
  (forall acc k u w, raised GraphRecursionError (cb acc k u w).1 = false) ->
  graph_stream g limit inputs cb acc w = graph_stream g 3 inputs cb acc w
  /\ raised GraphRecursionError (graph_stream g limit inputs cb acc w).1 = false.
Proof.
  intros Hl Hcb. unfold graph_stream. split.
  - apply run_from_fuel; simpl; lia.
  - apply run_from_not_recursion; [simpl; lia | done].
Qed.

(** C17: [RetrieveNode] memoizes per question: once it has answered a
    question, asking it again (with any state carrying the same question)
    returns the same documents without calling the retriever and without
    changing the world. *)
Theorem retrieve_memoized `{Services} g s s' w u w1 :
  retrieve_execute g s w = (inr u, w1) ->
  question s' = question s ->
  retrieve_execute g s' w1 = (inr u, w1).
Proof.
  intros Hr Hq'. destruct (retrieve_execute_inv _ _ _ _ _ Hr) as (q & go & docs & Hq & Hg & Hd & -> & ->).
  pose proof (retrieve_world_graph w g go q docs Hg Hd) as Hg'.
  rewrite (retrieve_execute_ok _ _ _ (mkGraphObj (g_db go) (<[q:=docs]> (g_cache go))) q docs);
    [| congruence | done | unfold lookup_or_retrieve; simpl; by rewrite lookup_insert_eq].
  unfold retrieve_world at 1. simpl. by rewrite lookup_insert_eq.
Qed.

(** C18: the memo cache of [RetrieveNode] is never bounded: a question not
    yet cached whose retrieval succeeds is added to the cache, every
    earlier entry is kept, and the cache grows by one entry. *)
Theorem retrieve_cache_grows `{Services} g s w go q docs :
  question s = Some q -> graphs w !! g = Some go ->
  g_cache go !! q = None -> retriever_invoke (g_db go) q = Some docs ->
  exists go', graphs (retrieve_execute g s w).2 !! g = Some go'
    /\ g_cache go' = <[q := docs]> (g_cache go)
    /\ size (g_cache go') = S (size (g_cache go)).
Proof.
  intros Hq Hg Hc Hd.
  assert (lookup_or_retrieve go q = Some docs) as Hl by (unfold lookup_or_retrieve; by rewrite Hc).
  rewrite (retrieve_execute_ok _ _ _ _ _ _ Hq Hg Hl). cbn [snd].
  rewrite (retrieve_world_graph _ _ _ _ _ Hg Hl).
  eexists; split; [done|]. split; [done|]. simpl. by apply map_size_insert_None.
Qed.

(** ** A concrete deployment for the examples

    One corpus ["LANGCHAIN_DB_INDEX_rag"] whose retriever finds one page for
    "What is RAG?" and nothing for anything else, a web search with one
    result, an LLM that echoes the question, and a graph object [0] for the
    corpus with an empty cache. *)

Definition demo_db : string := "LANGCHAIN_DB_INDEX_rag".

Definition rag_page : document :=
  mkDocument "RAG is retrieval augmented generation." (Some "rag%20intro.pdf") (Some 0%Z).

Definition rag_web : web_result :=
  mkWebResult "RAG combines retrieval with generation." "https://example.org/rag".

Definition demo_services : Services := {|
  retriever_invoke := fun db q =>
    if decide (db = demo_db) then
      if decide (q = "What is RAG?") then Some [rag_page] else Some []
    else None;
  web_search_invoke := fun _ => Some [rag_web];
  llm_invoke := fun q _ _ => Some ("Answer: " +:+ q);
  unquote := fun s => s
|}.

Definition demo_graph : graph_obj := mkGraphObj demo_db ∅.

Definition demo_world : World := mkWorld {[0 := demo_graph]} ∅ ∅ 1 [].

#[local] Existing Instance demo_services.

(** C6 witness: "What is RAG?" against the corpus: retrieve, generate. *)
Lemma route_has_documents_witness :
  exists w',
    graph_stream 0 30 (graph_inputs "What is RAG?" []) collect_names [] demo_world =
      (inr (mkGraphState (Some "What is RAG?") (Some [rag_page])
              (Some "Answer: What is RAG?") (Some []),
            ["retrieve"; "generate_answer"]), w')
    /\ calls w' = calls demo_world ++ retrieve_calls demo_graph "What is RAG?"
                  ++ [CallLLM "What is RAG?" (format_rag_docs [rag_page]) (format_chat_history [])].
Proof.
  apply route_has_documents; [reflexivity | reflexivity | discriminate | reflexivity].
Defined.

(** C7 witness: an unrelated question: retrieve, web_search, generate. *)
Lemma route_no_documents_witness :
  exists w',
    graph_stream 0 30 (graph_inputs "Who won?" []) collect_names [] demo_world =
      (inr (mkGraphState (Some "Who won?") (Some (map web_doc [rag_web]))
              (Some "Answer: Who won?") (Some []),
            ["retrieve"; "web_search"; "generate_answer"]), w')
    /\ calls w' = calls demo_world ++ retrieve_calls demo_graph "Who won?"
                  ++ [CallWebSearch "Who won?";
                      CallLLM "Who won?" (format_rag_docs (map web_doc [rag_web]))
                        (format_chat_history [])].
Proof.
  apply route_no_documents; reflexivity.
Defined.

(** C8 witness: the limit 30 of [run_graph] with the name-collecting consumer. *)
Lemma graph_stream_within_limit_witness :
  graph_stream 0 30 (graph_inputs "Who won?" []) collect_names [] demo_world
    = graph_stream 0 3 (graph_inputs "Who won?" []) collect_names [] demo_world
  /\ raised GraphRecursionError
       (graph_stream 0 30 (graph_inputs "Who won?" []) collect_names [] demo_world).1 = false.
Proof.
  apply graph_stream_within_limit; [lia | intros; reflexivity].
Defined.

(** The limit is enforced: the web-search route needs three supersteps. *)
Example recursion_limit_two :
  (graph_stream 0 2 (graph_inputs "Who won?" []) collect_names [] demo_world).1
    = inl GraphRecursionError.
Proof. vm_compute. reflexivity. Qed.

(** C17 witness: the second "What is RAG?" is served from the cache. *)
Lemma retrieve_memoized_witness :
  retrieve_execute 0 (graph_inputs "What is RAG?" [])
    (retrieve_execute 0 (graph_inputs "What is RAG?" []) demo_world).2
  = (inr (retrieved "What is RAG?" [rag_page]),
     (retrieve_execute 0 (graph_inputs "What is RAG?" []) demo_world).2).
Proof.
  apply (retrieve_memoized 0 (graph_inputs "What is RAG?" []) _ demo_world); reflexivity.
Defined.

(** C18 witness: the first question enters the empty cache. *)
Lemma retrieve_cache_grows_witness :
  exists go', graphs (retrieve_execute 0 (graph_inputs "What is RAG?" []) demo_world).2 !! 0 = Some go'
    /\ g_cache go' = <["What is RAG?" := [rag_page]]> (g_cache demo_graph)
    /\ size (g_cache go') = S (size (g_cache demo_graph)).
Proof.
  apply retrieve_cache_grows; reflexivity.
Defined.
