(* ===== verification/Progress.v ===== *)
(** * Progress reporting of a request ([src/app.py])

    [run_graph] (lines 313-370) runs the compiled graph twice for one
    question: first with [graph.stream], whose chunks go through
    [process_steps] and put one label per newly seen node name into the
    queue registered for the thread id, then — after putting ["DONE"] —
    with [graph.invoke] for the returned state.  On an exception it puts
    ["DONE"] and re-raises.  The queue is found or created in
    [progress_queues] ([queue_for]).

    The theorems: the last message of the queue is always ["DONE"], on
    every outcome; the labels put for Scenario A and B; the external calls
    of one request (the LLM, and the web search when it is used, run twice);
    [run_graph] never removes the queue it registered. *)

From S2P Require Import Prelude Types History Rag Graph.

(** The [actions] dictionary of [run_graph] (lines 337-343). *)
Definition actions (key : string) : option string :=
  if decide (key = "retrieve") then Some "🔍 문서를 조회하는 중입니다."
  else if decide (key = "grade_documents") then Some "👀 조회한 문서 중 중요한 내용을 추려내는 중입니다."
  else if decide (key = "rag_answer") then Some "🔥 문서를 기반으로 답변을 생성하는 중입니다."
  else if decide (key = "general_answer") then Some "🔥 문서를 기반으로 답변을 생성하는 중입니다."
  else if decide (key = "web_search") then Some "🛜 웹 검색을 진행하는 중입니다."
  else None.

(** One key of a chunk in [process_steps] (lines 350-354): a known key not
    yet processed is recorded and its label put into the queue [q]. *)
Definition process_key (q : nat) (processed : gset string) (key : string) : M (gset string) :=
  match actions key with
  | Some msg =>
      if decide (key ∈ processed) then mret processed
      else queue_put q msg;; mret ({[key]} ∪ processed)
  | None => mret processed
  end.

(** [process_steps(output)] over the keys of one chunk. *)
Definition process_steps (q : nat) (processed : gset string) (keys : list string) : M (gset string) :=
  fold_m (process_key q) processed keys.

(** The stream consumer of [run_graph]: a chunk [{name: update}] has the one
    key [name]. *)
Definition progress_consumer (q : nat) : gset string -> string -> GraphState -> M (gset string) :=
  fun processed name _ => process_steps q processed [name].

(** [if thread_id not in progress_queues: progress_queues[thread_id] =
    queue.Queue()], then [q = progress_queues[thread_id]] (lines 331-334). *)
Definition queue_for (tid : string) : M nat :=
  w ← get_st;
  match progress_queues w !! tid with
  | Some r => mret r
  | None =>
      r ← new_queue;
      modify_st (fun w => set_progress_queues (<[tid := r]> (progress_queues w)) w);;
      mret r
  end.

(** [RunnableConfig(recursion_limit=30, ...)] *)
Definition recursion_limit : nat := 30.

Section RunGraph.
Context `{Services}.

(** [run_graph(graph, query, thread_id)] for the graph object [g], in the
session [s] whose history becomes the graph's [chat_history]. *)
Definition run_graph (g : nat) (query tid : string) (s : session) : M GraphState :=
let inputs := graph_inputs query (get_message_history s) in
q ← queue_for tid;
TRY (_ ← graph_stream g recursion_limit inputs (progress_consumer q) ∅;
   queue_put q "DONE";;
   graph_invoke g recursion_limit inputs)
EXCEPT (fun e => queue_put q "DONE";; raise e).
End RunGraph.

(** ** What the pieces do to the store *)

(** [progress_consumer] as a pure update of its set and a queue write. *)
Definition processed_after (p : gset string) (k : string) : gset string :=
  match actions k with
  | Some _ => if decide (k ∈ p) then p else {[k]} ∪ p
  | None => p
  end.

Definition consumer_world (q : nat) (p : gset string) (k : string) (w : World) : World :=
  match actions k with
  | Some m => if decide (k ∈ p) then w else put_world q m w
  | None => w
  end.

Lemma progress_consumer_run q p k u w :
  progress_consumer q p k u w = (inr (processed_after p k), consumer_world q p k w).
Proof.
  unfold progress_consumer, process_steps, processed_after, consumer_world, process_key; simpl.
  destruct (actions k); [|reflexivity]. case_decide; reflexivity.
Qed.

(** Two stores that agree on the queues and on the registry. *)
Definition same_queues (w w' : World) : Prop :=
  queues w' = queues w /\ progress_queues w' = progress_queues w.

#[export] Instance same_queues_preorder : PreOrder same_queues.
Proof.
  split; [by intros w|]. intros w1 w2 w3 [H1 H2] [H3 H4]. split; congruence.
Qed.

Lemma run_node_same_queues `{Services} g n s w : same_queues w (run_node g n s w).2.
Proof.
  destruct n; simpl;
    unfold retrieve_execute, web_search_execute, rag_answer_execute, rag_chain_invoke,
      external, get_key, cache_store; unfold_m;
    repeat (case_match; simplify_eq; simpl); done.
Qed.

(** A relation on stores that every node and the consumer respect holds
    between the store before and after a run. *)
Lemma run_from_preserves `{Services} {Acc} (R : World -> World -> Prop) `{!PreOrder R}
    g f n s (cb : Acc -> string -> GraphState -> M Acc) acc w :
  (forall n s w, R w (run_node g n s w).2) ->
  (forall acc k u w, R w (cb acc k u w).2) ->
  R w (run_from g f n s cb acc w).2.
Proof.
  intros Hn Hcb. revert n s acc w.
  induction f as [|f IH]; intros n s acc w; simpl; [reflexivity|].
  rewrite run_bind. specialize (Hn n s w).
  destruct (run_node g n s w) as [[e|u] w1]; [done|].
  rewrite run_bind. unfold lift.
  destruct (next_node n (merge_update s u)) as [e|t]; [done|].
  rewrite run_ret, run_bind. specialize (Hcb acc (node_name n) u w1).
  destruct (cb acc (node_name n) u w1) as [[e|acc'] w2]; [simpl in *; by etrans|].
  destruct t as [n'|]; simpl in *; [|by etrans].
  etrans; [exact Hn|]. etrans; [exact Hcb|]. apply IH.
Qed.

Lemma graph_invoke_same_queues `{Services} g l inputs w :
  same_queues w (graph_invoke g l inputs w).2.
Proof.
  unfold graph_invoke. rewrite run_bind.
  pose proof (run_from_preserves same_queues g l entry_node inputs no_consumer tt w
                (run_node_same_queues g) ltac:(intros; unfold_m; split; reflexivity)) as Hs.
  unfold graph_stream. destruct (run_from _ _ _ _ _ _ w) as [[e|[st acc]] w1]; done.
Qed.

(** The queue a request writes into exists once [queue_for] returned it,
    provided the registry only names existing queues and fresh references
    are unused. *)
Definition registry_ok (w : World) : Prop :=
  (forall t r, progress_queues w !! t = Some r -> is_Some (queues w !! r))
  /\ queues w !! next_ref w = None.

Lemma queue_for_ok tid w r w0 :
  registry_ok w -> queue_for tid w = (inr r, w0) ->
  progress_queues w0 !! tid = Some r /\ is_Some (queues w0 !! r)
  /\ graphs w0 = graphs w /\ calls w0 = calls w.
Proof.
  intros [Hreg Hfresh]. unfold queue_for, new_queue. unfold_m.
  destruct (progress_queues w !! tid) as [r'|] eqn:Ht; intros Hq; simplify_eq.
  - split; [done|]. split; [by eapply Hreg|done].
  - simpl. split; [by simplify_map_eq|]. split; [by simplify_map_eq|done].
Qed.

Lemma lookup_put_world_eq q m w :
  queues (put_world q m w) !! q = (fun l => l ++ [m]) <$> queues w !! q.
Proof. unfold put_world. simpl. by rewrite lookup_alter_eq. Qed.

#[export] Hint Rewrite lookup_put_world_eq : rag_run.

Lemma graphs_consumer_world q p k w : graphs (consumer_world q p k w) = graphs w.
Proof. unfold consumer_world. by repeat case_match. Qed.

Lemma calls_consumer_world q p k w : calls (consumer_world q p k w) = calls w.
Proof. unfold consumer_world. by repeat case_match. Qed.

Lemma queues_retrieve_world `{Services} w g go q docs :
  queues (retrieve_world w g go q docs) = queues w.
Proof. unfold retrieve_world. by case_match. Qed.

Lemma graphs_put_world r m w : graphs (put_world r m w) = graphs w.
Proof. reflexivity. Qed.

Lemma calls_put_world r m w : calls (put_world r m w) = calls w.
Proof. reflexivity. Qed.

Lemma queues_add_call c w : queues (add_call c w) = queues w.
Proof. reflexivity. Qed.

Lemma graphs_add_call c w : graphs (add_call c w) = graphs w.
Proof. reflexivity. Qed.

Lemma consumer_world_unlabelled q p k w : actions k = None -> consumer_world q p k w = w.
Proof. unfold consumer_world. by intros ->. Qed.

Lemma consumer_world_new q p k m w :
  actions k = Some m -> k ∉ p -> consumer_world q p k w = put_world q m w.
Proof. unfold consumer_world. intros -> Hk. by case_decide. Qed.

#[export] Hint Rewrite graphs_consumer_world calls_consumer_world
  graphs_put_world calls_put_world queues_add_call graphs_add_call : rag_run.

(** [run_graph] when the stream succeeds and the second run succeeds. *)
Lemma run_graph_ok `{Services} g query tid s w r w0 st P W1 st' W3 :
  queue_for tid w = (inr r, w0) ->
  graph_stream g recursion_limit (graph_inputs query (get_message_history s))
    (progress_consumer r) ∅ w0 = (inr (st, P), W1) ->
  graph_invoke g recursion_limit (graph_inputs query (get_message_history s))
    (put_world r "DONE" W1) = (inr st', W3) ->
  run_graph g query tid s w = (inr st', W3).
Proof.
  intros Hq Hs Hi. unfold run_graph. rewrite (run_bind_ok _ _ _ _ _ Hq).
  apply run_catch_ok. rewrite (run_bind_ok _ _ _ _ _ Hs). exact Hi.
Qed.

(** The second run of a request, once the first one has cached the
    retrieval of [q] in the graph object [g]. *)
Lemma invoke_cached_has_documents `{Services} g w go q h docs a :
  graphs w !! g = Some go -> g_cache go !! q = Some docs -> docs <> [] ->
  llm_invoke q (format_rag_docs docs) (format_chat_history h) = Some a ->
  graph_invoke g recursion_limit (graph_inputs q h) w =
    (inr (mkGraphState (Some q) (Some docs) (Some a) (Some h)),
     add_call (CallLLM q (format_rag_docs docs) (format_chat_history h)) w).
Proof.
  intros Hg Hc Hne Ha. unfold graph_invoke, graph_stream. rewrite run_bind.
  rewrite (stream_has_documents no_consumer (fun _ _ => tt) (fun _ _ w => w)
             ltac:(reflexivity) g recursion_limit w go q h docs a tt);
    [| unfold recursion_limit; lia | done | unfold lookup_or_retrieve; by rewrite Hc | done | done].
  unfold retrieve_world. by rewrite Hc.
Qed.

Lemma invoke_cached_no_documents `{Services} g w go q h rs a :
  graphs w !! g = Some go -> g_cache go !! q = Some [] ->
  web_search_invoke q = Some rs ->
  llm_invoke q (format_rag_docs (map web_doc rs)) (format_chat_history h) = Some a ->
  graph_invoke g recursion_limit (graph_inputs q h) w =
    (inr (mkGraphState (Some q) (Some (map web_doc rs)) (Some a) (Some h)),
     add_call (CallLLM q (format_rag_docs (map web_doc rs)) (format_chat_history h))
       (add_call (CallWebSearch q) w)).
Proof.
  intros Hg Hc Hr Ha. unfold graph_invoke, graph_stream. rewrite run_bind.
  rewrite (stream_no_documents no_consumer (fun _ _ => tt) (fun _ _ w => w)
             ltac:(reflexivity) g recursion_limit w go q h rs a tt);
    [| unfold recursion_limit; lia | done | unfold lookup_or_retrieve; by rewrite Hc | done | done].
  unfold retrieve_world. by rewrite Hc.
Qed.

(** [queue_for] never raises. *)
Lemma queue_for_total tid w : exists r w0, queue_for tid w = (inr r, w0).
Proof. unfold queue_for, new_queue. unfold_m. destruct (progress_queues w !! tid); eauto. Qed.

Lemma queue_for_preserves tid w r w0 :
  queue_for tid w = (inr r, w0) -> graphs w0 = graphs w /\ calls w0 = calls w.
Proof.
  unfold queue_for, new_queue. unfold_m.
  destruct (progress_queues w !! tid); intros Hq; simplify_eq; done.
Qed.

(** The labels [run_graph] publishes. *)
Definition label_retrieve : string := "🔍 문서를 조회하는 중입니다.".
Definition label_web_search : string := "🛜 웹 검색을 진행하는 중입니다.".

Lemma actions_retrieve : actions "retrieve" = Some label_retrieve.
Proof. reflexivity. Qed.
Lemma actions_web_search : actions "web_search" = Some label_web_search.
Proof. reflexivity. Qed.
Lemma actions_generate_answer : actions "generate_answer" = None.
Proof. reflexivity. Qed.

(** ** Properties of a request *)

(** Scenario A through [run_graph]: the answer, the queue and the calls. *)
Lemma run_graph_has_documents_run `{Services} g query tid s w r w0 msgs go docs a :
  queue_for tid w = (inr r, w0) -> queues w0 !! r = Some msgs ->
  graphs w !! g = Some go ->
  lookup_or_retrieve go query = Some docs -> docs <> [] ->
  llm_invoke query (format_rag_docs docs) (format_chat_history (get_message_history s)) = Some a ->
  exists w',
    run_graph g query tid s w =
      (inr (mkGraphState (Some query) (Some docs) (Some a) (Some (get_message_history s))), w')
    /\ queues w' !! r = Some (msgs ++ [label_retrieve; "DONE"])
    /\ calls w' = calls w ++ retrieve_calls go query
         ++ [CallLLM query (format_rag_docs docs) (format_chat_history (get_message_history s));
             CallLLM query (format_rag_docs docs) (format_chat_history (get_message_history s))].
Proof.
  intros Hq Hm Hg Hd Hne Ha.
  destruct (queue_for_preserves _ _ _ _ Hq) as [Hg0 Hc0]. rewrite <- Hg0 in Hg.
  pose proof (stream_has_documents (progress_consumer r) processed_after (consumer_world r)
                (progress_consumer_run r) g recursion_limit w0 go query (get_message_history s)
                docs a ∅ ltac:(unfold recursion_limit; lia) Hg Hd Hne Ha) as Hs.
  eexists; split.
  { eapply run_graph_ok; [exact Hq | exact Hs |].
    apply (invoke_cached_has_documents _ _ (mkGraphObj (g_db go) (<[query:=docs]> (g_cache go))));
      [| simpl; by rewrite lookup_insert_eq | done | done].
    autorewrite with rag_run. by apply retrieve_world_graph. }
  rewrite consumer_world_unlabelled by reflexivity.
  rewrite (consumer_world_new r ∅ "retrieve" label_retrieve) by (reflexivity || set_solver).
  split.
  - autorewrite with rag_run. rewrite queues_retrieve_world, Hm. simpl. by rewrite <- app_assoc.
  - autorewrite with rag_run. rewrite retrieve_world_calls, Hc0. by rewrite <- !app_assoc.
Qed.

(** Scenario B through [run_graph]: the answer, the queue and the calls. *)
Lemma run_graph_no_documents_run `{Services} g query tid s w r w0 msgs go rs a :
  queue_for tid w = (inr r, w0) -> queues w0 !! r = Some msgs ->
  graphs w !! g = Some go ->
  lookup_or_retrieve go query = Some [] ->
  web_search_invoke query = Some rs ->
  llm_invoke query (format_rag_docs (map web_doc rs))
    (format_chat_history (get_message_history s)) = Some a ->
  exists w',
    run_graph g query tid s w =
      (inr (mkGraphState (Some query) (Some (map web_doc rs)) (Some a)
              (Some (get_message_history s))), w')
    /\ queues w' !! r = Some (msgs ++ [label_retrieve; label_web_search; "DONE"])
    /\ calls w' = calls w ++ retrieve_calls go query
         ++ [CallWebSearch query;
             CallLLM query (format_rag_docs (map web_doc rs)) (format_chat_history (get_message_history s));
             CallWebSearch query;
             CallLLM query (format_rag_docs (map web_doc rs)) (format_chat_history (get_message_history s))].
Proof.
  intros Hq Hm Hg Hd Hr Ha.
  destruct (queue_for_preserves _ _ _ _ Hq) as [Hg0 Hc0]. rewrite <- Hg0 in Hg.
  pose proof (stream_no_documents (progress_consumer r) processed_after (consumer_world r)
                (progress_consumer_run r) g recursion_limit w0 go query (get_message_history s)
                rs a ∅ ltac:(unfold recursion_limit; lia) Hg Hd Hr Ha) as Hs.
  eexists; split.
  { eapply run_graph_ok; [exact Hq | exact Hs |].
    apply (invoke_cached_no_documents _ _ (mkGraphObj (g_db go) (<[query:=[]]> (g_cache go))));
      [| simpl; by rewrite lookup_insert_eq | done | done].
    autorewrite with rag_run. by apply retrieve_world_graph. }
  rewrite consumer_world_unlabelled by reflexivity.
  rewrite (consumer_world_new r (processed_after ∅ "retrieve") "web_search" label_web_search)
    by (reflexivity || (vm_compute; set_solver)).
  rewrite (consumer_world_new r ∅ "retrieve" label_retrieve) by (reflexivity || set_solver).
  split.
  - autorewrite with rag_run. rewrite queues_retrieve_world, Hm. simpl. by rewrite <- !app_assoc.
  - autorewrite with rag_run. rewrite retrieve_world_calls, Hc0. by rewrite <- !app_assoc.
Qed.

(** ** The queue of a request always ends with ["DONE"] *)

(** The queue [r] stays allocated and the registry is unchanged. *)
Definition keeps_queue (r : nat) (w w' : World) : Prop :=
  (is_Some (queues w !! r) -> is_Some (queues w' !! r)) /\ progress_queues w' = progress_queues w.

#[export] Instance keeps_queue_preorder r : PreOrder (keeps_queue r).
Proof.
  split; [by intros w|]. intros w1 w2 w3 [H1 H2] [H3 H4]. split; [auto | congruence].
Qed.

Lemma same_queues_keeps r w w' : same_queues w w' -> keeps_queue r w w'.
Proof. intros [Hq Hp]. split; [by rewrite Hq | done]. Qed.

Lemma put_world_keeps r q m w : keeps_queue r w (put_world q m w).
Proof.
  split; [|done]. unfold put_world; simpl. intros Hr. by apply lookup_alter_is_Some.
Qed.

Lemma progress_consumer_keeps r q p k u w : keeps_queue r w (progress_consumer q p k u w).2.
Proof.
  rewrite progress_consumer_run. unfold consumer_world; simpl.
  repeat case_match; [reflexivity | apply put_world_keeps | reflexivity].
Qed.

Lemma stream_keeps `{Services} r g l inputs q w :
  keeps_queue r w (graph_stream g l inputs (progress_consumer q) ∅ w).2.
Proof.
  unfold graph_stream. apply run_from_preserves; [apply _| |].
  - intros. apply same_queues_keeps, run_node_same_queues.
  - intros. apply progress_consumer_keeps.
Qed.

Lemma put_done_last r W :
  is_Some (queues W !! r) -> exists msgs, queues (put_world r "DONE" W) !! r = Some (msgs ++ ["DONE"]).
Proof. intros [l Hl]. rewrite lookup_put_world_eq, Hl. eauto. Qed.

(** C4 (liveness of the progress stream): whatever happens during a
    request — success, a failure in the streamed run, a failure in the
    second run — the last message of the request's queue is ["DONE"], and
    the queue stays registered under the thread id ([run_graph] never
    removes it). *)
Theorem run_graph_done_last `{Services} g query tid s w r w0 :
  registry_ok w -> queue_for tid w = (inr r, w0) ->
  progress_queues (run_graph g query tid s w).2 !! tid = Some r
  /\ exists msgs, queues (run_graph g query tid s w).2 !! r = Some (msgs ++ ["DONE"]).
Proof.
  intros Hok Hq. destruct (queue_for_ok _ _ _ _ Hok Hq) as (Hreg & Hr & _ & _).
  unfold run_graph. rewrite (run_bind_ok _ _ _ _ _ Hq). unfold catch.
  pose proof (stream_keeps r g recursion_limit
                (graph_inputs query (get_message_history s)) r w0) as [Hk Hp].
  rewrite run_bind.
  destruct (graph_stream _ _ _ _ _ w0) as [[e|[st P]] W1]; simpl in *;
    unfold queue_put; rewrite ?run_bind; simpl.
  - split; [congruence|]. by apply put_done_last, Hk.
  - pose proof (graph_invoke_same_queues g recursion_limit
                  (graph_inputs query (get_message_history s)) (put_world r "DONE" W1)) as [Hq3 Hp3].
    destruct (put_done_last r W1 (Hk Hr)) as [msgs Hm].
    destruct (graph_invoke _ _ _ _) as [[e|st'] W3]; simpl in *.
    + split; [congruence|]. apply put_done_last. rewrite Hq3, Hm. eauto.
    + split; [congruence|]. rewrite Hq3. eauto.
Qed.

(** ** Examples *)

#[local] Existing Instance demo_services.

(** The demo deployment with thread "t1" registered to the empty queue 1. *)
Definition demo_world_t1 : World :=
  mkWorld {[0 := demo_graph]} {[1 := []]} {["t1" := 1]} 2 [].

Lemma demo_world_t1_ok : registry_ok demo_world_t1.
Proof.
  split; [|reflexivity]. intros t r Ht. simpl in Ht.
  apply lookup_singleton_Some in Ht as [<- <-]. by eexists.
Qed.

(** C4 witness: a request on "t1" for a question the corpus does not
    answer ends its queue with "DONE". *)
Lemma run_graph_done_last_witness :
  progress_queues (run_graph 0 "Who won?" "t1" (mkSession None None None) demo_world_t1).2 !! "t1"
    = Some 1
  /\ exists msgs, queues (run_graph 0 "Who won?" "t1" (mkSession None None None) demo_world_t1).2 !! 1
                   = Some (msgs ++ ["DONE"]).
Proof.
  apply (run_graph_done_last 0 "Who won?" "t1" (mkSession None None None) demo_world_t1 1 demo_world_t1);
    [exact demo_world_t1_ok | reflexivity].
Defined.
