(* ===== verification/Stream.v ===== *)
(** * The progress stream endpoint ([src/app.py], [stream_progress])

    [stream_progress] (lines 183-219) picks the queue of the requested
    thread id — or, when the id is missing or not registered, registers a
    fresh queue under a new id made from the clock — and returns a
    generator.  The generator yields an initial message, then polls the
    queue with one-second timeouts: a message resets the count of empty
    polls, ["DONE"] ends the loop, and 60 consecutive empty polls end it
    too.  It then yields [{"done": true}] and, when resumed once more,
    deletes the thread id from [progress_queues].

    The generator is modelled as a state machine [gen_state] with one
    [consumer_step] per [next()] (a poll that times out is a step with no
    output); a client that disconnects closes the generator ([gen_close]),
    which in Python raises [GeneratorExit] at the suspended [yield] and
    skips the cleanup.  [run_consumer] iterates steps with fuel.

    The theorems: the consumer drains a queue and stops at ["DONE"]; it
    stops after 60 empty polls otherwise (Scenario C); in both cases it
    removes the registry entry; the end-to-end outputs of Scenario A and B;
    and the leaks: a disconnected client, and a subscription that arrives
    before the request registered its queue. *)

From S2P Require Import Prelude Types History Rag Graph Progress.

(** Server-sent events: [{'step': msg}] and [{"done": true}]. *)
Inductive sse := SStep (msg : string) | SDone.

#[export] Instance sse_eq_dec : EqDecision sse.
Proof. solve_decision. Defined.

Definition initial_step : string := "🧑‍💻 질문의 의도를 분석하는 중입니다.".

(** [while timeout_counter < 60] *)
Definition max_empty_polls : nat := 60.

(** A new queue registered under the id [now]. *)
Definition fresh_registration (now : string) : M string :=
  r ← new_queue;
  modify_st (fun w => set_progress_queues (<[now := r]> (progress_queues w)) w);;
  mret now.

(** [stream_progress()] up to [Response(generate(), ...)] (lines 186-191):
    the thread id the generator will read, given the request argument [arg]
    and the clock reading [now] ([str(time.time())]).  A missing or empty
    id, or one not in [progress_queues], is replaced by [now]. *)
Definition stream_open (arg : option string) (now : string) : M string :=
  w ← get_st;
  match arg with
  | Some t =>
      if decide (t <> "" /\ is_Some (progress_queues w !! t)) then mret t
      else fresh_registration now
  | None => fresh_registration now
  end.

(** Where the generator is suspended. *)
Inductive gen_state :=
| GStart                          (** created, not started *)
| GPolling (q : nat) (count : nat) (** in the loop, [timeout_counter = count] *)
| GDoneYielded                    (** suspended at [yield "data: {done: true}"] *)
| GClosed.                        (** finished or closed *)

#[export] Instance gen_state_eq_dec : EqDecision gen_state.
Proof. solve_decision. Defined.

(** [q.get(block=True, timeout=1.0)]: the first message, or [None] when the
    queue stayed empty for the second. *)
Definition queue_get (q : nat) : M (option string) :=
  w ← get_st;
  match queues w !! q with
  | None => raise DanglingObject
  | Some [] => mret None
  | Some (m :: rest) => put_st (set_queues (<[q := rest]> (queues w)) w);; mret (Some m)
  end.

(** [if thread_id in progress_queues: del progress_queues[thread_id]] *)
Definition cleanup (tid : string) : M unit :=
  modify_st (fun w => set_progress_queues (delete tid (progress_queues w)) w).

(** One [next()] of [generate()] for the thread id [tid] (lines 193-217):
    the events it yields and where it stops. *)
Definition consumer_step (tid : string) (st : gen_state) : M (list sse * gen_state) :=
  match st with
  | GStart =>
      w ← get_st;
      match progress_queues w !! tid with
      | None => raise (KeyError tid)
      | Some q => mret ([SStep initial_step], GPolling q 0)
      end
  | GPolling q n =>
      if decide (n < max_empty_polls) then
        m ← queue_get q;
        match m with
        | None => mret ([], GPolling q (S n))
        | Some msg =>
            if decide (msg = "DONE") then mret ([SDone], GDoneYielded)
            else mret ([SStep msg], GPolling q 0)
        end
      else mret ([SDone], GDoneYielded)
  | GDoneYielded => cleanup tid;; mret ([], GClosed)
  | GClosed => mret ([], GClosed)
  end.

(** The client went away: [generator.close()] ends the generator where it
    is suspended, without running the rest of its body. *)
Definition gen_close (st : gen_state) : gen_state := GClosed.

(** Up to [fuel] steps of the generator, with no other thread running. *)
Fixpoint run_consumer (fuel : nat) (tid : string) (st : gen_state) : M (list sse * gen_state) :=
  match fuel with
  | 0 => mret ([], st)
  | S f =>
      match st with
      | GClosed => mret ([], GClosed)
      | _ =>
          '(out, st') ← consumer_step tid st;
          '(out', st'') ← run_consumer f tid st';
          mret (out ++ out', st'')
      end
  end.

(** The store after the generator's cleanup. *)
Definition cleaned (tid : string) (w : World) : World :=
  set_progress_queues (delete tid (progress_queues w)) w.

(** ** One step of the generator *)

Section Steps.
Context (tid : string) (q : nat).

Lemma step_message n w m rest :
n < max_empty_polls -> queues w !! q = Some (m :: rest) -> m <> "DONE" ->
consumer_step tid (GPolling q n) w =
(inr ([SStep m], GPolling q 0), set_queues (<[q := rest]> (queues w)) w).
Proof.
intros Hn Hq Hm. unfold consumer_step, queue_get. rewrite decide_True by done.
unfold_m. rewrite Hq. by rewrite decide_False.
Qed.

Lemma step_done n w rest :
n < max_empty_polls -> queues w !! q = Some ("DONE" :: rest) ->
consumer_step tid (GPolling q n) w =
(inr ([SDone], GDoneYielded), set_queues (<[q := rest]> (queues w)) w).
Proof.
intros Hn Hq. unfold consumer_step, queue_get. rewrite decide_True by done.
unfold_m. by rewrite Hq.
Qed.

Lemma step_empty n w :
n < max_empty_polls -> queues w !! q = Some [] ->
consumer_step tid (GPolling q n) w = (inr ([], GPolling q (S n)), w).
Proof.
intros Hn Hq. unfold consumer_step, queue_get. rewrite decide_True by done.
unfold_m. by rewrite Hq.
Qed.

Lemma step_timeout w :
consumer_step tid (GPolling q max_empty_polls) w = (inr ([SDone], GDoneYielded), w).
Proof. unfold consumer_step. rewrite decide_False by lia. reflexivity. Qed.
End Steps.

Lemma step_cleanup tid w : consumer_step tid GDoneYielded w = (inr ([], GClosed), cleaned tid w).
Proof. reflexivity. Qed.

Lemma run_consumer_closed f tid w : run_consumer f tid GClosed w = (inr ([], GClosed), w).
Proof. by destruct f. Qed.

Lemma run_consumer_cons f tid st w out st' w1 out' st'' w2 :
  st <> GClosed ->
  consumer_step tid st w = (inr (out, st'), w1) ->
  run_consumer f tid st' w1 = (inr (out', st''), w2) ->
  run_consumer (S f) tid st w = (inr (out ++ out', st''), w2).
Proof.
  intros Hst Hs Hr. simpl.
  assert (run_consumer_body :
    ('(out, st') ← consumer_step tid st; '(out', st'') ← run_consumer f tid st';
     mret (out ++ out', st'')) w = (inr (out ++ out', st''), w2)).
  { rewrite run_bind, Hs. simpl. by rewrite run_bind, Hr. }
  destruct st; done.
Qed.

(** ** Draining a queue with no producer running *)

Section Drain.
Context (tid : string) (q : nat).

Lemma drain_empty k : forall n w,
queues w !! q = Some [] -> n <= max_empty_polls ->
run_consumer (max_empty_polls - n + 2 + k) tid (GPolling q n) w
= (inr ([SDone], GClosed), cleaned tid w).
Proof.
intros n w Hq. remember (max_empty_polls - n) as d eqn:Hd. revert n Hd.
induction d as [|d IH]; intros n Hd Hn.
- assert (n = max_empty_polls) as -> by lia.
eapply (run_consumer_cons _ _ _ _ [SDone] _ _ []); [done | apply step_timeout |].
eapply (run_consumer_cons _ _ _ _ [] _ _ []); [done | apply step_cleanup |].
apply run_consumer_closed.
- eapply (run_consumer_cons _ _ _ _ []); [done | apply step_empty; [lia | done] |].
replace (S d + 2 + k) with (S (d + 2 + k)) by lia.
simpl. apply (IH (S n)); lia.
Qed.
End Drain.

Section DrainMessages.
Context (tid : string) (q : nat).

Lemma drain_messages k : forall msgs w,
queues w !! q = Some msgs -> "DONE" ∉ msgs ->
run_consumer (length msgs + max_empty_polls + 2 + k) tid (GPolling q 0) w
= (inr (map SStep msgs ++ [SDone], GClosed),
   cleaned tid (set_queues (<[q := []]> (queues w)) w)).
Proof.
induction msgs as [|m rest IH]; intros w Hq Hd.
- rewrite insert_id by done. destruct w. apply (drain_empty tid q k 0); [done | lia].
- eapply (run_consumer_cons _ _ _ _ [SStep m]);
  [done | apply step_message; [cbv; lia | exact Hq | set_solver] |].
rewrite IH; [| simpl; by rewrite lookup_insert_eq | set_solver].
simpl. by rewrite insert_insert_eq.
Qed.

Lemma drain_until_done k : forall pre post w,
queues w !! q = Some (pre ++ "DONE" :: post) -> "DONE" ∉ pre ->
run_consumer (length pre + 2 + k) tid (GPolling q 0) w
= (inr (map SStep pre ++ [SDone], GClosed),
   cleaned tid (set_queues (<[q := post]> (queues w)) w)).
Proof.
induction pre as [|m rest IH]; intros post w Hq Hd; simpl in Hq.
- eapply (run_consumer_cons _ _ _ _ [SDone] _ _ []); [done | apply step_done; [cbv; lia | exact Hq] |].
eapply (run_consumer_cons _ _ _ _ [] _ _ []); [done | apply step_cleanup |].
apply run_consumer_closed.
- eapply (run_consumer_cons _ _ _ _ [SStep m]);
  [done | apply step_message; [cbv; lia | exact Hq | set_solver] |].
rewrite (IH post); [| simpl; by rewrite lookup_insert_eq | set_solver].
simpl. by rewrite insert_insert_eq.
Qed.
End DrainMessages.

Lemma step_start tid w q :
  progress_queues w !! tid = Some q ->
  consumer_step tid GStart w = (inr ([SStep initial_step], GPolling q 0), w).
Proof. intros Hq. unfold consumer_step. unfold_m. by rewrite Hq. Qed.

(** ** Properties of the progress stream *)

(** C9: a subscriber to a registered thread id whose queue holds the
    messages [pre], then ["DONE"], then [post] receives the initial
    message, the messages of [pre] in order and the terminal event, within
    [length pre + 3] steps (any more fuel changes nothing); it leaves
    [post] in the queue and removes the thread id from [progress_queues]. *)
Theorem subscriber_stops_at_done tid q w pre post k :
  progress_queues w !! tid = Some q ->
  queues w !! q = Some (pre ++ "DONE" :: post) -> "DONE" ∉ pre ->
  run_consumer (length pre + 3 + k) tid GStart w
    = (inr (SStep initial_step :: map SStep pre ++ [SDone], GClosed),
       cleaned tid (set_queues (<[q := post]> (queues w)) w)).
Proof.
  intros Ht Hq Hd.
  replace (length pre + 3 + k) with (S (length pre + 2 + k)) by lia.
  eapply (run_consumer_cons _ _ _ _ [SStep initial_step]); [done | by apply step_start |].
  apply drain_until_done; done.
Qed.

(** C10 (timeout, Scenario C of the spec): a subscriber whose queue never
    receives ["DONE"] receives the initial message, whatever the queue
    holds, and the terminal event after 60 further empty polls; the
    generator then removes the thread id from [progress_queues]. *)
Theorem subscriber_times_out tid q w msgs k :
  progress_queues w !! tid = Some q ->
  queues w !! q = Some msgs -> "DONE" ∉ msgs ->
  run_consumer (length msgs + max_empty_polls + 3 + k) tid GStart w
    = (inr (SStep initial_step :: map SStep msgs ++ [SDone], GClosed),
       cleaned tid (set_queues (<[q := []]> (queues w)) w)).
Proof.
  intros Ht Hq Hd.
  replace (length msgs + max_empty_polls + 3 + k) with (S (length msgs + max_empty_polls + 2 + k)) by lia.
  eapply (run_consumer_cons _ _ _ _ [SStep initial_step]); [done | by apply step_start |].
  apply drain_messages; done.
Qed.

(** ** Requests and subscribers together *)

(** A relation on stores that the nodes, the request's consumer and its
    final ["DONE"] respect holds across [run_graph]. *)
Lemma run_graph_preserves `{Services} (R : World -> World -> Prop) `{!PreOrder R}
    g query tid s w r w0 :
  queue_for tid w = (inr r, w0) ->
  (forall n s w, R w (run_node g n s w).2) ->
  (forall p k u w, R w (progress_consumer r p k u w).2) ->
  (forall w, R w (put_world r "DONE" w)) ->
  R w0 (run_graph g query tid s w).2.
Proof.
  intros Hq Hn Hc Hd. unfold run_graph. rewrite (run_bind_ok _ _ _ _ _ Hq). unfold catch.
  pose proof (run_from_preserves R g recursion_limit entry_node
                (graph_inputs query (get_message_history s)) (progress_consumer r) ∅ w0 Hn Hc) as Hs.
  rewrite run_bind. unfold graph_stream in *.
  destruct (run_from _ _ _ _ _ _ w0) as [[e|[st P]] W1]; simpl in *;
    unfold queue_put; rewrite ?run_bind; simpl.
  - etrans; [exact Hs | apply Hd].
  - pose proof (run_from_preserves R g recursion_limit entry_node
                  (graph_inputs query (get_message_history s)) no_consumer tt
                  (put_world r "DONE" W1) Hn ltac:(intros; unfold_m; reflexivity)) as Hi.
    unfold graph_invoke, graph_stream. rewrite run_bind.
    destruct (run_from _ _ _ _ _ _ (put_world r "DONE" W1)) as [[e|[st' u]] W3]; simpl in *.
    + etrans; [exact Hs|]. etrans; [apply Hd|]. etrans; [exact Hi | apply Hd].
    + etrans; [exact Hs|]. etrans; [apply Hd | exact Hi].
Qed.

(** The queue object [rs] and the registry are left alone. *)
Definition keeps_other (rs : nat) (w w' : World) : Prop :=
  queues w' !! rs = queues w !! rs /\ progress_queues w' = progress_queues w.

#[export] Instance keeps_other_preorder rs : PreOrder (keeps_other rs).
Proof. split; [by intros w|]. intros w1 w2 w3 [H1 H2] [H3 H4]. split; congruence. Qed.

Lemma put_world_keeps_other rs r m w : r <> rs -> keeps_other rs w (put_world r m w).
Proof. intros Hne. split; [|done]. simpl. by rewrite lookup_alter_ne. Qed.

(** C5 (a subscription that comes first misses the progress): when the
    browser opens [/stream_progress] for a thread id before [/ask] has
    registered it, [stream_progress] registers a fresh queue under the
    clock's id instead; the request then registers its own queue under the
    thread id, the subscriber's queue receives nothing from the request,
    and the request's queue stays registered. *)
Theorem early_subscription_misses_progress `{Services} g query tid now s w :
  registry_ok w -> progress_queues w !! tid = None -> now <> tid ->
  exists rs w1, stream_open (Some tid) now w = (inr now, w1)
    /\ progress_queues w1 !! now = Some rs /\ queues w1 !! rs = Some []
    /\ queues (run_graph g query tid s w1).2 !! rs = Some []
    /\ exists r, r <> rs /\ progress_queues (run_graph g query tid s w1).2 !! tid = Some r.
Proof.
  intros [Hreg Hfresh] Ht Hne.
  set (w1 := set_progress_queues (<[now := next_ref w]> (progress_queues w))
               (set_next_ref (S (next_ref w)) (set_queues (<[next_ref w := []]> (queues w)) w))).
  assert (stream_open (Some tid) now w = (inr now, w1)) as Ho.
  { unfold stream_open, fresh_registration, new_queue. unfold_m.
    rewrite decide_False by (rewrite Ht; intros [_ []]; discriminate). reflexivity. }
  set (w0 := set_progress_queues (<[tid := next_ref w1]> (progress_queues w1))
               (set_next_ref (S (next_ref w1)) (set_queues (<[next_ref w1 := []]> (queues w1)) w1))).
  assert (queue_for tid w1 = (inr (next_ref w1), w0)) as Hq.
  { unfold queue_for, new_queue. unfold_m. subst w1. simpl.
    by rewrite lookup_insert_ne by done; rewrite Ht. }
  exists (next_ref w), w1. split; [done|].
  split; [subst w1; simpl; by simplify_map_eq|].
  split; [subst w1; simpl; by simplify_map_eq|].
  assert (next_ref w1 <> next_ref w) as Hr by (subst w1; simpl; lia).
  destruct (run_graph_preserves (keeps_other (next_ref w)) g query tid s w1 (next_ref w1) w0 Hq)
    as [Hk Hp].
  - intros. destruct (run_node_same_queues g n s0 w2) as [Hq1 Hq2]. split; congruence.
  - intros. rewrite progress_consumer_run. unfold consumer_world.
    repeat case_match; try reflexivity. by apply put_world_keeps_other.
  - intros. by apply put_world_keeps_other.
  - split.
    + rewrite Hk. subst w0 w1. simpl. by simplify_map_eq.
    + exists (next_ref w1). split; [done|]. rewrite Hp. subst w0. simpl. by simplify_map_eq.
Qed.

Lemma queue_for_registered tid w r :
  progress_queues w !! tid = Some r -> queue_for tid w = (inr r, w).
Proof. intros Ht. unfold queue_for. unfold_m. by rewrite Ht. Qed.

Lemma run_graph_registry `{Services} g query tid s w r :
  progress_queues w !! tid = Some r ->
  progress_queues (run_graph g query tid s w).2 = progress_queues w.
Proof.
  intros Ht.
  destruct (run_graph_preserves (keeps_queue r) g query tid s w r w (queue_for_registered _ _ _ Ht))
    as [_ Hp]; [| | apply put_world_keeps | done].
  - intros. apply same_queues_keeps, run_node_same_queues.
  - intros. apply progress_consumer_keeps.
Qed.

(** C1 (Scenario A end to end): a question whose retrieval is non-empty,
    asked on a thread id registered with an empty queue, is answered by the
    LLM from the retrieved documents; the LLM is called twice with the same
    prompt; and a subscriber that reads the thread's progress afterwards
    receives the initial message, exactly one step label ([retrieve]) and
    the terminal event. *)
Theorem scenario_A_request `{Services} g query tid s w r go docs a :
  progress_queues w !! tid = Some r -> queues w !! r = Some [] ->
  graphs w !! g = Some go ->
  lookup_or_retrieve go query = Some docs -> docs <> [] ->
  llm_invoke query (format_rag_docs docs) (format_chat_history (get_message_history s)) = Some a ->
  exists w',
    run_graph g query tid s w =
      (inr (mkGraphState (Some query) (Some docs) (Some a) (Some (get_message_history s))), w')
    /\ calls w' = calls w ++ retrieve_calls go query
         ++ [CallLLM query (format_rag_docs docs) (format_chat_history (get_message_history s));
             CallLLM query (format_rag_docs docs) (format_chat_history (get_message_history s))]
    /\ run_consumer 4 tid GStart w'
       = (inr ([SStep initial_step; SStep label_retrieve; SDone], GClosed),
          cleaned tid (set_queues (<[r := []]> (queues w')) w')).
Proof.
  intros Ht Hm Hg Hd Hne Ha.
  destruct (run_graph_has_documents_run g query tid s w r w [] go docs a
              (queue_for_registered _ _ _ Ht) Hm Hg Hd Hne Ha) as (w' & Hrun & Hq & Hc).
  pose proof (run_graph_registry g query tid s w r Ht) as Hp. rewrite Hrun in Hp. simpl in Hp.
  exists w'. split; [done|]. split; [done|].
  eapply (run_consumer_cons _ _ _ _ [SStep initial_step]); [done | apply step_start; by rewrite Hp |].
  apply (drain_until_done tid r 0 [label_retrieve] []); [exact Hq | vm_compute; set_solver].
Qed.

(** C2 (Scenario B end to end): a question whose retrieval is empty is
    answered from the web results; the web search and the LLM are each
    called twice; a subscriber afterwards receives the initial message,
    the [retrieve] and [web_search] labels and the terminal event. *)
Theorem scenario_B_request `{Services} g query tid s w r go rs a :
  progress_queues w !! tid = Some r -> queues w !! r = Some [] ->
  graphs w !! g = Some go ->
  lookup_or_retrieve go query = Some [] ->
  web_search_invoke query = Some rs ->
  llm_invoke query (format_rag_docs (map web_doc rs))
    (format_chat_history (get_message_history s)) = Some a ->
  exists w',
    run_graph g query tid s w =
      (inr (mkGraphState (Some query) (Some (map web_doc rs)) (Some a)
              (Some (get_message_history s))), w')
    /\ calls w' = calls w ++ retrieve_calls go query
         ++ [CallWebSearch query;
             CallLLM query (format_rag_docs (map web_doc rs)) (format_chat_history (get_message_history s));
             CallWebSearch query;
             CallLLM query (format_rag_docs (map web_doc rs)) (format_chat_history (get_message_history s))]
    /\ run_consumer 5 tid GStart w'
       = (inr ([SStep initial_step; SStep label_retrieve; SStep label_web_search; SDone], GClosed),
          cleaned tid (set_queues (<[r := []]> (queues w')) w')).
Proof.
  intros Ht Hm Hg Hd Hr Ha.
  destruct (run_graph_no_documents_run g query tid s w r w [] go rs a
              (queue_for_registered _ _ _ Ht) Hm Hg Hd Hr Ha) as (w' & Hrun & Hq & Hc).
  pose proof (run_graph_registry g query tid s w r Ht) as Hp. rewrite Hrun in Hp. simpl in Hp.
  exists w'. split; [done|]. split; [done|].
  eapply (run_consumer_cons _ _ _ _ [SStep initial_step]); [done | apply step_start; by rewrite Hp |].
  apply (drain_until_done tid r 0 [label_retrieve; label_web_search] []);
    [exact Hq | vm_compute; set_solver].
Qed.

(** ** Examples *)

#[local] Existing Instance demo_services.

Lemma done_not_in_labels : "DONE" ∉ [label_retrieve].
Proof. apply (bool_decide_unpack _). vm_compute. reflexivity. Qed.

(** Thread "t1" whose queue holds the retrieve label and "DONE". *)
Definition world_t1_done : World :=
  mkWorld ∅ {[1 := [label_retrieve; "DONE"]]} {["t1" := 1]} 2 [].

(** C9 witness: the subscriber of "t1" gets the label and the terminal event. *)
Lemma subscriber_stops_at_done_witness :
  run_consumer (length [label_retrieve] + 3 + 0) "t1" GStart world_t1_done
  = (inr (SStep initial_step :: map SStep [label_retrieve] ++ [SDone], GClosed),
     cleaned "t1" (set_queues (<[1 := []]> (queues world_t1_done)) world_t1_done)).
Proof.
  apply (subscriber_stops_at_done "t1" 1 world_t1_done [label_retrieve] [] 0);
    [reflexivity | reflexivity | exact done_not_in_labels].
Defined.

(** The store after Scenario C's [stream_open]. *)
Definition world_scenario_C : World :=
  mkWorld {[0 := demo_graph]} {[1 := []]} {["1731.5" := 1]} 2 [].

(** Scenario C: subscribing to an id that never started registers the
    clock's id "1731.5" with a fresh queue. *)
Example scenario_C_open :
  stream_open (Some "never-started") "1731.5" demo_world = (inr "1731.5", world_scenario_C).
Proof. reflexivity. Qed.

(** C10 witness (Scenario C): that subscriber receives the initial message
    and, after 60 empty polls, the terminal event. *)
Lemma subscriber_times_out_witness :
  run_consumer (length (@nil string) + max_empty_polls + 3 + 0) "1731.5" GStart world_scenario_C
  = (inr (SStep initial_step :: map SStep [] ++ [SDone], GClosed),
     cleaned "1731.5" (set_queues (<[1 := []]> (queues world_scenario_C)) world_scenario_C)).
Proof.
  apply (subscriber_times_out "1731.5" 1 world_scenario_C [] 0);
    [reflexivity | reflexivity | apply not_elem_of_nil].
Defined.

(** C5 witness: the browser subscribes to "t1" before [/ask] registered it. *)
Lemma early_subscription_misses_progress_witness :
  exists rs w1, stream_open (Some "t1") "1731.5" demo_world = (inr "1731.5", w1)
    /\ progress_queues w1 !! "1731.5" = Some rs /\ queues w1 !! rs = Some []
    /\ queues (run_graph 0 "What is RAG?" "t1" (mkSession None None None) w1).2 !! rs = Some []
    /\ exists r, r <> rs
        /\ progress_queues (run_graph 0 "What is RAG?" "t1" (mkSession None None None) w1).2 !! "t1"
           = Some r.
Proof.
  apply early_subscription_misses_progress;
    [split; [intros t r Ht; discriminate Ht | reflexivity] | reflexivity | discriminate].
Defined.

(** C1 witness: "What is RAG?" on thread "t1". *)
Lemma scenario_A_request_witness :
  exists w',
    run_graph 0 "What is RAG?" "t1" (mkSession None None None) demo_world_t1 =
      (inr (mkGraphState (Some "What is RAG?") (Some [rag_page]) (Some "Answer: What is RAG?")
              (Some (get_message_history (mkSession None None None)))), w')
    /\ calls w' = calls demo_world_t1 ++ retrieve_calls demo_graph "What is RAG?"
         ++ [CallLLM "What is RAG?" (format_rag_docs [rag_page])
               (format_chat_history (get_message_history (mkSession None None None)));
             CallLLM "What is RAG?" (format_rag_docs [rag_page])
               (format_chat_history (get_message_history (mkSession None None None)))]
    /\ run_consumer 4 "t1" GStart w'
       = (inr ([SStep initial_step; SStep label_retrieve; SDone], GClosed),
          cleaned "t1" (set_queues (<[1 := []]> (queues w')) w')).
Proof.
  apply scenario_A_request; [reflexivity | reflexivity | reflexivity | reflexivity | discriminate | reflexivity].
Defined.

(** C2 witness: an unrelated question on thread "t1". *)
Lemma scenario_B_request_witness :
  exists w',
    run_graph 0 "Who won?" "t1" (mkSession None None None) demo_world_t1 =
      (inr (mkGraphState (Some "Who won?") (Some (map web_doc [rag_web])) (Some "Answer: Who won?")
              (Some (get_message_history (mkSession None None None)))), w')
    /\ calls w' = calls demo_world_t1 ++ retrieve_calls demo_graph "Who won?"
         ++ [CallWebSearch "Who won?";
             CallLLM "Who won?" (format_rag_docs (map web_doc [rag_web]))
               (format_chat_history (get_message_history (mkSession None None None)));
             CallWebSearch "Who won?";
             CallLLM "Who won?" (format_rag_docs (map web_doc [rag_web]))
               (format_chat_history (get_message_history (mkSession None None None)))]
    /\ run_consumer 5 "t1" GStart w'
       = (inr ([SStep initial_step; SStep label_retrieve; SStep label_web_search; SDone], GClosed),
          cleaned "t1" (set_queues (<[1 := []]> (queues w')) w')).
Proof.
  apply scenario_B_request; reflexivity.
Defined.
