(* ===== verification/Deployment.v ===== *)
(** * The pipeline with the retriever [init_retriever] builds

    The graph of [Graph] runs its [RetrieveNode] over whatever retriever
    [create_graph] hands it; in the deployed application that is the
    ensemble retriever of [Retriever] ([src/retrievers.py]).  This file
    instantiates the services of [Types] with it ([deployed_services]) and
    composes the two components: with the folder-name BM25 half, every
    retrieval on a corpus folder is non-empty, so every request takes the
    ["has_documents"] route of [create_graph_internal]
    (streamlit_wrapper.py, lines 71-78) and the web search of
    [WebSearchNode] never runs. *)

From S2P Require Import Prelude Types Retriever History Rag Graph Progress.

Section Deployed.
Variable bm25_order : list string -> string -> list nat.
Hypothesis bm25_order_perm : forall texts q, bm25_order texts q ≡ₚ seq 0 (length texts).
Variable faiss_search : string -> string -> option (list document).
Variable web_search : string -> option (list web_result).
Variable llm : string -> string -> string -> option string.
Variable unq : string -> string.

(** The services of a deployment: [RetrieveNode]'s retriever is
    [init_retriever(db_index)] of the graph's corpus folder. *)
Definition deployed_services : Services := {|
  retriever_invoke := ensemble_invoke bm25_order faiss_search;
  web_search_invoke := web_search;
  llm_invoke := llm;
  unquote := unq
|}.

#[local] Existing Instance deployed_services.

(** What the deployed retriever returns for a question on a folder. *)
Definition deployed_docs (db q : string) : list document :=
  default [] (ensemble_invoke bm25_order faiss_search db q).

Lemma deployed_lookup go q fs :
  g_cache go !! q = None -> faiss_search (g_db go) q = Some fs ->
  lookup_or_retrieve go q = Some (deployed_docs (g_db go) q).
Proof.
  intros Hc Hf. unfold lookup_or_retrieve, deployed_docs. rewrite Hc. simpl.
  unfold ensemble_invoke. by rewrite Hf.
Qed.

(** C30: with the deployed retriever, a request for a question not yet
    cached on a graph of a corpus folder takes the ["has_documents"] route:
    [run_graph] answers from the fused documents, its queue receives only
    the retrieve label and ["DONE"], and the calls it makes are one
    retriever call and two LLM calls, never a web search (Scenario B of the
    spec cannot happen in the deployed application). *)
Theorem deployed_request_skips_web_search g query tid s w r w0 msgs go fs a :
  queue_for tid w = (inr r, w0) -> queues w0 !! r = Some msgs ->
  graphs w !! g = Some go -> g_db go <> "" -> g_cache go !! query = None ->
  faiss_search (g_db go) query = Some fs ->
  llm query (format_rag_docs (deployed_docs (g_db go) query))
    (format_chat_history (get_message_history s)) = Some a ->
  exists w',
    run_graph g query tid s w =
      (inr (mkGraphState (Some query) (Some (deployed_docs (g_db go) query)) (Some a)
              (Some (get_message_history s))), w')
    /\ queues w' !! r = Some (msgs ++ [label_retrieve; "DONE"])
    /\ calls w' = calls w ++
         [CallRetriever (g_db go) query;
          CallLLM query (format_rag_docs (deployed_docs (g_db go) query)) (format_chat_history (get_message_history s));
          CallLLM query (format_rag_docs (deployed_docs (g_db go) query)) (format_chat_history (get_message_history s))].
Proof.
  intros Hq Hm Hg Hdb Hc Hf Ha.
  assert (ensemble_invoke bm25_order faiss_search (g_db go) query = Some (deployed_docs (g_db go) query)) as He
    by (unfold deployed_docs, ensemble_invoke; by rewrite Hf).
  pose proof (ensemble_nonempty bm25_order bm25_order_perm faiss_search _ _ _ Hdb He) as Hne.
  destruct (run_graph_has_documents_run g query tid s w r w0 msgs go _ a Hq Hm Hg
              (deployed_lookup go query fs Hc Hf) Hne Ha) as (w' & Hrun & Hqueue & Hcalls).
  exists w'. split; [done|]. split; [done|].
  rewrite Hcalls. unfold retrieve_calls. by rewrite Hc.
Qed.
End Deployed.

(** ** Example *)

Definition demo_llm (q ctx hist : string) : option string := Some ("Answer: " +:+ q).

Definition demo_deployed : Services :=
  deployed_services demo_bm25_order demo_faiss (fun _ => None) demo_llm (fun s => s).

#[local] Existing Instance demo_deployed.

(** C30 witness: the demo deployment's thread "t1" asks a question on the
    corpus folder of graph [0]. *)
Lemma deployed_request_skips_web_search_witness :
  exists w',
    run_graph 0 "입영 연기" "t1" (mkSession None None None) demo_world_t1 =
      (inr (mkGraphState (Some "입영 연기") (Some (deployed_docs demo_bm25_order demo_faiss demo_db "입영 연기"))
              (Some "Answer: 입영 연기") (Some (get_message_history (mkSession None None None)))), w')
    /\ queues w' !! 1 = Some ([] ++ [label_retrieve; "DONE"])
    /\ calls w' = calls demo_world_t1 ++
         [CallRetriever demo_db "입영 연기";
          CallLLM "입영 연기" (format_rag_docs (deployed_docs demo_bm25_order demo_faiss demo_db "입영 연기"))
            (format_chat_history (get_message_history (mkSession None None None)));
          CallLLM "입영 연기" (format_rag_docs (deployed_docs demo_bm25_order demo_faiss demo_db "입영 연기"))
            (format_chat_history (get_message_history (mkSession None None None)))].
Proof.
  apply (deployed_request_skips_web_search demo_bm25_order demo_bm25_order_perm demo_faiss
           (fun _ => None) demo_llm (fun s => s) 0 "입영 연기" "t1" (mkSession None None None)
           demo_world_t1 1 demo_world_t1 [] demo_graph [demo_hit]);
    reflexivity || discriminate.
Defined.
