(* ===== verification/Metadata.v ===== *)
(** * The corpus metadata file ([src/document_manager.py])

    [db_metadata.json] maps each corpus folder to its display name and
    category, and keeps under the key ["_categories"] the list of
    categories created by hand.  [load_db_metadata] (lines 82-109) reads it
    and repairs missing fields; [save_db_metadata] (lines 111-117) writes it
    back; [get_db_display_name] (119-122) and [get_all_categories]
    (124-144) read it.  The HTTP handlers [get_categories] (410-416),
    [add_category] (418-462), [delete_vector_db] (578-604),
    [delete_category] (606-641), [update_db_category] (644-712) and
    [rename_category] (715-752) each load the file, change it and save it.

    The state of these handlers is the file (absent or unreadable:
    [None]) and the set of directories of the working directory.  A file
    value keeps ["_categories"] and, for each corpus, [display_name],
    [category] and its other fields ([created_at], [chunk_size],
    [last_updated], ...) as JSON scalars; a [display_name] or [category]
    that is not a string is not modelled. *)

From S2P Require Import Prelude PyStr.

(** ** The file *)

(** [VECTOR_DB_FOLDER] (line 26). *)
Definition VECTOR_DB_FOLDER : string := "LANGCHAIN_DB_INDEX_".

(** [folder[len(VECTOR_DB_FOLDER):]] (streamlit_wrapper.py, lines 38 and
    162; app.py, line 85; document_manager.py, line 772). *)
Definition strip_db_prefix (folder : string) : string :=
  String.substring (String.length VECTOR_DB_FOLDER)
    (String.length folder - String.length VECTOR_DB_FOLDER) folder.

(** The category every corpus falls back to. *)
Definition DEFAULT_CATEGORY : string := "기타".

(** ** JSON scalars and the clock *)

(** A JSON scalar as [json.load] returns it. *)
Inductive jnum := JInt (z : Z) | JFloat (q : QArith_base.Q) | JBool (b : bool) | JText (s : string) | JNull.

(** Structural equality of JSON scalars (Python's [==] also equates
    [1], [1.0] and [True]; the development only compares with strings,
    where both agree). *)
#[export] Instance Q_eq_dec : EqDecision QArith_base.Q.
Proof.
  intros [a b] [c d]. destruct (decide (a = c)), (decide (b = d)); subst;
    [left; reflexivity | right; congruence ..].
Defined.

#[export] Instance jnum_eq_dec : EqDecision jnum.
Proof. solve_decision. Defined.

(** The truth value of a JSON scalar ([bool(v)]). *)
Definition py_truthy (v : jnum) : bool :=
  match v with
  | JInt z => bool_decide (z <> 0%Z)
  | JFloat q => negb (QArith_base.Qeq_bool q (QArith_base.inject_Z 0))
  | JBool b => b
  | JText s => bool_decide (s <> "")
  | JNull => false
  end.

(** A clock reading ([datetime.datetime.now()]). *)
Record timestamp := mkTime {
  t_year : Z; t_month : Z; t_day : Z; t_hour : Z; t_minute : Z; t_second : Z; t_micro : Z }.

(** A number in decimal, zero-padded to [width] digits. *)
Definition pad (width : nat) (z : Z) : string :=
  let s := show_Z z in
  String.string_of_list_ascii (replicate (width - String.length s)%nat (Ascii.ascii_of_nat 48)) +:+ s.

(** [datetime.isoformat()]: the microseconds only when they are not 0. *)
Definition isoformat (t : timestamp) : string :=
  pad 4 (t_year t) +:+ "-" +:+ pad 2 (t_month t) +:+ "-" +:+ pad 2 (t_day t) +:+ "T"
  +:+ pad 2 (t_hour t) +:+ ":" +:+ pad 2 (t_minute t) +:+ ":" +:+ pad 2 (t_second t)
  +:+ (if decide (t_micro t = 0%Z) then "" else "." +:+ pad 6 (t_micro t)).

(** A corpus entry as stored: [display_name] and [category] may be
    missing; the other fields of the JSON object are kept as they are. *)
Record db_raw := mkDbRaw {
  raw_display : option string; raw_category : option string; raw_extra : gmap string jnum }.

(** The file as stored: ["_categories"] may be missing. *)
Record meta_raw := mkMetaRaw { raw_categories : option (list string); raw_dbs : gmap string db_raw }.

(** A corpus entry after [load_db_metadata]: both fields present. *)
Record db_meta := mkDbMeta { display_name : string; category : string; db_extra : gmap string jnum }.

(** The dictionary [load_db_metadata] returns. *)
Record metadata := mkMetadata { categories : list string; dbs : gmap string db_meta }.

Record fs := mkFs { meta_file : option meta_raw; dirs : gset string }.

Definition set_meta_file (m : option meta_raw) (f : fs) : fs := mkFs m (dirs f).

(** [key.replace(VECTOR_DB_FOLDER, '')] *)
Definition default_display (key : string) : string := str_replace VECTOR_DB_FOLDER "" key.

(** The repair of one entry (lines 96-102): an absent or empty field is set. *)
Definition repair_entry (key : string) (e : db_raw) : db_meta :=
  mkDbMeta (match raw_display e with
            | Some d => if decide (d = "") then default_display key else d
            | None => default_display key
            end)
           (match raw_category e with
            | Some c => if decide (c = "") then DEFAULT_CATEGORY else c
            | None => DEFAULT_CATEGORY
            end)
           (raw_extra e).

(** [load_db_metadata()] (lines 82-109). *)
Definition load_db_metadata (f : option meta_raw) : metadata :=
  match f with
  | None => mkMetadata [DEFAULT_CATEGORY] ∅
  | Some m => mkMetadata (default [] (raw_categories m))
                         (map_imap (fun k e => Some (repair_entry k e)) (raw_dbs m))
  end.

(** [save_db_metadata(metadata)] (lines 111-117). *)
Definition save_db_metadata (m : metadata) : option meta_raw :=
  Some (mkMetaRaw (Some (categories m))
                  ((fun e => mkDbRaw (Some (display_name e)) (Some (category e)) (db_extra e)) <$> dbs m)).

(** The key ["_categories"]: after loading it is always present, and it is
    not a corpus entry, so [metadata[db_id].get(...)] on it raises. *)
Definition CATEGORIES_KEY : string := "_categories".

(** [get_db_display_name(db_id)] (lines 119-122). *)
Definition get_db_display_name (f : option meta_raw) (d : string) : option string :=
  if decide (d = CATEGORIES_KEY) then None
  else Some (match dbs (load_db_metadata f) !! d with
             | Some e => display_name e
             | None => default_display d
             end).

(** The categories of [get_all_categories] before sorting (lines 127-142):
    those of the entries, those of ["_categories"], and the default. *)
Definition category_names (m : metadata) : list string :=
  filter (fun c => c <> "") (category <$> (map_to_list (dbs m)).*2)
  ++ filter (fun c => c <> "") (categories m) ++ [DEFAULT_CATEGORY].

(** [get_all_categories()] (lines 124-144): [sorted(list(set))]. *)
Definition get_all_categories (f : option meta_raw) : list string :=
  sort_uniq (category_names (load_db_metadata f)).

(** ["기타" not in categories: categories.append("기타")] *)
Definition with_default (cats : list string) : list string :=
  if decide (DEFAULT_CATEGORY ∈ cats) then cats else cats ++ [DEFAULT_CATEGORY].

(** [list.remove(x)]: the first occurrence goes. *)
Fixpoint remove_first (x : string) (l : list string) : list string :=
  match l with
  | [] => []
  | y :: l' => if decide (x = y) then l' else y :: remove_first x l'
  end.

(** [l[l.index(x)] = y]: the first occurrence is replaced. *)
Fixpoint replace_first (x y : string) (l : list string) : list string :=
  match l with
  | [] => []
  | z :: l' => if decide (x = z) then y :: l' else z :: replace_first x y l'
  end.

(** The answers of the handlers. *)
Inductive meta_response :=
| MCategories (cats : list string)              (** 200 with the category list *)
| MCategoryChanged (db : string) (old : option string) (new : string)  (** 200 of [update_db_category] *)
| MDbDeleted (display : string)                 (** 200 of [delete_vector_db] *)
| MError (status : Z).                          (** 400, 404 or 500 *)

(** The category list a handler answers with, read back from the file. *)
Definition categories_response (f : fs) : meta_response :=
  MCategories (py_sorted (with_default (get_all_categories (meta_file f)))).

Definition set_category (c : string) (e : db_meta) : db_meta := mkDbMeta (display_name e) c (db_extra e).

(** The entry [update_db_category] creates for a corpus without one. *)
Definition new_entry (now : timestamp) (d c : string) : db_meta :=
  mkDbMeta (default_display d) c {["created_at" := JText (isoformat now)]}.

(** Every entry of category [old] moved to [new]. *)
Definition recategorize (old new : string) (m : gmap string db_meta) : gmap string db_meta :=
  (fun e => if decide (category e = old) then set_category new e else e) <$> m.

(** ** The handlers *)

(** [get_categories()] (lines 410-416). *)
Definition get_categories (f : fs) : meta_response := categories_response f.

(** [add_category()] (lines 418-462) for [{'category_name': name}]. *)
Definition add_category (name : string) (f : fs) : meta_response * fs :=
  let n := py_strip name in
  if decide (n = "") then (MError 400, f) else
  if decide (n ∈ get_all_categories (meta_file f)) then (MError 400, f) else
  let m := load_db_metadata (meta_file f) in
  let cats := if decide (n ∈ categories m) then categories m else categories m ++ [n] in
  let f' := set_meta_file (save_db_metadata (mkMetadata cats (dbs m))) f in
  (categories_response f', f').

(** [delete_category()] (lines 606-641) for [{'category_name': name}]. *)
Definition delete_category (name : string) (f : fs) : meta_response * fs :=
  let n := py_strip name in
  if decide (n = "") then (MError 400, f) else
  let m := load_db_metadata (meta_file f) in
  let cats := if decide (n ∈ categories m) then remove_first n (categories m) else categories m in
  let f' := set_meta_file (save_db_metadata (mkMetadata cats (recategorize n DEFAULT_CATEGORY (dbs m)))) f in
  (categories_response f', f').

(** The category list after [update_db_category] names [c]. *)
Definition note_category (c : string) (cats : list string) : list string :=
  if decide ((c ∉ cats) /\ c <> DEFAULT_CATEGORY) then cats ++ [c] else cats.

(** [update_db_category()] (lines 644-712) for [{'db_id': d, 'category': c}]
    at the clock reading [now]. *)
Definition update_db_category (now : timestamp) (d c : option string) (f : fs) : meta_response * fs :=
  match d, c with
  | Some d, Some c =>
      if decide (d = "" \/ c = "") then (MError 400, f) else
      if decide (d = CATEGORIES_KEY) then (MError 500, f) else
      let m := load_db_metadata (meta_file f) in
      let '(old, e) := match dbs m !! d with
                       | Some e => (Some (category e), set_category c e)
                       | None => (None, new_entry now d c)
                       end in
      let f' := set_meta_file (save_db_metadata
                  (mkMetadata (note_category c (categories m)) (<[d := e]> (dbs m)))) f in
      (MCategoryChanged d old c, f')
  | _, _ => (MError 400, f)
  end.

(** [rename_category()] (lines 715-752) for [{'old_name': o, 'new_name': n}]. *)
Definition rename_category (old new : string) (f : fs) : meta_response * fs :=
  let o := py_strip old in
  let n := py_strip new in
  if decide (o = "" \/ n = "") then (MError 400, f) else
  let m := load_db_metadata (meta_file f) in
  let cats := if decide (o ∈ categories m) then replace_first o n (categories m) else categories m in
  let f' := set_meta_file (save_db_metadata (mkMetadata cats (recategorize o n (dbs m)))) f in
  (categories_response f', f').

(** [delete_vector_db()] (lines 578-604) for [{'db_id': d}]: any existing
    directory named [d] is removed. *)
Definition delete_vector_db (d : option string) (f : fs) : meta_response * fs :=
  match d with
  | None => (MError 400, f)
  | Some d =>
      if decide (d = "") then (MError 400, f) else
      if decide (d ∈ dirs f) then
        if decide (d = CATEGORIES_KEY) then (MError 500, f) else
        let m := load_db_metadata (meta_file f) in
        let '(name, f1) := match dbs m !! d with
                           | Some e => (display_name e,
                                        set_meta_file (save_db_metadata (mkMetadata (categories m) (delete d (dbs m)))) f)
                           | None => (default_display d, f)
                           end in
        (MDbDeleted name, mkFs (meta_file f1) (dirs f1 ∖ {[d]}))
      else (MError 404, f)
  end.

(** ** Loading what was saved *)

(** Loaded metadata is repaired: every entry has a category, and an empty
    display name only where the repair itself gives the empty name. *)
Definition repaired (m : metadata) : Prop :=
  forall k e, dbs m !! k = Some e ->
    (display_name e = "" -> default_display k = "") /\ category e <> "".

Lemma lookup_load_dbs m k :
  dbs (load_db_metadata (Some m)) !! k = repair_entry k <$> raw_dbs m !! k.
Proof. simpl. rewrite map_lookup_imap. by destruct (raw_dbs m !! k). Qed.

Lemma default_category_nonempty : DEFAULT_CATEGORY <> "".
Proof. discriminate. Qed.

#[export] Hint Resolve default_category_nonempty : rag.

Lemma repair_entry_repaired k e :
  (display_name (repair_entry k e) = "" -> default_display k = "")
  /\ category (repair_entry k e) <> "".
Proof.
  destruct e as [[d|] [c|] x]; simpl; repeat case_decide; subst; split; auto with rag; done.
Qed.

Lemma load_repaired f : repaired (load_db_metadata f).
Proof.
  intros k e. destruct f as [m|]; [|simpl; by rewrite lookup_empty].
  rewrite lookup_load_dbs. destruct (raw_dbs m !! k) as [r|]; simpl; [|done].
  intros [= <-]. apply repair_entry_repaired.
Qed.

Lemma repair_saved k e :
  (display_name e = "" -> default_display k = "") -> category e <> "" ->
  repair_entry k (mkDbRaw (Some (display_name e)) (Some (category e)) (db_extra e)) = e.
Proof.
  intros Hd Hc. destruct e as [d c x]; simpl in *. unfold repair_entry; simpl.
  rewrite (decide_False _ _ Hc). case_decide; [|done]. subst. by rewrite Hd.
Qed.

(** Saving repaired metadata and loading it again gives it back. *)
Lemma load_save m : repaired m -> load_db_metadata (save_db_metadata m) = m.
Proof.
  intros Hr. destruct m as [cats db]. unfold save_db_metadata, load_db_metadata. simpl. f_equal.
  apply map_eq. intros k. rewrite map_lookup_imap, lookup_fmap.
  destruct (db !! k) as [e|] eqn:He; simpl; [|done].
  destruct (Hr k e He) as [Hd Hc]. by rewrite repair_saved.
Qed.

Lemma categories_load_save m : categories (load_db_metadata (save_db_metadata m)) = categories m.
Proof. done. Qed.

(** ** The category list *)

Lemma elem_of_category_names c m :
  c ∈ category_names m <->
  c = DEFAULT_CATEGORY \/ (c <> "" /\ (c ∈ categories m \/ exists k e, dbs m !! k = Some e /\ category e = c)).
Proof.
  unfold category_names. rewrite !elem_of_app, !list_elem_of_filter, list_elem_of_singleton.
  rewrite list_elem_of_fmap. setoid_rewrite list_elem_of_fmap.
  split.
  - intros [[Hne (e & -> & p & -> & Hp)] | [[Hne Hin] | ->]]; [| tauto | tauto].
    right. split; [done|]. right. destruct p as [k e]. apply elem_of_map_to_list in Hp. eauto.
  - intros [-> | [Hne [Hin | (k & e & Hk & <-)]]]; [tauto | tauto |].
    left. split; [done|]. exists e. split; [done|]. exists (k, e). split; [done|].
    by apply elem_of_map_to_list.
Qed.

Lemma elem_of_get_all_categories c f :
  c ∈ get_all_categories f <-> c ∈ category_names (load_db_metadata f).
Proof. apply elem_of_sort_uniq. Qed.

Lemma default_in_all f : DEFAULT_CATEGORY ∈ get_all_categories f.
Proof. apply elem_of_get_all_categories, elem_of_category_names. by left. Qed.

(** The list the handlers answer with is the sorted category list itself. *)
Lemma categories_response_eq f :
  categories_response f = MCategories (get_all_categories (meta_file f)).
Proof.
  unfold categories_response, with_default. rewrite decide_True by apply default_in_all.
  by rewrite py_sorted_id by apply sort_uniq_sorted.
Qed.

(** ** What the handlers save *)

Lemma recategorize_repaired old new cats m :
  new <> "" -> repaired m -> repaired (mkMetadata cats (recategorize old new (dbs m))).
Proof.
  intros Hn Hr k e. simpl. unfold recategorize. rewrite lookup_fmap.
  destruct (dbs m !! k) as [e0|] eqn:He; simpl; [|done]. intros [= <-].
  destruct (Hr k e0 He) as [Hd Hc]. case_decide; simpl; auto.
Qed.

Lemma repaired_categories cats m : repaired m -> repaired (mkMetadata cats (dbs m)).
Proof. done. Qed.

Lemma repaired_insert cats m k e :
  repaired m -> (display_name e = "" -> default_display k = "") -> category e <> "" ->
  repaired (mkMetadata cats (<[k := e]> (dbs m))).
Proof.
  intros Hr Hd Hc k' e'. simpl. destruct (decide (k = k')) as [<-|Hne].
  - rewrite lookup_insert_eq. intros [= <-]. auto.
  - rewrite lookup_insert_ne by done. apply Hr.
Qed.

Lemma repaired_delete cats m k : repaired m -> repaired (mkMetadata cats (delete k (dbs m))).
Proof.
  intros Hr k' e'. simpl. destruct (decide (k = k')) as [<-|Hne].
  - by rewrite lookup_delete_eq.
  - rewrite lookup_delete_ne by done. apply Hr.
Qed.

#[export] Hint Resolve load_repaired repaired_categories recategorize_repaired repaired_delete : rag.

(** [remove_first] on a list without duplicates removes every occurrence. *)
Lemma remove_first_nodup x l : NoDup l -> (x ∉ remove_first x l) /\ NoDup (remove_first x l).
Proof.
  induction 1 as [|y l Hy Hl IH]; simpl; [split; [apply not_elem_of_nil | constructor]|].
  case_decide as Hxy; [subst; split; done|].
  destruct IH as [IH1 IH2]. split.
  - rewrite elem_of_cons. intros [->|?]; done.
  - constructor; [|done]. intros Hin. apply Hy.
    clear -Hin. induction l as [|z l IHl]; simpl in *; [done|].
    case_decide; [subst; apply elem_of_cons; by right|].
    apply elem_of_cons in Hin as [->|Hin]; apply elem_of_cons; [by left | right; auto].
Qed.

Lemma replace_first_elem x y l : x ∈ l -> y ∈ replace_first x y l.
Proof.
  induction l as [|z l IH]; simpl; [by intros ?%elem_of_nil|].
  intros Hin. case_decide; [apply elem_of_cons; by left|].
  apply elem_of_cons in Hin as [->|Hin]; [done|]. apply elem_of_cons. right. auto.
Qed.

(** Renaming a category onto another one in the list, then deleting the
    latter, leaves it in the list: [list.remove] drops one occurrence. *)
Lemma remove_first_after_merge o n l :
  o <> n -> o ∈ l -> n ∈ l -> n ∈ remove_first n (replace_first o n l).
Proof.
  intros Hne. induction l as [|z l IH]; simpl; [by intros ?%elem_of_nil|].
  intros Ho Hn. case_decide as Hoz.
  - subst z. simpl. rewrite decide_True by done.
    apply elem_of_cons in Hn as [->|Hn]; [done | done].
  - apply elem_of_cons in Ho as [->|Ho]; [done|].
    simpl. case_decide as Hnz.
    + by apply replace_first_elem.
    + apply elem_of_cons in Hn as [->|Hn]; [done|]. apply elem_of_cons. right. auto.
Qed.

Lemma nodup_snoc (x : string) l : x ∉ l -> NoDup l -> NoDup (l ++ [x]).
Proof.
  intros Hx Hl. apply NoDup_app. split; [done|]. split; [|apply NoDup_singleton].
  intros y Hy ->%list_elem_of_singleton. done.
Qed.

Lemma note_category_nodup c l : NoDup l -> NoDup (note_category c l).
Proof. unfold note_category. case_decide as H; [|done]. intros. apply nodup_snoc; [apply H | done]. Qed.

(** A non-empty name of the category list of the file is listed. *)
Lemma listed_of_categories c f :
  c <> "" -> c ∈ categories (load_db_metadata f) -> c ∈ get_all_categories f.
Proof. intros. apply elem_of_get_all_categories, elem_of_category_names. tauto. Qed.

(** The file after [add_category] on a new, non-empty name. *)
Lemma add_category_run name f :
  py_strip name <> "" -> py_strip name ∉ get_all_categories (meta_file f) ->
  add_category name f =
    (categories_response (set_meta_file (save_db_metadata
       (mkMetadata (categories (load_db_metadata (meta_file f)) ++ [py_strip name])
                   (dbs (load_db_metadata (meta_file f))))) f),
     set_meta_file (save_db_metadata
       (mkMetadata (categories (load_db_metadata (meta_file f)) ++ [py_strip name])
                   (dbs (load_db_metadata (meta_file f))))) f).
Proof.
  intros Hn Hl. unfold add_category. rewrite !decide_False by done.
  rewrite decide_False; [done|]. intros Hin. by apply Hl, listed_of_categories.
Qed.

(** The metadata loaded after a handler saved [m]. *)
Lemma load_saved f m :
  repaired m -> load_db_metadata (meta_file (set_meta_file (save_db_metadata m) f)) = m.
Proof. apply load_save. Qed.

(** The file after [delete_category] on a non-empty name. *)
Lemma delete_category_run name f :
  py_strip name <> "" ->
  let m := load_db_metadata (meta_file f) in
  let n := py_strip name in
  (delete_category name f).2 =
    set_meta_file (save_db_metadata
      (mkMetadata (if decide (n ∈ categories m) then remove_first n (categories m) else categories m)
                  (recategorize n DEFAULT_CATEGORY (dbs m)))) f.
Proof. intros Hn. unfold delete_category. by rewrite decide_False. Qed.

(** The file after [rename_category] on two non-empty names. *)
Lemma rename_category_run o n f :
  py_strip o <> "" -> py_strip n <> "" ->
  let m := load_db_metadata (meta_file f) in
  (rename_category o n f).2 =
    set_meta_file (save_db_metadata
      (mkMetadata (if decide (py_strip o ∈ categories m)
                   then replace_first (py_strip o) (py_strip n) (categories m) else categories m)
                  (recategorize (py_strip o) (py_strip n) (dbs m)))) f.
Proof. intros Ho Hn. unfold rename_category. rewrite decide_False; [done | tauto]. Qed.

(** The file after [update_db_category] on a corpus entry. *)
Lemma update_db_category_run now d c f :
  d <> "" -> c <> "" -> d <> CATEGORIES_KEY ->
  let m := load_db_metadata (meta_file f) in
  let e := match dbs m !! d with Some e => set_category c e | None => new_entry now d c end in
  update_db_category now (Some d) (Some c) f =
    (MCategoryChanged d (category <$> dbs m !! d) c,
     set_meta_file (save_db_metadata (mkMetadata (note_category c (categories m)) (<[d := e]> (dbs m)))) f).
Proof.
  intros Hd Hc Hk. unfold update_db_category. rewrite decide_False by tauto.
  rewrite decide_False by done. by destruct (dbs _ !! d).
Qed.

(** The file after [delete_vector_db] on an existing directory. *)
Lemma delete_vector_db_run d f :
  d <> "" -> d ∈ dirs f -> d <> CATEGORIES_KEY ->
  let m := load_db_metadata (meta_file f) in
  delete_vector_db (Some d) f =
    match dbs m !! d with
    | Some e => (MDbDeleted (display_name e),
                 mkFs (save_db_metadata (mkMetadata (categories m) (delete d (dbs m)))) (dirs f ∖ {[d]}))
    | None => (MDbDeleted (default_display d), mkFs (meta_file f) (dirs f ∖ {[d]}))
    end.
Proof.
  intros Hd Hin Hk. unfold delete_vector_db. rewrite decide_False by done.
  rewrite decide_True by done. rewrite decide_False by done. by destruct (dbs _ !! d).
Qed.

(** ** Properties of the metadata handlers *)

(** C27: the metadata file round-trips: saving what [load_db_metadata]
    returned and loading it again gives it back, and so does every
    repaired metadata a handler saves. *)
Theorem metadata_roundtrip f m :
  repaired m ->
  load_db_metadata (save_db_metadata m) = m
  /\ load_db_metadata (save_db_metadata (load_db_metadata f)) = load_db_metadata f.
Proof. intros Hr. split; apply load_save; [done | apply load_repaired]. Qed.

(** C25: [add_category] refuses (400, nothing written) an empty name or a
    name already listed; otherwise it answers with the new sorted list,
    which is the old list with the new name. *)
Theorem add_category_spec name f :
  ((py_strip name = "" \/ py_strip name ∈ get_all_categories (meta_file f)) ->
   add_category name f = (MError 400, f))
  /\ (py_strip name <> "" -> py_strip name ∉ get_all_categories (meta_file f) ->
      (add_category name f).1 = MCategories (get_all_categories (meta_file (add_category name f).2))
      /\ forall c, c ∈ get_all_categories (meta_file (add_category name f).2)
                   <-> c = py_strip name \/ c ∈ get_all_categories (meta_file f)).
Proof.
  split.
  - unfold add_category. intros [Hn|Hn]; [by rewrite decide_True|].
    case_decide; [done|]. by rewrite decide_True.
  - intros Hn Hl. rewrite add_category_run by done. cbn [fst snd].
    split; [apply categories_response_eq|]. intros c.
    rewrite !elem_of_get_all_categories, load_saved by auto with rag.
    rewrite !elem_of_category_names. simpl. rewrite elem_of_app, list_elem_of_singleton.
    split; [intros [->|[Hc [[Hin | ->] | Hdb]]]; tauto|].
    intros [->|[->|[Hc [Hin|Hdb]]]]; tauto.
Qed.

(** C23: the category list of the file has no duplicates, and
    [add_category], [delete_category], [update_db_category] and
    [delete_vector_db] keep it so. *)
Theorem category_list_nodup now f name d c :
  NoDup (categories (load_db_metadata (meta_file f))) ->
  NoDup (categories (load_db_metadata (meta_file (add_category name f).2)))
  /\ NoDup (categories (load_db_metadata (meta_file (delete_category name f).2)))
  /\ NoDup (categories (load_db_metadata (meta_file (update_db_category now d c f).2)))
  /\ NoDup (categories (load_db_metadata (meta_file (delete_vector_db d f).2))).
Proof.
  intros Hnd. split; [|split; [|split]].
  - destruct (decide (py_strip name = "" \/ py_strip name ∈ get_all_categories (meta_file f))) as [H|H].
    + unfold add_category. destruct H as [H|H]; [by rewrite decide_True|].
      case_decide; [done|]. by rewrite decide_True.
    + rewrite add_category_run by tauto. simpl. apply nodup_snoc; [|done].
      intros Hin. apply H. right. apply listed_of_categories; [tauto|done].
  - destruct (decide (py_strip name = "")) as [H|H].
    + unfold delete_category. by rewrite decide_True.
    + rewrite delete_category_run by done. simpl. case_decide; [|done]. by apply remove_first_nodup.
  - destruct d as [d|], c as [c|]; try done.
    destruct (decide (d = "" \/ c = "")) as [H|H]; [unfold update_db_category; by rewrite decide_True|].
    destruct (decide (d = CATEGORIES_KEY)) as [Hk|Hk].
    + unfold update_db_category. rewrite decide_False by done. by rewrite decide_True.
    + rewrite update_db_category_run by tauto. simpl. by apply note_category_nodup.
  - destruct d as [d|]; [|done]. unfold delete_vector_db.
    repeat case_decide; try done. by destruct (dbs _ !! d).
Qed.

(** C22: [rename_category] onto a name already in the category list
    duplicates it (the one handler that does not keep the list free of duplicates), and a later
    [delete_category] of that name, which removes one occurrence with
    [list.remove], leaves it listed. *)
Theorem rename_merge_then_delete_keeps o n f :
  py_strip o = o -> py_strip n = n -> o <> "" -> n <> "" -> o <> n ->
  o ∈ categories (load_db_metadata (meta_file f)) ->
  n ∈ categories (load_db_metadata (meta_file f)) ->
  ~ NoDup (categories (load_db_metadata (meta_file (rename_category o n f).2)))
  /\ n ∈ get_all_categories (meta_file (delete_category n (rename_category o n f).2).2).
Proof.
  intros Hso Hsn Ho Hn Hne Hino Hinn.
  assert (load_db_metadata (meta_file (rename_category o n f).2)
          = mkMetadata (replace_first o n (categories (load_db_metadata (meta_file f))))
                       (recategorize o n (dbs (load_db_metadata (meta_file f))))) as Hl1.
  { rewrite rename_category_run, Hso, Hsn by congruence. rewrite decide_True by done.
    apply load_saved. auto with rag. }
  pose proof (remove_first_after_merge o n _ Hne Hino Hinn) as Hkeep.
  split.
  - rewrite Hl1. simpl. intros Hnd. by apply (remove_first_nodup n) in Hnd as [Hnot _].
  - rewrite delete_category_run, Hsn by congruence. rewrite Hl1. simpl.
    rewrite decide_True by (by apply replace_first_elem).
    apply listed_of_categories; [done|]. rewrite load_save; [done|].
    apply (recategorize_repaired _ _ _ (mkMetadata [] (recategorize o n (dbs (load_db_metadata (meta_file f))))));
      [auto with rag|].
    apply recategorize_repaired; [done | apply load_repaired].
Qed.

(** C24: on a category list without duplicates, [delete_category] of a
    non-empty name other than the default removes it from the category
    list it answers with, and moves every corpus of that category to the
    default category, keeping its display name. *)
Theorem delete_category_removes name f :
  NoDup (categories (load_db_metadata (meta_file f))) ->
  py_strip name <> "" -> py_strip name <> DEFAULT_CATEGORY ->
  (py_strip name ∉ get_all_categories (meta_file (delete_category name f).2))
  /\ forall k e, dbs (load_db_metadata (meta_file f)) !! k = Some e -> category e = py_strip name ->
       dbs (load_db_metadata (meta_file (delete_category name f).2)) !! k
         = Some (set_category DEFAULT_CATEGORY e).
Proof.
  intros Hnd Hn Hd. rewrite delete_category_run by done.
  rewrite load_saved by (apply recategorize_repaired; auto with rag). simpl. split.
  - rewrite elem_of_get_all_categories, load_save by (apply recategorize_repaired; auto with rag).
    rewrite elem_of_category_names. simpl. intros [?|[_ [Hin|(k & e & Hk & He)]]]; [done| |].
    + case_decide as Hc; [by apply (remove_first_nodup (py_strip name)) in Hnd as [? _]|done].
    + unfold recategorize in Hk. rewrite lookup_fmap in Hk.
      destruct (dbs _ !! k) as [e0|]; simpl in Hk; [|done]. injection Hk as <-.
      case_decide; simpl in He; [by rewrite He in Hd | done].
  - intros k e Hk He. unfold recategorize. rewrite lookup_fmap, Hk. simpl.
    by rewrite decide_True.
Qed.

(** C26: [update_db_category] with a corpus id and a category sets the
    corpus's category (creating its entry, with the default display name,
    when it has none), leaves every other entry alone, answers with the old
    category, and the new category is listed afterwards. *)
Theorem update_db_category_sets now d c f :
  d <> "" -> c <> "" -> d <> CATEGORIES_KEY ->
  (update_db_category now (Some d) (Some c) f).1
    = MCategoryChanged d (category <$> dbs (load_db_metadata (meta_file f)) !! d) c
  /\ (exists e, dbs (load_db_metadata (meta_file (update_db_category now (Some d) (Some c) f).2)) !! d = Some e
                /\ category e = c)
  /\ (forall k, k <> d -> dbs (load_db_metadata (meta_file (update_db_category now (Some d) (Some c) f).2)) !! k
                          = dbs (load_db_metadata (meta_file f)) !! k)
  /\ c ∈ get_all_categories (meta_file (update_db_category now (Some d) (Some c) f).2).
Proof.
  intros Hd Hc Hk. rewrite update_db_category_run by done. cbn [fst snd].
  pose proof (load_repaired (meta_file f)) as Hr.
  set (m := load_db_metadata (meta_file f)) in *.
  set (e := match dbs m !! d with Some e => set_category c e | None => new_entry now d c end).
  assert (repaired (mkMetadata (note_category c (categories m)) (<[d := e]> (dbs m)))) as Hr'.
  { apply repaired_insert; [done| |by subst e; destruct (dbs m !! d)].
    subst e. destruct (dbs m !! d) as [e0|] eqn:He0; [|done]. by apply (Hr d e0). }
  split; [done|]. rewrite load_saved by done. simpl. split; [|split].
  - exists e. rewrite lookup_insert_eq. split; [done|]. subst e. by destruct (dbs m !! d).
  - intros k Hne. by rewrite lookup_insert_ne.
  - apply elem_of_get_all_categories. rewrite load_save by done.
    apply elem_of_category_names. right. split; [done|]. right. exists d, e.
    simpl. rewrite lookup_insert_eq. split; [done|]. subst e. by destruct (dbs m !! d).
Qed.

(** C21: [delete_vector_db] removes any existing directory it is given,
    whether or not it is a corpus folder: [db_id] is not checked against
    [VECTOR_DB_FOLDER]; the metadata entry of that name goes too. *)
Theorem delete_vector_db_any_directory d f :
  d <> "" -> d ∈ dirs f -> d <> CATEGORIES_KEY ->
  (exists name, (delete_vector_db (Some d) f).1 = MDbDeleted name)
  /\ dirs (delete_vector_db (Some d) f).2 = dirs f ∖ {[d]}
  /\ dbs (load_db_metadata (meta_file (delete_vector_db (Some d) f).2)) !! d = None.
Proof.
  intros Hd Hin Hk. rewrite delete_vector_db_run by done.
  destruct (dbs (load_db_metadata (meta_file f)) !! d) as [e|] eqn:He; cbn [fst snd meta_file dirs].
  - split; [eauto|]. split; [done|].
    rewrite load_save by (apply repaired_delete, load_repaired). simpl. by rewrite lookup_delete_eq.
  - split; [eauto | done].
Qed.

(** ** Examples *)

(** A metadata file with two corpora, one of them without fields, two
    hand-made categories; the working directory also has the upload
    folder ["data"]. *)
Definition demo_law : string := "LANGCHAIN_DB_INDEX_law".
Definition demo_guide : string := "LANGCHAIN_DB_INDEX_guide".

Definition demo_meta_raw : meta_raw :=
  mkMetaRaw (Some ["법령"; "지침"])
    {[demo_law := mkDbRaw (Some "병역법") (Some "법령") {["chunk_size" := JInt 500; "chunk_overlap" := JInt 100]};
      demo_guide := mkDbRaw None None ∅]}.

(** 17 April 2025, 12:30:45.123456. *)
Definition demo_now : timestamp := mkTime 2025 4 17 12 30 45 123456.

Definition demo_fs : fs := mkFs (Some demo_meta_raw) {[demo_law; demo_guide; "data"]}.

(** C27 witness. *)
Lemma metadata_roundtrip_witness :
  load_db_metadata (save_db_metadata (load_db_metadata (Some demo_meta_raw)))
    = load_db_metadata (Some demo_meta_raw)
  /\ load_db_metadata (save_db_metadata (load_db_metadata (Some demo_meta_raw)))
    = load_db_metadata (Some demo_meta_raw).
Proof. apply metadata_roundtrip. apply load_repaired. Defined.

(** The repair on the demo file: the entry without fields gets the folder
    name without its prefix and the default category. *)
Example demo_load :
  dbs (load_db_metadata (Some demo_meta_raw)) !! demo_guide = Some (mkDbMeta "guide" DEFAULT_CATEGORY ∅)
  /\ get_all_categories (Some demo_meta_raw) = ["기타"; "법령"; "지침"].
Proof. split; vm_compute; reflexivity. Qed.

(** C25 witness: a new category, given with surrounding blanks. *)
Lemma add_category_spec_witness :
  (add_category " 신규 " demo_fs).1 = MCategories (get_all_categories (meta_file (add_category " 신규 " demo_fs).2))
  /\ forall c, c ∈ get_all_categories (meta_file (add_category " 신규 " demo_fs).2)
               <-> c = py_strip " 신규 " \/ c ∈ get_all_categories (meta_file demo_fs).
Proof. apply (add_category_spec " 신규 " demo_fs); [vm_compute; discriminate | by_eval]. Defined.

(** C23 witness. *)
Lemma category_list_nodup_witness :
  NoDup (categories (load_db_metadata (meta_file (add_category "신규" demo_fs).2)))
  /\ NoDup (categories (load_db_metadata (meta_file (delete_category "신규" demo_fs).2)))
  /\ NoDup (categories (load_db_metadata (meta_file (update_db_category demo_now (Some demo_law) (Some "지침") demo_fs).2)))
  /\ NoDup (categories (load_db_metadata (meta_file (delete_vector_db (Some demo_law) demo_fs).2))).
Proof. apply category_list_nodup. by_eval. Defined.

(** C22 witness: "지침" renamed onto "법령", then "법령" deleted. *)
Lemma rename_merge_then_delete_keeps_witness :
  ~ NoDup (categories (load_db_metadata (meta_file (rename_category "지침" "법령" demo_fs).2)))
  /\ "법령" ∈ get_all_categories (meta_file (delete_category "법령" (rename_category "지침" "법령" demo_fs).2).2).
Proof.
  apply rename_merge_then_delete_keeps;
    [vm_compute; reflexivity | vm_compute; reflexivity | discriminate | discriminate | discriminate
    | by_eval | by_eval].
Defined.

(** C24 witness. *)
Lemma delete_category_removes_witness :
  ("법령" ∉ get_all_categories (meta_file (delete_category "법령" demo_fs).2))
  /\ forall k e, dbs (load_db_metadata (meta_file demo_fs)) !! k = Some e -> category e = "법령" ->
       dbs (load_db_metadata (meta_file (delete_category "법령" demo_fs).2)) !! k
         = Some (set_category DEFAULT_CATEGORY e).
Proof.
  apply (delete_category_removes "법령" demo_fs); [by_eval | vm_compute; discriminate | vm_compute; discriminate].
Defined.

(** C26 witness: the corpus without fields gets a category. *)
Lemma update_db_category_sets_witness :
  (update_db_category demo_now (Some demo_guide) (Some "지침") demo_fs).1
    = MCategoryChanged demo_guide (category <$> dbs (load_db_metadata (meta_file demo_fs)) !! demo_guide) "지침"
  /\ (exists e, dbs (load_db_metadata (meta_file (update_db_category demo_now (Some demo_guide) (Some "지침") demo_fs).2)) !! demo_guide = Some e
                /\ category e = "지침")
  /\ (forall k, k <> demo_guide ->
        dbs (load_db_metadata (meta_file (update_db_category demo_now (Some demo_guide) (Some "지침") demo_fs).2)) !! k
          = dbs (load_db_metadata (meta_file demo_fs)) !! k)
  /\ "지침" ∈ get_all_categories (meta_file (update_db_category demo_now (Some demo_guide) (Some "지침") demo_fs).2).
Proof. apply update_db_category_sets; discriminate. Defined.

(** C21 witness: the upload folder ["data"] is removed through the corpus
    deletion endpoint. *)
Lemma delete_vector_db_any_directory_witness :
  (exists name, (delete_vector_db (Some "data") demo_fs).1 = MDbDeleted name)
  /\ dirs (delete_vector_db (Some "data") demo_fs).2 = dirs demo_fs ∖ {["data"]}
  /\ dbs (load_db_metadata (meta_file (delete_vector_db (Some "data") demo_fs).2)) !! "data" = None.
Proof. apply delete_vector_db_any_directory; [discriminate | by_eval | discriminate]. Defined.

(** [get_db_display_name] strips every occurrence of the prefix, while the
    cache and the index page cut the prefix once. *)
Example display_names_disagree :
  default_display "LANGCHAIN_DB_INDEX_LANGCHAIN_DB_INDEX_x" = "x"
  /\ strip_db_prefix "LANGCHAIN_DB_INDEX_LANGCHAIN_DB_INDEX_x" = "LANGCHAIN_DB_INDEX_x".
Proof. split; vm_compute; reflexivity. Qed.
