(* ===== verification/Feedback.v ===== *)
(** * Feedback submission ([submit_feedback], src/app.py, lines 155-178)

    [/feedback] posts the user's ratings of an answer to LangSmith: it
    builds a four-item dict (three scores that default to 5 and a comment
    that defaults to ['']), asks the client for the most recent run of the
    project ([list_runs(limit=1)]), takes that run's first parent run id,
    and creates one feedback per score and one for the comment when the
    comment is truthy.  Any exception of the [try] block gives a 500 with
    its message.

    The LangSmith client is an oracle (Section variables): whether
    [Client()] succeeds, the runs of a project, most recent first, or
    [None] when [list_runs] raises, and whether each [create_feedback]
    call succeeds.  The feedback the service has recorded is the state of
    [stE] that the handler extends: the calls made before an exception
    stay recorded.  The request body is a JSON object (a [dict] of
    scalars); a body that is not one fails in Flask before the handler's
    [try] and is not modelled. *)

From S2P Require Import Prelude PyDict Metadata.

(** [LANGSMITH_PROJECT] (line 33). *)
Definition LANGSMITH_PROJECT : string := " Document-QA-RAG".

(** A LangSmith run as the handler reads it. *)
Record run := mkRun { run_id : string; parent_run_ids : list string }.

(** The calls [client.create_feedback(parent, key, score=...)] and
    [client.create_feedback(parent, key, comment=...)]. *)
Inductive feedback :=
| FScore (parent key : string) (score : jnum)
| FComment (parent key : string) (comment : jnum).

#[export] Instance feedback_eq_dec : EqDecision feedback.
Proof. solve_decision. Defined.

(** The exceptions the [try] block catches. *)
Inductive fb_exc :=
| ClientError                  (** [Client()] raised (no API key, ...) *)
| ListRunsError                (** [client.list_runs] raised *)
| StopIteration                (** [next(...)] on a project without runs *)
| IndexError                   (** [run.parent_run_ids[0]] on a root run *)
| CreateError (f : feedback).  (** a [create_feedback] call raised *)

(** [jsonify({'status': 'success'})] and the 500 answer. *)
Inductive fb_response := FbSuccess | FbError (e : fb_exc).

Abbreviation FB := (stE (list feedback) fb_exc).

Definition CORRECTNESS : string := "올바른 답변".
Definition HELPFULNESS : string := "도움됨".
Definition SPECIFICITY : string := "구체성".
Definition COMMENT : string := "의견".

(** The dict [feedback] of lines 158-163, in its order. *)
Definition feedback_items (data : list (string * jnum)) : list (string * jnum) :=
  [(CORRECTNESS, default (JInt 5) (dict_get data "correctness"));
   (HELPFULNESS, default (JInt 5) (dict_get data "helpfulness"));
   (SPECIFICITY, default (JInt 5) (dict_get data "specificity"));
   (COMMENT, default (JText "") (dict_get data "comment"))].

(** The call one item of the loop makes, if any (lines 171-174). *)
Definition item_call (parent : string) (kv : string * jnum) : option feedback :=
  let '(k, v) := kv in
  if decide (k ∈ [CORRECTNESS; HELPFULNESS; SPECIFICITY]) then Some (FScore parent k v)
  else if decide (k = COMMENT) then (if py_truthy v then Some (FComment parent k v) else None)
  else None.

(** The calls the whole loop makes when none raises. *)
Definition intended_calls (parent : string) (items : list (string * jnum)) : list feedback :=
  omap (item_call parent) items.

Section Client.
(** [Client()] succeeds. *)
Variable client_ok : bool.
(** [client.list_runs(project_name=p)]: the runs, most recent first;
    [None] when the call raises. *)
Variable list_runs : string -> option (list run).
(** [client.create_feedback(...)] succeeds on this call. *)
Variable create_ok : feedback -> bool.

Definition create_feedback (f : feedback) : FB unit :=
  if create_ok f then modify_st (fun l => l ++ [f]) else raise (CreateError f).

(** The body of the loop (lines 170-174). *)
Definition post_item (parent : string) (_ : unit) (kv : string * jnum) : FB unit :=
  match item_call parent kv with
  | Some f => create_feedback f
  | None => mret tt
  end.

(** [next(iter(client.list_runs(project_name=LANGSMITH_PROJECT, limit=1)))] *)
Definition latest_run : FB run :=
  match list_runs LANGSMITH_PROJECT with
  | None => raise ListRunsError
  | Some rs => match take 1 rs with r :: _ => mret r | [] => raise StopIteration end
  end.

(** [submit_feedback()] on the JSON object [data]. *)
Definition submit_feedback (data : list (string * jnum)) : FB fb_response :=
  let fb := feedback_items data in
  TRY ((if client_ok then mret tt else raise ClientError);;
       r ← latest_run;
       parent ← (match parent_run_ids r with p :: _ => mret p | [] => raise IndexError end);
       fold_m (post_item parent) tt fb;;
       mret FbSuccess)
  EXCEPT (fun e => mret (FbError e)).
End Client.

(** ** The loop *)

Section Loop.
Variable create_ok : feedback -> bool.

Lemma intended_calls_cons parent kv items :
  intended_calls parent (kv :: items) =
  match item_call parent kv with Some f => f :: intended_calls parent items | None => intended_calls parent items end.
Proof. unfold intended_calls. simpl. by destruct (item_call parent kv). Qed.

(** The loop records the intended calls in order until one raises; the
    calls before it stay recorded. *)
Lemma fold_post_run parent items log :
  match fold_m (post_item create_ok parent) tt items log with
  | (inr _, log') => log' = log ++ intended_calls parent items
  | (inl e, log') => exists calls f, e = CreateError f /\ log' = log ++ calls /\ create_ok f = false
                       /\ calls ++ [f] `prefix_of` intended_calls parent items
  end.
Proof.
  revert log. induction items as [|kv items IH]; intros log; cbn [fold_m].
  { rewrite run_ret. unfold intended_calls. simpl. by rewrite app_nil_r. }
  rewrite run_bind, intended_calls_cons. unfold post_item, create_feedback.
  destruct (item_call parent kv) as [f|]; [|by apply IH].
  destruct (create_ok f) eqn:Hok; unfold_m.
  - specialize (IH (log ++ [f])). destruct (fold_m _ _ items _) as [[e|u] log'].
    + destruct IH as (calls & f' & -> & -> & Hf' & Hp). exists (f :: calls), f'.
      rewrite <- app_assoc. do 3 (split; [done|]). by apply prefix_cons.
    + subst. by rewrite <- app_assoc.
  - exists [], f. rewrite app_nil_r. do 3 (split; [done|]). by apply prefix_cons, prefix_nil.
Qed.

Lemma fold_post_ok parent items log :
  Forall (fun f => create_ok f = true) (intended_calls parent items) ->
  fold_m (post_item create_ok parent) tt items log = (inr tt, log ++ intended_calls parent items).
Proof.
  intros Hall. pose proof (fold_post_run parent items log) as H.
  destruct (fold_m _ _ items _) as [[e|[]] log']; [|by subst].
  destruct H as (calls & f & -> & -> & Hf & Hp). exfalso.
  assert (f ∈ intended_calls parent items) as Hin.
  { destruct Hp as [k ->]. set_solver. }
  rewrite Forall_forall in Hall. apply Hall in Hin. congruence.
Qed.
End Loop.

(** The calls of the four items of [feedback]: the three scores, and the
    comment only when it is truthy. *)
Lemma intended_feedback_items parent data :
  intended_calls parent (feedback_items data) =
  [FScore parent CORRECTNESS (default (JInt 5) (dict_get data "correctness"));
   FScore parent HELPFULNESS (default (JInt 5) (dict_get data "helpfulness"));
   FScore parent SPECIFICITY (default (JInt 5) (dict_get data "specificity"))]
  ++ (let c := default (JText "") (dict_get data "comment") in
      if py_truthy c then [FComment parent COMMENT c] else []).
Proof.
  unfold feedback_items. rewrite !intended_calls_cons. unfold item_call.
  rewrite !decide_True by set_solver. rewrite decide_False by (unfold COMMENT; set_solver).
  rewrite decide_True by done. simpl. by destruct (py_truthy _).
Qed.

(** The handler's outcome, by the step at which it stops. *)
Lemma submit_feedback_run client_ok list_runs create_ok data log :
  submit_feedback client_ok list_runs create_ok data log =
  if negb client_ok then (inr (FbError ClientError), log) else
  match list_runs LANGSMITH_PROJECT with
  | None => (inr (FbError ListRunsError), log)
  | Some [] => (inr (FbError StopIteration), log)
  | Some (r :: _) =>
      match parent_run_ids r with
      | [] => (inr (FbError IndexError), log)
      | p :: _ =>
          match fold_m (post_item create_ok p) tt (feedback_items data) log with
          | (inl e, log') => (inr (FbError e), log')
          | (inr _, log') => (inr FbSuccess, log')
          end
      end
  end.
Proof.
  unfold submit_feedback, latest_run. unfold_m. destruct client_ok; [|done]. cbn -[fold_m feedback_items].
  destruct (list_runs _) as [[|r rs]|]; cbn -[fold_m feedback_items]; [done | | done].
  destruct (parent_run_ids r) as [|p ps]; [done|]. by destruct (fold_m (post_item create_ok p) tt _ log) as [[e|u] log'].
Qed.

(** ** What the handler records *)

(** When the client answers, the project has a run with a parent and
    every call succeeds, [submit_feedback] answers success and records,
    in order, the three scores (5 when the request omits one) and, when
    the comment is truthy, the comment, all on the first parent of the
    project's most recent run. *)
Theorem feedback_success client_ok list_runs create_ok data log r rs p ps :
  client_ok = true -> list_runs LANGSMITH_PROJECT = Some (r :: rs) -> parent_run_ids r = p :: ps ->
  Forall (fun f => create_ok f = true) (intended_calls p (feedback_items data)) ->
  submit_feedback client_ok list_runs create_ok data log =
  (inr FbSuccess,
   log ++ [FScore p CORRECTNESS (default (JInt 5) (dict_get data "correctness"));
           FScore p HELPFULNESS (default (JInt 5) (dict_get data "helpfulness"));
           FScore p SPECIFICITY (default (JInt 5) (dict_get data "specificity"))]
       ++ (let c := default (JText "") (dict_get data "comment") in
           if py_truthy c then [FComment p COMMENT c] else [])).
Proof.
  intros -> Hruns Hp Hok. rewrite submit_feedback_run, Hruns. cbn [negb]. rewrite Hp.
  rewrite fold_post_ok by done. by rewrite intended_feedback_items.
Qed.

(** C31: the handler always answers (no exception escapes its [try]); on
    success it has recorded every intended call; when a [create_feedback]
    call raises, the calls before it stay recorded (the feedback is
    partial) and the answer is a 500; any earlier failure records
    nothing. *)
Theorem feedback_partial client_ok list_runs create_ok data log :
  exists resp calls, submit_feedback client_ok list_runs create_ok data log = (inr resp, log ++ calls)
  /\ match resp with
     | FbSuccess => exists r rs p ps, list_runs LANGSMITH_PROJECT = Some (r :: rs) /\ parent_run_ids r = p :: ps
                      /\ calls = intended_calls p (feedback_items data)
     | FbError (CreateError f) => exists r rs p ps, list_runs LANGSMITH_PROJECT = Some (r :: rs)
                      /\ parent_run_ids r = p :: ps /\ create_ok f = false
                      /\ calls ++ [f] `prefix_of` intended_calls p (feedback_items data)
     | FbError _ => calls = []
     end.
Proof.
  rewrite submit_feedback_run.
  destruct client_ok; cbn [negb]; [|exists (FbError ClientError), []; by rewrite app_nil_r].
  destruct (list_runs LANGSMITH_PROJECT) as [[|r rs]|] eqn:Hruns;
    [exists (FbError StopIteration), [] | | exists (FbError ListRunsError), []];
    [by rewrite app_nil_r | | by rewrite app_nil_r].
  destruct (parent_run_ids r) as [|p ps] eqn:Hp; [exists (FbError IndexError), []; by rewrite app_nil_r|].
  pose proof (fold_post_run create_ok p (feedback_items data) log) as Hf.
  destruct (fold_m _ _ _ _) as [[e|u] log'].
  - destruct Hf as (calls & f & -> & -> & Hok & Hpre). exists (FbError (CreateError f)), calls.
    split; [done|]. by exists r, rs, p, ps.
  - subst. exists FbSuccess, (intended_calls p (feedback_items data)). split; [done|]. by exists r, rs, p, ps.
Qed.

(** ** Examples *)

(** Two requests traced in the project: [run-a] (session A's question),
    then [run-b] (session B's).  The list is most recent first. *)
Definition demo_runs (p : string) : option (list run) :=
  if decide (p = LANGSMITH_PROJECT) then Some [mkRun "run-b" ["root-b"]; mkRun "run-a" ["root-a"]] else None.

(** Session A rates its answer 1 and explains why. *)
Definition demo_rating : list (string * jnum) := [("correctness", JInt 1); ("comment", JText "wrong corpus")].

(** Session A's rating is recorded on session B's run: the handler reads
    the most recent run of the whole project, not the run of the
    requesting session. *)
Lemma feedback_success_witness :
  submit_feedback true demo_runs (fun _ => true) demo_rating [] =
  (inr FbSuccess, [FScore "root-b" CORRECTNESS (JInt 1); FScore "root-b" HELPFULNESS (JInt 5);
                   FScore "root-b" SPECIFICITY (JInt 5); FComment "root-b" COMMENT (JText "wrong corpus")]).
Proof.
  apply (feedback_success true demo_runs (fun _ => true) demo_rating [] (mkRun "run-b" ["root-b"])
           [mkRun "run-a" ["root-a"]] "root-b" []); [reflexivity | reflexivity | reflexivity |].
  rewrite Forall_forall. intros f _. reflexivity.
Defined.

(** When the second call raises, the first score stays recorded and the
    user gets a 500. *)
Example feedback_partial_sample :
  submit_feedback true demo_runs (fun f => bool_decide (f <> FScore "root-b" HELPFULNESS (JInt 5))) demo_rating [] =
  (inr (FbError (CreateError (FScore "root-b" HELPFULNESS (JInt 5)))), [FScore "root-b" CORRECTNESS (JInt 1)]).
Proof. vm_compute. reflexivity. Qed.

(** A project whose latest run is a root run (no parent) answers 500 and
    records nothing. *)
Example feedback_root_run :
  submit_feedback true (fun _ => Some [mkRun "run-c" []]) (fun _ => true) demo_rating [] =
  (inr (FbError IndexError), []).
Proof. vm_compute. reflexivity. Qed.
