(* ===== verification/Uploads.v ===== *)
(** * Uploaded files ([src/document_manager.py])

    The upload folder [data] holds the files a user uploaded, stored under
    the name [preserve_filename] gives them ([urllib.parse.quote], lines
    68-74) and shown under the name [restore_filename] gives back
    ([urllib.parse.unquote], lines 76-80).  This file models both at the
    level of bytes (strings hold the UTF-8 bytes of Python's [str]
    values), with the UTF-8 decoding of [unquote] ([errors='replace'],
    one U+FFFD per maximal ill-formed subsequence, as CPython does);
    [allowed_file] (lines 29-30); the paths [os.path.join] and the
    operating system make of a storage name; and the handlers
    [upload_documents] (lines 356-390), [delete_document] (lines 392-409)
    and the document list of the [document_manager] page (lines 154-166)
    over a file system of files and directories. *)

From S2P Require Import Prelude.
From Stdlib Require Import Ascii.

(** ** Bytes *)

Definition byte_val (c : ascii) : nat := nat_of_ascii c.

Definition in_range (lo hi : nat) (c : ascii) : bool := (lo <=? byte_val c) && (byte_val c <=? hi).

(** [_ALWAYS_SAFE] of urllib.parse (letters, digits, [_.-~]) and the [safe='/'] of [quote]. *)
Definition quote_safe (c : ascii) : bool :=
  in_range 65 90 c || in_range 97 122 c || in_range 48 57 c
  || bool_decide (c ∈ ["_"; "."; "-"; "~"; "/"]%char).

Definition hex_digit (n : nat) : ascii := ascii_of_nat (if n <? 10 then 48 + n else 55 + n).

(** [quote] on one byte: itself, or [%XX] with upper-case hex digits. *)
Definition quote_byte (c : ascii) : list ascii :=
  if quote_safe c then [c] else ["%"%char; hex_digit (byte_val c / 16); hex_digit (byte_val c mod 16)].

(** [preserve_filename(filename)] = [urllib.parse.quote(filename)]. *)
Definition preserve_filename (s : string) : string :=
  String.string_of_list_ascii (mjoin (quote_byte <$> String.list_ascii_of_string s)).

Definition hex_val (c : ascii) : option nat :=
  if in_range 48 57 c then Some (byte_val c - 48)
  else if in_range 65 70 c then Some (byte_val c - 55)
  else if in_range 97 102 c then Some (byte_val c - 87)
  else None.

(** [unquote_to_bytes]: [%] and two hex digits (either case) is one byte;
    any other [%] stays. *)
Fixpoint unquote_bytes (l : list ascii) : list ascii :=
  match l with
  | [] => []
  | c :: tl =>
      if decide (c = "%"%char) then
        match tl with
        | a :: b :: r =>
            match hex_val a, hex_val b with
            | Some x, Some y => ascii_of_nat (x * 16 + y) :: unquote_bytes r
            | _, _ => c :: unquote_bytes tl
            end
        | _ => c :: unquote_bytes tl
        end
      else c :: unquote_bytes tl
  end.

(** ** UTF-8 decoding with [errors='replace'] *)

(** The ranges of the bytes that may follow a lead byte (RFC 3629), or
    [None] for a byte that starts no sequence. *)
Definition lead_ranges (c : ascii) : option (list (nat * nat)) :=
  let b := byte_val c in
  if b <? 128 then Some []
  else if (194 <=? b) && (b <=? 223) then Some [(128, 191)]
  else if b =? 224 then Some [(160, 191); (128, 191)]
  else if (225 <=? b) && (b <=? 236) then Some [(128, 191); (128, 191)]
  else if b =? 237 then Some [(128, 159); (128, 191)]
  else if (238 <=? b) && (b <=? 239) then Some [(128, 191); (128, 191)]
  else if b =? 240 then Some [(144, 191); (128, 191); (128, 191)]
  else if (241 <=? b) && (b <=? 243) then Some [(128, 191); (128, 191); (128, 191)]
  else if b =? 244 then Some [(128, 143); (128, 191); (128, 191)]
  else None.

(** How many of the bytes [l] continue a sequence with the ranges [rs]. *)
Fixpoint conts_matched (rs : list (nat * nat)) (l : list ascii) : nat :=
  match rs, l with
  | (lo, hi) :: rs', c :: l' => if in_range lo hi c then S (conts_matched rs' l') else 0
  | _, _ => 0
  end.

(** U+FFFD in UTF-8. *)
Definition replacement_char : list ascii := [ascii_of_nat 239; ascii_of_nat 191; ascii_of_nat 189].

(** One step of the decoder on [c :: l]: the bytes it outputs, the bytes
    it consumed from [l], and whether they were well formed. *)
Definition decode_step (c : ascii) (l : list ascii) : list ascii * nat * bool :=
  match lead_ranges c with
  | None => (replacement_char, 0, false)
  | Some rs =>
      let k := conts_matched rs l in
      if k =? length rs then (c :: take k l, k, true) else (replacement_char, k, false)
  end.

(** [bytes.decode('utf-8', 'replace')], with fuel (the length is enough). *)
Fixpoint decode_fuel (fuel : nat) (l : list ascii) : list ascii :=
  match fuel, l with
  | _, [] => []
  | 0, _ => l
  | S f, c :: l' => let '(out, k, _) := decode_step c l' in out ++ decode_fuel f (drop k l')
  end.

Definition decode_replace (l : list ascii) : list ascii := decode_fuel (length l) l.

(** Well-formed UTF-8: every step of the decoder succeeds. *)
Fixpoint utf8_valid_fuel (fuel : nat) (l : list ascii) : bool :=
  match fuel, l with
  | _, [] => true
  | 0, _ => false
  | S f, c :: l' => let '(_, k, ok) := decode_step c l' in ok && utf8_valid_fuel f (drop k l')
  end.

Definition utf8_valid (s : string) : bool :=
  let l := String.list_ascii_of_string s in utf8_valid_fuel (length l) l.

(** [unquote] splits its argument into runs of ASCII and non-ASCII
    characters ([_asciire]) and percent-decodes only the ASCII runs, each
    decoded from UTF-8 on its own. *)
Fixpoint ascii_runs (l : list ascii) : list (bool * list ascii) :=
  match l with
  | [] => []
  | c :: l' =>
      let a := byte_val c <? 128 in
      match ascii_runs l' with
      | (a', run) :: rest => if Bool.eqb a a' then (a, c :: run) :: rest else (a, [c]) :: (a', run) :: rest
      | [] => [(a, [c])]
      end
  end.

(** [restore_filename(s)] = [urllib.parse.unquote(s)]. *)
Definition restore_filename (s : string) : string :=
  let l := String.list_ascii_of_string s in
  if decide ("%"%char ∈ l) then
    String.string_of_list_ascii
      (mjoin ((fun (p : bool * list ascii) => if p.1 then decode_replace (unquote_bytes p.2) else p.2) <$> ascii_runs l))
  else s.

(** The samples above, as CPython computes them. *)
Example unquote_samples :
  restore_filename "%E2%82" = String.string_of_list_ascii replacement_char
  /\ restore_filename "%e2%82%ac" = "€"
  /\ restore_filename "%%41" = "%A"
  /\ restore_filename "a%zz" = "a%zz"
  /\ restore_filename "%E2%82A" = String.string_of_list_ascii (replacement_char ++ ["A"%char])
  /\ restore_filename "é%C3%A9" = "éé"
  /\ restore_filename "%E0%80" = String.string_of_list_ascii (replacement_char ++ replacement_char)
  /\ restore_filename "%F0%9F%98" = String.string_of_list_ascii replacement_char
  /\ preserve_filename "입영 연기.pdf" = "%EC%9E%85%EC%98%81%20%EC%97%B0%EA%B8%B0.pdf"
  /\ preserve_filename "a b/../x.pdf" = "a%20b/../x.pdf".
Proof. vm_compute. repeat split. Qed.

(** ** The round trip of the storage name *)

Lemma hex_val_digit n : n < 16 -> hex_val (hex_digit n) = Some n.
Proof. intros Hn. do 16 (destruct n as [|n]; [reflexivity|]). lia. Qed.

Lemma byte_val_lt c : byte_val c < 256.
Proof. apply nat_ascii_bounded. Qed.

Lemma ascii_of_byte_val c : ascii_of_nat (byte_val c) = c.
Proof. apply ascii_nat_embedding. Qed.

Lemma quote_cons c l : mjoin (quote_byte <$> c :: l) = quote_byte c ++ mjoin (quote_byte <$> l).
Proof. reflexivity. Qed.

Lemma quote_byte_unsafe c :
  quote_safe c = false ->
  quote_byte c = ["%"%char; hex_digit (byte_val c / 16); hex_digit (byte_val c mod 16)].
Proof. unfold quote_byte. by intros ->. Qed.

Lemma unquote_cons_other c l : c <> "%"%char -> unquote_bytes (c :: l) = c :: unquote_bytes l.
Proof. intros Hc. simpl. by rewrite decide_False. Qed.

Lemma unquote_cons_hex a b r x y :
  hex_val a = Some x -> hex_val b = Some y ->
  unquote_bytes ("%"%char :: a :: b :: r) = ascii_of_nat (x * 16 + y) :: unquote_bytes r.
Proof. intros Ha Hb. simpl. by rewrite Ha, Hb. Qed.

Lemma unquote_quote l : unquote_bytes (mjoin (quote_byte <$> l)) = l.
Proof.
  induction l as [|c l IH]; [done|]. rewrite quote_cons.
  remember (mjoin (quote_byte <$> l)) as rest eqn:Hr.
  destruct (quote_safe c) eqn:Hs.
  - unfold quote_byte. rewrite Hs. cbn [app].
    rewrite unquote_cons_other, IH by (intros ->; discriminate). done.
  - rewrite quote_byte_unsafe by done. cbn [app]. pose proof (byte_val_lt c).
    rewrite (unquote_cons_hex _ _ _ (byte_val c / 16) (byte_val c mod 16)), IH;
      [| apply hex_val_digit, Nat.Div0.div_lt_upper_bound; lia | apply hex_val_digit, Nat.mod_upper_bound; lia].
    f_equal. rewrite (Nat.mul_comm _ 16), <- Nat.div_mod_eq. apply ascii_of_byte_val.
Qed.

(** A well-formed sequence decodes to itself. *)
Lemma decode_valid fuel l : utf8_valid_fuel fuel l = true -> decode_fuel fuel l = l.
Proof.
  revert l. induction fuel as [|f IH]; intros [|c l]; simpl; try done.
  destruct (decode_step c l) as [[out k] ok] eqn:Hd. intros [Hok Hv]%andb_prop.
  rewrite IH by done. unfold decode_step in Hd.
  destruct (lead_ranges c) as [rs|]; [|by simplify_eq].
  destruct (conts_matched rs l =? length rs); simplify_eq. simpl. by rewrite take_drop.
Qed.

Definition ascii_byte (c : ascii) : Prop := byte_val c < 128.

Lemma ascii_valid l : Forall ascii_byte l -> utf8_valid_fuel (length l) l = true.
Proof.
  induction 1 as [|c l Hc Hl IH]; [done|]. simpl. unfold decode_step, lead_ranges.
  unfold ascii_byte in Hc. rewrite (proj2 (Nat.ltb_lt _ _) Hc). simpl. exact IH.
Qed.

Lemma ascii_runs_ascii l : Forall ascii_byte l -> l <> [] -> ascii_runs l = [(true, l)].
Proof.
  induction 1 as [|c l Hc Hl IH]; [done|]. intros _. simpl. unfold ascii_byte in Hc.
  rewrite (proj2 (Nat.ltb_lt _ _) Hc). destruct l as [|c' l]; [done|]. rewrite IH by done. done.
Qed.

Lemma unquote_bytes_no_percent l : "%"%char ∉ l -> unquote_bytes l = l.
Proof.
  induction l as [|c l IH]; intros Hp; [done|]. simpl.
  rewrite decide_False by (intros ->; apply Hp; by left). rewrite IH; [done|]. intros H; apply Hp; by right.
Qed.

(** On an ASCII argument, [unquote] is [unquote_to_bytes] and the decoding. *)
Lemma restore_ascii l :
  Forall ascii_byte l ->
  restore_filename (String.string_of_list_ascii l) = String.string_of_list_ascii (decode_replace (unquote_bytes l)).
Proof.
  intros Ha. unfold restore_filename. rewrite String.list_ascii_of_string_of_list_ascii.
  case_decide as Hp.
  - rewrite ascii_runs_ascii by (done || (intros ->; by apply elem_of_nil in Hp)). simpl. by rewrite app_nil_r.
  - rewrite unquote_bytes_no_percent by done. unfold decode_replace. by rewrite decode_valid by by apply ascii_valid.
Qed.

Lemma hex_digit_ascii n : n < 16 -> ascii_byte (hex_digit n).
Proof. intros Hn. do 16 (destruct n as [|n]; [vm_compute; lia|]). lia. Qed.

Lemma quote_safe_ascii c : quote_safe c = true -> ascii_byte c.
Proof.
  unfold quote_safe, in_range, ascii_byte. intros Hs.
  repeat (apply orb_prop in Hs as [Hs|Hs]); try (apply andb_prop in Hs as [_ Hs]; apply Nat.leb_le in Hs; lia).
  rewrite bool_decide_eq_true, !elem_of_cons, elem_of_nil in Hs.
  destruct Hs as [->|[->|[->|[->|[->|[]]]]]]; vm_compute; lia.
Qed.

Lemma quote_ascii l : Forall ascii_byte (mjoin (quote_byte <$> l)).
Proof.
  induction l as [|c l IH]; [constructor|]. rewrite quote_cons. apply Forall_app. split; [|done].
  destruct (quote_safe c) eqn:Hs.
  - unfold quote_byte. rewrite Hs. constructor; [by apply quote_safe_ascii | constructor].
  - rewrite quote_byte_unsafe by done. pose proof (byte_val_lt c).
    constructor; [unfold ascii_byte; vm_compute; lia|].
    constructor; [apply hex_digit_ascii, Nat.Div0.div_lt_upper_bound; lia|].
    constructor; [apply hex_digit_ascii, Nat.mod_upper_bound; lia | constructor].
Qed.

(** ** [allowed_file] *)

(** [ALLOWED_EXTENSIONS] (lines 20-24). *)
Definition ALLOWED_EXTENSIONS : list string :=
  ["pdf"; "txt"; "csv"; "doc"; "docx"; "hwp"; "xlsx"; "xls"; "ppt"; "pptx"; "html"; "htm";
   "jpg"; "jpeg"; "png"; "gif"; "bmp"].

(** [UPLOAD_FOLDER] (line 25). *)
Definition UPLOAD_FOLDER : string := "data".

(** The text after the last ['.'] ([filename.rsplit('.', 1)[1]]), if there is a ['.']. *)
Fixpoint after_last_dot (l : list ascii) : option (list ascii) :=
  match l with
  | [] => None
  | c :: l' =>
      match after_last_dot l' with
      | Some e => Some e
      | None => if decide (c = "."%char) then Some l' else None
      end
  end.

(** [str.lower()] on the ASCII letters.  The other characters [lower()]
    changes never lower to a string of [ALLOWED_EXTENSIONS] (the only one
    that lowers to ASCII is U+212A, to ["k"]), so the membership test
    below gives Python's answer. *)
Definition ascii_lower (c : ascii) : ascii :=
  if in_range 65 90 c then ascii_of_nat (byte_val c + 32) else c.

(** [allowed_file(filename)] (lines 29-30). *)
Definition allowed_file (filename : string) : bool :=
  match after_last_dot (String.list_ascii_of_string filename) with
  | Some e => bool_decide (String.string_of_list_ascii (ascii_lower <$> e) ∈ ALLOWED_EXTENSIONS)
  | None => false
  end.

(** ** Paths and the file system *)

(** A resolved path: absolute or relative to the working directory of the
    application (where app.py, [templates] and [data] are), and its
    components. *)
Definition fpath : Type := bool * list string.

(** The components of a path string, split at ['/']. *)
Fixpoint split_slash (l cur : list ascii) : list string :=
  match l with
  | [] => [String.string_of_list_ascii cur]
  | c :: l' =>
      if decide (c = "/"%char) then String.string_of_list_ascii cur :: split_slash l' []
      else split_slash l' (cur ++ [c])
  end.

Definition components (s : string) : list string := split_slash (String.list_ascii_of_string s) [].

(** [os.path.join(a, b)] (posixpath): [b] itself when it is absolute. *)
Definition path_join (a b : string) : string :=
  if String.prefix "/" b then b else a +:+ "/" +:+ b.

(** The file system: directories and files (with their contents). *)
Record fsys := mkFsys { fs_dirs : gset fpath; fs_files : gmap fpath string }.

(** How the kernel resolves the components [cs] from the directory
    [(abs, rev_dir)] (its components innermost first): empty components
    and ["."] stay, [".."] goes up, and every other component but the last
    must be an existing directory. *)
Fixpoint walk (dirs : gset fpath) (abs : bool) (rev_dir : list string) (cs : list string) : option fpath :=
  match cs with
  | [] => Some (abs, reverse rev_dir)
  | c :: rest =>
      if decide (c = "" \/ c = ".") then walk dirs abs rev_dir rest
      else if decide (c = "..") then
        walk dirs abs (match rev_dir with
                       | [] => if abs then [] else [".."]
                       | x :: up => if decide (x = "..") then ".." :: rev_dir else up
                       end) rest
      else match rest with
           | [] => Some (abs, reverse (c :: rev_dir))
           | _ => if decide ((abs, reverse (c :: rev_dir)) ∈ dirs) then walk dirs abs (c :: rev_dir) rest else None
           end
  end.

(** The file a path string names, if its directories exist. *)
Definition os_path (fs : fsys) (s : string) : option fpath :=
  walk (fs_dirs fs) (String.prefix "/" s) [] (components s).

(** The same path taken relative to the working directory. *)
Definition cwd_path (fs : fsys) (s : string) : option fpath := walk (fs_dirs fs) false [] (components s).

(** [os.path.exists(p)] *)
Definition path_exists (fs : fsys) (s : string) : bool :=
  match os_path fs s with
  | Some p => bool_decide (p ∈ fs_dirs fs) || bool_decide (is_Some (fs_files fs !! p))
  | None => false
  end.

Definition add_file (p : fpath) (data : string) (fs : fsys) : fsys :=
  mkFsys (fs_dirs fs) (<[p := data]> (fs_files fs)).

Definition remove_file (p : fpath) (fs : fsys) : fsys :=
  mkFsys (fs_dirs fs) (delete p (fs_files fs)).

(** ** The handlers *)

(** A part of the request's ['documents[]'] list: its filename and contents. *)
Record upload := mkUpload { up_name : string; up_data : string }.

Inductive upload_response :=
| UploadOk (files : list (string * string))  (** 200 with (original name, storage name) pairs *)
| UploadError (status : Z)                   (** 400 *)
| UploadCrash.                               (** an uncaught [OSError] of [file.save]: 500 *)

(** [file.save(path)]: [open(path, 'wb')] fails when a directory on the
    way is missing or the path is a directory; otherwise the file is
    created or overwritten. *)
Definition save_file (fs : fsys) (s : string) (data : string) : option fsys :=
  match os_path fs s with
  | Some p => if decide (p ∈ fs_dirs fs) then None else Some (add_file p data fs)
  | None => None
  end.

(** The loop of [upload_documents] over the files (lines 368-379). *)
Fixpoint upload_loop (fl : list upload) (acc : list (string * string)) (fs : fsys) : upload_response * fsys :=
  match fl with
  | [] => match acc with [] => (UploadError 400, fs) | _ => (UploadOk acc, fs) end
  | f :: fl' =>
      if bool_decide (up_name f <> "") && allowed_file (up_name f) then
        let st := preserve_filename (up_name f) in
        match save_file fs (path_join UPLOAD_FOLDER st) (up_data f) with
        | None => (UploadCrash, fs)
        | Some fs' => upload_loop fl' (acc ++ [(up_name f, st)]) fs'
        end
      else upload_loop fl' acc fs
  end.

(** [upload_documents()] (lines 356-390); [None] when the request has no
    ['documents[]'] part. *)
Definition upload_documents (files : option (list upload)) (fs : fsys) : upload_response * fsys :=
  match files with
  | None | Some [] => (UploadError 400, fs)
  | Some (f0 :: fl) => if decide (up_name f0 = "") then (UploadError 400, fs) else upload_loop (f0 :: fl) [] fs
  end.

Inductive doc_response := DocDeleted (name : string) | DocError (status : Z).

(** [delete_document()] (lines 392-409) for [{'storage_filename': n}]. *)
Definition delete_document (n : option string) (fs : fsys) : doc_response * fsys :=
  match n with
  | None => (DocError 400, fs)
  | Some n =>
      if decide (n = "") then (DocError 400, fs) else
      let path := path_join UPLOAD_FOLDER n in
      if path_exists fs path then
        match os_path fs path with
        | Some p => if decide (p ∈ fs_dirs fs) then (DocError 500, fs)
                    else (DocDeleted (restore_filename n), remove_file p fs)
        | None => (DocError 500, fs)
        end
      else (DocError 404, fs)
  end.

(** The document list of the [document_manager] page (lines 157-166), over
    the names [os.listdir('data')] returns. *)
Definition document_entries (names : list string) : list (string * string) :=
  omap (fun f => if allowed_file f then Some (f, restore_filename f) else None) names.

(** ** Storage names that leave the upload folder *)

Lemma list_ascii_app (a b : string) :
  String.list_ascii_of_string (a +:+ b) = String.list_ascii_of_string a ++ String.list_ascii_of_string b.
Proof.
  induction a as [|c a IH]; [reflexivity|].
  change (c :: String.list_ascii_of_string (a +:+ b) = c :: String.list_ascii_of_string a ++ String.list_ascii_of_string b).
  by rewrite IH.
Qed.

Lemma string_of_list_ascii_app (l1 l2 : list ascii) :
  String.string_of_list_ascii (l1 ++ l2) = String.string_of_list_ascii l1 +:+ String.string_of_list_ascii l2.
Proof.
  induction l1 as [|c l1 IH]; [reflexivity|].
  change (String c (String.string_of_list_ascii (l1 ++ l2)) = String c (String.string_of_list_ascii l1 +:+ String.string_of_list_ascii l2)).
  by rewrite IH.
Qed.

Lemma preserve_dotdot n : preserve_filename ("../" +:+ n) = "../" +:+ preserve_filename n.
Proof. unfold preserve_filename. rewrite list_ascii_app, fmap_app, join_app, string_of_list_ascii_app. reflexivity. Qed.

Lemma allowed_dotdot n : allowed_file n = true -> allowed_file ("../" +:+ n) = true.
Proof.
  unfold allowed_file. rewrite list_ascii_app. simpl.
  destruct (after_last_dot (String.list_ascii_of_string n)); [done | discriminate].
Qed.

(** Where [upload_documents] and [delete_document] put ["../" ++ q]: the
    path [q] names from the working directory. *)
Lemma os_path_dotdot fs q :
  (false, ["data"]) ∈ fs_dirs fs ->
  os_path fs (path_join UPLOAD_FOLDER ("../" +:+ q)) = cwd_path fs q.
Proof.
  intros Hd. unfold os_path, cwd_path, path_join, components. simpl.
  rewrite list_ascii_app. simpl. by rewrite decide_True.
Qed.

(** ** Properties of the upload folder *)

(** C38 (round trip): the name [restore_filename] shows for a stored file
    is the name it was uploaded under: [unquote(quote(s)) = s] for every
    text whose bytes are valid UTF-8 (every Python [str] without lone
    surrogates). *)
Theorem filename_roundtrip s : utf8_valid s = true -> restore_filename (preserve_filename s) = s.
Proof.
  intros Hv. unfold preserve_filename. rewrite restore_ascii by apply quote_ascii.
  rewrite unquote_quote. unfold decode_replace. rewrite decode_valid by exact Hv.
  apply String.string_of_list_ascii_of_string.
Qed.

(** C39: [quote] keeps ['/'] and ['.'], and neither handler checks the
    name, so an upload named ["../" ++ q] is written where [q] names from
    the working directory of the application, outside [data] (a page of
    [templates], say), and [delete_document] on ["../" ++ q] removes that
    file. *)
Theorem upload_path_traversal fs q d p :
  (false, ["data"]) ∈ fs_dirs fs -> allowed_file q = true ->
  cwd_path fs (preserve_filename q) = Some p -> p ∉ fs_dirs fs ->
  upload_documents (Some [mkUpload ("../" +:+ q) d]) fs
    = (UploadOk [("../" +:+ q, "../" +:+ preserve_filename q)], add_file p d fs)
  /\ (forall p', cwd_path fs q = Some p' -> is_Some (fs_files fs !! p') -> p' ∉ fs_dirs fs ->
        delete_document (Some ("../" +:+ q)) fs = (DocDeleted (restore_filename ("../" +:+ q)), remove_file p' fs)).
Proof.
  intros Hd Ha Hp Hnd. split.
  - unfold upload_documents. rewrite decide_False by (by destruct q).
    simpl. rewrite allowed_dotdot by done.
    unfold save_file. rewrite preserve_dotdot, os_path_dotdot, Hp by done.
    by rewrite decide_False.
  - intros p' Hp' Hf Hnd'. unfold delete_document. rewrite decide_False by (by destruct q).
    unfold path_exists. rewrite os_path_dotdot, Hp' by done.
    rewrite bool_decide_false by done. rewrite bool_decide_true by done. simpl.
    by rewrite decide_False.
Qed.

(** ** Examples *)

(** The working directory of the application: [data], [templates] with its
    page, and [app.py]. *)
Definition demo_fs : fsys :=
  mkFsys {[(false, ["data"]); (false, ["templates"])]}
         {[(false, ["templates"; "index.html"]) := "<html>"; (false, ["app.py"]) := "app = Flask(__name__)"]}.

(** C38 witness. *)
Lemma filename_roundtrip_witness :
  utf8_valid "입영 연기 안내.pdf" = true /\ restore_filename (preserve_filename "입영 연기 안내.pdf") = "입영 연기 안내.pdf".
Proof.
  assert (utf8_valid "입영 연기 안내.pdf" = true) as H by (vm_compute; reflexivity).
  split; [exact H | exact (filename_roundtrip _ H)].
Defined.

(** C39 witness: ["../templates/index.html"] overwrites the page of the
    application. *)
Lemma upload_path_traversal_witness :
  upload_documents (Some [mkUpload ("../" +:+ "templates/index.html") "<script>"]) demo_fs
    = (UploadOk [("../" +:+ "templates/index.html", "../" +:+ preserve_filename "templates/index.html")],
       add_file (false, ["templates"; "index.html"]) "<script>" demo_fs)
  /\ (forall p', cwd_path demo_fs "templates/index.html" = Some p' -> is_Some (fs_files demo_fs !! p') ->
        p' ∉ fs_dirs demo_fs ->
        delete_document (Some ("../" +:+ "templates/index.html")) demo_fs
          = (DocDeleted (restore_filename ("../" +:+ "templates/index.html")), remove_file p' demo_fs)).
Proof.
  apply (upload_path_traversal demo_fs "templates/index.html" "<script>" (false, ["templates"; "index.html"]));
    [by_eval | vm_compute; reflexivity | vm_compute; reflexivity | by_eval].
Defined.

Example document_entries_sample :
  document_entries ["%EC%9E%85%EC%98%81.pdf"; "notes"; "scan.PNG"; "run.sh"]
  = [("%EC%9E%85%EC%98%81.pdf", "입영.pdf"); ("scan.PNG", "scan.PNG")].
Proof. vm_compute. reflexivity. Qed.
