(* ===== verification/FaissStore.v ===== *)
(** * The FAISS vector store the document manager edits

    document_manager.py builds, loads, edits and saves langchain's [FAISS]
    vector store ([langchain_community.vectorstores.faiss]).  A store is
    three things: the FAISS index, which holds one vector per embedded
    text and numbers them from 0; the docstore ([InMemoryDocstore._dict]),
    a dictionary from document ids to documents; and
    [index_to_docstore_id], a dictionary from vector positions to
    document ids.  A search asks the index for the positions of the
    nearest vectors and maps each through both dictionaries.

    The library's operations are modelled here as the library implements
    them: [FAISS.__add] (used by [from_documents] and [add_documents]),
    the search's mapping of positions to documents, [save_local] and
    [load_local].  The vectors themselves are represented by the texts
    they embed; the nearest-neighbour search is an oracle that returns
    positions of vectors of the index.

    The invariant [vs_wf] states what the library relies on: every vector
    position has an id, every id a document.  [faiss_add] keeps it, and on
    a store that has it every search succeeds. *)

From S2P Require Import Prelude Metadata Uploads PyDict.

(** ** Stores *)

(** A [Document]: its [page_content] and its [metadata] dictionary. *)
Record ldoc := mkLdoc { ld_content : string; ld_meta : list (string * jnum) }.

(** A [FAISS] object: the texts whose vectors the index holds, by
    position; [docstore._dict]; [index_to_docstore_id]. *)
Record vstore := mkVstore {
  vs_index : list string;
  vs_docs : list (string * ldoc);
  vs_map : list (nat * string) }.

(** A store as [FAISS.__from] creates it before adding: an empty index,
    [InMemoryDocstore()], [{}]. *)
Definition empty_store : vstore := mkVstore [] [] [].

(** [InMemoryDocstore.add(texts)]: [ValueError] when one of the ids is
    there already, otherwise [{**self._dict, **texts}]. *)
Definition docstore_add (docs new : list (string * ldoc)) : option (list (string * ldoc)) :=
  if decide (Exists (fun kv => kv.1 ∈ dict_keys docs) new) then None else Some (dict_update docs new).

(** The positions [start], [start + 1], ... paired with the ids:
    [{starting_len + j: id_ for j, id_ in enumerate(ids)}]. *)
Definition number_ids (start : nat) (ids : list string) : list (nat * string) :=
  zip (seq start (length ids)) ids.

Section Faiss.
(** Whether the embedding service answers for these texts
    ([OpenAIEmbeddings.embed_documents] raises otherwise). *)
Variable embed_ok : list string -> bool.

(** [FAISS.__add(texts, embeddings, metadatas, ids)] after the texts were
    embedded: the length and duplicate checks, [index.add] (which unpacks
    the shape of the array and so raises on an empty batch), the
    docstore's [add], and the numbering of the new vectors from
    [len(index_to_docstore_id)]. *)
Definition faiss_add (docs : list ldoc) (ids : list string) (v : vstore) : option vstore :=
  let texts := ld_content <$> docs in
  if negb (embed_ok texts) then None else
  if decide (length ids <> length docs \/ ~ NoDup ids \/ docs = []) then None else
  match docstore_add (vs_docs v) (zip ids docs) with
  | None => None
  | Some docs' =>
      Some (mkVstore (vs_index v ++ texts) docs'
              (dict_update (vs_map v) (number_ids (length (vs_map v)) ids)))
  end.

(** [FAISS.from_documents(documents, embeddings)] with the fresh ids [ids]
    ([uuid.uuid4()] for each text). *)
Definition from_documents (docs : list ldoc) (ids : list string) : option vstore :=
  faiss_add docs ids empty_store.

(** [vectorstore.add_documents(documents)] *)
Definition add_documents (docs : list ldoc) (ids : list string) (v : vstore) : option vstore :=
  faiss_add docs ids v.
End Faiss.

(** The documents of the positions [hits] the index search returned
    ([similarity_search_with_score_by_vector]): [index_to_docstore_id[i]]
    raises [KeyError] on a position without an id, and a missing document
    raises [ValueError]. *)
Fixpoint search_hits (v : vstore) (hits : list nat) : option (list ldoc) :=
  match hits with
  | [] => Some []
  | i :: hs =>
      match dict_get (vs_map v) i with
      | None => None
      | Some id =>
          match dict_get (vs_docs v) id with
          | None => None
          | Some d => (d ::.) <$> search_hits v hs
          end
      end
  end.

(** What the library relies on: both dictionaries without duplicate
    keys, exactly the positions of the index's vectors have an id, and
    every id a document. *)
Definition vs_wf (v : vstore) : Prop :=
  dict_wf (vs_docs v) /\ dict_wf (vs_map v)
  /\ (forall i, is_Some (dict_get (vs_map v) i) <-> i < length (vs_index v))
  /\ (forall i id, dict_get (vs_map v) i = Some id -> is_Some (dict_get (vs_docs v) id)).

(** The same check as a computation. *)
Definition vs_wfb (v : vstore) : bool :=
  bool_decide (dict_wf (vs_docs v)) && bool_decide (dict_wf (vs_map v))
  && forallb (fun i => bool_decide (is_Some (dict_get (vs_map v) i))) (seq 0 (length (vs_index v)))
  && forallb (fun kv => bool_decide (kv.1 < length (vs_index v)) && bool_decide (is_Some (dict_get (vs_docs v) kv.2)))
       (vs_map v).

(** The positions whose id is [id]. *)
Definition positions (v : vstore) (id : string) : list nat := (filter (fun kv => kv.2 = id) (vs_map v)).*1.

(** ** Saving and loading *)

(** The state of the document manager: the metadata file, the file
    system, and the stores saved in each folder (what [load_local] reads
    back from its [index.faiss] and [index.pkl]; the bytes of the two
    files are not modelled). *)
Record dmstate := mkDm { dm_meta : option meta_raw; dm_fs : fsys; dm_stores : gmap fpath vstore }.

Definition index_files (p : fpath) : list fpath :=
  [(p.1, p.2 ++ ["index.faiss"]); (p.1, p.2 ++ ["index.pkl"])].

(** [Path(folder).mkdir(exist_ok=True, parents=True)]: an existing
    directory, or a new one in the working directory.  (A path of several
    missing components, which no handler passes, is refused.) *)
Definition mkdir_folder (fs : fsys) (folder : string) : option (fpath * fsys) :=
  match os_path fs folder with
  | Some p =>
      if decide (p ∈ fs_dirs fs) then Some (p, fs)
      else if decide (is_Some (fs_files fs !! p)) then None
      else match components folder with
           | [c] => if decide (c = "" \/ c = "." \/ c = "..") then None
                    else Some (p, mkFsys ({[p]} ∪ fs_dirs fs) (fs_files fs))
           | _ => None
           end
  | None => None
  end.

(** [vectorstore.save_local(folder)]: the folder, then [index.faiss] and
    [index.pkl] in it, which must not be directories. *)
Definition save_local (folder : string) (v : vstore) (st : dmstate) : option dmstate :=
  match mkdir_folder (dm_fs st) folder with
  | None => None
  | Some (p, fs) =>
      if decide (Exists (fun f => f ∈ fs_dirs fs) (index_files p)) then None
      else Some (mkDm (dm_meta st)
                      (foldr (fun f acc => add_file f "" acc) fs (index_files p))
                      (<[p := v]> (dm_stores st)))
  end.

(** [FAISS.load_local(folder, embeddings, allow_dangerous_deserialization=True)]:
    both files must be there. *)
Definition load_local (folder : string) (st : dmstate) : option vstore :=
  match os_path (dm_fs st) folder with
  | Some p =>
      if decide (Forall (fun f => is_Some (fs_files (dm_fs st) !! f)) (index_files p))
      then dm_stores st !! p else None
  | None => None
  end.

(** [os.path.exists(d) and os.path.isdir(d)] *)
Definition is_dir (fs : fsys) (s : string) : bool :=
  match os_path fs s with Some p => bool_decide (p ∈ fs_dirs fs) | None => false end.

(** ** The invariant *)

Lemma number_ids_keys n ids : dict_keys (number_ids n ids) = seq n (length ids).
Proof. unfold dict_keys, number_ids. apply fst_zip. by rewrite length_seq. Qed.

Lemma vs_wf_map_length v : vs_wf v -> length (vs_map v) = length (vs_index v).
Proof.
  intros (_ & Hnd & Hk & _).
  assert (dict_keys (vs_map v) ≡ₚ seq 0 (length (vs_index v))) as Hp.
  { apply NoDup_Permutation; [done | apply NoDup_seq |].
    intros i. rewrite elem_of_dict_keys, Hk, elem_of_seq. lia. }
  apply Permutation_length in Hp. unfold dict_keys in Hp. by rewrite length_fmap, length_seq in Hp.
Qed.

Lemma docstore_add_ok docs new docs' :
  docstore_add docs new = Some docs' -> docs' = dict_update docs new.
Proof. unfold docstore_add. case_decide; congruence. Qed.

(** The empty store is well formed. *)
Lemma empty_store_wf : vs_wf empty_store.
Proof.
  split; [constructor|]. split; [constructor|]. split; [|done].
  intros i. simpl. split; [by intros [] | lia].
Qed.

(** [FAISS.__add] keeps the invariant: the new vectors get the positions
    after the old ones, each with its own id and document. *)
Lemma faiss_add_wf e docs ids v v' :
  vs_wf v -> faiss_add e docs ids v = Some v' -> vs_wf v'.
Proof.
  intros Hwf. pose proof (vs_wf_map_length v Hwf) as Hlen. destruct Hwf as (Hd & Hm & Hk & Hv).
  unfold faiss_add. destruct (e _); [|done]. simpl.
  case_decide as Hg; [done|]. destruct (docstore_add _ _) as [docs'|] eqn:Hadd; [|done].
  apply docstore_add_ok in Hadd as ->. intros [= <-].
  assert (length ids = length docs) as Hl by (apply dec_stable; tauto).
  split; [by apply dict_update_wf|]. split; [by apply dict_update_wf|]. simpl. split.
  - intros i. rewrite dict_update_keys, Hk, number_ids_keys, elem_of_seq, length_app, length_fmap, Hlen.
    lia.
  - intros i id [Hg'|Hin]%dict_update_get; apply dict_update_keys.
    + left. by apply (Hv i).
    + right. unfold dict_keys. rewrite fst_zip by lia. by apply elem_of_zip_r in Hin.
Qed.

(** On a well-formed store, the documents of any positions of the index's
    vectors are found. *)
Lemma search_hits_ok v hits :
  vs_wf v -> Forall (fun i => i < length (vs_index v)) hits -> is_Some (search_hits v hits).
Proof.
  intros (_ & _ & Hk & Hv). induction 1 as [|i hs Hi _ IH]; [by eexists|]. simpl.
  destruct (proj2 (Hk i) Hi) as [id Hid]. rewrite Hid.
  destruct (Hv i id Hid) as [d Hd]. rewrite Hd. destruct IH as [ds ->]. by eexists.
Qed.

(** ** Saving *)

Lemma mkdir_folder_ok fs folder p fs' :
  mkdir_folder fs folder = Some (p, fs') -> os_path fs folder = Some p /\ p ∈ fs_dirs fs'.
Proof.
  unfold mkdir_folder. destruct (os_path fs folder) as [q|]; [|done].
  repeat case_decide; repeat case_match; intros; simplify_eq; split; try done; set_solver.
Qed.

Lemma index_files_written p fs :
  Forall (fun f => is_Some (fs_files (foldr (fun f acc => add_file f "" acc) fs (index_files p)) !! f))
    (index_files p).
Proof.
  repeat constructor; simpl; [by rewrite lookup_insert_eq|].
  destruct (decide ((p.1, p.2 ++ ["index.faiss"]) = (p.1, p.2 ++ ["index.pkl"]))) as [He|Hne].
  - by rewrite He, lookup_insert_eq.
  - rewrite lookup_insert_ne by done. by rewrite lookup_insert_eq.
Qed.

(** [save_local] leaves the metadata file alone and stores the index
    under the folder the path names. *)
Lemma save_local_ok folder v st st' :
  save_local folder v st = Some st' ->
  dm_meta st' = dm_meta st
  /\ exists p, os_path (dm_fs st) folder = Some p /\ dm_stores st' = <[p := v]> (dm_stores st)
               /\ p ∈ fs_dirs (dm_fs st') /\ Forall (fun f => is_Some (fs_files (dm_fs st') !! f)) (index_files p).
Proof.
  unfold save_local. destruct (mkdir_folder _ folder) as [[p fs]|] eqn:Hm; [|done].
  apply mkdir_folder_ok in Hm as [Hp Hin]. case_decide; [done|]. intros [= <-]. simpl.
  split; [done|]. exists p. split; [done|]. split; [done|]. split; [done | apply index_files_written].
Qed.

(** Path resolution only needs more directories to exist. *)
Lemma walk_mono dirs dirs' abs r cs p :
  dirs ⊆ dirs' -> walk dirs abs r cs = Some p -> walk dirs' abs r cs = Some p.
Proof.
  intros Hsub. revert r. induction cs as [|c cs IH]; intros r; simpl; [done|].
  repeat case_decide; destruct cs; intros; try done; auto; set_solver.
Qed.

Lemma os_path_mono fs fs' s p :
  fs_dirs fs ⊆ fs_dirs fs' -> os_path fs s = Some p -> os_path fs' s = Some p.
Proof. apply walk_mono. Qed.

Lemma save_local_dirs folder v st st' :
  save_local folder v st = Some st' -> fs_dirs (dm_fs st) ⊆ fs_dirs (dm_fs st').
Proof.
  unfold save_local, mkdir_folder. destruct (os_path _ folder); [|done].
  repeat case_decide; repeat case_match; intros; simplify_eq; simpl; set_solver.
Qed.

(** Round trip: [load_local] of the folder just saved gives the store back. *)
Lemma load_save_local folder v st st' :
  save_local folder v st = Some st' -> load_local folder st' = Some v.
Proof.
  intros Hs. pose proof (save_local_dirs _ _ _ _ Hs) as Hsub.
  destruct (save_local_ok _ _ _ _ Hs) as (_ & p & Hp & Hst & Hdir & Hf).
  unfold load_local. rewrite (os_path_mono _ _ _ _ Hsub Hp), decide_True by done.
  by rewrite Hst, lookup_insert_eq.
Qed.

(** ** The numbering of new vectors *)

Lemma elem_of_number_ids m ids j id : ids !! j = Some id -> (m + j, id) ∈ number_ids m ids.
Proof.
  unfold number_ids. revert m j. induction ids as [|x ids IH]; intros m j Hj; [done|].
  destruct j as [|j]; simpl in *.
  - injection Hj as ->. rewrite Nat.add_0_r. left.
  - right. rewrite <- Nat.add_succ_comm. by apply IH.
Qed.

Lemma number_ids_nodup m ids : NoDup (dict_keys (number_ids m ids)).
Proof. rewrite number_ids_keys. apply NoDup_seq. Qed.

(** What [FAISS.__add] did, when it succeeded. *)
Lemma faiss_add_shape e docs ids v v' :
  faiss_add e docs ids v = Some v' ->
  vs_index v' = vs_index v ++ (ld_content <$> docs) /\ length ids = length docs /\ docs <> []
  /\ vs_map v' = dict_update (vs_map v) (number_ids (length (vs_map v)) ids)
  /\ Forall (fun id => id ∉ dict_keys (vs_docs v)) ids.
Proof.
  unfold faiss_add. destruct (e _); [|done]. simpl. case_decide as Hg; [done|].
  unfold docstore_add. case_decide as Hex; [done|]. intros [= <-]. simpl.
  assert (length ids = length docs) as Hl by (apply dec_stable; tauto).
  split; [done|]. split; [done|]. split; [tauto|]. split; [done|].
  apply Forall_forall. intros id Hid Hin. apply Hex, Exists_exists.
  apply list_elem_of_lookup_1 in Hid as [j Hj].
  destruct (lookup_lt_is_Some_2 docs j) as [doc Hdoc]; [apply lookup_lt_Some in Hj; lia|].
  exists (id, doc). split; [|done]. apply list_elem_of_lookup_2 with j. by apply lookup_zip_Some.
Qed.

(** ** Checking the invariant *)

Lemma vs_wfb_sound v : vs_wfb v = true -> vs_wf v.
Proof.
  unfold vs_wfb. rewrite !andb_true_iff, !forallb_forall. intros [[[Hd Hm] Hall] Hmap].
  apply bool_decide_eq_true in Hd, Hm. split; [done|]. split; [done|]. split.
  - intros i. split.
    + intros [id Hid]. apply dict_get_Some, list_elem_of_In in Hid; [|done].
      apply Hmap, andb_true_iff in Hid as [Hlt _]. by apply bool_decide_eq_true in Hlt.
    + intros Hi. apply (bool_decide_eq_true _), Hall, list_elem_of_In, elem_of_seq. lia.
  - intros i id Hid. apply dict_get_Some, list_elem_of_In in Hid; [|done].
    apply Hmap, andb_true_iff in Hid as [_ Hs]. by apply bool_decide_eq_true in Hs.
Qed.

Lemma elem_of_positions v id j : dict_wf (vs_map v) -> j ∈ positions v id <-> dict_get (vs_map v) j = Some id.
Proof.
  intros Hwf. unfold positions. rewrite list_elem_of_fmap, dict_get_Some by done. split.
  - intros ([j' id'] & -> & Hin). apply list_elem_of_filter in Hin as [<- Hin]. done.
  - intros Hin. exists (j, id). split; [done|]. by apply list_elem_of_filter.
Qed.
