(* ===== verification/DbCreate.v ===== *)
(** * Creating a vector DB ([src/document_manager.py])

    [create_vector_db_from_multiple] (lines 465-577) loads uploaded files
    with the loader [get_loader_for_file] (lines 32-66) picks by
    extension, splits them with the chunk settings of the request after
    clamping them, builds a FAISS index, saves it in the folder
    [LANGCHAIN_DB_INDEX_db_<%Y%m%d%H%M%S>] named after the clock, and
    records the display name, the category and the chunk settings in
    [db_metadata.json].  The loaders, the splitter and the embedding
    service are oracles (Section variables); the two clock readings and
    the [uuid4] ids of the chunks are arguments.  The index is built and
    saved with the FAISS model of [FaissStore]. *)

From S2P Require Import Prelude PyStr Metadata Uploads PyDict FaissStore.
From Stdlib Require Import Ascii QArith.
Local Open Scope Z_scope.

(** ** [int()] of a JSON value *)

Definition digit_val (c : ascii) : option Z :=
  if in_range 48 57 c then Some (Z.of_nat (byte_val c - 48)) else None.

(** Decimal digits with single underscores between them. *)
Fixpoint parse_digits (l : list ascii) (acc : Z) (after_digit : bool) : option Z :=
  match l with
  | [] => if after_digit then Some acc else None
  | c :: l' =>
      match digit_val c with
      | Some d => parse_digits l' (acc * 10 + d) true
      | None => if bool_decide (c = "_"%char) && after_digit then parse_digits l' acc false else None
      end
  end.

(** [int(s)] for a [str]: surrounding whitespace, a sign, ASCII digits
    ([int] also reads the digits of other scripts, which is not modelled:
    such a string is refused here). *)
Definition parse_int (s : string) : option Z :=
  match String.list_ascii_of_string (py_strip s) with
  | "-"%char :: l => Z.opp <$> parse_digits l 0 false
  | "+"%char :: l => parse_digits l 0 false
  | l => parse_digits l 0 false
  end.

(** [int(x)]; [None] for the [ValueError] or [TypeError] it raises. *)
Definition py_int (v : jnum) : option Z :=
  match v with
  | JInt z => Some z
  | JFloat q => Some (Z.quot (Qnum q) (Zpos (Qden q)))
  | JBool b => Some (if b then 1 else 0)
  | JText s => parse_int s
  | JNull => None
  end.

(** Lines 474-491: the conversion (both back to 300 and 50 when either
    fails) and the clamps. *)
Definition normalize_chunks (size overlap : jnum) : Z * Z :=
  let '(cs, co) := match py_int size, py_int overlap with
                   | Some a, Some b => (a, b)
                   | _, _ => (300, 50)
                   end in
  let cs := if cs <? 100 then 100 else cs in
  let co := if co <? 0 then 0 else co in
  let co := if cs <=? co then cs / 2 else co in
  (cs, co).

(** ** [get_loader_for_file] *)

Inductive loader :=
| LlamaParse | PDFPlumber | TextLoader | CSVLoader | Docx2txt | ExcelLoader
| PowerPointLoader | HTMLLoader | ImageLoader | WordLoader.

#[export] Instance loader_eq_dec : EqDecision loader.
Proof. solve_decision. Defined.

(** [os.path.splitext(path)[1].lower()]: the extension of the last
    component, from its last ['.'], unless that component is only dots
    before it. *)
Definition splitext_ext (path : string) : string :=
  let base := default "" (last (components path)) in
  match after_last_dot (String.list_ascii_of_string base) with
  | Some e =>
      let stem := take (length (String.list_ascii_of_string base) - length e - 1)%nat (String.list_ascii_of_string base) in
      if forallb (fun c => bool_decide (c = "."%char)) stem then ""
      else String.string_of_list_ascii ("."%char :: (ascii_lower <$> e))
  | None => ""
  end.

(** [get_loader_for_file(file_path, pdf_loader_type)]; [None] for the
    [ValueError] of an unsupported extension. *)
Definition get_loader_for_file (path pdf_loader_type : string) : option loader :=
  let ext := splitext_ext path in
  if decide (ext = ".pdf") then Some (if decide (pdf_loader_type = "llamaparse") then LlamaParse else PDFPlumber)
  else if decide (ext = ".txt") then Some TextLoader
  else if decide (ext = ".csv") then Some CSVLoader
  else if decide (ext ∈ [".doc"; ".docx"]) then Some Docx2txt
  else if decide (ext ∈ [".xls"; ".xlsx"]) then Some ExcelLoader
  else if decide (ext ∈ [".ppt"; ".pptx"]) then Some PowerPointLoader
  else if decide (ext ∈ [".html"; ".htm"]) then Some HTMLLoader
  else if decide (ext ∈ [".jpg"; ".jpeg"; ".png"; ".gif"; ".bmp"]) then Some ImageLoader
  else if decide (ext = ".hwp") then Some WordLoader
  else None.

(** ** The folder name *)

(** [now.strftime('%Y%m%d%H%M%S')] *)
Definition stamp (t : timestamp) : string :=
  pad 4 (t_year t) +:+ pad 2 (t_month t) +:+ pad 2 (t_day t) +:+ pad 2 (t_hour t)
  +:+ pad 2 (t_minute t) +:+ pad 2 (t_second t).

(** [db_id = f"{VECTOR_DB_FOLDER}db_{...}"] (lines 540-542). *)
Definition db_folder (t : timestamp) : string := VECTOR_DB_FOLDER +:+ "db_" +:+ stamp t.

(** Two clock readings of the same second: they may differ only in
    their microseconds. *)
Definition same_second (t1 t2 : timestamp) : Prop :=
  t_year t1 = t_year t2 /\ t_month t1 = t_month t2 /\ t_day t1 = t_day t2
  /\ t_hour t1 = t_hour t2 /\ t_minute t1 = t_minute t2 /\ t_second t1 = t_second t2.

Example db_folder_sample :
  db_folder (mkTime 2025 4 17 12 30 45 0) = "LANGCHAIN_DB_INDEX_db_20250417123045".
Proof. vm_compute. reflexivity. Qed.

Example splitext_int_samples :
  splitext_ext "data/a.PDF" = ".pdf" /\ splitext_ext "data/.bashrc" = "" /\ splitext_ext "data/..pdf" = ""
  /\ splitext_ext "data/x.tar.gz" = ".gz" /\ splitext_ext "data/noext" = "" /\ splitext_ext "data/a.b/c" = ""
  /\ parse_int " 42 " = Some 42 /\ parse_int "+7" = Some 7 /\ parse_int "-1_000" = Some (-1000)
  /\ parse_int "1__0" = None /\ parse_int "_1" = None /\ parse_int "4.5" = None /\ parse_int "" = None.
Proof. vm_compute. repeat split. Qed.

(** ** The handler *)

(** The fields of the request after [data.get] with their defaults
    ([storage_filenames] [[]], [document_name] [''], [category] ['기타'],
    [pdf_loader] ['pdfplumber'], [chunk_size] 300, [chunk_overlap] 50). *)
Record create_req := mkCreateReq {
  cr_files : list string;
  cr_db_name : option string;
  cr_document_name : string;
  cr_category : string;
  cr_pdf_loader : string;
  cr_chunk_size : jnum;
  cr_chunk_overlap : jnum
}.

Inductive create_response :=
| CCreated (db_name db_id : string) (documents chunks : nat) (chunk_size chunk_overlap : Z)
    (category document_name : string)
| CError (status : Z).

(** [doc.metadata['custom_name']], [['original_filename']] (lines 512-516). *)
Definition mark_doc (document_name original : string) (d : ldoc) : ldoc :=
  mkLdoc (ld_content d)
    (dict_set (dict_set (ld_meta d) "custom_name" (JText document_name)) "original_filename" (JText original)).

(** Lines 510-514: the documents are marked when a name was given. *)
Definition create_mark (document_name sf : string) (d : ldoc) : ldoc :=
  if decide (document_name = "") then d else mark_doc document_name (restore_filename sf) d.

(** The metadata entry of a new corpus (lines 549-558); [created_at] is
    the second clock reading. *)
Definition created_entry (name : string) (t_created : timestamp) (cs co : Z) (req : create_req) : db_meta :=
  mkDbMeta name (cr_category req)
    {["created_at" := JText (isoformat t_created); "chunk_size" := JInt cs; "chunk_overlap" := JInt co;
      "document_name" := JText (cr_document_name req)]}.

Section Create.
(** [loader.load()] on a path; [None] when it raises. *)
Variable load : loader -> string -> option (list ldoc).
(** [RecursiveCharacterTextSplitter(chunk_size, chunk_overlap).split_documents]. *)
Variable split_docs : Z -> Z -> list ldoc -> list ldoc.
(** Whether [OpenAIEmbeddings] answers for these texts. *)
Variable embed_ok : list string -> bool.

(** The loading loop (lines 500-522, and 224-247 of [add_documents_to_db]):
    a missing file is a 404, a loader that raises (an unsupported extension
    included) a 500; [mark sf] is what the loop does to the metadata of
    each document of the file [sf]. *)
Fixpoint load_all (fs : fsys) (pdf_loader : string) (mark : string -> ldoc -> ldoc) (sfs : list string)
    (acc : list ldoc) : Z + list ldoc :=
  match sfs with
  | [] => inr acc
  | sf :: rest =>
      let path := path_join UPLOAD_FOLDER sf in
      if path_exists fs path then
        match get_loader_for_file path pdf_loader with
        | None => inl 500
        | Some l =>
            match load l path with
            | None => inl 500
            | Some docs => load_all fs pdf_loader mark rest (acc ++ (mark sf <$> docs))
            end
        end
      else inl 404
  end.

(** [create_vector_db_from_multiple()] with the clock readings [t] (the
    folder name) and [t_created] ([created_at]) and the ids [ids] drawn by
    [uuid4] for the chunks. *)
Definition create_vector_db (req : create_req) (t t_created : timestamp) (ids : list string) (st : dmstate)
    : create_response * dmstate :=
  let '(cs, co) := normalize_chunks (cr_chunk_size req) (cr_chunk_overlap req) in
  match cr_db_name req with
  | None => (CError 400, st)
  | Some name =>
      if decide (cr_files req = [] \/ name = "") then (CError 400, st) else
      match load_all (dm_fs st) (cr_pdf_loader req) (create_mark (cr_document_name req)) (cr_files req) [] with
      | inl z => (CError z, st)
      | inr docs =>
          if decide (docs = []) then (CError 400, st) else
          let chunks := split_docs cs co docs in
          match from_documents embed_ok chunks (take (length chunks) ids) with
          | None => (CError 500, st)
          | Some vs =>
              let id := db_folder t in
              match save_local id vs st with
              | None => (CError 500, st)
              | Some st' =>
                  let m := load_db_metadata (dm_meta st') in
                  (CCreated name id (length docs) (length chunks) cs co (cr_category req)
                     (if decide (cr_document_name req = "") then "원본 파일명" else cr_document_name req),
                   mkDm (save_db_metadata (mkMetadata (categories m)
                           (<[id := created_entry name t_created cs co req]> (dbs m))))
                        (dm_fs st') (dm_stores st'))
              end
          end
      end
  end.
End Create.

(** ** What a creation does *)

(** The chunk settings handed to the splitter: at least 100, and an
    overlap from 0 to below the size, whatever the request sent. *)
Lemma normalize_chunks_bounds a b :
  100 <= (normalize_chunks a b).1 /\ 0 <= (normalize_chunks a b).2 < (normalize_chunks a b).1.
Proof.
  unfold normalize_chunks.
  destruct (match py_int a, py_int b with Some x, Some y => (x, y) | _, _ => (300, 50) end) as [cs co].
  destruct (cs <? 100) eqn:H1; destruct (co <? 0) eqn:H2; cbn;
    repeat match goal with |- context [if ?c then _ else _] => destruct c eqn:? end;
    rewrite ?Z.ltb_lt, ?Z.ltb_ge, ?Z.leb_le, ?Z.leb_gt in *; Z.div_mod_to_equations; lia.
Qed.

Lemma create_success load split e req t tc ids st n id dc cc cs co cat dn st' :
  create_vector_db load split e req t tc ids st = (CCreated n id dc cc cs co cat dn, st') ->
  id = db_folder t /\ (cs, co) = normalize_chunks (cr_chunk_size req) (cr_chunk_overlap req) /\ n <> ""
  /\ cat = cr_category req
  /\ (exists p vs, os_path (dm_fs st) id = Some p /\ dm_stores st' !! p = Some vs /\ vs_wf vs)
  /\ dm_meta st' = save_db_metadata (mkMetadata (categories (load_db_metadata (dm_meta st)))
                      (<[id := created_entry n tc cs co req]> (dbs (load_db_metadata (dm_meta st))))).
Proof.
  unfold create_vector_db. destruct (normalize_chunks _ _) as [cs0 co0] eqn:Hn.
  destruct (cr_db_name req) as [name|]; [|done].
  case_decide as Hg; [done|]. destruct (load_all _ _ _ _ _ _) as [z|docs]; [done|].
  case_decide; [done|]. destruct (from_documents _ _ _) as [vs|] eqn:Hf; [|done].
  destruct (save_local _ _ _) as [st1|] eqn:Hs; [|done]. intros [= <- <- _ _ <- <- <- _ <-].
  destruct (save_local_ok _ _ _ _ Hs) as (Hm & p & Hp & Hst & _). simpl. rewrite Hm.
  split; [done|]. split; [done|]. split; [tauto|]. split; [done|]. split; [|done].
  exists p, vs. split; [done|]. rewrite Hst, lookup_insert_eq. split; [done|].
  eapply faiss_add_wf; [apply empty_store_wf | exact Hf].
Qed.

(** A successful creation read at least one document and left its folder
    a directory. *)
Lemma create_saves_dir load split e req t tc ids st n id dc cc cs co cat dn st' :
  create_vector_db load split e req t tc ids st = (CCreated n id dc cc cs co cat dn, st') ->
  dc <> 0%nat /\ is_dir (dm_fs st') id = true.
Proof.
  unfold create_vector_db. intros H. split_handler H; injection H as <- <- <- _ _ _ _ _ <-;
    (split; [by destruct l|]); destruct (save_local_ok _ _ _ _ Heqo1) as (_ & p & Hp & _ & Hdir & _);
    unfold is_dir; simpl; rewrite (os_path_mono _ _ _ _ (save_local_dirs _ _ _ _ Heqo1) Hp);
    by apply bool_decide_eq_true_2.
Qed.

Lemma db_folder_not_categories t : db_folder t <> CATEGORIES_KEY.
Proof. intros H. apply (f_equal (String.get 0)) in H. vm_compute in H. discriminate. Qed.

Lemma lookup_saved_entry cats db id e :
  dbs (load_db_metadata (save_db_metadata (mkMetadata cats (<[id := e]> db)))) !! id
  = Some (repair_entry id (mkDbRaw (Some (display_name e)) (Some (category e)) (db_extra e))).
Proof. unfold save_db_metadata. rewrite lookup_load_dbs. simpl. by rewrite lookup_fmap, lookup_insert_eq. Qed.

(** The folder name reads the clock to the second only. *)
Lemma db_folder_same_second t1 t2 : same_second t1 t2 -> db_folder t1 = db_folder t2.
Proof. intros (Hy & Hmo & Hd & Hh & Hmi & Hs). unfold db_folder, stamp. by rewrite Hy, Hmo, Hd, Hh, Hmi, Hs. Qed.

(** C40: every successful creation splits with a chunk size of at least
    100 and an overlap from 0 to below it, saves a well-formed index, and
    names its folder after the clock second only; so two creations whose
    clock readings fall in the same second (their microseconds may
    differ) write the same folder and the same metadata entry, and the
    second replaces the first corpus under its own name, creation time and
    chunk settings. *)
Theorem create_same_second load split e req1 req2 t1 t2 tc1 tc2 ids1 ids2 st0 st1 st2
    n1 id1 dc1 cc1 cs1 co1 cat1 dn1 n2 id2 dc2 cc2 cs2 co2 cat2 dn2 :
  same_second t1 t2 ->
  create_vector_db load split e req1 t1 tc1 ids1 st0 = (CCreated n1 id1 dc1 cc1 cs1 co1 cat1 dn1, st1) ->
  create_vector_db load split e req2 t2 tc2 ids2 st1 = (CCreated n2 id2 dc2 cc2 cs2 co2 cat2 dn2, st2) ->
  (100 <= cs1 /\ 0 <= co1 < cs1)
  /\ (exists p vs, os_path (dm_fs st0) id1 = Some p /\ dm_stores st1 !! p = Some vs /\ vs_wf vs)
  /\ id1 = db_folder t1 /\ id2 = id1
  /\ dbs (load_db_metadata (dm_meta st2)) !! id1
     = Some (repair_entry id1 (mkDbRaw (Some n2) (Some cat2) (db_extra (created_entry n2 tc2 cs2 co2 req2)))).
Proof.
  intros Ht H1 H2.
  destruct (create_success _ _ _ _ _ _ _ _ _ _ _ _ _ _ _ _ _ H1) as (-> & Hc1 & _ & _ & Hst & _).
  destruct (create_success _ _ _ _ _ _ _ _ _ _ _ _ _ _ _ _ _ H2) as (-> & _ & _ & -> & _ & Hm2).
  rewrite <- (db_folder_same_second t1 t2 Ht) in Hm2 |- *.
  pose proof (normalize_chunks_bounds (cr_chunk_size req1) (cr_chunk_overlap req1)) as Hb.
  rewrite <- Hc1 in Hb. split; [exact Hb|]. split; [exact Hst|]. split; [done|]. split; [done|].
  by rewrite Hm2, lookup_saved_entry.
Qed.

(** ** Example: two corpora created in the same second *)

Definition demo_upload_fs : fsys :=
  mkFsys {[(false, ["data"])]}
         {[(false, ["data"; "law.txt"]) := "병역법"; (false, ["data"; "guide.txt"]) := "복무 지침"]}.

(** A [TextLoader] gives one document whose [source] is the path. *)
Definition demo_load (l : loader) (path : string) : option (list ldoc) :=
  if decide (l = TextLoader) then Some [mkLdoc path [("source", JText path)]] else None.

Definition demo_split (cs co : Z) (ds : list ldoc) : list ldoc := ds.

Definition demo_embed (texts : list string) : bool := true.

Definition demo_req (file name : string) : create_req :=
  mkCreateReq [file] (Some name) "" "법령" "PyPDFLoader" (JText " 500 ") (JInt 500).

Definition demo_t : timestamp := mkTime 2025 4 17 12 30 45 0.
Definition demo_tc1 : timestamp := mkTime 2025 4 17 12 30 45 812003.
Definition demo_tc2 : timestamp := mkTime 2025 4 17 12 30 45 954120.
(** A later reading of the same second. *)
Definition demo_t2 : timestamp := mkTime 2025 4 17 12 30 45 734512.

Definition demo_st0 : dmstate := mkDm None demo_upload_fs ∅.

Definition demo_st1 : dmstate :=
  (create_vector_db demo_load demo_split demo_embed (demo_req "law.txt" "병역법") demo_t demo_tc1 ["u1"] demo_st0).2.

Definition demo_st2 : dmstate :=
  (create_vector_db demo_load demo_split demo_embed (demo_req "guide.txt" "복무 지침") demo_t2 demo_tc2 ["u2"]
     demo_st1).2.

(** C40 witness: "병역법" at 12:30:45.000000, then "복무 지침" at
    12:30:45.734512; the overlap 500 is cut to 250, and the second corpus
    takes the first one's folder and entry. *)
Lemma create_same_second_witness :
  (100 <= 500 /\ 0 <= 250 < 500)%Z
  /\ (exists p vs, os_path (dm_fs demo_st0) (db_folder demo_t) = Some p /\ dm_stores demo_st1 !! p = Some vs
                   /\ vs_wf vs)
  /\ db_folder demo_t = db_folder demo_t /\ db_folder demo_t2 = db_folder demo_t
  /\ dbs (load_db_metadata (dm_meta demo_st2)) !! db_folder demo_t
     = Some (repair_entry (db_folder demo_t)
               (mkDbRaw (Some "복무 지침") (Some "법령")
                  (db_extra (created_entry "복무 지침" demo_tc2 500 250 (demo_req "guide.txt" "복무 지침"))))).
Proof.
  apply (create_same_second demo_load demo_split demo_embed (demo_req "law.txt" "병역법")
           (demo_req "guide.txt" "복무 지침") demo_t demo_t2 demo_tc1 demo_tc2 ["u1"] ["u2"] demo_st0 demo_st1
           demo_st2 "병역법" _ 1 1 500 250 "법령" "원본 파일명" "복무 지침" _ 1 1 500 250 "법령" "원본 파일명");
    first [by repeat split | vm_compute; reflexivity].
Defined.
