(* ===== verification/DbEdit.v ===== *)
(** * Editing the documents of a vector DB ([src/document_manager.py])

    Five handlers change or report on the contents of a saved FAISS
    store: [add_documents_to_db] (lines 201-285) loads more uploaded files
    into it with the chunk settings of its metadata entry;
    [remove_documents_from_db] (287-318) only answers;
    [remove_document_from_db] (880-944) deletes one document from the
    docstore and its ids from [index_to_docstore_id];
    [remove_documents_by_source] (946-1012) does so for every document of
    a source file; [update_document_custom_name] (1014-1045) renames the
    documents of a source.  Each loads the store with [FAISS.load_local],
    edits it as a Python object and saves it back with [save_local]
    ([FaissStore]), and most then update [db_metadata.json].

    None of the removals touches the FAISS index: the vectors of the
    removed documents stay, and their positions lose their ids. *)

From S2P Require Import Prelude PyStr Metadata Uploads PyDict FaissStore DbCreate.
From Stdlib Require QArith.

(** ** Requests, answers and metadata values *)

Inductive edit_response :=
| EAdded (files documents chunks : nat)            (** 200 of [add_documents_to_db] *)
| ERemoveRequested (display : string) (count : nat) (** 200 of [remove_documents_from_db] *)
| EDocRemoved (doc_id : string) (source : jnum)     (** 200 of [remove_document_from_db] *)
| ESourceRemoved (count : nat) (source : string)    (** 200 of [remove_documents_by_source] *)
| ENameUpdated                                      (** 200 of [update_document_custom_name] *)
| EError (status : Z).                              (** 400, 404 or 500 *)

(** [metadata.get(db_id, {})] on what [load_db_metadata] returned: [None]
    for ["_categories"], whose value is a list, on which the [.get] that
    follows raises. *)
Definition db_info (m : metadata) (d : string) : option (option db_meta) :=
  if decide (d = CATEGORIES_KEY) then None else Some (dbs m !! d).

(** [db_info.get(k, dflt)] for a field other than the display name and
    the category. *)
Definition info_get (info : option db_meta) (k : string) (dflt : jnum) : jnum :=
  match info with Some e => default dflt (db_extra e !! k) | None => dflt end.

(** [metadata[db_id][k] = v] *)
Definition set_extra (k : string) (v : jnum) (e : db_meta) : db_meta :=
  mkDbMeta (display_name e) (category e) (<[k := v]> (db_extra e)).

(** A chunk setting handed to [RecursiveCharacterTextSplitter]: an
    integer.  (The handlers only write integers there; a float, which the
    splitter would take, is not modelled and is taken to raise.) *)
Definition splitter_arg (v : jnum) : option Z :=
  match v with JInt z => Some z | _ => None end.

(** [x + n]: numbers and booleans add, anything else raises [TypeError]. *)
Definition py_add_int (x : jnum) (n : Z) : option jnum :=
  match x with
  | JInt z => Some (JInt (z + n))
  | JBool b => Some (JInt ((if b then 1 else 0) + n))
  | JFloat q => Some (JFloat (QArith_base.Qplus q (QArith_base.inject_Z n)))
  | _ => None
  end.

(** [max(0, x - 1)]: [max] returns its first argument unless the second
    is larger. *)
Definition py_dec_count (x : jnum) : option jnum :=
  match x with
  | JInt z => Some (JInt (Z.max 0 (z - 1)))
  | JBool b => Some (JInt (Z.max 0 ((if b then 1 else 0) - 1)))
  | JFloat q =>
      let y := QArith_base.Qminus q (QArith_base.inject_Z 1) in
      Some (if QArith_base.Qle_bool y (QArith_base.inject_Z 0) then JInt 0 else JFloat y)
  | _ => None
  end.

(** [doc.metadata.get('source') == source] *)
Definition source_is (source : string) (doc : ldoc) : bool :=
  bool_decide (dict_get (ld_meta doc) "source" = Some (JText source)).

(** [doc.metadata[k] = v] *)
Definition set_meta (k : string) (v : jnum) (doc : ldoc) : ldoc :=
  mkLdoc (ld_content doc) (dict_set (ld_meta doc) k v).

(** The metadata file after [metadata[db_id]['last_updated'] = now] when
    [db_id] has an entry; [None] when the assignment raises (the key
    ["_categories"], whose value is a list). *)
Definition touch_entry (now : timestamp) (d : string) (m : metadata) : option (option metadata) :=
  if decide (d = CATEGORIES_KEY) then None else
  Some ((fun e => mkMetadata (categories m) (<[d := set_extra "last_updated" (JText (isoformat now)) e]> (dbs m)))
          <$> dbs m !! d).

(** ** The handlers *)

Section Edit.
(** [loader.load()] on a path; [None] when it raises. *)
Variable load : loader -> string -> option (list ldoc).
(** [RecursiveCharacterTextSplitter(chunk_size, chunk_overlap).split_documents]. *)
Variable split_docs : Z -> Z -> list ldoc -> list ldoc.
(** Whether [OpenAIEmbeddings] answers for these texts. *)
Variable embed_ok : list string -> bool.

(** [custom_names.get(storage_filename, original_filename)] and the two
    metadata fields (lines 236-242). *)
Definition add_mark (custom_names : list (string * string)) (sf : string) (d : ldoc) : ldoc :=
  let original := restore_filename sf in
  mark_doc (default original (dict_get custom_names sf)) original d.

(** The fields of the request after [data.get] with their defaults. *)
Record add_req := mkAddReq {
  ar_db_id : option string; ar_files : list string; ar_custom_names : list (string * string) }.

(** The metadata update of lines 270-272: [last_updated], and
    [added_documents] increased by the number of files. *)
Definition count_added (now : timestamp) (d : string) (nfiles : nat) (m : metadata) : option metadata :=
  match dbs m !! d with
  | None => Some m
  | Some e =>
      (fun x => mkMetadata (categories m)
                  (<[d := set_extra "added_documents" x (set_extra "last_updated" (JText (isoformat now)) e)]> (dbs m)))
      <$> py_add_int (info_get (Some e) "added_documents" (JInt 0)) (Z.of_nat nfiles)
  end.

(** [add_documents_to_db()] at the clock reading [now], with the ids
    [ids] drawn by [uuid4] for the new chunks. *)
Definition add_documents_to_db (req : add_req) (now : timestamp) (ids : list string) (st : dmstate)
    : edit_response * dmstate :=
  match ar_db_id req with
  | None => (EError 400, st)
  | Some d =>
      if decide (d = "" \/ ar_files req = []) then (EError 400, st) else
      if negb (is_dir (dm_fs st) d) then (EError 404, st) else
      let m := load_db_metadata (dm_meta st) in
      match db_info m d with
      | None => (EError 500, st)
      | Some info =>
          match load_all load (dm_fs st) "pdfplumber" (add_mark (ar_custom_names req)) (ar_files req) [] with
          | inl z => (EError z, st)
          | inr docs =>
              if decide (docs = []) then (EError 400, st) else
              match splitter_arg (info_get info "chunk_size" (JInt 300)),
                    splitter_arg (info_get info "chunk_overlap" (JInt 50)) with
              | Some cs, Some co =>
                  if decide (cs < co)%Z then (EError 500, st) else
                  let chunks := split_docs cs co docs in
                  match load_local d st with
                  | None => (EError 500, st)
                  | Some vs =>
                      match add_documents embed_ok chunks (take (length chunks) ids) vs with
                      | None => (EError 500, st)
                      | Some vs' =>
                          match save_local d vs' st with
                          | None => (EError 500, st)
                          | Some st1 =>
                              match count_added now d (length (ar_files req)) m with
                              | None => (EError 500, st1)
                              | Some m' =>
                                  (EAdded (length (ar_files req)) (length docs) (length chunks),
                                   mkDm (save_db_metadata m') (dm_fs st1) (dm_stores st1))
                              end
                          end
                      end
                  end
              | _, _ => (EError 500, st)
              end
          end
      end
  end.
End Edit.

(** [remove_documents_from_db()]: it checks the request and the folder
    and answers that the deletion was handled, without deleting. *)
Definition remove_documents_from_db (d : option string) (doc_ids : list jnum) (st : dmstate)
    : edit_response * dmstate :=
  match d with
  | None => (EError 400, st)
  | Some d =>
      if decide (d = "" \/ doc_ids = []) then (EError 400, st) else
      if negb (is_dir (dm_fs st) d) then (EError 404, st) else
      match db_info (load_db_metadata (dm_meta st)) d with
      | None => (EError 500, st)
      | Some info =>
          (ERemoveRequested (match info with Some e => display_name e | None => default_display d end)
             (length doc_ids), st)
      end
  end.

(** The store without the document [doc_id] (lines 905-911): its
    docstore entry and every position that maps to it; the index keeps
    its vectors. *)
Definition drop_doc (doc_id : string) (vs : vstore) : vstore :=
  mkVstore (vs_index vs) (dict_del (vs_docs vs) doc_id)
    (dict_filter (fun _ id => bool_decide (id <> doc_id)) (vs_map vs)).

(** The metadata update of lines 917-924. *)
Definition touch_removed (now : timestamp) (d : string) (m : metadata) : option metadata :=
  match dbs m !! d with
  | None => Some m
  | Some e =>
      let e1 := set_extra "last_updated" (JText (isoformat now)) e in
      match db_extra e !! "document_count" with
      | None => Some (mkMetadata (categories m) (<[d := e1]> (dbs m)))
      | Some x => (fun y => mkMetadata (categories m) (<[d := set_extra "document_count" y e1]> (dbs m)))
                  <$> py_dec_count x
      end
  end.

(** [remove_document_from_db()] at the clock reading [now]. *)
Definition remove_document_from_db (now : timestamp) (d doc_id : option string) (st : dmstate)
    : edit_response * dmstate :=
  match d, doc_id with
  | Some d, Some doc_id =>
      if decide (d = "" \/ doc_id = "") then (EError 400, st) else
      if negb (is_dir (dm_fs st) d) then (EError 404, st) else
      match load_local d st with
      | None => (EError 500, st)
      | Some vs =>
          match dict_get (vs_docs vs) doc_id with
          | None => (EError 404, st)
          | Some deleted =>
              match save_local d (drop_doc doc_id vs) st with
              | None => (EError 500, st)
              | Some st1 =>
                  if decide (d = CATEGORIES_KEY) then (EError 500, st1) else
                  match touch_removed now d (load_db_metadata (dm_meta st1)) with
                  | None => (EError 500, st1)
                  | Some m' =>
                      (EDocRemoved doc_id (default (JText "알 수 없음") (dict_get (ld_meta deleted) "source")),
                       if decide (is_Some (dbs (load_db_metadata (dm_meta st1)) !! d))
                       then mkDm (save_db_metadata m') (dm_fs st1) (dm_stores st1) else st1)
                  end
              end
          end
      end
  | _, _ => (EError 400, st)
  end.

(** The store without the documents of [source] (lines 968-987): the
    ids are collected in docstore order and deleted one by one. *)
Definition drop_source (source : string) (vs : vstore) : vstore :=
  let gone := dict_keys (dict_filter (fun _ doc => source_is source doc) (vs_docs vs)) in
  mkVstore (vs_index vs) (foldl dict_del (vs_docs vs) gone)
    (dict_filter (fun _ id => bool_decide (id ∉ gone)) (vs_map vs)).

(** [remove_documents_by_source()] at the clock reading [now]. *)
Definition remove_documents_by_source (now : timestamp) (d source : option string) (st : dmstate)
    : edit_response * dmstate :=
  match d, source with
  | Some d, Some source =>
      if decide (d = "" \/ source = "") then (EError 400, st) else
      if negb (is_dir (dm_fs st) d) then (EError 404, st) else
      match load_local d st with
      | None => (EError 500, st)
      | Some vs =>
          let count := length (dict_filter (fun _ doc => source_is source doc) (vs_docs vs)) in
          match save_local d (drop_source source vs) st with
          | None => (EError 500, st)
          | Some st1 =>
              match touch_entry now d (load_db_metadata (dm_meta st1)) with
              | None => (EError 500, st1)
              | Some None => (ESourceRemoved count source, st1)
              | Some (Some m') => (ESourceRemoved count source, mkDm (save_db_metadata m') (dm_fs st1) (dm_stores st1))
              end
          end
      end
  | _, _ => (EError 400, st)
  end.

(** The documents of [source] renamed (lines 1030-1034). *)
Definition rename_source (source custom_name : string) (vs : vstore) : vstore :=
  mkVstore (vs_index vs)
    ((fun kv => if source_is source kv.2 then (kv.1, set_meta "custom_name" (JText custom_name) kv.2) else kv)
       <$> vs_docs vs)
    (vs_map vs).

(** [update_document_custom_name()]; there is no check that the folder
    exists: [load_local] raises. *)
Definition update_document_custom_name (d source : option string) (custom_name : string) (st : dmstate)
    : edit_response * dmstate :=
  match d, source with
  | Some d, Some source =>
      if decide (d = "" \/ source = "") then (EError 400, st) else
      match load_local d st with
      | None => (EError 500, st)
      | Some vs =>
          if decide (dict_filter (fun _ doc => source_is source doc) (vs_docs vs) = []) then (EError 404, st) else
          match save_local d (rename_source source custom_name vs) st with
          | None => (EError 500, st)
          | Some st1 => (ENameUpdated, st1)
          end
      end
  | _, _ => (EError 400, st)
  end.

(** ** What the removals do to a store *)

(** A successful [remove_document_from_db] saved the store it loaded,
    less the document. *)
Lemma remove_document_success now d doc_id st s st' :
  remove_document_from_db now (Some d) (Some doc_id) st = (EDocRemoved doc_id s, st') ->
  exists vs, load_local d st = Some vs /\ is_Some (dict_get (vs_docs vs) doc_id)
             /\ load_local d st' = Some (drop_doc doc_id vs).
Proof.
  unfold remove_document_from_db. intros H. split_handler H;
    exists v; (split; [done|]); (split; [by eexists|]);
    apply load_save_local in Heqo1; injection H as _ <-; exact Heqo1.
Qed.

(** The positions of [doc_id] lose their id; the vectors stay. *)
Lemma drop_doc_unmapped doc_id vs i :
  dict_wf (vs_map vs) -> dict_get (vs_map vs) i = Some doc_id -> dict_get (vs_map (drop_doc doc_id vs)) i = None.
Proof. intros Hwf Hi. simpl. rewrite dict_get_filter, Hi by done. by case_bool_decide. Qed.

Lemma unmapped_search vs i hs : dict_get (vs_map vs) i = None -> search_hits vs (i :: hs) = None.
Proof. intros H. simpl. by rewrite H. Qed.

(** A vector without an id breaks the invariant. *)
Lemma unmapped_not_wf vs i : i < length (vs_index vs) -> dict_get (vs_map vs) i = None -> ~ vs_wf vs.
Proof. intros Hi Hn (_ & _ & Hk & _). apply Hk in Hi as [x Hx]. congruence. Qed.

(** The ids [remove_documents_by_source] collects: those of the
    documents of [source]. *)
Lemma elem_of_gone source (docs : list (string * ldoc)) id doc :
  dict_wf docs -> dict_get docs id = Some doc -> source_is source doc = true ->
  id ∈ dict_keys (dict_filter (fun _ doc => source_is source doc) docs).
Proof.
  intros Hwf Hd Hs. apply elem_of_dict_keys. rewrite dict_get_filter, Hd by done. simpl. by rewrite Hs.
Qed.

Lemma drop_source_unmapped source vs i id doc :
  vs_wf vs -> dict_get (vs_map vs) i = Some id -> dict_get (vs_docs vs) id = Some doc -> source_is source doc = true ->
  dict_get (vs_map (drop_source source vs)) i = None /\ dict_get (vs_docs (drop_source source vs)) id = None.
Proof.
  intros (Hd & Hm & _) Hi Hdoc Hs. pose proof (elem_of_gone source _ _ _ Hd Hdoc Hs) as Hg. simpl. split.
  - rewrite dict_get_filter, Hi by done. by case_bool_decide.
  - by rewrite dict_get_del_all, decide_True.
Qed.

Lemma remove_by_source_success now d source st n st' :
  remove_documents_by_source now (Some d) (Some source) st = (ESourceRemoved n source, st') ->
  exists vs, load_local d st = Some vs /\ load_local d st' = Some (drop_source source vs).
Proof.
  unfold remove_documents_by_source. intros H. split_handler H;
    exists v; (split; [done|]); apply load_save_local in Heqo0; injection H as _ <-; exact Heqo0.
Qed.

(** C13: both removal handlers leave the FAISS index as it was:
    [remove_document_from_db] and [remove_documents_by_source], on a
    well-formed store, delete the document and the ids of its positions
    but keep its vectors, so each of those positions has no id any more,
    a search that returns it raises [KeyError], and the saved store is no
    longer well formed. *)
Theorem removal_leaves_vectors now d doc_id source st vs i :
  load_local d st = Some vs -> vs_wf vs -> dict_get (vs_map vs) i = Some doc_id ->
  (forall s st', remove_document_from_db now (Some d) (Some doc_id) st = (EDocRemoved doc_id s, st') ->
     exists vs', load_local d st' = Some vs' /\ vs_index vs' = vs_index vs
       /\ dict_get (vs_docs vs') doc_id = None /\ search_hits vs' [i] = None /\ ~ vs_wf vs')
  /\ (forall doc n st', dict_get (vs_docs vs) doc_id = Some doc -> source_is source doc = true ->
       remove_documents_by_source now (Some d) (Some source) st = (ESourceRemoved n source, st') ->
       exists vs', load_local d st' = Some vs' /\ vs_index vs' = vs_index vs
         /\ dict_get (vs_docs vs') doc_id = None /\ search_hits vs' [i] = None /\ ~ vs_wf vs').
Proof.
  intros Hl Hwf Hi. pose proof Hwf as (Hd & Hm & Hk & _).
  assert (i < length (vs_index vs)) as Hlt by (apply Hk; by eexists).
  split.
  - intros s st' (vs0 & Hl0 & _ & Hl')%remove_document_success. rewrite Hl in Hl0. injection Hl0 as <-.
    exists (drop_doc doc_id vs). pose proof (drop_doc_unmapped doc_id vs i Hm Hi) as Hu.
    split; [done|]. split; [done|]. split; [simpl; rewrite dict_get_del; by rewrite decide_True|].
    split; [by apply unmapped_search|]. by apply (unmapped_not_wf _ i).
  - intros doc n st' Hdoc Hs (vs0 & Hl0 & Hl')%remove_by_source_success. rewrite Hl in Hl0. injection Hl0 as <-.
    destruct (drop_source_unmapped source vs i doc_id doc Hwf Hi Hdoc Hs) as [Hu Hdel].
    exists (drop_source source vs). split; [done|]. split; [done|]. split; [done|].
    split; [by apply unmapped_search|]. by apply (unmapped_not_wf _ i).
Qed.

(** ** A removal followed by an addition *)

(** A successful [add_documents_to_db] saved the store it loaded with
    the new chunks added. *)
Lemma add_documents_success load split e req now ids st f nd nc st' :
  add_documents_to_db load split e req now ids st = (EAdded f nd nc, st') ->
  exists d vs chunks vs', ar_db_id req = Some d /\ load_local d st = Some vs /\ length chunks = nc
    /\ add_documents e chunks (take nc ids) vs = Some vs' /\ load_local d st' = Some vs'.
Proof.
  unfold add_documents_to_db. intros H. split_handler H.
  injection H as _ _ <- <-. exists s, v, (split z z0 l), v0.
  split; [done|]. split; [done|]. split; [done|]. split; [done|].
  apply load_save_local in Heqo5. exact Heqo5.
Qed.

(** When [doc_id] has the one position [i], dropping it removes exactly
    that position from the index map. *)
Lemma drop_doc_map doc_id vs i :
  dict_wf (vs_map vs) -> dict_get (vs_map vs) i = Some doc_id ->
  (forall j, dict_get (vs_map vs) j = Some doc_id -> j = i) ->
  dict_map (vs_map (drop_doc doc_id vs)) = delete i (dict_map (vs_map vs)).
Proof.
  intros Hwf Hi Hu. apply map_eq. intros k. rewrite dict_map_get. simpl.
  rewrite dict_get_filter by done. destruct (decide (k = i)) as [->|Hne].
  - rewrite lookup_delete_eq, Hi. by case_bool_decide.
  - rewrite lookup_delete_ne, dict_map_get by congruence.
    destruct (dict_get (vs_map vs) k) as [id|] eqn:Hk; [|done].
    case_bool_decide as Hid; [done|]. subst. by apply Hu in Hk.
Qed.

Lemma drop_doc_map_length doc_id vs i :
  vs_wf vs -> dict_get (vs_map vs) i = Some doc_id ->
  (forall j, dict_get (vs_map vs) j = Some doc_id -> j = i) ->
  length (vs_map (drop_doc doc_id vs)) = length (vs_index vs) - 1.
Proof.
  intros Hwf Hi Hu. pose proof Hwf as (_ & Hm & _).
  rewrite (dict_wf_length (vs_map (drop_doc doc_id vs))) by (apply dict_filter_wf, Hm).
  rewrite (drop_doc_map _ _ i), map_size_delete_Some by (rewrite ?dict_map_get; by eauto).
  rewrite <- (dict_wf_length (vs_map vs)), (vs_wf_map_length vs Hwf) by done. lia.
Qed.

(** C16: removing a document that is not the last one and then adding
    documents corrupts the store: [FAISS.__add] numbers the new vectors
    from [len(index_to_docstore_id)], one less than the number of vectors,
    so the first new id overwrites the id of the last old vector (whose
    document no search finds any more) and the newest vector has no id
    (a search that returns it raises [KeyError]). *)
Theorem remove_then_add_collides load split e req now now' ids st st1 st2 vs d doc_id i s f nd nc :
  load_local d st = Some vs -> vs_wf vs -> positions vs doc_id = [i] -> S i < length (vs_index vs) ->
  remove_document_from_db now (Some d) (Some doc_id) st = (EDocRemoved doc_id s, st1) ->
  ar_db_id req = Some d ->
  add_documents_to_db load split e req now' ids st1 = (EAdded f nd nc, st2) ->
  exists vs2 old new, load_local d st2 = Some vs2
    /\ length (vs_index vs2) = length (vs_index vs) + nc
    /\ search_hits vs2 [length (vs_index vs) + nc - 1] = None
    /\ dict_get (vs_map vs) (length (vs_index vs) - 1) = Some old
    /\ dict_get (vs_map vs2) (length (vs_index vs) - 1) = Some new /\ new <> old.
Proof.
  intros Hl Hwf Hp Hlt Hrm Hreq Hadd.
  pose proof Hwf as (_ & Hmw0 & _).
  assert (dict_get (vs_map vs) i = Some doc_id) as Hi
    by (apply elem_of_positions; [done | rewrite Hp; by left]).
  assert (forall j, dict_get (vs_map vs) j = Some doc_id -> j = i) as Hu
    by (intros j Hj; apply elem_of_positions in Hj; [|done]; rewrite Hp in Hj; set_solver).
  destruct (remove_document_success _ _ _ _ _ _ Hrm) as (vs0 & Hl0 & _ & Hl1).
  rewrite Hl in Hl0. injection Hl0 as <-.
  destruct (add_documents_success _ _ _ _ _ _ _ _ _ _ _ Hadd) as (d' & vs1 & chunks & vs2 & Hd & Hl1' & Hc & Hfa & Hl2).
  rewrite Hreq in Hd. injection Hd as <-. rewrite Hl1 in Hl1'. injection Hl1' as <-.
  destruct (faiss_add_shape _ _ _ _ _ Hfa) as (Hix & Hlen & Hne & Hmap & Hfresh).
  pose proof (drop_doc_map_length doc_id vs i Hwf Hi Hu) as Hml.
  pose proof Hwf as (Hdw & Hmw & Hk & Hv).
  set (n := length (vs_index vs)) in *.
  assert (length chunks <> 0) as Hnz by (destruct chunks; [done | simpl; lia]).
  assert (length (take nc ids) = nc) as Htk by (rewrite Hlen; lia).
  destruct (Hk (n - 1)) as [_ [old Hold]]; [lia|].
  destruct (lookup_lt_is_Some_2 (take nc ids) 0) as [new Hnew]; [lia|].
  exists vs2, old, new. split; [done|]. split; [rewrite Hix, length_app, length_fmap; simpl; lia|].
  split.
  - apply unmapped_search. rewrite Hmap, Hml.
    destruct (dict_get (dict_update _ _) _) eqn:Hg; [|done]. exfalso.
    assert (is_Some (dict_get (dict_update (vs_map (drop_doc doc_id vs)) (number_ids (n - 1) (take nc ids)))
                       (n + nc - 1))) as [Hs|Hs]%dict_update_keys by (by eexists).
    + simpl in Hs. rewrite dict_get_filter in Hs by done.
      destruct (dict_get (vs_map vs) (n + nc - 1)) eqn:Hx; [|by destruct Hs].
      assert (n + nc - 1 < n) by (apply Hk; by eexists). lia.
    + rewrite number_ids_keys, elem_of_seq in Hs. lia.
  - split; [done|]. split.
    + rewrite Hmap, Hml. apply dict_update_in; [apply number_ids_nodup|].
      pose proof (elem_of_number_ids (n - 1) _ 0 new Hnew) as Hin. by rewrite Nat.add_0_r in Hin.
    + intros ->. eapply Forall_forall in Hfresh; [|by eapply list_elem_of_lookup_2]. apply Hfresh.
      apply elem_of_dict_keys. simpl. rewrite dict_get_del, decide_False.
      * by apply (Hv (n - 1)).
      * intros ->. apply Hu in Hold. lia.
Qed.

(** ** The edits that keep a store well formed *)

Lemma rename_source_keys source name vs :
  dict_keys (vs_docs (rename_source source name vs)) = dict_keys (vs_docs vs).
Proof.
  unfold dict_keys. simpl. rewrite <- list_fmap_compose. apply list_fmap_ext. intros _ [k doc] _.
  simpl. by destruct (source_is source doc).
Qed.

Lemma rename_source_wf source name vs : vs_wf vs -> vs_wf (rename_source source name vs).
Proof.
  intros (Hd & Hm & Hk & Hv). split; [unfold dict_wf; by rewrite rename_source_keys|].
  split; [done|]. split; [done|]. intros i id Hi. simpl in Hi.
  apply elem_of_dict_keys. rewrite rename_source_keys. apply elem_of_dict_keys. by apply (Hv i).
Qed.

Lemma update_custom_name_success d source name st st' :
  update_document_custom_name (Some d) (Some source) name st = (ENameUpdated, st') ->
  exists vs, load_local d st = Some vs /\ load_local d st' = Some (rename_source source name vs).
Proof.
  unfold update_document_custom_name. intros H. split_handler H.
  injection H as <-. exists v. split; [done|]. by eapply load_save_local.
Qed.

(** [remove_documents_from_db] changes nothing, whatever it answers. *)
Lemma remove_documents_from_db_state d doc_ids st : (remove_documents_from_db d doc_ids st).2 = st.
Proof. unfold remove_documents_from_db. by repeat case_match. Qed.

(** C37: the store invariant is kept by the edits that do not remove:
    [add_documents_to_db] and [update_document_custom_name], given a
    well-formed store, save a well-formed one, on which every search of
    the index's positions finds its documents. *)
Theorem edits_keep_store_wf load split e req now ids d source name st vs :
  load_local d st = Some vs -> vs_wf vs ->
  (forall f nd nc st', ar_db_id req = Some d ->
     add_documents_to_db load split e req now ids st = (EAdded f nd nc, st') ->
     exists vs', load_local d st' = Some vs' /\ vs_wf vs'
       /\ forall hits, Forall (fun i => i < length (vs_index vs')) hits -> is_Some (search_hits vs' hits))
  /\ (forall st', update_document_custom_name (Some d) (Some source) name st = (ENameUpdated, st') ->
     exists vs', load_local d st' = Some vs' /\ vs_wf vs'
       /\ forall hits, Forall (fun i => i < length (vs_index vs')) hits -> is_Some (search_hits vs' hits)).
Proof.
  intros Hl Hwf. split.
  - intros f nd nc st' Hreq (d' & vs1 & chunks & vs' & Hd & Hl1 & _ & Hfa & Hl')%add_documents_success.
    rewrite Hreq in Hd. injection Hd as <-. rewrite Hl in Hl1. injection Hl1 as <-.
    assert (vs_wf vs') as Hwf' by (eapply faiss_add_wf; [exact Hwf | exact Hfa]).
    exists vs'. split; [done|]. split; [done|]. intros hits. by apply search_hits_ok.
  - intros st' (vs1 & Hl1 & Hl')%update_custom_name_success. rewrite Hl in Hl1. injection Hl1 as <-.
    pose proof (rename_source_wf source name vs Hwf) as Hwf'.
    eexists. split; [exact Hl'|]. split; [done|]. intros hits. by apply search_hits_ok.
Qed.

(** ** Example: a corpus of three files, one removal, one addition *)

Definition demo_edit_fs : fsys :=
  mkFsys {[(false, ["data"])]}
    {[(false, ["data"; "a.txt"]) := "제1조"; (false, ["data"; "b.txt"]) := "제2조";
      (false, ["data"; "c.txt"]) := "제3조"; (false, ["data"; "d.txt"]) := "제4조"]}.

Definition demo_corpus_req : create_req :=
  mkCreateReq ["a.txt"; "b.txt"; "c.txt"] (Some "병역법") "" "법령" "pdfplumber" (JInt 500) (JInt 50).

(** The corpus, created with the chunk ids u1, u2, u3. *)
Definition demo_created : dmstate :=
  (create_vector_db demo_load demo_split demo_embed demo_corpus_req demo_t demo_tc1 ["u1"; "u2"; "u3"]
     (mkDm None demo_edit_fs ∅)).2.

Definition demo_db : string := db_folder demo_t.

Definition demo_store : vstore := default empty_store (load_local demo_db demo_created).

(** After removing the document u1 of a.txt. *)
Definition demo_removed : dmstate := (remove_document_from_db demo_now (Some demo_db) (Some "u1") demo_created).2.

Definition demo_add_req : add_req := mkAddReq (Some demo_db) ["d.txt"] [].

(** After adding d.txt as the chunk u4. *)
Definition demo_added : dmstate :=
  (add_documents_to_db demo_load demo_split demo_embed demo_add_req demo_now ["u4"] demo_removed).2.

(** The edits of the examples all succeed. *)
Example demo_edits_succeed :
  (remove_document_from_db demo_now (Some demo_db) (Some "u1") demo_created).1 = EDocRemoved "u1" (JText "data/a.txt")
  /\ (remove_documents_by_source demo_now (Some demo_db) (Some "data/a.txt") demo_created).1
       = ESourceRemoved 1 "data/a.txt"
  /\ (add_documents_to_db demo_load demo_split demo_embed demo_add_req demo_now ["u4"] demo_removed).1 = EAdded 1 1 1
  /\ (add_documents_to_db demo_load demo_split demo_embed demo_add_req demo_now ["u4"] demo_created).1 = EAdded 1 1 1
  /\ (update_document_custom_name (Some demo_db) (Some "data/b.txt") "병역법 제2조" demo_created).1 = ENameUpdated.
Proof. vm_compute. repeat split. Qed.

(** C13 witness: removing u1, or every document of data/a.txt. *)
Lemma removal_leaves_vectors_witness :
  (forall s st', remove_document_from_db demo_now (Some demo_db) (Some "u1") demo_created = (EDocRemoved "u1" s, st') ->
     exists vs', load_local demo_db st' = Some vs' /\ vs_index vs' = vs_index demo_store
       /\ dict_get (vs_docs vs') "u1" = None /\ search_hits vs' [0] = None /\ ~ vs_wf vs')
  /\ (forall doc n st', dict_get (vs_docs demo_store) "u1" = Some doc -> source_is "data/a.txt" doc = true ->
       remove_documents_by_source demo_now (Some demo_db) (Some "data/a.txt") demo_created
         = (ESourceRemoved n "data/a.txt", st') ->
       exists vs', load_local demo_db st' = Some vs' /\ vs_index vs' = vs_index demo_store
         /\ dict_get (vs_docs vs') "u1" = None /\ search_hits vs' [0] = None /\ ~ vs_wf vs').
Proof.
  apply (removal_leaves_vectors demo_now demo_db "u1" "data/a.txt" demo_created demo_store 0);
    [vm_compute; reflexivity | apply vs_wfb_sound; vm_compute; reflexivity | vm_compute; reflexivity].
Defined.

(** C16 witness: after the removal of u1, the chunk u4 of d.txt takes
    position 2, the position of u3 (c.txt), and position 3 has no id. *)
Lemma remove_then_add_collides_witness :
  exists vs2 old new, load_local demo_db demo_added = Some vs2
    /\ length (vs_index vs2) = length (vs_index demo_store) + 1
    /\ search_hits vs2 [length (vs_index demo_store) + 1 - 1] = None
    /\ dict_get (vs_map demo_store) (length (vs_index demo_store) - 1) = Some old
    /\ dict_get (vs_map vs2) (length (vs_index demo_store) - 1) = Some new /\ new <> old.
Proof.
  apply (remove_then_add_collides demo_load demo_split demo_embed demo_add_req demo_now demo_now ["u4"]
           demo_created demo_removed demo_added demo_store demo_db "u1" 0 (JText "data/a.txt") 1 1 1);
    first [vm_compute; reflexivity | apply vs_wfb_sound; vm_compute; reflexivity | by_eval].
Defined.

(** C37 witness: adding d.txt to the corpus, and naming the documents of
    data/b.txt. *)
Lemma edits_keep_store_wf_witness :
  (forall f nd nc st', ar_db_id demo_add_req = Some demo_db ->
     add_documents_to_db demo_load demo_split demo_embed demo_add_req demo_now ["u4"] demo_created
       = (EAdded f nd nc, st') ->
     exists vs', load_local demo_db st' = Some vs' /\ vs_wf vs'
       /\ forall hits, Forall (fun i => i < length (vs_index vs')) hits -> is_Some (search_hits vs' hits))
  /\ (forall st', update_document_custom_name (Some demo_db) (Some "data/b.txt") "병역법 제2조" demo_created
                    = (ENameUpdated, st') ->
     exists vs', load_local demo_db st' = Some vs' /\ vs_wf vs'
       /\ forall hits, Forall (fun i => i < length (vs_index vs')) hits -> is_Some (search_hits vs' hits)).
Proof.
  apply (edits_keep_store_wf demo_load demo_split demo_embed demo_add_req demo_now ["u4"] demo_db "data/b.txt"
           "병역법 제2조" demo_created demo_store);
    [vm_compute; reflexivity | apply vs_wfb_sound; vm_compute; reflexivity].
Defined.
