(* ===== verification/DbList.v ===== *)
(** * Listing the vector DBs and their documents ([src/document_manager.py])

    The read side of the document manager: [get_db_info] (lines 320-353)
    reports a corpus's metadata entry with defaults; [get_vector_dbs]
    (754-818) lists the corpus folders of the working directory, records
    in the metadata file the folders that had no entry, and groups the
    corpora by category; [get_db_documents] (820-878) lists the documents
    of a saved store in docstore order with a preview of their text; the
    page [document_manager] (153-198) lists the uploaded files, the
    corpus folders and the categories.

    [os.listdir()] is an argument (its order is the file system's); the
    folder entries are checked against the file system model of
    [Uploads]. *)

From S2P Require Import Prelude PyStr Metadata Uploads PyDict FaissStore DbCreate DbEdit.
From Stdlib Require QArith.
From Stdlib Require Import Ascii.

(** ** [get_db_info] *)

Record db_info_resp := mkInfo {
  info_id : string; info_name : string; info_category : string;
  info_chunk_size : jnum; info_chunk_overlap : jnum; info_created_at : jnum;
  info_last_updated : jnum; info_document_count : jnum }.

Inductive info_response := IInfo (i : db_info_resp) | IError (status : Z).

(** [get_db_info()]: it changes nothing.  The [document_count] it reports
    is the field [added_documents], which only [add_documents_to_db]
    writes. *)
Definition get_db_info (d : option string) (st : dmstate) : info_response :=
  match d with
  | None => IError 400
  | Some d =>
      if decide (d = "") then IError 400 else
      if negb (is_dir (dm_fs st) d) then IError 404 else
      match db_info (load_db_metadata (dm_meta st)) d with
      | None => IError 500
      | Some info =>
          IInfo (mkInfo d (match info with Some e => display_name e | None => default_display d end)
                   (match info with Some e => category e | None => DEFAULT_CATEGORY end)
                   (info_get info "chunk_size" (JInt 300)) (info_get info "chunk_overlap" (JInt 50))
                   (info_get info "created_at" (JText ""))
                   (info_get info "last_updated" (info_get info "created_at" (JText "")))
                   (info_get info "added_documents" (JInt 0)))
      end
  end.

(** ** [get_vector_dbs] *)

(** [{'id': ..., 'name': ..., 'category': ...}] *)
Record db_entry := mkEntry { entry_id : string; entry_name : string; entry_category : string }.

(** One folder of the loop of lines 765-791: its entry, the metadata
    after the loop body, and whether the body changed it. *)
Definition list_folder (now : timestamp) (m : metadata) (folder : string) : db_entry * metadata * bool :=
  let info := dbs m !! folder in
  let '(name, m1, changed1) :=
    match info with
    | Some e =>
        if decide (display_name e = "") then
          let dn := strip_db_prefix folder in
          (dn, mkMetadata (categories m) (<[folder := mkDbMeta dn (category e) (db_extra e)]> (dbs m)), true)
        else (display_name e, m, false)
    | None =>
        let dn := strip_db_prefix folder in
        (dn, mkMetadata (categories m)
               (<[folder := mkDbMeta dn DEFAULT_CATEGORY {["created_at" := JText (isoformat now)]}]> (dbs m)), true)
    end in
  let '(cat, m2, changed2) :=
    match info with
    | Some e =>
        if decide (category e = "") then
          (DEFAULT_CATEGORY,
           mkMetadata (categories m1) (alter (set_category DEFAULT_CATEGORY) folder (dbs m1)), true)
        else (category e, m1, false)
    | None => (DEFAULT_CATEGORY, m1, false)
    end in
  (mkEntry folder name cat, m2, changed1 || changed2).

Fixpoint list_folders (now : timestamp) (m : metadata) (folders : list string) : list db_entry * metadata * bool :=
  match folders with
  | [] => ([], m, false)
  | f :: fs =>
      let '(e, m1, c1) := list_folder now m f in
      let '(es, m2, c2) := list_folders now m1 fs in
      (e :: es, m2, c1 || c2)
  end.

(** [categorized_dbs]: the entries grouped by category, the categories in
    the order they first appear. *)
Definition group_by_category (es : list db_entry) : list (string * list db_entry) :=
  foldl (fun acc e => dict_set acc (entry_category e) (default [] (dict_get acc (entry_category e)) ++ [e])) [] es.

(** The corpus folders among the names [os.listdir()] returned. *)
Definition corpus_folders (fs : fsys) (listing : list string) : list string :=
  filter (fun f => String.prefix VECTOR_DB_FOLDER f = true /\ is_dir fs f = true) listing.

(** [get_vector_dbs()] at the clock reading [now], [listing] being what
    [os.listdir()] returned; the loop over the metadata keys that follows
    (lines 796-804) does nothing. *)
Definition get_vector_dbs (now : timestamp) (listing : list string) (st : dmstate)
    : (list db_entry * list (string * list db_entry)) * dmstate :=
  let '(es, m', changed) := list_folders now (load_db_metadata (dm_meta st)) (corpus_folders (dm_fs st) listing) in
  ((es, group_by_category es),
   if changed then mkDm (save_db_metadata m') (dm_fs st) (dm_stores st) else st).

(** ** [get_db_documents] *)

(** A UTF-8 continuation byte. *)
Definition is_cont (c : ascii) : bool := in_range 128 191 c.

(** [len(s)] of a Python [str]: its code points, one per byte that is not
    a continuation byte. *)
Definition py_len (s : string) : nat :=
  length (filter (fun c => is_cont c = false) (String.list_ascii_of_string s)).

(** The bytes of the first [n] code points. *)
Fixpoint utf8_take (n : nat) (l : list ascii) : list ascii :=
  match l with
  | [] => []
  | c :: l' =>
      if is_cont c then c :: utf8_take n l'
      else match n with 0 => [] | S n' => c :: utf8_take n' l' end
  end.

(** [doc.page_content[:50] + '...' if len(doc.page_content) > 50 else doc.page_content] *)
Definition preview (s : string) : string :=
  if decide (50 < py_len s) then String.string_of_list_ascii (utf8_take 50 (String.list_ascii_of_string s)) +:+ "..."
  else s.

(** [os.path.basename(s)]: what follows the last ['/']. *)
Definition py_basename (s : string) : string := default "" (last (components s)).

Record doc_entry := mkDocEntry {
  de_id : string; de_source : jnum; de_filename : string; de_original : string;
  de_custom_name : jnum; de_content : string; de_metadata : list (string * jnum) }.

(** The entry of one document (lines 840-868); [None] when
    [os.path.basename] raises on a [source] that is not a string. *)
Definition doc_entry_of (doc_id : string) (doc : ldoc) : option doc_entry :=
  let source := default (JText "알 수 없음") (dict_get (ld_meta doc) "source") in
  match (if py_truthy source then match source with JText s => Some (py_basename s) | _ => None end
         else Some "알 수 없음") with
  | None => None
  | Some filename =>
      let original := restore_filename filename in
      Some (mkDocEntry doc_id source filename original
              (default (JText original) (dict_get (ld_meta doc) "custom_name"))
              (preview (ld_content doc))
              (dict_filter (fun k v => bool_decide (k <> "source") && py_truthy v) (ld_meta doc)))
  end.

Inductive documents_response := DDocuments (docs : list doc_entry) (count : nat) | DError (status : Z).

(** [get_db_documents()] *)
Definition get_db_documents (d : option string) (st : dmstate) : documents_response :=
  match d with
  | None => DError 400
  | Some d =>
      if decide (d = "") then DError 400 else
      if negb (is_dir (dm_fs st) d) then DError 404 else
      match load_local d st with
      | None => DError 500
      | Some vs =>
          match mapM (fun kv => doc_entry_of kv.1 kv.2) (vs_docs vs) with
          | None => DError 500
          | Some es => DDocuments es (length es)
          end
      end
  end.

(** ** The page [document_manager] *)

(** The corpus list of the page (lines 168-190): every name that starts
    with the prefix, directory or not. *)
Definition page_vector_dbs (m : metadata) (listing : list string) : list db_entry :=
  (fun folder =>
     let dn := match dbs m !! folder with Some e => display_name e | None => strip_db_prefix folder end in
     mkEntry folder (if decide (dn = "") then "기본 DB" else dn)
       (match dbs m !! folder with Some e => category e | None => DEFAULT_CATEGORY end))
  <$> filter (fun f => String.prefix VECTOR_DB_FOLDER f = true) listing.

(** [document_manager()] given what [os.listdir] returned for the upload
    folder and for the working directory: the documents, the corpora and
    the categories it renders. *)
Definition document_manager_page (uploads listing : list string) (st : dmstate)
    : list (string * string) * list db_entry * list string :=
  (document_entries uploads, page_vector_dbs (load_db_metadata (dm_meta st)) listing,
   with_default (get_all_categories (dm_meta st))).

(** ** What [get_db_info] reports of a new corpus *)

(** C19: after [create_vector_db_from_multiple] built a corpus from one
    document or more, [get_db_info] on its folder reports the name, the
    chunk settings and the creation time it saved, and a [document_count]
    of 0: the count it reports is the field [added_documents], which
    creation does not write. *)
Theorem created_db_info load split e req t tc ids st n id dc cc cs co cat dn st' :
  create_vector_db load split e req t tc ids st = (CCreated n id dc cc cs co cat dn, st') ->
  dc <> 0%nat /\
  exists i, get_db_info (Some id) st' = IInfo i /\ info_name i = n
    /\ info_chunk_size i = JInt cs /\ info_chunk_overlap i = JInt co
    /\ info_created_at i = JText (isoformat tc) /\ info_document_count i = JInt 0.
Proof.
  intros H. destruct (create_saves_dir _ _ _ _ _ _ _ _ _ _ _ _ _ _ _ _ _ H) as [Hdc Hdir].
  destruct (create_success _ _ _ _ _ _ _ _ _ _ _ _ _ _ _ _ _ H) as (-> & _ & Hn & _ & _ & Hm).
  split; [done|]. eexists. split.
  - unfold get_db_info. rewrite decide_False
      by (intros Hd; apply (f_equal (String.get 0)) in Hd; vm_compute in Hd; discriminate).
    rewrite Hdir. cbn [negb]. unfold db_info. rewrite decide_False by apply db_folder_not_categories.
    rewrite Hm, lookup_saved_entry. reflexivity.
  - unfold repair_entry. cbn. rewrite decide_False by done. split; [done|].
    unfold info_get. cbn. by simplify_map_eq.
Qed.

(** C19 witness: the corpus of three files of [DbEdit]. *)
Lemma created_db_info_witness :
  3%nat <> 0%nat /\
  exists i, get_db_info (Some demo_db) demo_created = IInfo i /\ info_name i = "병역법"
    /\ info_chunk_size i = JInt 500 /\ info_chunk_overlap i = JInt 50
    /\ info_created_at i = JText (isoformat demo_tc1) /\ info_document_count i = JInt 0.
Proof.
  apply (created_db_info demo_load demo_split demo_embed demo_corpus_req demo_t demo_tc1 ["u1"; "u2"; "u3"]
           (mkDm None demo_edit_fs ∅) "병역법" demo_db 3 3 500 50 "법령" "원본 파일명" demo_created).
  vm_compute. reflexivity.
Defined.

(** ** What [get_db_documents] lists *)

Lemma utf8_take_len n l : length (filter (fun c => is_cont c = false) (utf8_take n l)) <= n.
Proof.
  revert n. induction l as [|c l IH]; intros n; simpl; [lia|].
  destruct (is_cont c) eqn:Hc.
  - rewrite filter_cons, decide_False by congruence. apply IH.
  - destruct n as [|n]; simpl; [lia|]. rewrite filter_cons, decide_True by done. simpl. specialize (IH n). lia.
Qed.

(** A preview has at most 53 code points: 50 and the three dots. *)
Lemma preview_len s : py_len (preview s) <= 53.
Proof.
  unfold preview, py_len. case_decide as H; [|unfold py_len in H; lia].
  rewrite list_ascii_app, String.list_ascii_of_string_of_list_ascii, filter_app, length_app.
  pose proof (utf8_take_len 50 (String.list_ascii_of_string s)). simpl. lia.
Qed.

(** [get_db_documents] lists the documents of the store in docstore
    order, each with a preview of at most 53 code points. *)
Lemma get_db_documents_lists d st es c :
  get_db_documents (Some d) st = DDocuments es c ->
  exists vs, load_local d st = Some vs /\ de_id <$> es = dict_keys (vs_docs vs) /\ c = length es
    /\ Forall (fun e => py_len (de_content e) <= 53) es.
Proof.
  unfold get_db_documents. intros H. split_handler H. injection H as <- <-.
  exists v. split; [done|]. apply mapM_Some in Heqo0. unfold dict_keys.
  induction Heqo0 as [|[k doc] e kvs es Hx _ IH]; [done|]. simpl in Hx |- *.
  unfold doc_entry_of in Hx. destruct (if py_truthy _ then _ else _); [|done]. injection Hx as <-.
  destruct IH as (IH1 & _ & IH3). split; [f_equal; exact IH1|]. split; [done|].
  constructor; [apply preview_len | done].
Qed.

(** ** What [get_vector_dbs] records *)

Lemma list_folder_keys now m f e m1 c :
  list_folder now m f = (e, m1, c) ->
  entry_id e = f /\ is_Some (dbs m1 !! f) /\ (forall k, is_Some (dbs m !! k) -> is_Some (dbs m1 !! k))
  /\ (c = false -> m1 = m).
Proof.
  unfold list_folder. destruct (dbs m !! f) as [x|] eqn:Hf;
    repeat case_decide; intros [= <- <- <-]; simpl; (split; [done|]);
    (split; [|split];
     [ rewrite ?lookup_alter_is_Some, ?lookup_insert_eq, ?Hf; by eexists
     | intros k Hk; rewrite ?lookup_alter_is_Some; destruct (decide (k = f)) as [->|];
       [rewrite ?lookup_insert_eq, ?Hf; by eexists | by rewrite ?lookup_insert_ne]
     | by intros ?]).
Qed.

Lemma list_folders_keys now m fs es m' c :
  list_folders now m fs = (es, m', c) ->
  entry_id <$> es = fs /\ (forall f, f ∈ fs -> is_Some (dbs m' !! f))
  /\ (forall k, is_Some (dbs m !! k) -> is_Some (dbs m' !! k)) /\ (c = false -> m' = m).
Proof.
  revert m es m' c. induction fs as [|f fs IH]; intros m es m' c; simpl.
  - intros [= <- <- <-]. split; [done|]. split; [set_solver|]. done.
  - destruct (list_folder now m f) as [[e m1] c1] eqn:H1. destruct (list_folders now m1 fs) as [[es1 m2] c2] eqn:H2.
    intros [= <- <- <-]. destruct (list_folder_keys _ _ _ _ _ _ H1) as (He & Hf & Hk1 & Hc1).
    destruct (IH _ _ _ _ H2) as (Hes & Hfs & Hk2 & Hc2). split; [rewrite fmap_cons, He, Hes; done|]. split.
    + intros g [->|Hg]%elem_of_cons; [by apply Hk2 | by apply Hfs].
    + split; [auto|]. intros [Hc1' Hc2']%orb_false_iff. rewrite Hc2, Hc1; done.
Qed.

(** [get_vector_dbs] lists the corpus directories of the listing in its
    order, and afterwards the metadata file has an entry for each. *)
Lemma get_vector_dbs_registers now listing st :
  (entry_id <$> ((get_vector_dbs now listing st).1).1) = corpus_folders (dm_fs st) listing
  /\ forall f, f ∈ corpus_folders (dm_fs st) listing ->
       is_Some (dbs (load_db_metadata (dm_meta (get_vector_dbs now listing st).2)) !! f).
Proof.
  unfold get_vector_dbs.
  destruct (list_folders _ _ _) as [[es m'] c] eqn:H. destruct (list_folders_keys _ _ _ _ _ _ H) as (Hes & Hfs & _ & Hc).
  split; [done|]. intros f Hf. destruct c.
  - cbn [snd dm_meta]. unfold save_db_metadata. rewrite lookup_load_dbs. cbn [raw_dbs]. rewrite lookup_fmap.
    destruct (Hfs f Hf) as [x ->]. by eexists.
  - cbn [snd]. rewrite <- (Hc eq_refl). by apply Hfs.
Qed.

(** ** Examples *)

(** The corpus of [DbEdit], with a file named like a corpus folder next
    to it. *)
Definition demo_listed : dmstate :=
  mkDm (dm_meta demo_created) (add_file (false, ["LANGCHAIN_DB_INDEX_old.zip"]) "" (dm_fs demo_created))
    (dm_stores demo_created).

Definition demo_cwd : list string := ["app.py"; "LANGCHAIN_DB_INDEX_old.zip"; demo_db; "data"].

(** After the removal of u1, the documents of b.txt and c.txt are listed;
    [get_vector_dbs] lists the corpus folder only, while the page also
    lists the file as a corpus. *)
Example demo_listings :
  (exists es, get_db_documents (Some demo_db) demo_removed = DDocuments es 2 /\ de_id <$> es = ["u2"; "u3"])
  /\ entry_id <$> ((get_vector_dbs demo_now demo_cwd demo_listed).1).1 = [demo_db]
  /\ entry_id <$> ((document_manager_page [] demo_cwd demo_listed).1).2 = ["LANGCHAIN_DB_INDEX_old.zip"; demo_db].
Proof. split; [eexists; split; vm_compute; reflexivity | split; vm_compute; reflexivity]. Qed.

(** The preview cuts a text of 51 Hangul syllables after 50 of them. *)
Example preview_sample :
  preview "가나다라마바사아자차카타파하가나다라마바사아자차카타파하가나다라마바사아자차카타파하가나다라마바사아자"
  = "가나다라마바사아자차카타파하가나다라마바사아자차카타파하가나다라마바사아자차카타파하가나다라마바사아...".
Proof. vm_compute. reflexivity. Qed.
