(* ===== verification/CategorySpec.v ===== *)
(** * The category store the metadata handlers implement

    The handlers of [src/document_manager.py] that manage categories
    ([add_category], [delete_category], [rename_category],
    [update_db_category], [delete_vector_db]) keep their state in a JSON
    file, as a list with duplicates possible and a map of records.  What
    they promise is simpler: a set of categories made by hand, a map from
    corpus folders to their category, and the set of corpus directories;
    the listed categories are the hand-made ones, the assigned ones and the
    default, without the empty name.  This file states that contract as
    operations on [cat_store] with the status of each refusal, and shows
    that every handler refines its operation through the abstraction
    [alpha] of the file, on every file whose category list has no
    duplicates (the invariant of [Metadata.category_list_nodup]). *)

From S2P Require Import Prelude PyStr Metadata.

Record cat_store := mkCatStore {
  hand : gset string;                 (** the ["_categories"] list, as a set *)
  assigned : gmap string string;      (** folder -> category *)
  corpora : gset string               (** the directories of the working directory *)
}.

(** What [get_all_categories] lists. *)
Definition listed (A : cat_store) : gset string :=
  {[DEFAULT_CATEGORY]} ∪ ((hand A ∪ map_img (assigned A)) ∖ {[""]}).

(** The category store a file and a working directory stand for. *)
Definition alpha (f : fs) : cat_store :=
  let m := load_db_metadata (meta_file f) in
  mkCatStore (list_to_set (categories m)) (category <$> dbs m) (dirs f).

Definition recat (o n : string) (E : gmap string string) : gmap string string :=
  (fun c => if decide (c = o) then n else c) <$> E.

(** ** The operations of the contract (on stripped names); [inl z] is a
    refusal with HTTP status [z] that changes nothing. *)

Definition abs_add (n : string) (A : cat_store) : Z + cat_store :=
  if decide (n = "" \/ n ∈ listed A) then inl 400%Z
  else inr (mkCatStore (hand A ∪ {[n]}) (assigned A) (corpora A)).

Definition abs_delete (n : string) (A : cat_store) : Z + cat_store :=
  if decide (n = "") then inl 400%Z
  else inr (mkCatStore (hand A ∖ {[n]}) (recat n DEFAULT_CATEGORY (assigned A)) (corpora A)).

Definition abs_rename (o n : string) (A : cat_store) : Z + cat_store :=
  if decide (o = "" \/ n = "") then inl 400%Z
  else inr (mkCatStore (if decide (o ∈ hand A) then (hand A ∖ {[o]}) ∪ {[n]} else hand A)
                       (recat o n (assigned A)) (corpora A)).

Definition abs_update (d c : option string) (A : cat_store) : Z + cat_store :=
  match d, c with
  | Some d, Some c =>
      if decide (d = "" \/ c = "") then inl 400%Z else
      if decide (d = CATEGORIES_KEY) then inl 500%Z else
      inr (mkCatStore (if decide (c = DEFAULT_CATEGORY) then hand A else hand A ∪ {[c]})
                      (<[d := c]> (assigned A)) (corpora A))
  | _, _ => inl 400%Z
  end.

Definition abs_delete_db (d : option string) (A : cat_store) : Z + cat_store :=
  match d with
  | None => inl 400%Z
  | Some d =>
      if decide (d = "") then inl 400%Z else
      if decide (d ∈ corpora A) then
        if decide (d = CATEGORIES_KEY) then inl 500%Z
        else inr (mkCatStore (hand A) (delete d (assigned A)) (corpora A ∖ {[d]}))
      else inl 404%Z
  end.

(** A handler's answer and file refine the contract's outcome: a refusal
    with the same status and the file untouched, or a success whose file
    stands for the contract's new store. *)
Definition step_refines (r : meta_response * fs) (a : Z + cat_store) (f : fs) : Prop :=
  match a with
  | inl z => r = (MError z, f)
  | inr A => alpha r.2 = A /\ forall z, r.1 <> MError z
  end.

(** ** The list operations as set operations *)

Lemma remove_first_elem z x l : z ∈ remove_first x l -> z ∈ l.
Proof.
  induction l as [|y l IH]; simpl; [done|]. case_decide; [set_solver|].
  rewrite !elem_of_cons. tauto.
Qed.

Lemma list_to_set_remove_first x l :
  NoDup l -> list_to_set (C := gset string) (remove_first x l) = list_to_set l ∖ {[x]}.
Proof.
  intros Hnd. apply set_eq. intros z. rewrite elem_of_difference, !elem_of_list_to_set, elem_of_singleton.
  destruct (remove_first_nodup x l Hnd) as [Hx _]. split.
  - intros Hz. split; [by eapply remove_first_elem|]. by intros ->.
  - intros [Hz Hne]. clear Hx Hnd. induction l as [|y l IH]; simpl; [done|].
    case_decide; [subst; set_solver|]. set_solver.
Qed.

Lemma list_to_set_replace_first o n l :
  NoDup l -> o ∈ l ->
  list_to_set (C := gset string) (replace_first o n l) = (list_to_set l ∖ {[o]}) ∪ {[n]}.
Proof.
  induction 1 as [|y l Hy Hl IH]; simpl; [set_solver|].
  intros Ho. case_decide as Hoy; [subst; simpl; set_solver|].
  apply elem_of_cons in Ho as [->|Ho]; [done|]. simpl. rewrite IH by done. set_solver.
Qed.

Lemma list_to_set_note_category c l :
  list_to_set (C := gset string) (note_category c l)
  = if decide (c = DEFAULT_CATEGORY) then list_to_set l else list_to_set l ∪ {[c]}.
Proof.
  unfold note_category. case_decide as H; case_decide as Hd; try tauto.
  - rewrite list_to_set_app_L. simpl. set_solver.
  - destruct (decide (c ∈ l)); [set_solver | tauto].
Qed.

(** ** The abstraction *)

(** [get_all_categories] lists exactly the categories of the store. *)
Lemma listed_alpha f : list_to_set (get_all_categories (meta_file f)) = listed (alpha f).
Proof.
  apply set_eq. intros c. unfold listed, alpha. simpl.
  rewrite elem_of_list_to_set, elem_of_get_all_categories, elem_of_category_names.
  rewrite elem_of_union, elem_of_singleton, elem_of_difference, elem_of_union, elem_of_singleton,
    elem_of_list_to_set, elem_of_map_img.
  setoid_rewrite lookup_fmap. split.
  - intros [->|[Hc [Hin|(k & e & Hk & <-)]]]; [by left|tauto|].
    right. split; [|done]. right. exists k. by rewrite Hk.
  - intros [->|[[Hin|[k Hk]] Hc]]; [by left|tauto|]. right. split; [done|]. right.
    destruct (dbs _ !! k) as [e|] eqn:He; simplify_eq/=. eauto.
Qed.

(** The store of a file a handler saved. *)
Lemma alpha_saved f cats db :
  repaired (mkMetadata cats db) ->
  alpha (set_meta_file (save_db_metadata (mkMetadata cats db)) f)
  = mkCatStore (list_to_set cats) (category <$> db) (dirs f).
Proof. intros Hr. unfold alpha, set_meta_file. cbn [meta_file dirs]. by rewrite load_save. Qed.

Lemma category_recategorize o n db :
  category <$> recategorize o n db = recat o n (category <$> db).
Proof.
  unfold recategorize, recat. rewrite <- !map_fmap_compose. apply map_fmap_ext.
  intros k e _. simpl. by case_decide.
Qed.

Lemma elem_listed_of_categories n f :
  n <> "" -> n ∈ categories (load_db_metadata (meta_file f)) -> n ∈ listed (alpha f).
Proof. intros Hn Hin. rewrite <- listed_alpha, elem_of_list_to_set. by apply listed_of_categories. Qed.

Lemma categories_response_ok f z : categories_response f <> MError z.
Proof. discriminate. Qed.

#[export] Hint Resolve categories_response_ok : rag.

(** ** Each handler refines its operation *)

Lemma add_category_refines name f :
  step_refines (add_category name f) (abs_add (py_strip name) (alpha f)) f.
Proof.
  unfold abs_add. case_decide as H.
  - unfold add_category. destruct (decide (py_strip name = "")) as [Hn|Hn]; [done|].
    rewrite decide_True; [done|].
    rewrite <- listed_alpha, elem_of_list_to_set in H. tauto.
  - rewrite add_category_run; [|tauto|].
    + unfold step_refines; cbn [fst snd]. split; [|auto with rag]. rewrite alpha_saved by auto with rag. unfold alpha.
      rewrite list_to_set_app_L. simpl. f_equal. set_solver.
    + rewrite <- (elem_of_list_to_set (C := gset string)), listed_alpha. tauto.
Qed.

Lemma delete_category_refines name f :
  NoDup (categories (load_db_metadata (meta_file f))) ->
  step_refines (delete_category name f) (abs_delete (py_strip name) (alpha f)) f.
Proof.
  intros Hnd. unfold abs_delete. case_decide as H; [unfold delete_category; by rewrite decide_True|].
  unfold step_refines. split; [|unfold delete_category; rewrite decide_False by done; auto with rag].
  rewrite delete_category_run by done. rewrite alpha_saved by auto with rag.
  unfold alpha. rewrite category_recategorize. f_equal.
  case_decide; [by apply list_to_set_remove_first|]. set_solver.
Qed.

Lemma rename_category_refines o n f :
  NoDup (categories (load_db_metadata (meta_file f))) ->
  step_refines (rename_category o n f) (abs_rename (py_strip o) (py_strip n) (alpha f)) f.
Proof.
  intros Hnd. unfold abs_rename. case_decide as H; [unfold rename_category; by rewrite decide_True|].
  unfold step_refines. split; [|unfold rename_category; rewrite decide_False by done; auto with rag].
  rewrite rename_category_run by tauto. rewrite alpha_saved by auto with rag.
  unfold alpha. rewrite category_recategorize. f_equal. simpl.
  case_decide as Ho; [rewrite decide_True by set_solver | rewrite decide_False by set_solver].
  - by apply list_to_set_replace_first.
  - done.
Qed.

Lemma update_db_category_refines now d c f :
  step_refines (update_db_category now d c f) (abs_update d c (alpha f)) f.
Proof.
  destruct d as [d|], c as [c|]; try exact eq_refl.
  unfold abs_update. case_decide as H; [unfold update_db_category; by rewrite decide_True|].
  case_decide as Hk; [unfold update_db_category; rewrite decide_False by done; by rewrite decide_True|].
  rewrite update_db_category_run by tauto. unfold step_refines; cbn [fst snd]. split; [|discriminate].
  pose proof (load_repaired (meta_file f)) as Hr.
  destruct (dbs (load_db_metadata (meta_file f)) !! d) as [e|] eqn:He;
    (rewrite alpha_saved; [unfold alpha; by rewrite fmap_insert, list_to_set_note_category|]);
    (apply repaired_insert; [done | | simpl; tauto]).
  - by destruct (Hr d e He) as [Hd _].
  - done.
Qed.

Lemma delete_vector_db_refines d f :
  step_refines (delete_vector_db d f) (abs_delete_db d (alpha f)) f.
Proof.
  destruct d as [d|]; [|exact eq_refl]. unfold abs_delete_db. change (corpora (alpha f)) with (dirs f).
  case_decide as H; [unfold delete_vector_db; by rewrite decide_True|].
  case_decide as Hin; [|unfold delete_vector_db; rewrite decide_False by done; by rewrite decide_False].
  case_decide as Hk; [unfold delete_vector_db; rewrite decide_False by done; by rewrite !decide_True|].
  rewrite delete_vector_db_run by done.
  destruct (dbs (load_db_metadata (meta_file f)) !! d) as [e|] eqn:He;
    (unfold step_refines; cbn [fst snd]; split; [|discriminate]); unfold alpha; cbn [meta_file dirs].
  - rewrite load_save by auto with rag. simpl. by rewrite fmap_delete.
  - cbn [hand assigned corpora]. rewrite delete_id; [done|]. by rewrite lookup_fmap, He.
Qed.

(** ** The refinement *)

(** C33 (refinement): on a file whose category list has no duplicates, the
    category list [get_all_categories] reads is the set the abstract store
    lists, and each category handler refines its operation of the
    contract: it refuses exactly when the operation does, with the same
    status and the file untouched, and otherwise the file it saves stands
    for the operation's new store. *)
Theorem category_handlers_refine now f name o n d c od :
  NoDup (categories (load_db_metadata (meta_file f))) ->
  list_to_set (get_all_categories (meta_file f)) = listed (alpha f)
  /\ step_refines (add_category name f) (abs_add (py_strip name) (alpha f)) f
  /\ step_refines (delete_category name f) (abs_delete (py_strip name) (alpha f)) f
  /\ step_refines (rename_category o n f) (abs_rename (py_strip o) (py_strip n) (alpha f)) f
  /\ step_refines (update_db_category now d c f) (abs_update d c (alpha f)) f
  /\ step_refines (delete_vector_db od f) (abs_delete_db od (alpha f)) f.
Proof.
  intros Hnd. split; [apply listed_alpha|]. split; [apply add_category_refines|].
  split; [by apply delete_category_refines|]. split; [by apply rename_category_refines|].
  split; [apply update_db_category_refines | apply delete_vector_db_refines].
Qed.

(** C33 witness: the demo file; adding "지침", which is listed already
    (refused), deleting it, renaming "법령", moving the law corpus and
    deleting the guide corpus. *)
Lemma category_handlers_refine_witness :
  NoDup (categories (load_db_metadata (meta_file demo_fs)))
  /\ list_to_set (get_all_categories (meta_file demo_fs)) = listed (alpha demo_fs)
  /\ step_refines (add_category " 지침 " demo_fs) (abs_add (py_strip " 지침 ") (alpha demo_fs)) demo_fs
  /\ step_refines (delete_category " 지침 " demo_fs) (abs_delete (py_strip " 지침 ") (alpha demo_fs)) demo_fs
  /\ step_refines (rename_category "법령" "법률" demo_fs)
       (abs_rename (py_strip "법령") (py_strip "법률") (alpha demo_fs)) demo_fs
  /\ step_refines (update_db_category demo_now (Some demo_law) (Some "기타") demo_fs)
       (abs_update (Some demo_law) (Some "기타") (alpha demo_fs)) demo_fs
  /\ step_refines (delete_vector_db (Some demo_guide) demo_fs) (abs_delete_db (Some demo_guide) (alpha demo_fs)) demo_fs.
Proof.
  split; [by_eval|].
  apply (category_handlers_refine demo_now demo_fs " 지침 " "법령" "법률" (Some demo_law) (Some "기타")
           (Some demo_guide)). by_eval.
Defined.
