(* ===== verification/Cache.v ===== *)
(** * The pipeline cache ([src/streamlit_wrapper.py])

    [db_cache] maps a corpus folder to its retriever, display name and
    compiled graph (a reference into the graph heap of [World]).
    [preload_vector_dbs] builds a retriever per corpus folder,
    [preload_graphs] compiles a graph per cached retriever, [init_app] runs
    both once ([GRAPHS_LOADED]), and [create_graph] returns the cached graph
    of a corpus or builds one, loading the corpus first when it is not
    cached.  The store of this file, [AppState], holds the process globals
    of [streamlit_wrapper.py] and [app.py] together with the [World].

    The theorems: every cached graph reads the corpus it is cached under,
    and every operation keeps it so; [create_graph] returns a graph of the
    requested corpus; after [init_app] a cached graph is returned without a
    build; and [create_graph] is not single-flight: two requests that
    interleave between the check and the store build two graphs. *)

From S2P Require Import Prelude PyStr Types History Rag Graph Metadata.

(** One value of [db_cache]: ['retriever'] (the corpus folder its index was
    loaded from), ['display_name'] and ['graph'] ([load_time] and
    [graph_time] are timings and are left out). *)
Record cache_entry := mkEntry {
  ce_retriever : string;
  ce_display_name : string;
  ce_graph : option nat
}.

#[export] Instance cache_entry_eq_dec : EqDecision cache_entry.
Proof. solve_decision. Defined.

(** The process globals: [db_cache] and [GRAPHS_LOADED] of
    streamlit_wrapper.py; [INITIALIZED], [current_graph] and
    [current_db_index] of app.py; and the heap. *)
Record AppState := mkApp {
  db_cache : gmap string cache_entry;
  graphs_loaded : bool;
  initialized : bool;
  current_graph : option nat;
  current_db_index : option string;
  store : World
}.

Definition set_db_cache (c : gmap string cache_entry) (a : AppState) : AppState :=
  mkApp c (graphs_loaded a) (initialized a) (current_graph a) (current_db_index a) (store a).
Definition set_graphs_loaded (b : bool) (a : AppState) : AppState :=
  mkApp (db_cache a) b (initialized a) (current_graph a) (current_db_index a) (store a).
Definition set_store (w : World) (a : AppState) : AppState :=
  mkApp (db_cache a) (graphs_loaded a) (initialized a) (current_graph a) (current_db_index a) w.

Abbreviation MA := (stE AppState error).

(** A computation on the heap, run inside the application's store. *)
Definition lift_store {A} (m : M A) : MA A :=
  fun a => let (r, w) := m (store a) in (r, set_store w a).

Section Cache.
(** [FAISS.load_local(db_index, ...)] succeeds (the index exists and
  loads); the directories of the working directory; the metadata file. *)
Variable index_loads : string -> bool.
Variable listdir : list string.
Variable meta_file : option meta_raw.

(** [init_retriever(db_index)] (retrievers.py, lines 9-34): the retriever
  over the corpus [db], or the loader's exception. *)
Definition init_retriever (db : string) : MA string :=
if index_loads db then mret db else raise (IndexLoadError db).

(** [create_graph_internal(db_index, retriever)] (lines 54-86): a new
  compiled graph object whose [RetrieveNode] reads [retriever] and
  starts with an empty cache. *)
Definition create_graph_internal (db retriever : string) : MA nat :=
lift_store (
  w ← get_st;
  put_st (set_next_ref (S (next_ref w))
            (set_graphs (<[next_ref w := mkGraphObj retriever ∅]> (graphs w)) w));;
  mret (next_ref w)).

(** [db_cache[db]['graph'] = g] *)
Definition set_entry_graph (db : string) (g : nat) : MA unit :=
modify_st (fun a => set_db_cache
  (alter (fun e => mkEntry (ce_retriever e) (ce_display_name e) (Some g)) db (db_cache a)) a).

(** The body of the loop of [preload_vector_dbs] for one folder (lines 30-49). *)
Definition preload_folder (metadata : metadata) (folder : string) : MA unit :=
TRY (r ← init_retriever folder;
     let name := match dbs metadata !! folder with
                 | Some e => display_name e
                 | None => strip_db_prefix folder
                 end in
     modify_st (fun a => set_db_cache (<[folder := mkEntry r name None]> (db_cache a)) a))
EXCEPT (fun _ => mret tt).

(** [preload_vector_dbs()] (lines 19-52). *)
Definition preload_vector_dbs : MA unit :=
let metadata := load_db_metadata meta_file in
fold_m (fun _ f => preload_folder metadata f) tt
  (filter (fun f => String.prefix VECTOR_DB_FOLDER f = true) listdir).

(** The body of the loop of [preload_graphs] for one key. *)
Definition preload_graph (db : string) : MA unit :=
TRY (a ← get_st;
     match db_cache a !! db with
     | None => raise (KeyError db)
     | Some e =>
         match ce_graph e with
         | Some _ => mret tt
         | None => g ← create_graph_internal db (ce_retriever e); set_entry_graph db g
         end
     end)
EXCEPT (fun _ => mret tt).

(** [preload_graphs()] (lines 88-127), over the keys present when it starts. *)
Definition preload_graphs : MA unit :=
a ← get_st;
if graphs_loaded a then mret tt
else fold_m (fun _ db => preload_graph db) tt (map fst (map_to_list (db_cache a)));;
     modify_st (set_graphs_loaded true).

(** [init_app()] (lines 191-207). *)
Definition init_app : MA unit :=
a ← get_st;
if graphs_loaded a then mret tt
else preload_vector_dbs;; preload_graphs;; modify_st (set_graphs_loaded true).

(** The lock-free check at the top of [create_graph] (lines 138-142): the
  cached graph, when the graphs are loaded and one is cached. *)
Definition create_graph_check (db : string) : MA (option nat) :=
a ← get_st;
if graphs_loaded a then
  match db_cache a !! db with
  | Some e => mret (ce_graph e)
  | None => mret None
  end
else mret None.

(** The build of [create_graph] (lines 145-173): from the cached retriever,
  or after loading the corpus and caching it; any exception gives [None]. *)
Definition create_graph_build (db : string) : MA (option nat) :=
TRY (a ← get_st;
     match db_cache a !! db with
     | Some e =>
         g ← create_graph_internal db (ce_retriever e);
         set_entry_graph db g;;
         mret (Some g)
     | None =>
         r ← init_retriever db;
         modify_st (fun a => set_db_cache
           (<[db := mkEntry r (strip_db_prefix db) None]> (db_cache a)) a);;
         g ← create_graph_internal db r;
         set_entry_graph db g;;
         mret (Some g)
     end)
EXCEPT (fun _ => mret None).

(** [create_graph(db_index)] (lines 129-173). *)
Definition create_graph (db : option string) : MA (option nat) :=
match db with
| None => mret None
| Some d =>
    if decide (d = "") then mret None
    else c ← create_graph_check d;
         match c with
         | Some g => mret (Some g)
         | None => create_graph_build d
         end
end.
End Cache.

(** ** The invariant: every cached graph reads the corpus it is cached under *)

Definition cache_wf (a : AppState) : Prop :=
  (forall db e, db_cache a !! db = Some e ->
     ce_retriever e = db /\
     forall g, ce_graph e = Some g -> exists go, graphs (store a) !! g = Some go /\ g_db go = db)
  /\ (forall r, next_ref (store a) <= r -> graphs (store a) !! r = None).

(** The store after [create_graph_internal _ r]. *)
Definition alloc_graph (r : string) (a : AppState) : AppState :=
  set_store (set_next_ref (S (next_ref (store a)))
               (set_graphs (<[next_ref (store a) := mkGraphObj r ∅]> (graphs (store a))) (store a))) a.

Definition store_entry_graph (db : string) (g : nat) (a : AppState) : AppState :=
  set_db_cache (alter (fun e => mkEntry (ce_retriever e) (ce_display_name e) (Some g)) db (db_cache a)) a.

Lemma create_graph_internal_run db r a :
  create_graph_internal db r a = (inr (next_ref (store a)), alloc_graph r a).
Proof. reflexivity. Qed.

Lemma set_entry_graph_run db g a : set_entry_graph db g a = (inr tt, store_entry_graph db g a).
Proof. reflexivity. Qed.

Lemma alloc_graph_wf r a : cache_wf a -> cache_wf (alloc_graph r a).
Proof.
  intros [He Hf]. split; simpl.
  - intros db e Hdb. destruct (He db e Hdb) as [Hr Hg]. split; [done|].
    intros g Hge. destruct (Hg g Hge) as (go & Hgo & Hd). exists go. split; [|done].
    destruct (decide (g = next_ref (store a))) as [->|Hne]; [rewrite Hf in Hgo; [done | lia]|].
    by rewrite lookup_insert_ne.
  - intros r' Hr'. rewrite lookup_insert_ne by lia. apply Hf. lia.
Qed.

Lemma alloc_graph_lookup r a :
  graphs (store (alloc_graph r a)) !! next_ref (store a) = Some (mkGraphObj r ∅).
Proof. simpl. by rewrite lookup_insert_eq. Qed.

Lemma store_entry_graph_wf db g go a :
  cache_wf a -> graphs (store a) !! g = Some go -> g_db go = db ->
  cache_wf (store_entry_graph db g a).
Proof.
  intros [He Hf] Hg Hd. split; [|done]. simpl. intros db' e Hdb'.
  rewrite lookup_alter_Some in Hdb'.
  destruct Hdb' as [[<- (e0 & He0 & ->)] | [Hne Hdb']].
  - destruct (He db e0 He0) as [Hr _]. split; [done|]. simpl. intros g' [= <-]. eauto.
  - by apply He.
Qed.

Lemma insert_entry_wf folder name a :
  cache_wf a ->
  cache_wf (set_db_cache (<[folder := mkEntry folder name None]> (db_cache a)) a).
Proof.
  intros [He Hf]. split; [|done]. simpl. intros db e Hdb.
  rewrite lookup_insert_Some in Hdb. destruct Hdb as [[<- <-] | [_ Hdb]]; [|by apply He].
  split; [done | intros g [=]].
Qed.

#[export] Hint Resolve alloc_graph_wf insert_entry_wf : rag.

(** Allocating a graph for the corpus of an entry and storing it there. *)
Lemma build_and_store_wf db e a :
  cache_wf a -> db_cache a !! db = Some e ->
  cache_wf (store_entry_graph db (next_ref (store a)) (alloc_graph (ce_retriever e) a)).
Proof.
  intros Hwf He. pose proof Hwf as [Hent _]. destruct (Hent db e He) as [Hr _].
  eapply store_entry_graph_wf; [by apply alloc_graph_wf | apply alloc_graph_lookup | done].
Qed.

Section Preservation.
Variable index_loads : string -> bool.
Variable listdir : list string.
Variable meta_file : option meta_raw.

Lemma set_graphs_loaded_wf b a : cache_wf a -> cache_wf (set_graphs_loaded b a).
Proof. done. Qed.

Lemma preload_folder_wf m f a : cache_wf a -> cache_wf (preload_folder index_loads m f a).2.
Proof.
intros Hwf. unfold preload_folder, init_retriever. unfold_m.
destruct (index_loads f); simpl; [by apply insert_entry_wf | done].
Qed.

Lemma preload_vector_dbs_wf a : cache_wf a -> cache_wf (preload_vector_dbs index_loads listdir meta_file a).2.
Proof.
apply fold_m_preserves. intros _ f s. apply preload_folder_wf.
Qed.

Lemma preload_graph_wf db a : cache_wf a -> cache_wf (preload_graph db a).2.
Proof.
intros Hwf. unfold preload_graph. unfold_m.
destruct (db_cache a !! db) as [e|] eqn:He; simpl; [|done].
destruct (ce_graph e); simpl; [done|].
by apply build_and_store_wf.
Qed.

Lemma preload_graphs_wf a : cache_wf a -> cache_wf (preload_graphs a).2.
Proof.
intros Hwf. unfold preload_graphs. rewrite run_bind. simpl.
destruct (graphs_loaded a); [done|].
rewrite run_bind.
pose proof (fold_m_preserves cache_wf (fun _ db => preload_graph db)
            (fun _ db s => preload_graph_wf db s)
            (map fst (map_to_list (db_cache a))) tt a Hwf) as Hf.
destruct (fold_m _ _ _ a) as [[e|u] a']; simpl in *; [done|]. by apply set_graphs_loaded_wf.
Qed.

Lemma init_app_wf a : cache_wf a -> cache_wf (init_app index_loads listdir meta_file a).2.
Proof.
intros Hwf. unfold init_app. rewrite run_bind. simpl.
destruct (graphs_loaded a); [done|].
rewrite run_bind. pose proof (preload_vector_dbs_wf a Hwf) as H1.
destruct (preload_vector_dbs _ _ _ a) as [[e|u] a1]; simpl in *; [done|].
rewrite run_bind. pose proof (preload_graphs_wf a1 H1) as H2.
destruct (preload_graphs a1) as [[e|u'] a2]; simpl in *; [done|]. done.
Qed.

Lemma create_graph_build_wf db a : cache_wf a -> cache_wf (create_graph_build index_loads db a).2.
Proof.
intros Hwf. unfold create_graph_build, init_retriever. unfold_m.
destruct (db_cache a !! db) as [e|] eqn:He; simpl.
- by apply build_and_store_wf.
- destruct (index_loads db); simpl; [|done].
exact (build_and_store_wf db (mkEntry db (strip_db_prefix db) None)
         (set_db_cache (<[db := mkEntry db (strip_db_prefix db) None]> (db_cache a)) a)
         (insert_entry_wf _ _ _ Hwf) ltac:(simpl; by rewrite lookup_insert_eq)).
Qed.

Lemma create_graph_wf d a : cache_wf a -> cache_wf (create_graph index_loads d a).2.
Proof.
intros Hwf. unfold create_graph. destruct d as [d|]; [|done].
case_decide; [done|]. unfold create_graph_check. unfold_m.
destruct (graphs_loaded a); [destruct (db_cache a !! d) as [e|]; [destruct (ce_graph e)|]|];
simpl; try done; by apply create_graph_build_wf.
Qed.
End Preservation.

(** ** What [create_graph] returns *)

Section CreateGraph.
Variable index_loads : string -> bool.

Lemma create_graph_build_some d a g a' :
cache_wf a -> create_graph_build index_loads d a = (inr (Some g), a') ->
graphs (store a') !! g = Some (mkGraphObj d ∅)
/\ exists e, db_cache a' !! d = Some e /\ ce_graph e = Some g.
Proof.
intros [He _]. unfold create_graph_build, init_retriever. unfold_m.
destruct (db_cache a !! d) as [e|] eqn:Hd; simpl.
- destruct (He d e Hd) as [Hr _]. intros [= <- <-]. simpl. rewrite lookup_insert_eq, Hr.
  split; [done|]. rewrite lookup_alter_eq, Hd. simpl. eauto.
- destruct (index_loads d); simpl; [|done]. intros [= <- <-]. simpl.
  rewrite lookup_insert_eq. split; [done|]. rewrite lookup_alter_eq, lookup_insert_eq. simpl. eauto.
Qed.

Lemma create_graph_check_run d a :
create_graph_check d a =
  (inr (if graphs_loaded a then match db_cache a !! d with Some e => ce_graph e | None => None end
        else None), a).
Proof.
unfold create_graph_check. unfold_m. destruct (graphs_loaded a); [|done].
by destruct (db_cache a !! d).
Qed.
End CreateGraph.

(** ** Requests that call [create_graph] concurrently

    [create_graph] holds no lock: a thread can be preempted between its
    check (lines 138-142) and its build (lines 145-170), for instance while
    the build loads the FAISS index or the prompt file.  A thread is where
    it stands in [create_graph]; a step runs the check or the build of one
    thread atomically. *)

Inductive cg_thread :=
| CGStart (d : string)      (** about to check the cache for [d] *)
| CGChecked (d : string)    (** the check found no graph *)
| CGDone (r : option nat).  (** returned [r] *)

Section Concurrent.
Variable index_loads : string -> bool.

Inductive cg_step : AppState * list cg_thread -> AppState * list cg_thread -> Prop :=
| cg_check a ts i d c a' :
  ts !! i = Some (CGStart d) -> d <> "" ->
  create_graph_check d a = (inr c, a') ->
  cg_step (a, ts) (a', <[i := match c with Some g => CGDone (Some g) | None => CGChecked d end]> ts)
| cg_build a ts i d r a' :
  ts !! i = Some (CGChecked d) ->
  create_graph_build index_loads d a = (inr r, a') ->
  cg_step (a, ts) (a', <[i := CGDone r]> ts).

(** One thread alone: the two steps are [create_graph]. *)
Lemma create_graph_one_thread d a r a' :
d <> "" -> create_graph index_loads (Some d) a = (inr r, a') ->
rtc cg_step (a, [CGStart d]) (a', [CGDone r]).
Proof.
intros Hd Hc. unfold create_graph in Hc. rewrite decide_False in Hc by done.
rewrite run_bind, create_graph_check_run in Hc.
remember (if graphs_loaded a then match db_cache a !! d with Some e => ce_graph e | None => None end
          else None) as c eqn:Hc0.
destruct c as [g|].
- unfold_m. simplify_eq. apply rtc_once.
  change [CGDone (Some g)] with (<[0 := match Some g with Some g => CGDone (Some g) | None => CGChecked d end]> [CGStart d]).
  eapply cg_check; [done | done | by rewrite create_graph_check_run, <- Hc0].
- eapply rtc_l.
  { apply (cg_check a [CGStart d] 0 d None a); [done | done | by rewrite create_graph_check_run, <- Hc0]. }
  apply rtc_once. change [CGDone r] with (<[0 := CGDone r]> [CGChecked d]).
  by eapply cg_build.
Qed.

Lemma cg_step_wf s s' : cg_step s s' -> cache_wf s.1 -> cache_wf s'.1.
Proof.
destruct 1 as [a ts i d c a' _ _ Hc | a ts i d r a' _ Hb]; simpl; intros Hwf.
- rewrite create_graph_check_run in Hc. by simplify_eq.
- pose proof (create_graph_build_wf index_loads d a Hwf) as H. by rewrite Hb in H.
Qed.
End Concurrent.

Section CacheRuns.
Variable index_loads : string -> bool.

Lemma create_graph_build_cached d a e :
db_cache a !! d = Some e ->
create_graph_build index_loads d a =
  (inr (Some (next_ref (store a))),
   store_entry_graph d (next_ref (store a)) (alloc_graph (ce_retriever e) a)).
Proof. intros He. unfold create_graph_build. unfold_m. by rewrite He. Qed.

Lemma create_graph_build_new d a :
db_cache a !! d = None -> index_loads d = true ->
create_graph_build index_loads d a =
  (inr (Some (next_ref (store a))),
   store_entry_graph d (next_ref (store a))
     (alloc_graph d (set_db_cache (<[d := mkEntry d (strip_db_prefix d) None]> (db_cache a)) a))).
Proof. intros He Hi. unfold create_graph_build, init_retriever. unfold_m. by rewrite He, Hi. Qed.

Lemma create_graph_check_miss d a :
graphs_loaded a = true -> db_cache a !! d = None -> create_graph_check d a = (inr None, a).
Proof. intros Hl He. by rewrite create_graph_check_run, Hl, He. Qed.
End CacheRuns.

(** The graph [create_graph] returns and where it is cached. *)
Lemma create_graph_result index_loads d a g a' :
  cache_wf a -> create_graph index_loads (Some d) a = (inr (Some g), a') ->
  (exists go, graphs (store a') !! g = Some go /\ g_db go = d)
  /\ exists e, db_cache a' !! d = Some e /\ ce_graph e = Some g.
Proof.
  intros Hwf Hc. pose proof Hwf as [He _].
  unfold create_graph in Hc. case_decide; [unfold_m; done|].
  rewrite run_bind, create_graph_check_run in Hc.
  destruct (graphs_loaded a) eqn:Hl; [destruct (db_cache a !! d) as [e|] eqn:Hd|].
  - destruct (ce_graph e) as [g'|] eqn:Hg.
    + unfold_m. simplify_eq. destruct (He d e Hd) as [_ Hgo]. split; [by apply Hgo | eauto].
    + destruct (create_graph_build_some index_loads d a g a' Hwf Hc) as [Hgo Hent]. eauto.
  - destruct (create_graph_build_some index_loads d a g a' Hwf Hc) as [Hgo Hent]. eauto.
  - destruct (create_graph_build_some index_loads d a g a' Hwf Hc) as [Hgo Hent]. eauto.
Qed.

(** ** What [init_app] leaves in the cache *)

Lemma set_db_cache_same a : set_db_cache (db_cache a) a = a.
Proof. by destruct a. Qed.

Lemma set_db_cache_twice c c' a : set_db_cache c (set_db_cache c' a) = set_db_cache c a.
Proof. done. Qed.

Section Startup.
Variable index_loads : string -> bool.

Lemma preload_folder_run m f a :
  preload_folder index_loads m f a =
  (inr tt, if index_loads f
           then set_db_cache (<[f := mkEntry f (match dbs m !! f with Some e => display_name e
                                                | None => strip_db_prefix f end) None]> (db_cache a)) a
           else a).
Proof. unfold preload_folder, init_retriever. unfold_m. by destruct (index_loads f). Qed.

(** The loop of [preload_vector_dbs] over the folders [fs] caches, with
    no graph, each folder whose index loads. *)
Lemma fold_preload_lookup m fs a :
  exists c, fold_m (fun _ f => preload_folder index_loads m f) tt fs a = (inr tt, set_db_cache c a)
  /\ forall d, c !! d = if bool_decide (d ∈ fs /\ index_loads d = true)
                        then Some (mkEntry d (match dbs m !! d with Some e => display_name e
                                             | None => strip_db_prefix d end) None)
                        else db_cache a !! d.
Proof.
  revert a. induction fs as [|f fs IH]; intros a.
  - exists (db_cache a). rewrite set_db_cache_same. split; [done|]. intros d.
    case_bool_decide as Hd; [destruct Hd as [Hd _]; set_solver | done].
  - cbn [fold_m]. rewrite run_bind, preload_folder_run.
    destruct (IH (if index_loads f then set_db_cache (<[f := mkEntry f (match dbs m !! f with
      Some e => display_name e | None => strip_db_prefix f end) None]> (db_cache a)) a else a))
      as (c & Hrun & Hc).
    exists c. split; [rewrite Hrun; destruct (index_loads f); [by rewrite set_db_cache_twice | done]|].
    intros d. rewrite Hc. destruct (index_loads f) eqn:Hf; simpl.
    + destruct (decide (d = f)) as [->|Hne]; [rewrite lookup_insert_eq; by repeat case_bool_decide; set_solver|].
      rewrite lookup_insert_ne by done. repeat case_bool_decide; set_solver.
    + case_bool_decide as H1; case_bool_decide as H2; try done; exfalso.
      * apply H2. set_solver.
      * apply H1. destruct H2 as [Hin Hd]. split; [|done].
        apply elem_of_cons in Hin as [->|Hin]; [congruence | done].
Qed.

(** One step of [preload_graphs]: the entry of [k] gets a graph, the
    others are untouched; no exception escapes. *)
Lemma preload_graph_run k a :
  (preload_graph k a).1 = inr tt /\ graphs_loaded (preload_graph k a).2 = graphs_loaded a
  /\ forall d, db_cache (preload_graph k a).2 !! d =
       (fun e => if decide (d = k) then mkEntry (ce_retriever e) (ce_display_name e)
                                         (Some (default (next_ref (store a)) (ce_graph e))) else e)
       <$> db_cache a !! d.
Proof.
  unfold preload_graph. unfold_m. destruct (db_cache a !! k) as [e|] eqn:Hk; simpl.
  - destruct (ce_graph e) as [g|] eqn:Hg; simpl; (split; [done|]); (split; [done|]); intros d.
    + destruct (db_cache a !! d) as [e'|] eqn:Hd; simpl; [|done]. f_equal.
      case_decide; [subst; rewrite Hk in Hd; injection Hd as <-; destruct e; simpl in *; by subst | done].
    + destruct (decide (d = k)) as [->|Hne].
      * rewrite lookup_alter, Hk; simpl. by rewrite decide_True, Hg.
      * rewrite lookup_alter_ne by done. destruct (db_cache a !! d); simpl; done.
  - split; [done|]. split; [done|]. intros d.
    destruct (db_cache a !! d) as [e'|] eqn:Hd; simpl; [|done]. case_decide; [subst; congruence | done].
Qed.

(** The loop of [preload_graphs] over the keys [ks] gives each of them a
    graph and keeps the folders, retrievers and display names. *)
Lemma fold_preload_graphs ks a :
  exists a', fold_m (fun _ db => preload_graph db) tt ks a = (inr tt, a')
  /\ graphs_loaded a' = graphs_loaded a
  /\ forall d, (db_cache a' !! d = None <-> db_cache a !! d = None)
     /\ forall e e', db_cache a !! d = Some e -> db_cache a' !! d = Some e' ->
          ce_retriever e' = ce_retriever e /\ ce_display_name e' = ce_display_name e
          /\ (d ∈ ks \/ is_Some (ce_graph e) -> is_Some (ce_graph e')).
Proof.
  revert a. induction ks as [|k ks IH]; intros a.
  - exists a. split; [done|]. split; [done|]. intros d. split; [done|].
    intros e e' He He'. rewrite He in He'. injection He' as <-. split; [done|]. split; [done|].
    intros [Hin|Hg]; [set_solver | done].
  - cbn [fold_m]. rewrite run_bind. destruct (preload_graph_run k a) as (Hok & Hl & Hd).
    destruct (preload_graph k a) as [r a1]. simpl in Hok, Hl, Hd. subst r.
    destruct (IH a1) as (a' & Hrun & Hl' & Hd'). exists a'.
    split; [done|]. split; [congruence|]. intros d. specialize (Hd d). destruct (Hd' d) as [Hn He].
    split; [rewrite Hn, Hd; by destruct (db_cache a !! d)|].
    intros e e' Hae Ha'e. rewrite Hae in Hd. simpl in Hd.
    destruct (He _ e' Hd Ha'e) as (Hr & Hn' & Hg). case_decide as Hdk; simpl in *.
    + split; [done|]. split; [done|]. intros _. apply Hg. right. done.
    + split; [done|]. split; [done|]. intros [Hin|Hs]; apply Hg; [left; set_solver | by right].
Qed.

(** [init_app] in a process that has loaded nothing yet: it caches
    exactly the corpus folders of the working directory whose index loads,
    under their metadata display name (or the folder name less the
    prefix), each with a graph. *)
Lemma init_app_fresh listdir meta_file a :
  graphs_loaded a = false -> db_cache a = ∅ ->
  exists a', init_app index_loads listdir meta_file a = (inr tt, a') /\ graphs_loaded a' = true
  /\ forall d, (is_Some (db_cache a' !! d) <->
                d ∈ listdir /\ String.prefix VECTOR_DB_FOLDER d = true /\ index_loads d = true)
     /\ forall e, db_cache a' !! d = Some e ->
          ce_retriever e = d /\ is_Some (ce_graph e)
          /\ ce_display_name e = match dbs (load_db_metadata meta_file) !! d with
                                 | Some m => display_name m | None => strip_db_prefix d end.
Proof.
  intros Hl H0. unfold init_app. rewrite run_bind. cbn [get_st]. rewrite Hl, run_bind.
  unfold preload_vector_dbs.
  destruct (fold_preload_lookup (load_db_metadata meta_file)
              (filter (fun f => String.prefix VECTOR_DB_FOLDER f = true) listdir) a) as (c & Hrun & Hc).
  rewrite Hrun, run_bind. unfold preload_graphs. rewrite run_bind. cbn [get_st graphs_loaded set_db_cache].
  rewrite Hl, run_bind.
  destruct (fold_preload_graphs (map fst (map_to_list c)) (set_db_cache c a)) as (a2 & Hrun2 & Hl2 & Hd2).
  change (db_cache (set_db_cache c a)) with c. rewrite Hrun2. unfold_m. eexists. split; [reflexivity|]. split; [done|]. intros d. simpl.
  destruct (Hd2 d) as [Hn He]. simpl in Hn, He. rewrite Hc, H0, lookup_empty in Hn, He.
  assert (bool_decide (d ∈ filter (fun f => String.prefix VECTOR_DB_FOLDER f = true) listdir /\ index_loads d = true)
          = true <-> d ∈ listdir /\ String.prefix VECTOR_DB_FOLDER d = true /\ index_loads d = true) as Hb.
  { rewrite bool_decide_eq_true, list_elem_of_filter. tauto. }
  split.
  - rewrite <- Hb. destruct (bool_decide _); split; try done.
    + intros _. destruct (db_cache a2 !! d) eqn:Ha2; [done|]. pose proof (proj1 Hn eq_refl). discriminate.
    + intros [e Ha2]. rewrite (proj2 Hn eq_refl) in Ha2. discriminate.
  - intros e' Ha2. destruct (bool_decide _) eqn:Hbd; [|by rewrite (proj2 Hn eq_refl) in Ha2].
    destruct (He _ e' eq_refl Ha2) as (Hr & Hname & Hg). simpl in *. split; [done|]. split; [|done].
    apply Hg. left. apply list_elem_of_fmap. exists (d, mkEntry d (match dbs (load_db_metadata meta_file) !! d with
      | Some m => display_name m | None => strip_db_prefix d end) None). split; [done|].
    apply elem_of_map_to_list. by rewrite Hc, Hbd.
Qed.
End Startup.

(** ** Properties of the cache *)

(** C14: the cache invariant — every cached entry's retriever is the corpus
    it is cached under, every cached graph is a graph object that reads that
    corpus, and fresh references are unused — is kept by [init_app], by
    [create_graph], and by every interleaving of concurrent [create_graph]
    calls. *)
Theorem cache_invariant index_loads listdir meta_file a :
  cache_wf a ->
  cache_wf (init_app index_loads listdir meta_file a).2
  /\ (forall d, cache_wf (create_graph index_loads d a).2)
  /\ (forall ts s', rtc (cg_step index_loads) (a, ts) s' -> cache_wf s'.1).
Proof.
  intros Hwf. split; [by apply init_app_wf|]. split; [intros d; by apply create_graph_wf|].
  intros ts s' Hr. change (cache_wf (a, ts).1) in Hwf. revert Hwf.
  induction Hr as [s|s1 s2 s3 Hs _ IH]; [done|]. intros Hwf. by eapply IH, cg_step_wf.
Qed.

(** A graph returned by [create_graph] for a corpus reads that corpus,
    and it is the graph now cached for the corpus: a request never runs on
    another corpus's retriever through the cache. *)
Theorem create_graph_own_corpus index_loads d a g a' :
  cache_wf a -> create_graph index_loads (Some d) a = (inr (Some g), a') ->
  (exists go, graphs (store a') !! g = Some go /\ g_db go = d)
  /\ exists e, db_cache a' !! d = Some e /\ ce_graph e = Some g.
Proof. apply create_graph_result. Qed.

(** Once the graphs are loaded, [create_graph] returns the graph
    cached for a corpus without building anything and without changing the
    store. *)
Theorem create_graph_cached index_loads d a e g :
  d <> "" -> graphs_loaded a = true -> db_cache a !! d = Some e -> ce_graph e = Some g ->
  create_graph index_loads (Some d) a = (inr (Some g), a).
Proof.
  intros Hd Hl He Hg. unfold create_graph. rewrite decide_False by done.
  rewrite run_bind, create_graph_check_run, Hl, He, Hg. reflexivity.
Qed.

(** C15: [create_graph] is not single-flight: two concurrent calls for a
    corpus that is not cached yet can both pass the check before either
    stores its graph, so two graph objects are built for the corpus (each
    with its own, empty, retrieve cache) and the two callers get different
    graphs. *)
Theorem create_graph_not_single_flight index_loads a d :
  cache_wf a -> graphs_loaded a = true -> db_cache a !! d = None ->
  index_loads d = true -> d <> "" ->
  exists a' g1 g2,
    rtc (cg_step index_loads) (a, [CGStart d; CGStart d]) (a', [CGDone (Some g1); CGDone (Some g2)])
    /\ g1 <> g2
    /\ graphs (store a') !! g1 = Some (mkGraphObj d ∅)
    /\ graphs (store a') !! g2 = Some (mkGraphObj d ∅).
Proof.
  intros Hwf Hl Hd Hi Hne.
  set (a1 := store_entry_graph d (next_ref (store a))
       (alloc_graph d (set_db_cache (<[d := mkEntry d (strip_db_prefix d) None]> (db_cache a)) a))).
  assert (db_cache a1 !! d = Some (mkEntry d (strip_db_prefix d) (Some (next_ref (store a))))) as Ha1.
  { subst a1. simpl. by rewrite lookup_alter_eq, lookup_insert_eq. }
  set (a2 := store_entry_graph d (next_ref (store a1)) (alloc_graph d a1)).
  exists a2, (next_ref (store a)), (next_ref (store a1)). split.
  - eapply rtc_l; [apply (cg_check _ a _ 0 d None a); [done | done | by apply create_graph_check_miss]|].
    eapply rtc_l; [apply (cg_check _ a _ 1 d None a); [done | done | by apply create_graph_check_miss]|].
    eapply rtc_l; [apply (cg_build _ a _ 0 d); [done | by apply create_graph_build_new]|].
    eapply rtc_l; [apply (cg_build _ a1 _ 1 d); [done | by rewrite (create_graph_build_cached _ _ _ _ Ha1)]|].
    apply rtc_refl.
  - subst a2 a1. simpl. split; [lia|].
    split; [rewrite lookup_insert_ne by lia|]; by rewrite lookup_insert_eq.
Qed.

(** ** Examples *)

(** The demo deployment after [init_app]: the corpus [demo_db] is cached
    with graph [0]; a second corpus folder ["LANGCHAIN_DB_INDEX_new"] exists
    on disk but is not cached yet. *)
Definition demo_new_db : string := "LANGCHAIN_DB_INDEX_new".

Definition demo_index_loads (d : string) : bool := bool_decide (d = demo_db \/ d = demo_new_db).

Definition demo_app : AppState :=
  mkApp {[demo_db := mkEntry demo_db "rag" (Some 0)]} true true None None demo_world.

Lemma demo_app_wf : cache_wf demo_app.
Proof.
  split; simpl.
  - intros db e He. apply lookup_singleton_Some in He as [<- <-]. split; [done|].
    intros g [= <-]. by eexists.
  - intros r Hr. rewrite lookup_singleton_ne; [done | lia].
Qed.

(** C14 witness. *)
Lemma cache_invariant_witness :
  cache_wf (init_app demo_index_loads [demo_db; demo_new_db] None demo_app).2
  /\ (forall d, cache_wf (create_graph demo_index_loads d demo_app).2)
  /\ (forall ts s', rtc (cg_step demo_index_loads) (demo_app, ts) s' -> cache_wf s'.1).
Proof. apply cache_invariant. exact demo_app_wf. Defined.

(** The new corpus is loaded and gets graph [1] of its own. *)
Lemma create_graph_own_corpus_witness :
  (exists go, graphs (store (create_graph demo_index_loads (Some demo_new_db) demo_app).2) !! 1 = Some go
              /\ g_db go = demo_new_db)
  /\ exists e, db_cache (create_graph demo_index_loads (Some demo_new_db) demo_app).2 !! demo_new_db = Some e
               /\ ce_graph e = Some 1.
Proof.
  apply (create_graph_own_corpus demo_index_loads demo_new_db demo_app 1); [exact demo_app_wf | reflexivity].
Defined.

(** On the demo state. *)
Lemma create_graph_cached_witness :
  create_graph demo_index_loads (Some demo_db) demo_app = (inr (Some 0), demo_app).
Proof.
  apply (create_graph_cached demo_index_loads demo_db demo_app (mkEntry demo_db "rag" (Some 0)) 0);
    [discriminate | reflexivity | reflexivity | reflexivity].
Defined.

(** C15 witness: two requests for the new corpus. *)
Lemma create_graph_not_single_flight_witness :
  exists a' g1 g2,
    rtc (cg_step demo_index_loads) (demo_app, [CGStart demo_new_db; CGStart demo_new_db])
      (a', [CGDone (Some g1); CGDone (Some g2)])
    /\ g1 <> g2
    /\ graphs (store a') !! g1 = Some (mkGraphObj demo_new_db ∅)
    /\ graphs (store a') !! g2 = Some (mkGraphObj demo_new_db ∅).
Proof.
  apply create_graph_not_single_flight;
    [exact demo_app_wf | reflexivity | reflexivity | reflexivity | discriminate].
Defined.
