(* ===== verification/App.v ===== *)
(** * The HTTP handlers that select and run a graph ([src/app.py])

    [ask] (lines 103-153) answers one question in the user's session: it
    refuses a session without a corpus, appends the question to the
    history, makes the process-global [current_graph] the graph of the
    session's corpus (rebuilding it through [create_graph] when the global
    belongs to another corpus), runs it with [run_graph], and appends the
    answer.  [change_db] (lines 223-276) points the globals and the session
    at a corpus; [clear_conversation] (lines 279-282) resets the session.

    [ask] is split at the point where another request can interleave: the
    selection of the graph ([ask_select]) and the run of whatever
    [current_graph] holds when [run_graph] is called ([ask_run]).

    The theorems: [current_graph] always belongs to [current_db_index];
    a request that runs alone runs on a graph of its session's corpus; two
    requests of different sessions that interleave can run one question on
    the other session's corpus (the spec's Scenario D). *)

From S2P Require Import Prelude PyStr Types History Rag Graph Progress Stream Metadata Cache.

(** What a handler returns ([jsonify(...)] with its status). *)
Inductive response :=
| RAnswer (answer : string)          (** 200 [{'answer', 'status': 'success'}] *)
| RNoDbSelected                      (** 400 ['no_db_selected'] *)
| RServerError (e : error)           (** 500 [{'error': str(e), 'status': 'error'}] *)
| RChanged (display_name : string)   (** 200 of [change_db] *)
| RNoDbIndex                         (** 400 of [change_db] *)
| RCleared.                          (** 200 of [clear_conversation] *)

(** ['답변을 생성하지 못했습니다.'], the answer when the state has none. *)
Definition no_answer : string := "답변을 생성하지 못했습니다.".

(** [session.get('db_index')] is set and non-empty. *)
Definition selected_db (s : session) : option string :=
  match s_db_index s with
  | Some d => if decide (d = "") then None else Some d
  | None => None
  end.

Definition set_current (g : option nat) (d : option string) (a : AppState) : AppState :=
  mkApp (db_cache a) (graphs_loaded a) (initialized a) g d (store a).

Section Handlers.
Context `{Services}.
Variable index_loads : string -> bool.
Variable listdir : list string.
Variable meta_file : option meta_raw.

(** [initialize_app()] (lines 43-57): [init_app] once per process. *)
Definition initialize_app : MA unit :=
  a ← get_st;
  if initialized a then mret tt
  else init_app index_loads listdir meta_file;;
       modify_st (fun a => mkApp (db_cache a) (graphs_loaded a) true (current_graph a)
                                 (current_db_index a) (store a)).

(** The first part of [ask] (lines 111-130): refuse a session without a
    corpus, append the question, and select [current_graph]. *)
Definition ask_select (s : session) (q : string) : MA (option session) :=
  match selected_db s with
  | None => mret None
  | Some d =>
      let s' := add_message s "user" q in
      a ← get_st;
      if decide (current_graph a = None \/ current_db_index a <> Some d) then
        g ← create_graph index_loads (Some d);
        modify_st (set_current g (Some d));;
        mret (Some s')
      else mret (Some s')
  end.

(** [run_graph(None, ...)]: the queue is found or created, then
    [graph.stream] on [None] raises, ["DONE"] is put and the error re-raised. *)
Definition run_graph_none (tid : string) : M GraphState :=
  r ← queue_for tid;
  queue_put r "DONE";;
  raise AttributeError.

(** The second part of [ask] (lines 132-153): run whatever graph
    [current_graph] holds now, and append the answer. *)
Definition ask_run (s : session) (q tid : string) : MA (response * session) :=
  TRY (a ← get_st;
       st ← lift_store (match current_graph a with
                        | Some g => run_graph g q tid s
                        | None => run_graph_none tid
                        end);
       let answer := default no_answer (generation st) in
       mret (RAnswer answer, add_message s "assistant" answer))
  EXCEPT (fun e => mret (RServerError e, s)).

(** [ask()] for the request [{'question': q, 'thread_id': tid}]. *)
Definition ask (s : session) (q tid : string) : MA (response * session) :=
  o ← ask_select s q;
  match o with
  | None => mret (RNoDbSelected, s)
  | Some s' => ask_run s' q tid
  end.

(** The end of [change_db] (lines 244-266): the session is reset, then the
    display name is read from the cache or else from the metadata file;
    the session is reset also when that lookup raises. *)
Definition change_db_reply (a : AppState) (d fresh : string) : response * session :=
  let s' := mkSession (Some []) (Some fresh) (Some d) in
  let cached := match db_cache a !! d with
                | Some e => if decide (ce_display_name e = "") then None else Some (ce_display_name e)
                | None => None
                end in
  match cached with
  | Some name => (RChanged name, s')
  | None => match get_db_display_name meta_file d with
            | Some name => (RChanged name, s')
            | None => (RServerError AttributeError, s')
            end
  end.

(** [change_db()] (lines 223-276) for the request [{'db_index': d}], with
    [fresh] the new [uuid4()] thread id. *)
Definition change_db (s : session) (d : option string) (fresh : string) : MA (response * session) :=
  match d with
  | None => mret (RNoDbIndex, s)
  | Some d =>
      if decide (d = "") then mret (RNoDbIndex, s) else
      a ← get_st;
      g ← match db_cache a !! d with
          | Some e => match ce_graph e with
                      | Some g => mret (Some g)
                      | None => create_graph index_loads (Some d)
                      end
          | None => create_graph index_loads (Some d)
          end;
      modify_st (set_current g (Some d));;
      a' ← get_st;
      mret (change_db_reply a' d fresh)
  end.

(** [clear_conversation()] with [fresh] the new [uuid4()]. *)
Definition clear_conversation (s : session) (fresh : string) : session :=
  mkSession (Some []) (Some fresh) (s_db_index s).
End Handlers.

(** ** [current_graph] belongs to [current_db_index] *)

Definition globals_wf (a : AppState) : Prop :=
  cache_wf a /\
  forall g d, current_graph a = Some g -> current_db_index a = Some d ->
    exists go, graphs (store a) !! g = Some go /\ g_db go = d.

Lemma create_graph_globals_wf index_loads d a :
  cache_wf a ->
  let '(r, a') := create_graph index_loads (Some d) a in
  cache_wf a' /\ match r with
                 | inr (Some g) => exists go, graphs (store a') !! g = Some go /\ g_db go = d
                 | _ => True
                 end.
Proof.
  intros Hwf. pose proof (create_graph_wf index_loads (Some d) a Hwf) as Hw.
  destruct (create_graph index_loads (Some d) a) as [[e|[g|]] a'] eqn:Hc; simpl in *; try done.
  split; [done|]. by destruct (create_graph_result index_loads d a g a' Hwf Hc).
Qed.

(** ** What a run does to the graph objects *)

(** The graph objects keep the corpus they read, and references only grow:
    a run adds cache entries and queues, never graph objects. *)
Definition keeps_graphs (w w' : World) : Prop :=
  (forall g, g_db <$> graphs w' !! g = g_db <$> graphs w !! g) /\ next_ref w <= next_ref w'.

#[export] Instance keeps_graphs_preorder : PreOrder keeps_graphs.
Proof.
  split; [intros w; by split|]. intros w1 w2 w3 [H1 H2] [H3 H4].
  split; [intros g; by rewrite H3, H1 | lia].
Qed.

Lemma cache_store_keeps g q docs w : keeps_graphs w (cache_store g q docs w).
Proof.
  split; [|done]. intros g'. simpl. destruct (decide (g = g')) as [<-|Hne].
  - rewrite lookup_alter_eq. by destruct (graphs w !! g).
  - by rewrite lookup_alter_ne.
Qed.

Lemma add_call_keeps c w : keeps_graphs w (add_call c w).
Proof. by split. Qed.

Lemma put_world_keeps_graphs r m w : keeps_graphs w (put_world r m w).
Proof. by split. Qed.

#[export] Hint Resolve cache_store_keeps add_call_keeps put_world_keeps_graphs : rag.

Lemma run_node_keeps_graphs `{Services} g n s w : keeps_graphs w (run_node g n s w).2.
Proof.
  destruct n; simpl;
    unfold retrieve_execute, web_search_execute, rag_answer_execute, rag_chain_invoke,
      external, get_key; unfold_m;
    repeat (case_match; simplify_eq; simpl); try reflexivity; eauto with rag.
  all: etrans; [apply add_call_keeps | apply cache_store_keeps].
Qed.

Lemma queue_for_keeps_graphs tid w r w0 : queue_for tid w = (inr r, w0) -> keeps_graphs w w0.
Proof.
  unfold queue_for, new_queue. unfold_m.
  destruct (progress_queues w !! tid); intros Hq; simplify_eq; [done|]. split; simpl; [done | lia].
Qed.

Lemma run_graph_keeps_graphs `{Services} g query tid s w :
  keeps_graphs w (run_graph g query tid s w).2.
Proof.
  destruct (queue_for_total tid w) as (r & w0 & Hq).
  etrans; [exact (queue_for_keeps_graphs _ _ _ _ Hq)|].
  apply (run_graph_preserves keeps_graphs g query tid s w r w0 Hq).
  - apply run_node_keeps_graphs.
  - intros. rewrite progress_consumer_run. unfold consumer_world. repeat case_match; simpl; [reflexivity | apply put_world_keeps_graphs | reflexivity].
  - eauto with rag.
Qed.

Lemma run_graph_none_keeps_graphs tid w : keeps_graphs w (run_graph_none tid w).2.
Proof.
  unfold run_graph_none. rewrite run_bind.
  destruct (queue_for_total tid w) as (r & w0 & Hq). rewrite Hq.
  etrans; [exact (queue_for_keeps_graphs _ _ _ _ Hq)|]. unfold queue_put. unfold_m.
  apply put_world_keeps_graphs.
Qed.

Lemma keeps_graphs_lookup w w' g go :
  keeps_graphs w w' -> graphs w !! g = Some go ->
  exists go', graphs w' !! g = Some go' /\ g_db go' = g_db go.
Proof.
  intros [Hg _] Hl. specialize (Hg g). rewrite Hl in Hg.
  destruct (graphs w' !! g) as [go'|]; simpl in Hg; [injection Hg; eauto | done].
Qed.

Lemma globals_wf_set_store a w :
  keeps_graphs (store a) w -> globals_wf a -> globals_wf (set_store w a).
Proof.
  intros Hk [[He Hf] Hc]. split; [split|]; simpl.
  - intros db e Hdb. destruct (He db e Hdb) as [Hr Hgo]. split; [done|].
    intros g Heg. destruct (Hgo g Heg) as (go & Hl & <-). by eapply keeps_graphs_lookup.
  - intros r Hr. destruct Hk as [Hg Hn]. specialize (Hg r). rewrite Hf in Hg by lia.
    by destruct (graphs w !! r).
  - intros g d Hcg Hcd. destruct (Hc g d Hcg Hcd) as (go & Hl & <-). by eapply keeps_graphs_lookup.
Qed.

Section HandlerRuns.
Context `{Services}.
Variable index_loads : string -> bool.

(** [ask_run] changes nothing but the store, and the store only as a run does. *)
Lemma ask_run_store s q tid a :
  exists w', (ask_run s q tid a).2 = set_store w' a /\ keeps_graphs (store a) w'.
Proof.
  unfold ask_run, lift_store. unfold_m. simpl.
  destruct (current_graph a) as [g|].
  - pose proof (run_graph_keeps_graphs g q tid s (store a)) as Hk.
    destruct (run_graph g q tid s (store a)) as [[e|st] w']; simpl; eauto.
  - pose proof (run_graph_none_keeps_graphs tid (store a)) as Hk.
    destruct (run_graph_none tid (store a)) as [[e|st] w']; simpl; eauto.
Qed.

(** [create_graph] catches every exception: it always returns. *)
Lemma create_graph_total d a : exists g a', create_graph index_loads d a = (inr g, a').
Proof.
  unfold create_graph, create_graph_build, create_graph_check, init_retriever. unfold_m.
  repeat case_match; simplify_eq; eauto.
Qed.

Lemma set_current_globals_wf a g d :
  cache_wf a ->
  (forall g', g = Some g' -> exists go, graphs (store a) !! g' = Some go /\ g_db go = d) ->
  globals_wf (set_current g (Some d) a).
Proof. intros Hwf Hg. split; [done|]. intros g' d' Hc [= <-]. by apply Hg. Qed.

Lemma create_graph_set_current_wf d a :
  cache_wf a -> globals_wf (let '(g, a') := create_graph index_loads (Some d) a in
                           match g with inl _ => a' | inr g => set_current g (Some d) a' end).
Proof.
  intros Hwf. pose proof (create_graph_globals_wf index_loads d a Hwf) as Hg.
  destruct (create_graph_total (Some d) a) as (g & a1 & Hc). rewrite Hc in *. destruct Hg as [Hw Hg].
  apply set_current_globals_wf; [done|]. intros g' ->. done.
Qed.

Lemma ask_select_globals_wf s q a : globals_wf a -> globals_wf (ask_select index_loads s q a).2.
Proof.
  intros Hwf. pose proof Hwf as [Hc _]. unfold ask_select.
  destruct (selected_db s) as [d|]; [|done]. unfold_m. case_decide; [|done].
  pose proof (create_graph_set_current_wf d a Hc) as Hs.
  destruct (create_graph index_loads (Some d) a) as [[e|g] a1]; done.
Qed.

Lemma change_db_globals_wf meta_file s d fresh a :
  globals_wf a -> globals_wf (change_db index_loads meta_file s d fresh a).2.
Proof.
  intros Hwf. pose proof Hwf as [Hc _]. unfold change_db.
  destruct d as [d|]; [|done]. case_decide; [done|]. unfold_m.
  pose proof (create_graph_set_current_wf d a Hc) as Hs.
  destruct (db_cache a !! d) as [e|] eqn:He; [destruct (ce_graph e) as [g|] eqn:Hg|];
    try (destruct (create_graph index_loads (Some d) a) as [[e'|g] a1]; done).
  simpl. apply set_current_globals_wf; [done|]. intros g' [= <-].
  destruct Hc as [Hent _]. destruct (Hent d e He) as [_ Hgo]. by apply Hgo.
Qed.

Lemma ask_globals_wf s q tid a : globals_wf a -> globals_wf (ask index_loads s q tid a).2.
Proof.
  intros Hwf. unfold ask. rewrite run_bind.
  pose proof (ask_select_globals_wf s q a Hwf) as H1.
  destruct (ask_select index_loads s q a) as [[e|[s'|]] a1]; simpl in *; [done | | done].
  destruct (ask_run_store s' q tid a1) as (w' & -> & Hk). by apply globals_wf_set_store.
Qed.
End HandlerRuns.

(** ** Which corpora a request queries *)

(** The calls a run on graph [g] appends only query the corpus [d] that
    [g] reads, if it reads [d]. *)
Definition retrieves_only (g : nat) (d : string) (w w' : World) : Prop :=
  keeps_graphs w w' /\
  (g_db <$> graphs w !! g = Some d ->
   exists l, calls w' = calls w ++ l /\ forall d' q, CallRetriever d' q ∈ l -> d' = d).

#[export] Instance retrieves_only_preorder g d : PreOrder (retrieves_only g d).
Proof.
  split.
  - intros w. split; [reflexivity|]. intros _. exists []. rewrite app_nil_r. split; [done|].
    intros d' q Hin. by apply elem_of_nil in Hin.
  - intros w1 w2 w3 [Hk1 H1] [Hk2 H2]. split; [by etrans|]. intros Hd.
    destruct (H1 Hd) as (l1 & Hc1 & Hl1). destruct Hk1 as [Hg1 _].
    destruct (H2 ltac:(by rewrite Hg1)) as (l2 & Hc2 & Hl2).
    exists (l1 ++ l2). rewrite Hc2, Hc1, app_assoc. split; [done|].
    intros d' q Hin. apply elem_of_app in Hin as [Hin|Hin]; eauto.
Qed.

(** A store change that appends no call. *)
Lemma retrieves_only_no_call g d w w' :
  keeps_graphs w w' -> calls w' = calls w -> retrieves_only g d w w'.
Proof.
  intros Hk Hc. split; [done|]. intros _. exists []. rewrite app_nil_r. split; [done|].
  intros d' q Hin. by apply elem_of_nil in Hin.
Qed.

(** A store change that appends one call, not a retriever call on another corpus. *)
Lemma retrieves_only_add_call g d c w :
  (forall d' q, c = CallRetriever d' q -> g_db <$> graphs w !! g = Some d -> d' = d) ->
  retrieves_only g d w (add_call c w).
Proof.
  intros Hc. split; [apply add_call_keeps|]. intros Hd. exists [c]. split; [done|].
  intros d' q Hin. apply list_elem_of_singleton in Hin. eauto.
Qed.

(** The retriever call of [RetrieveNode] reads the corpus of its graph object. *)
Ltac close_retriever_call :=
  let Hc := fresh in
  intros ? ? Hc; first [ discriminate Hc
                       | injection Hc as <- <-;
                         match goal with H : graphs _ !! _ = Some _ |- _ => rewrite H end;
                         by intros [= ->] ].

Lemma run_node_retrieves_only `{Services} g d n s w : retrieves_only g d w (run_node g n s w).2.
Proof.
  destruct n; simpl;
    unfold retrieve_execute, web_search_execute, rag_answer_execute, rag_chain_invoke,
      external, get_key; unfold_m;
    repeat (case_match; simplify_eq; simpl);
    first [ reflexivity
          | apply retrieves_only_add_call; close_retriever_call
          | etrans; [| apply retrieves_only_no_call; [apply cache_store_keeps | apply calls_cache_store]];
            apply retrieves_only_add_call; close_retriever_call ].
Qed.

Lemma queue_for_calls tid w r w0 : queue_for tid w = (inr r, w0) -> calls w0 = calls w.
Proof. intros Hq. by destruct (queue_for_preserves _ _ _ _ Hq). Qed.

Lemma run_graph_retrieves_only `{Services} g d query tid s w :
  retrieves_only g d w (run_graph g query tid s w).2.
Proof.
  destruct (queue_for_total tid w) as (r & w0 & Hq).
  etrans; [apply retrieves_only_no_call; [exact (queue_for_keeps_graphs _ _ _ _ Hq) | exact (queue_for_calls _ _ _ _ Hq)]|].
  apply (run_graph_preserves (retrieves_only g d) g query tid s w r w0 Hq).
  - apply run_node_retrieves_only.
  - intros. rewrite progress_consumer_run. unfold consumer_world.
    repeat case_match; simpl; [reflexivity | | reflexivity].
    by apply retrieves_only_no_call; [apply put_world_keeps_graphs|].
  - intros. by apply retrieves_only_no_call; [apply put_world_keeps_graphs|].
Qed.

Lemma run_graph_none_calls tid w : calls (run_graph_none tid w).2 = calls w.
Proof.
  unfold run_graph_none. rewrite run_bind.
  destruct (queue_for_total tid w) as (r & w0 & Hq). rewrite Hq. simpl.
  rewrite <- (queue_for_calls _ _ _ _ Hq). by unfold queue_put; unfold_m.
Qed.

Section AskRuns.
Context `{Services}.
Variable index_loads : string -> bool.

(** Building or finding a graph calls no service. *)
Lemma create_graph_calls d a : calls (store (create_graph index_loads d a).2) = calls (store a).
Proof.
  unfold create_graph, create_graph_build, create_graph_check, init_retriever,
    create_graph_internal, set_entry_graph, lift_store. unfold_m.
  repeat (case_match; simplify_eq; simpl); reflexivity.
Qed.

(** After [ask_select] on a session with corpus [d], the globals are
    well formed, name [d], and no service was called. *)
Lemma ask_select_current s q d a o a' :
  globals_wf a -> selected_db s = Some d -> ask_select index_loads s q a = (inr o, a') ->
  globals_wf a' /\ current_db_index a' = Some d /\ calls (store a') = calls (store a).
Proof.
  intros Hwf Hs Ha. pose proof (ask_select_globals_wf index_loads s q a Hwf) as Hg.
  rewrite Ha in Hg. split; [done|]. revert Ha. unfold ask_select. rewrite Hs. unfold_m.
  case_decide as Hc.
  - pose proof (create_graph_calls (Some d) a) as Hcalls.
    destruct (create_graph index_loads (Some d) a) as [[e|g] a1]; intros; simplify_eq; done.
  - intros; simplify_eq. split; [|done]. destruct (current_db_index a'); [|naive_solver].
    destruct (decide (s0 = d)); subst; naive_solver.
Qed.

(** [ask_run] on the globals left by a selection for [d] queries no corpus but [d]. *)
Lemma ask_run_retrieves_only s q tid d a :
  globals_wf a -> current_db_index a = Some d ->
  exists l, calls (store (ask_run s q tid a).2) = calls (store a) ++ l
            /\ forall d' q', CallRetriever d' q' ∈ l -> d' = d.
Proof.
  intros [_ Hc] Hd. unfold ask_run, lift_store. unfold_m. simpl.
  destruct (current_graph a) as [g|] eqn:Hg.
  - destruct (Hc g d eq_refl Hd) as (go & Hgo & Hdb).
    destruct (run_graph_retrieves_only g d q tid s (store a)) as [_ Hr].
    destruct (Hr ltac:(rewrite Hgo; simpl; by rewrite Hdb)) as (l & Hl & Hin).
    destruct (run_graph g q tid s (store a)) as [[e|st] w']; simpl in *; eauto.
  - pose proof (run_graph_none_calls tid (store a)) as Hn.
    exists []. rewrite app_nil_r. split; [|intros d' q' Hin; by apply elem_of_nil in Hin].
    destruct (run_graph_none tid (store a)) as [[e|st] w']; simpl in *; done.
Qed.

Lemma selected_db_nonempty s d : selected_db s = Some d -> d <> "".
Proof. unfold selected_db. destruct (s_db_index s); [case_decide|]; intros Hs; simplify_eq; done. Qed.

Lemma ask_select_total s q a : exists o a', ask_select index_loads s q a = (inr o, a').
Proof.
  unfold ask_select. destruct (selected_db s) as [d|]; unfold_m; [|eauto]. case_decide; [|eauto].
  destruct (create_graph_total index_loads (Some d) a) as (g & a1 & ->). eauto.
Qed.

(** The global graph already belongs to the session's corpus: kept. *)
Lemma ask_select_keep s q d a g :
  selected_db s = Some d -> current_graph a = Some g -> current_db_index a = Some d ->
  ask_select index_loads s q a = (inr (Some (add_message s "user" q)), a).
Proof.
  intros Hs Hg Hd. unfold ask_select. rewrite Hs. unfold_m.
  rewrite decide_False; [done|]. rewrite Hg, Hd. intros [?|?]; congruence.
Qed.

(** The global graph belongs to another corpus: the cached graph of the
    session's corpus replaces it. *)
Lemma ask_select_switch_cached s q d a e g :
  selected_db s = Some d -> current_db_index a <> Some d -> graphs_loaded a = true ->
  db_cache a !! d = Some e -> ce_graph e = Some g ->
  ask_select index_loads s q a = (inr (Some (add_message s "user" q)), set_current (Some g) (Some d) a).
Proof.
  intros Hs Hd Hl He Hg. unfold ask_select. rewrite Hs. rewrite run_bind. simpl.
  rewrite decide_True by tauto. unfold create_graph.
  rewrite decide_False by exact (selected_db_nonempty s d Hs).
  rewrite !run_bind, create_graph_check_run, Hl, He, Hg. reflexivity.
Qed.

(** [ask_run] on a graph whose run returns. *)
Lemma ask_run_graph s q tid a g st w' :
  current_graph a = Some g -> run_graph g q tid s (store a) = (inr st, w') ->
  ask_run s q tid a =
    (inr (RAnswer (default no_answer (generation st)),
          add_message s "assistant" (default no_answer (generation st))), set_store w' a).
Proof. intros Hg Hr. unfold ask_run, lift_store. unfold_m. simpl. by rewrite Hg, Hr. Qed.
End AskRuns.

(** ** Concurrent requests

    The Flask server handles requests in threads and [ask] holds no lock:
    between a request's selection of [current_graph] and its
    [run_graph(current_graph, ...)] (which takes seconds: retrieval and
    LLM calls) another request can run its own selection.  A thread is where
    it stands in [ask]; a step runs the selection or the run of one thread
    atomically. *)
Inductive ask_thread :=
| AskStart (s : session) (q tid : string)     (** the request has arrived *)
| AskSelected (s : session) (q tid : string)  (** [current_graph] selected, question appended *)
| AskDone (r : response) (s : session).       (** responded, with the session it leaves *)

Section Interleaving.
Context `{Services}.
Variable index_loads : string -> bool.

Inductive ask_step : AppState * list ask_thread -> AppState * list ask_thread -> Prop :=
| ask_step_select a ts i s q tid o a' :
  ts !! i = Some (AskStart s q tid) ->
  ask_select index_loads s q a = (inr o, a') ->
  ask_step (a, ts) (a', <[i := match o with
                                | Some s' => AskSelected s' q tid
                                | None => AskDone RNoDbSelected s
                                end]> ts)
| ask_step_run a ts i s q tid r s' a' :
  ts !! i = Some (AskSelected s q tid) ->
  ask_run s q tid a = (inr (r, s'), a') ->
  ask_step (a, ts) (a', <[i := AskDone r s']> ts).

(** One request alone: its two steps are [ask]. *)
Lemma ask_one_thread s q tid a r s' a' :
  ask index_loads s q tid a = (inr (r, s'), a') ->
  rtc ask_step (a, [AskStart s q tid]) (a', [AskDone r s']).
Proof.
  unfold ask. rewrite run_bind.
  destruct (ask_select_total index_loads s q a) as (o & a1 & Ha). rewrite Ha. simpl.
  destruct o as [s1|]; intros Hr.
  - eapply rtc_l; [by apply (ask_step_select a [AskStart s q tid] 0 s q tid (Some s1) a1)|].
    apply rtc_once. by apply (ask_step_run a1 [AskSelected s1 q tid] 0 s1 q tid r s' a').
  - unfold_m. injection Hr as <- <- <-. apply rtc_once.
    by apply (ask_step_select a [AskStart s q tid] 0 s q tid None a1).
Qed.

Lemma ask_step_globals_wf c c' : ask_step c c' -> globals_wf c.1 -> globals_wf c'.1.
Proof.
  destruct 1 as [a ts i s q tid o a' _ Ha | a ts i s q tid r s' a' _ Ha]; simpl; intros Hwf.
  - pose proof (ask_select_globals_wf index_loads s q a Hwf) as Hg. by rewrite Ha in Hg.
  - destruct (ask_run_store s q tid a) as (w' & Hs & Hk). rewrite Ha in Hs. simpl in Hs. subst a'.
    by apply globals_wf_set_store.
Qed.
End Interleaving.

(** ** Properties of the handlers *)

(** C11: [current_graph] is always a graph object that reads the corpus
    [current_db_index] names, and the cache invariant holds: [ask] and
    [change_db] keep this, and so does every interleaving of concurrent
    [ask] requests. *)
Theorem handlers_keep_globals `{Services} index_loads meta_file s q tid d fresh a :
  globals_wf a ->
  globals_wf (ask index_loads s q tid a).2
  /\ globals_wf (change_db index_loads meta_file s d fresh a).2
  /\ (forall ts c', rtc (ask_step index_loads) (a, ts) c' -> globals_wf c'.1).
Proof.
  intros Hwf. split; [by apply ask_globals_wf|]. split; [by apply change_db_globals_wf|].
  intros ts c' Hr. change (globals_wf (a, ts).1) in Hwf. revert Hwf.
  induction Hr as [c|c1 c2 c3 Hs _ IH]; [done|]. intros Hwf. by eapply IH, ask_step_globals_wf.
Qed.

(** C12: a request that runs alone queries no corpus but its session's:
    every retriever call [ask] makes reads the corpus the session selected. *)
Theorem ask_alone_own_corpus `{Services} index_loads s q tid d a :
  globals_wf a -> selected_db s = Some d ->
  exists l, calls (store (ask index_loads s q tid a).2) = calls (store a) ++ l
            /\ forall d' q', CallRetriever d' q' ∈ l -> d' = d.
Proof.
  intros Hwf Hs. unfold ask. rewrite run_bind.
  destruct (ask_select_total index_loads s q a) as (o & a1 & Ha). rewrite Ha. simpl.
  destruct (ask_select_current index_loads s q d a o a1 Hwf Hs Ha) as (Hwf1 & Hd & Hc).
  destruct o as [s1|].
  - destruct (ask_run_retrieves_only s1 q tid d a1 Hwf1 Hd) as (l & Hl & Hin).
    exists l. by rewrite Hl, Hc.
  - exists []. unfold_m. simpl. rewrite Hc, app_nil_r. split; [done|].
    intros d' q' Hin. by apply elem_of_nil in Hin.
Qed.

(** C3 (Scenario D): two sessions on different corpora ask at the same
    time.  A's selection finds the global graph already on A's corpus and
    keeps it; B's selection then points the global graph at B's corpus;
    A's run reads the global graph and so answers A's question from B's
    corpus: the retriever call is made on B's corpus, A's answer is the
    LLM's answer on B's documents, and the globals are left on B's corpus. *)
Theorem ask_interleaving_cross_talk `{Services} index_loads a sA sB qA qB tA tB dA dB gA gB go docs ans :
  globals_wf a -> registry_ok (store a) -> graphs_loaded a = true ->
  selected_db sA = Some dA -> selected_db sB = Some dB -> dA <> dB ->
  current_graph a = Some gA -> current_db_index a = Some dA ->
  (exists e, db_cache a !! dB = Some e /\ ce_graph e = Some gB) ->
  graphs (store a) !! gB = Some go -> g_cache go !! qA = None ->
  retriever_invoke dB qA = Some docs -> docs <> [] ->
  llm_invoke qA (format_rag_docs docs)
    (format_chat_history (get_message_history (add_message sA "user" qA))) = Some ans ->
  exists a',
    rtc (ask_step index_loads) (a, [AskStart sA qA tA; AskStart sB qB tB])
      (a', [AskDone (RAnswer ans) (add_message (add_message sA "user" qA) "assistant" ans);
            AskSelected (add_message sB "user" qB) qB tB])
    /\ calls (store a') = calls (store a) ++
         [CallRetriever dB qA;
          CallLLM qA (format_rag_docs docs)
            (format_chat_history (get_message_history (add_message sA "user" qA)));
          CallLLM qA (format_rag_docs docs)
            (format_chat_history (get_message_history (add_message sA "user" qA)))]
    /\ current_db_index a' = Some dB.
Proof.
  intros Hwf Hreg Hl HsA HsB Hne HgA HdA (e & He & HgB) Hgo Hc Hr Hdocs Hans.
  assert (g_db go = dB) as Hdb.
  { destruct Hwf as [[Hent _] _]. destruct (Hent dB e He) as [_ Hg].
    destruct (Hg gB HgB) as (go' & Hgo' & <-). congruence. }
  destruct (queue_for_total tA (store a)) as (r & w0 & Hq).
  destruct (queue_for_ok tA (store a) r w0 Hreg Hq) as (_ & [msgs Hm] & _).
  assert (lookup_or_retrieve go qA = Some docs) as Hlr
    by (unfold lookup_or_retrieve; by rewrite Hc, Hdb).
  destruct (run_graph_has_documents_run gB qA tA (add_message sA "user" qA) (store a) r w0 msgs
              go docs ans Hq Hm Hgo Hlr Hdocs Hans) as (w' & Hrun & _ & Hcalls).
  exists (set_store w' (set_current (Some gB) (Some dB) a)). split; [|split; [|done]].
  - eapply rtc_l.
    { apply (ask_step_select _ a _ 0 sA qA tA (Some (add_message sA "user" qA)) a); [done|].
      exact (ask_select_keep index_loads sA qA dA a gA HsA HgA HdA). }
    eapply rtc_l.
    { apply (ask_step_select _ a _ 1 sB qB tB (Some (add_message sB "user" qB))
               (set_current (Some gB) (Some dB) a)); [done|].
      apply (ask_select_switch_cached index_loads sB qB dB a e gB); try done. rewrite HdA. congruence. }
    eapply rtc_l.
    { apply (ask_step_run _ _ _ 0 (add_message sA "user" qA) qA tA); [done|].
      exact (ask_run_graph (add_message sA "user" qA) qA tA (set_current (Some gB) (Some dB) a)
               gB _ w' eq_refl Hrun). }
    apply rtc_refl.
  - simpl. rewrite Hcalls. unfold retrieve_calls. by rewrite Hc, Hdb.
Qed.

(** ** Examples *)

#[local] Existing Instance demo_services.

(** Two corpora with a graph each; the globals are on the new corpus, whose
    retriever fails on every question; thread "tA" is registered to the
    empty queue 2. *)
Definition demo_world_two : World :=
  mkWorld {[0 := demo_graph; 1 := mkGraphObj demo_new_db ∅]} {[2 := []]} {["tA" := 2]} 3 [].

Definition demo_app_two : AppState :=
  mkApp {[demo_db := mkEntry demo_db "rag" (Some 0); demo_new_db := mkEntry demo_new_db "new" (Some 1)]}
    true true (Some 1) (Some demo_new_db) demo_world_two.

Definition session_A : session := mkSession (Some []) (Some "tA") (Some demo_new_db).
Definition session_B : session := mkSession (Some []) (Some "tB") (Some demo_db).

Lemma demo_app_two_wf : globals_wf demo_app_two.
Proof.
  split; [split|]; simpl.
  - intros db e He. apply lookup_insert_Some in He as [[<- <-]|[_ He]].
    + split; [done|]. intros g [= <-]. by eexists.
    + apply lookup_singleton_Some in He as [<- <-]. split; [done|]. intros g [= <-]. by eexists.
  - intros r Hr. rewrite lookup_insert_ne by lia. rewrite lookup_singleton_ne; [done | lia].
  - intros g d [= <-] [= <-]. by eexists.
Qed.

Lemma demo_world_two_ok : registry_ok demo_world_two.
Proof.
  split; [|reflexivity]. intros t r Ht. simpl in Ht.
  apply lookup_singleton_Some in Ht as [<- <-]. by eexists.
Qed.

(** C11 witness. *)
Lemma handlers_keep_globals_witness :
  globals_wf (ask demo_index_loads session_A "What is RAG?" "tA" demo_app_two).2
  /\ globals_wf (change_db demo_index_loads None session_A (Some demo_db) "tC" demo_app_two).2
  /\ (forall ts c', rtc (ask_step demo_index_loads) (demo_app_two, ts) c' -> globals_wf c'.1).
Proof. apply handlers_keep_globals. exact demo_app_two_wf. Defined.

(** C12 witness: A's question alone goes to A's own corpus. *)
Lemma ask_alone_own_corpus_witness :
  exists l, calls (store (ask demo_index_loads session_A "What is RAG?" "tA" demo_app_two).2)
              = calls (store demo_app_two) ++ l
            /\ forall d' q', CallRetriever d' q' ∈ l -> d' = demo_new_db.
Proof. apply ask_alone_own_corpus; [exact demo_app_two_wf | reflexivity]. Defined.

(** Alone, A's request fails: its own corpus has nothing for the question. *)
Example ask_alone_demo :
  (ask demo_index_loads session_A "What is RAG?" "tA" demo_app_two).1
  = inr (RServerError RetrieverError, add_message session_A "user" "What is RAG?").
Proof. vm_compute. reflexivity. Qed.

(** C3 witness: interleaved with B's request, A's question is answered
    from B's corpus. *)
Lemma ask_interleaving_cross_talk_witness :
  exists a',
    rtc (ask_step demo_index_loads)
      (demo_app_two, [AskStart session_A "What is RAG?" "tA"; AskStart session_B "Hi" "tB"])
      (a', [AskDone (RAnswer "Answer: What is RAG?")
              (add_message (add_message session_A "user" "What is RAG?") "assistant" "Answer: What is RAG?");
            AskSelected (add_message session_B "user" "Hi") "Hi" "tB"])
    /\ calls (store a') = calls (store demo_app_two) ++
         [CallRetriever demo_db "What is RAG?";
          CallLLM "What is RAG?" (format_rag_docs [rag_page])
            (format_chat_history (get_message_history (add_message session_A "user" "What is RAG?")));
          CallLLM "What is RAG?" (format_rag_docs [rag_page])
            (format_chat_history (get_message_history (add_message session_A "user" "What is RAG?")))]
    /\ current_db_index a' = Some demo_db.
Proof.
  apply (ask_interleaving_cross_talk demo_index_loads demo_app_two session_A session_B
           "What is RAG?" "Hi" "tA" "tB" demo_new_db demo_db 1 0 demo_graph);
    try reflexivity; try discriminate.
  - exact demo_app_two_wf.
  - exact demo_world_two_ok.
  - by eexists.
Defined.
