(* ===== verification/IndexPage.v ===== *)
(** * The index page ([index()], src/app.py, lines 65-100)

    [GET /] gives the session a message list and a thread id when it has
    none, and renders the corpora of [db_cache]: for each cached folder,
    its display name (the cache's, else the metadata's, else the folder
    name less the prefix), its category in the metadata file (['기타']
    when it has none) and whether a graph is cached.  The rendering itself
    is I/O; the model gives the session after the request and the two
    values handed to [render_template].

    The listing follows [db_cache.items()]; the cache is a [gmap] here, so
    the theorems describe the set of corpora listed, not their order.  The
    theorems: the page lists each cached corpus once and nothing else,
    and over the cache [init_app] fills at startup it lists exactly the
    corpus folders whose index loads, each with its graph (composed with
    the import of app.py in [Startup]). *)

From S2P Require Import Prelude PyStr Types History Metadata Cache DbEdit App.

(** One element of [vector_dbs] (lines 93-98). *)
Record index_entry := mkIndexEntry {
  ie_id : string; ie_name : string; ie_category : string; ie_has_graph : bool }.

(** The session after lines 67-71: the keys that are missing are set. *)
Definition index_session (s : session) (fresh : string) : session :=
  mkSession (Some (default [] (s_messages s))) (Some (default fresh (s_thread_id s))) (s_db_index s).

(** The display name of lines 83-85: [db_info.get('display_name') or
    db_metadata.get('display_name')], and the folder name less the prefix
    when both are empty or missing. *)
Definition index_name (db_id : string) (e : cache_entry) (info : option db_meta) : string :=
  let n := if decide (ce_display_name e = "")
           then match info with Some dm => display_name dm | None => "" end
           else ce_display_name e in
  if decide (n = "") then strip_db_prefix db_id else n.

(** The entry of one cached corpus (lines 79-98); [None] when
    [metadata.get(db_id, {})] is the category list, whose [.get] raises. *)
Definition index_entry_of (m : metadata) (db_id : string) (e : cache_entry) : option index_entry :=
  info ← db_info m db_id;
  Some (mkIndexEntry db_id (index_name db_id e info)
          (match info with Some dm => category dm | None => "기타" end)
          (bool_decide (is_Some (ce_graph e)))).

(** [index()]: the session after the request, and the [messages] and
    [vector_dbs] the template receives ([None] when building the list
    raises). *)
Definition index (meta_file : option meta_raw) (s : session) (fresh : string) (a : AppState)
    : session * option (list session_message * list index_entry) :=
  let s' := index_session s fresh in
  let metadata := load_db_metadata meta_file in
  (s', (fun l => (default [] (s_messages s'), l))
         <$> mapM (fun ke => index_entry_of metadata ke.1 ke.2) (map_to_list (db_cache a))).

(** ** The listing *)

Lemma index_entry_of_Some m d e ie :
  index_entry_of m d e = Some ie ->
  ie_id ie = d /\ ie_has_graph ie = bool_decide (is_Some (ce_graph e))
  /\ ie_name ie = index_name d e (default None (db_info m d))
  /\ ie_category ie = match default None (db_info m d) with Some dm => category dm | None => "기타" end.
Proof. unfold index_entry_of. destruct (db_info m d) as [info|]; simpl; [|done]. by intros [= <-]. Qed.

(** The name is empty only when the folder name is the prefix itself. *)
Lemma index_name_nonempty d e info : index_name d e info <> "" \/ strip_db_prefix d = "".
Proof.
  unfold index_name. case_decide; [|by left]. destruct (decide (strip_db_prefix d = "")); auto.
Qed.

(** The corpora listed are the cached ones, in the cache's order. *)
Lemma index_listing meta_file s fresh a :
  db_cache a !! CATEGORIES_KEY = None ->
  exists l, index meta_file s fresh a = (index_session s fresh, Some (default [] (s_messages s), l))
  /\ Forall2 (fun ke ie => index_entry_of (load_db_metadata meta_file) ke.1 ke.2 = Some ie)
       (map_to_list (db_cache a)) l.
Proof.
  intros Hc. unfold index.
  destruct (mapM_is_Some_2 (fun ke : string * cache_entry => index_entry_of (load_db_metadata meta_file) ke.1 ke.2)
              (map_to_list (db_cache a))) as [l Hl].
  { apply Forall_forall. intros [d e] Hin%elem_of_map_to_list. simpl. unfold index_entry_of, db_info.
    rewrite decide_False by (intros ->; congruence). by eexists. }
  exists l. rewrite Hl. split; [done|]. by apply mapM_Some.
Qed.

(** The ids of a listing are the keys it was built from. *)
Lemma listing_ids m l k :
  Forall2 (fun ke ie => index_entry_of m ke.1 ke.2 = Some ie) l k -> ie_id <$> k = l.*1.
Proof.
  induction 1 as [|[d e] ie l k Hie _ IH]; [done|].
  apply index_entry_of_Some in Hie as [Hid _]. rewrite fmap_cons, Hid, IH. reflexivity.
Qed.

(** The page lists every cached corpus once and nothing else, says
    whether its graph is built, and names it by the cache, the metadata
    or the folder (never the empty name, but for the folder that is the
    prefix itself); the session keeps its messages and thread id and gets
    a fresh one only when it has none. *)
Theorem index_lists_cache meta_file s fresh a :
  db_cache a !! CATEGORIES_KEY = None ->
  exists l, index meta_file s fresh a =
            (mkSession (Some (default [] (s_messages s))) (Some (default fresh (s_thread_id s))) (s_db_index s),
             Some (default [] (s_messages s), l))
  /\ NoDup (ie_id <$> l)
  /\ (forall d, d ∈ ie_id <$> l <-> is_Some (db_cache a !! d))
  /\ Forall (fun ie => exists e, db_cache a !! ie_id ie = Some e
                        /\ ie_has_graph ie = bool_decide (is_Some (ce_graph e))
                        /\ (ie_name ie <> "" \/ strip_db_prefix (ie_id ie) = "")) l.
Proof.
  intros Hc. destruct (index_listing meta_file s fresh a Hc) as (l & Hidx & Hl).
  exists l. split; [done|]. rewrite (listing_ids _ _ _ Hl). split; [apply NoDup_fst_map_to_list|].
  split.
  - intros d. rewrite list_elem_of_fmap. split.
    + intros ([d' e] & -> & Hin%elem_of_map_to_list). by exists e.
    + intros [e He]. exists (d, e). split; [done|]. by apply elem_of_map_to_list.
  - apply (Forall2_Forall_r _ _ _ _ Hl). apply Forall_forall.
    intros [d e] Hin%elem_of_map_to_list ie Hs. simpl in Hs.
    apply index_entry_of_Some in Hs as (-> & Hg & Hn & _). exists e.
    split; [done|]. split; [done|]. rewrite Hn. apply index_name_nonempty.
Qed.

(** The name the page shows for a corpus cached by [preload_vector_dbs]. *)
Lemma index_name_preloaded d info :
  index_name d (mkEntry d (match info with Some m => display_name m | None => strip_db_prefix d end) (Some 0)) info
  = match info with
    | Some m => if decide (display_name m = "") then strip_db_prefix d else display_name m
    | None => strip_db_prefix d
    end.
Proof. unfold index_name. destruct info as [m|]; simpl; repeat case_decide; congruence. Qed.

(** The page over a cache holding exactly the corpus folders of
    [listdir] whose index loads, as [init_app] leaves it on a process that
    had loaded nothing ([init_app_fresh]): it lists those folders, each
    with its graph, its metadata display name (the folder name less the
    prefix when it has none) and its metadata category (['기타'] when it
    has none). *)
Lemma index_startup_listing (index_loads : string -> bool) (listdir : list string) meta_file s fresh a :
  (forall d, (is_Some (db_cache a !! d) <->
              d ∈ listdir /\ String.prefix VECTOR_DB_FOLDER d = true /\ index_loads d = true)
     /\ forall e, db_cache a !! d = Some e ->
          ce_retriever e = d /\ is_Some (ce_graph e)
          /\ ce_display_name e = match dbs (load_db_metadata meta_file) !! d with
                                 | Some m => display_name m | None => strip_db_prefix d end) ->
  exists l, index meta_file s fresh a = (index_session s fresh, Some (default [] (s_messages s), l))
  /\ (forall d, d ∈ ie_id <$> l <-> d ∈ listdir /\ String.prefix VECTOR_DB_FOLDER d = true /\ index_loads d = true)
  /\ Forall (fun ie => ie_has_graph ie = true
       /\ ie_name ie = match dbs (load_db_metadata meta_file) !! ie_id ie with
                       | Some m => if decide (display_name m = "") then strip_db_prefix (ie_id ie) else display_name m
                       | None => strip_db_prefix (ie_id ie)
                       end
       /\ ie_category ie = match dbs (load_db_metadata meta_file) !! ie_id ie with
                           | Some m => category m | None => "기타" end) l.
Proof.
  intros Hd.
  assert (db_cache a !! CATEGORIES_KEY = None) as Hc.
  { destruct (db_cache a !! CATEGORIES_KEY) eqn:E; [|done]. exfalso.
    destruct (proj1 (proj1 (Hd CATEGORIES_KEY)) ltac:(by eexists)) as (_ & Hp & _). vm_compute in Hp. discriminate. }
  destruct (index_listing meta_file s fresh a Hc) as (l & Hidx & Hl').
  exists l. split; [done|]. split.
  - intros d. rewrite (listing_ids _ _ _ Hl'), list_elem_of_fmap, <- (proj1 (Hd d)). split.
    + intros ([d' e] & -> & Hin%elem_of_map_to_list). by exists e.
    + intros [e He]. exists (d, e). split; [done|]. by apply elem_of_map_to_list.
  - apply (Forall2_Forall_r _ _ _ _ Hl'). apply Forall_forall.
    intros [d e] Hin%elem_of_map_to_list ie Hs. simpl in Hs.
    destruct (proj2 (Hd d) e Hin) as (Hr & [g Hg] & Hn).
    apply index_entry_of_Some in Hs as (-> & Hhas & Hname & Hcat).
    unfold db_info in Hname, Hcat. rewrite decide_False in Hname, Hcat
      by (intros ->; by rewrite Hin in Hc). simpl in Hname, Hcat.
    split; [rewrite Hhas, Hg; by apply bool_decide_eq_true|]. split; [|done].
    rewrite Hname. destruct e as [r n gr]. simpl in *. subst r n gr.
    rewrite <- (index_name_preloaded d (dbs (load_db_metadata meta_file) !! d)).
    by unfold index_name.
Qed.

(** ** Examples *)

Lemma index_lists_cache_witness :
  exists l, index None (mkSession None (Some "t-0") None) "t-1" demo_app =
            (mkSession (Some (default [] None)) (Some (default "t-1" (Some "t-0"))) None,
             Some (default [] None, l))
  /\ NoDup (ie_id <$> l)
  /\ (forall d, d ∈ ie_id <$> l <-> is_Some (db_cache demo_app !! d))
  /\ Forall (fun ie => exists e, db_cache demo_app !! ie_id ie = Some e
                        /\ ie_has_graph ie = bool_decide (is_Some (ce_graph e))
                        /\ (ie_name ie <> "" \/ strip_db_prefix (ie_id ie) = "")) l.
Proof. apply (index_lists_cache None (mkSession None (Some "t-0") None) "t-1" demo_app). reflexivity. Defined.
