(* ===== verification/Startup.v ===== *)
(** * The import of app.py: the process before its first request

    Importing app.py sets the globals of app.py and streamlit_wrapper.py
    ([db_cache = {}], [GRAPHS_LOADED = False], [INITIALIZED = False],
    [current_graph = current_db_index = None], [progress_queues = {}]),
    runs [initialize_app()] (app.py, line 60), and calls
    [setup_document_manager(app)] (line 63), which creates the upload
    folder.  The Flask set-up, the route registrations and [app.run] are
    not modelled.

    The theorems: the process after the import satisfies the cache
    invariant, and its index page lists exactly the corpus folders of the
    working directory whose index loads, each with its graph built; and
    [setup_document_manager] leaves the upload folder a directory, unless
    a file of that name makes [os.makedirs] raise. *)

From S2P Require Import Prelude PyStr Types History Metadata Uploads FaissStore Cache DbEdit App IndexPage.

(** The heap of a new process: no object, no registered queue
    ([progress_queues = {}], app.py, line 181), no call made. *)
Definition initial_world : World := mkWorld ∅ ∅ ∅ 0 [].

(** The globals when the modules are imported: [db_cache] and
    [GRAPHS_LOADED] (streamlit_wrapper.py, lines 15-17), [INITIALIZED],
    [current_graph] and [current_db_index] (app.py, lines 25 and 39-40). *)
Definition initial_app : AppState := mkApp ∅ false false None None initial_world.

(** The module-level [initialize_app()] (app.py, line 60). *)
Definition import_app (index_loads : string -> bool) (listdir : list string) (meta_file : option meta_raw)
    : AppState :=
  (initialize_app index_loads listdir meta_file initial_app).2.

(** [setup_document_manager(app)] (document_manager.py, lines 147-151):
    [os.makedirs(UPLOAD_FOLDER, exist_ok=True)]; [None] when it raises. *)
Definition setup_document_manager (fs : fsys) : option fsys := snd <$> mkdir_folder fs UPLOAD_FOLDER.

(** ** The process after the import *)

Lemma initial_app_wf : cache_wf initial_app.
Proof. split; simpl; [intros db e He; by rewrite lookup_empty in He | intros r _; apply lookup_empty]. Qed.

(** C32: after the import of app.py the cache invariant holds, the process is
    marked initialized with its graphs loaded, and the index page lists
    exactly the corpus folders of the working directory whose index
    loads, each with its graph built, named by its metadata display name
    (the folder name less the prefix when it has none) and filed under
    its metadata category (['기타'] when it has none). *)
Theorem import_index index_loads listdir meta_file s fresh :
  let a := import_app index_loads listdir meta_file in
  cache_wf a /\ initialized a = true /\ graphs_loaded a = true
  /\ exists l, index meta_file s fresh a = (index_session s fresh, Some (default [] (s_messages s), l))
  /\ (forall d, d ∈ ie_id <$> l <-> d ∈ listdir /\ String.prefix VECTOR_DB_FOLDER d = true /\ index_loads d = true)
  /\ Forall (fun ie => ie_has_graph ie = true
       /\ ie_name ie = match dbs (load_db_metadata meta_file) !! ie_id ie with
                       | Some m => if decide (display_name m = "") then strip_db_prefix (ie_id ie) else display_name m
                       | None => strip_db_prefix (ie_id ie)
                       end
       /\ ie_category ie = match dbs (load_db_metadata meta_file) !! ie_id ie with
                           | Some m => category m | None => "기타" end) l.
Proof.
  destruct (init_app_fresh index_loads listdir meta_file initial_app eq_refl eq_refl) as (a1 & Hrun & Hl1 & Hd).
  assert (initialize_app index_loads listdir meta_file initial_app
          = (inr tt, mkApp (db_cache a1) (graphs_loaded a1) true (current_graph a1) (current_db_index a1) (store a1)))
    as Hinit.
  { unfold initialize_app. rewrite run_bind. cbn [get_st initialized initial_app]. rewrite run_bind, Hrun. reflexivity. }
  cbn zeta. unfold import_app. rewrite Hinit. cbn [snd].
  split.
  { pose proof (init_app_wf index_loads listdir meta_file initial_app initial_app_wf) as Hwf.
    rewrite Hrun in Hwf. destruct Hwf as [He Hf]. by split. }
  split; [done|]. split; [done|].
  exact (index_startup_listing index_loads listdir meta_file s fresh
           (mkApp (db_cache a1) (graphs_loaded a1) true (current_graph a1) (current_db_index a1) (store a1)) Hd).
Qed.

(** ** [setup_document_manager] *)

(** ["data"] names the folder [data] of the working directory, whatever
    exists. *)
Lemma os_path_upload fs : os_path fs UPLOAD_FOLDER = Some (false, ["data"]).
Proof. reflexivity. Qed.

(** [os.makedirs("data", exist_ok=True)] leaves [data] a directory and
    the files as they were, or raises because a file is named [data]. *)
Theorem setup_upload_dir fs :
  match setup_document_manager fs with
  | Some fs' => is_dir fs' UPLOAD_FOLDER = true /\ fs_files fs' = fs_files fs
  | None => is_Some (fs_files fs !! (false, ["data"]))
  end.
Proof.
  unfold setup_document_manager, mkdir_folder, is_dir. rewrite os_path_upload.
  case_decide as Hd; simpl; [split; [by apply bool_decide_eq_true | done]|].
  case_decide as Hf; simpl; [done|].
  split; [apply bool_decide_eq_true; set_solver | done].
Qed.

(** ** Examples *)

(** The working directory: two corpora of [Metadata]'s example, a corpus
    whose index does not load, and the upload folder. *)
Definition startup_listdir : list string := [demo_law; "LANGCHAIN_DB_INDEX_broken"; demo_guide; "data"].

Definition startup_loads (d : string) : bool := bool_decide (d <> "LANGCHAIN_DB_INDEX_broken").

(** The index page after the import: the two loadable corpora, the
    second named after its folder and filed under ['기타']; the broken
    corpus and the upload folder are not listed. *)
Example startup_page :
  index (Some demo_meta_raw) (mkSession None None None) "t-1"
    (import_app startup_loads startup_listdir (Some demo_meta_raw))
  = (mkSession (Some []) (Some "t-1") None,
     Some ([], [mkIndexEntry demo_guide "guide" "기타" true; mkIndexEntry demo_law "병역법" "법령" true])).
Proof. vm_compute. reflexivity. Qed.

(** A file named [data] makes the import fail. *)
Example setup_over_file :
  setup_document_manager (mkFsys ∅ {[(false, ["data"]) := "notes"]}) = None.
Proof. vm_compute. reflexivity. Qed.
