(* ===== verification/Wrapper.v ===== *)
(** * The Streamlit helpers of [src/streamlit_wrapper.py]

    Three functions the Flask app imports but does not call:
    [stream_graph] (lines 175-189) runs a compiled graph with [invoke]
    on a question and an empty document list and writes the answer to a
    Streamlit container; [save_system_state] (lines 210-232) pickles the
    cache's keys, display names, [GRAPHS_LOADED] and a timestamp into
    [system_state.pkl], then the cached graphs into [saved_graphs.pkl];
    [restore_system_state] (lines 234-253) reloads [system_state.pkl] and
    then runs [preload_vector_dbs] and [preload_graphs].

    The pickle files of the working directory are a map from file names
    to what was pickled there, [Truncated] when [open(..., 'wb')]
    emptied the file and [pickle.dump] then raised; whether [pickle.dump]
    succeeds on a value is an oracle.  The container's writes are the
    list of strings passed to [markdown].

    The theorems: [stream_graph] answers as the [invoke] of [run_graph]
    on an empty history does, and its fallback text is never used;
    [restore_system_state] ignores what was saved, and on a running
    process drops every cached graph it should restore; a save whose
    first pickle succeeds is always restored. *)

From S2P Require Import Prelude PyStr Types History Rag Graph Progress Metadata Cache App.

(** ** [stream_graph] *)

(** [{"question": query, "documents": []}] *)
Definition stream_inputs (q : string) : GraphState := mkGraphState (Some q) (Some []) None None.

(** LangGraph's default [recursion_limit]: [invoke] is called without a
    config. *)
Definition DEFAULT_RECURSION_LIMIT : nat := 25.

Section StreamGraph.
Context `{Services}.

(** [stream_graph(app, query, streamlit_container, thread_id)]: the
    answer it returns and the texts it writes with [markdown]. *)
Definition stream_graph (g : nat) (query : string) : M (string * list string) :=
  result ← graph_invoke g DEFAULT_RECURSION_LIMIT (stream_inputs query);
  match generation result with
  | Some a => mret (a, [a])
  | None => mret (no_answer, [no_answer])
  end.
End StreamGraph.

(** ** [save_system_state] and [restore_system_state] *)

(** The dict [save_data] (lines 213-218). *)
Record saved_state := mkSavedState {
  ss_db_indices : list string;
  ss_display_names : gmap string string;
  ss_loaded : bool;
  ss_timestamp : string
}.

(** What a pickle file of the working directory holds. *)
Inductive pickle_file :=
| PickledState (s : saved_state)
| PickledGraphs (gs : gmap string (option nat))
| Truncated.

Definition SYSTEM_STATE_FILE : string := "system_state.pkl".
Definition SAVED_GRAPHS_FILE : string := "saved_graphs.pkl".

(** [save_data] at the clock reading [now] ([time.strftime(...)]). *)
Definition save_data (now : string) (a : AppState) : saved_state :=
  mkSavedState (map fst (map_to_list (db_cache a))) (ce_display_name <$> db_cache a) (graphs_loaded a) now.

(** [{db_id: data['graph'] for db_id, data in db_cache.items() if 'graph' in data}]:
    every entry has the key. *)
Definition saved_graphs (a : AppState) : gmap string (option nat) := ce_graph <$> db_cache a.

Section SaveRestore.
(** [pickle.dump] succeeds on the value. *)
Variable pickle_state_ok : saved_state -> bool.
Variable pickle_graphs_ok : gmap string (option nat) -> bool.

(** [save_system_state()]: its result and the pickle files after it. *)
Definition save_system_state (now : string) (a : AppState) (fs : gmap string pickle_file)
    : bool * gmap string pickle_file :=
  let sd := save_data now a in
  if pickle_state_ok sd then
    let fs1 := <[SYSTEM_STATE_FILE := PickledState sd]> fs in
    let gs := saved_graphs a in
    if pickle_graphs_ok gs then (true, <[SAVED_GRAPHS_FILE := PickledGraphs gs]> fs1)
    else (false, <[SAVED_GRAPHS_FILE := Truncated]> fs1)
  else (false, <[SYSTEM_STATE_FILE := Truncated]> fs).

Variable index_loads : string -> bool.
Variable listdir : list string.
Variable meta_file : option meta_raw.

(** [restore_system_state()]: [Some true] or [Some false] as it returns
    [True] or [False], [None] when it falls off its end (no file). *)
Definition restore_system_state (fs : gmap string pickle_file) : MA (option bool) :=
  match fs !! SYSTEM_STATE_FILE with
  | None => mret None
  | Some Truncated => mret (Some false)  (** [pickle.load] raises; the [except] returns [False] *)
  | Some _ =>
      TRY (preload_vector_dbs index_loads listdir meta_file;;
           preload_graphs;;
           mret (Some true))
      EXCEPT (fun _ => mret (Some false))
  end.
End SaveRestore.

(** ** [stream_graph] answers as the [invoke] of [run_graph] *)

(** Two states the nodes read alike: the same question, the same
    documents, and the same chat history once a missing one is read as
    the empty list. *)
Definition same_reads (s1 s2 : GraphState) : Prop :=
  question s1 = question s2 /\ documents s1 = documents s2
  /\ default [] (chat_history s1) = default [] (chat_history s2).

Lemma merge_same_reads s1 s2 u : same_reads s1 s2 -> same_reads (merge_update s1 u) (merge_update s2 u).
Proof.
  intros (Hq & Hd & Hh). unfold merge_update, same_reads. simpl. rewrite Hq, Hd.
  split; [done|]. split; [done|]. by destruct (chat_history u).
Qed.

Lemma next_node_same_reads n s1 s2 : same_reads s1 s2 -> next_node n s1 = next_node n s2.
Proof. intros (_ & Hd & _). destruct n; simpl; [unfold check_documents; by rewrite Hd | done | done]. Qed.

Lemma next_node_end n s : next_node n s = inr ToEnd -> n = NGenerateAnswer.
Proof. destruct n; simpl; [unfold retrieve_branch; repeat case_decide; discriminate | discriminate | done]. Qed.

Section SameReads.
Context `{Services}.

Lemma run_node_same_reads g n s1 s2 w : same_reads s1 s2 -> run_node g n s1 w = run_node g n s2 w.
Proof.
  intros (Hq & Hd & Hh). destruct n; simpl; unfold retrieve_execute, web_search_execute, rag_answer_execute;
    by rewrite ?Hq, ?Hd, ?Hh.
Qed.

(** The update of [generate_answer] sets every key, so it is the state
    after it whatever the state before. *)
Lemma rag_update_full g s w u w' :
  run_node g NGenerateAnswer s w = (inr u, w') -> (forall s', merge_update s' u = u) /\ is_Some (generation u).
Proof.
  simpl. unfold rag_answer_execute, get_key. unfold_m. intros Hrun.
  repeat (case_match; simplify_eq); split; [reflexivity | by eexists].
Qed.

Lemma run_from_same_reads g f n s1 s2 w :
  same_reads s1 s2 -> run_from g f n s1 no_consumer tt w = run_from g f n s2 no_consumer tt w.
Proof.
  revert n s1 s2 w. induction f as [|f IH]; intros n s1 s2 w Hs; [done|].
  simpl. rewrite !run_bind, (run_node_same_reads g n s1 s2 w Hs).
  destruct (run_node g n s2 w) as [[e|u] w1] eqn:Hu; [done|].
  rewrite !run_bind. unfold lift. rewrite (next_node_same_reads n _ _ (merge_same_reads s1 s2 u Hs)).
  destruct (next_node n (merge_update s2 u)) as [e|[n'|]] eqn:Ht; [done | |].
  - rewrite !run_ret, !run_bind. by apply IH, merge_same_reads.
  - apply next_node_end in Ht as ->. destruct (rag_update_full g s2 w u w1 Hu) as [Hfull _].
    by rewrite !Hfull.
Qed.

(** A run that ends has an answer. *)
Lemma run_from_generation g f n s w r w' :
  run_from g f n s no_consumer tt w = (inr r, w') -> is_Some (generation r.1).
Proof.
  revert n s w. induction f as [|f IH]; intros n s w; [done|].
  simpl. rewrite !run_bind. destruct (run_node g n s w) as [[e|u] w1] eqn:Hu; [done|].
  rewrite !run_bind. unfold lift.
  destruct (next_node n (merge_update s u)) as [e|[n'|]] eqn:Ht; [done | |].
  - rewrite !run_ret, !run_bind. apply IH.
  - apply next_node_end in Ht as ->. destruct (rag_update_full g s w u w1 Hu) as [Hfull Hg].
    rewrite !Hfull. unfold no_consumer. unfold_m. intros [= <- _]. exact Hg.
Qed.
End SameReads.

(** [stream_graph]'s run is the [invoke] of [run_graph] on the same
    question and an empty history: the inputs differ only in keys the
    nodes read with a default or overwrite, and both recursion limits
    exceed the three supersteps of the graph. *)
Lemma stream_invoke_same `{Services} g q w :
  graph_invoke g DEFAULT_RECURSION_LIMIT (stream_inputs q) w = graph_invoke g recursion_limit (graph_inputs q []) w.
Proof.
  unfold graph_invoke, graph_stream. rewrite !run_bind.
  rewrite (run_from_fuel g DEFAULT_RECURSION_LIMIT recursion_limit) by (cbv; lia).
  by rewrite (run_from_same_reads g recursion_limit entry_node (stream_inputs q) (graph_inputs q [])).
Qed.

(** [stream_graph] fails as the [invoke] of [run_graph] on the question
    with an empty history fails, and otherwise returns and writes that
    run's answer; the fallback text ['답변을 생성하지 못했습니다.'] is
    never used, because every run that ends has an answer. *)
Theorem stream_graph_as_invoke `{Services} g q w :
  stream_graph g q w =
  match graph_invoke g recursion_limit (graph_inputs q []) w with
  | (inl e, w') => (inl e, w')
  | (inr r, w') => (inr (default no_answer (generation r), [default no_answer (generation r)]), w')
  end
  /\ forall r w', graph_invoke g recursion_limit (graph_inputs q []) w = (inr r, w') -> is_Some (generation r).
Proof.
  assert (forall r w', graph_invoke g recursion_limit (graph_inputs q []) w = (inr r, w') -> is_Some (generation r))
    as Hgen.
  { intros r w'. unfold graph_invoke, graph_stream. rewrite run_bind.
    destruct (run_from g recursion_limit entry_node (graph_inputs q []) no_consumer tt w) as [[e|r'] w1] eqn:Hr;
      [done|]. intros [= <- <-]. by apply (run_from_generation g _ _ _ _ _ _ Hr). }
  split; [|exact Hgen]. unfold stream_graph. rewrite run_bind, stream_invoke_same.
  destruct (graph_invoke g recursion_limit (graph_inputs q []) w) as [[e|r] w'] eqn:Hr; [done|].
  destruct (Hgen r w' eq_refl) as [a Ha]. by rewrite Ha.
Qed.

(** ** What a restore does *)

Section Restore.
Variable index_loads : string -> bool.
Variable listdir : list string.
Variable meta_file : option meta_raw.

Lemma preload_graphs_total a : exists a', preload_graphs a = (inr tt, a').
Proof.
  unfold preload_graphs. rewrite run_bind. cbn [get_st]. destruct (graphs_loaded a); [by eexists|].
  rewrite run_bind. destruct (fold_preload_graphs index_loads (map fst (map_to_list (db_cache a))) a) as (a' & -> & _).
  by eexists.
Qed.

(** With a pickle of anything but a truncated file, a restore reloads
    and answers [True]; what the file holds is never read. *)
Lemma restore_reloads fs a f :
  fs !! SYSTEM_STATE_FILE = Some f -> f <> Truncated ->
  exists a1 a2, preload_vector_dbs index_loads listdir meta_file a = (inr tt, a1)
  /\ preload_graphs a1 = (inr tt, a2)
  /\ restore_system_state index_loads listdir meta_file fs a = (inr (Some true), a2).
Proof.
  intros Hf Hnt.
  destruct (fold_preload_lookup index_loads (load_db_metadata meta_file)
              (filter (fun f => String.prefix VECTOR_DB_FOLDER f = true) listdir) a) as (c & Hrun & _).
  destruct (preload_graphs_total (set_db_cache c a)) as [a2 Ha2].
  exists (set_db_cache c a), a2. split; [exact Hrun|]. split; [exact Ha2|].
  unfold restore_system_state. rewrite Hf.
  assert ((preload_vector_dbs index_loads listdir meta_file;; preload_graphs;; mret (Some true)) a
          = (inr (Some true), a2)) as Hbody.
  { rewrite run_bind. unfold preload_vector_dbs. rewrite Hrun, run_bind, Ha2. reflexivity. }
  destruct f; try done; by apply run_catch_ok.
Qed.

Lemma preload_graphs_loaded a : graphs_loaded a = true -> preload_graphs a = (inr tt, a).
Proof. intros Hl. unfold preload_graphs. rewrite run_bind. cbn [get_st]. by rewrite Hl. Qed.

(** C35: on a running process ([GRAPHS_LOADED] set), [restore_system_state]
    does not restore the graphs: [preload_vector_dbs] overwrites the
    entry of every corpus folder whose index loads with a fresh entry
    without a graph, and [preload_graphs] then returns at once because
    the graphs are marked loaded; the function still answers [True].
    Other entries are untouched, and nothing is read from the file. *)
Theorem restore_drops_graphs fs a sd :
  graphs_loaded a = true -> fs !! SYSTEM_STATE_FILE = Some (PickledState sd) ->
  exists a', restore_system_state index_loads listdir meta_file fs a = (inr (Some true), a')
  /\ graphs_loaded a' = true /\ store a' = store a
  /\ forall d, db_cache a' !! d =
       if bool_decide (d ∈ listdir /\ String.prefix VECTOR_DB_FOLDER d = true /\ index_loads d = true)
       then Some (mkEntry d (match dbs (load_db_metadata meta_file) !! d with
                              | Some m => display_name m | None => strip_db_prefix d end) None)
       else db_cache a !! d.
Proof.
  intros Hl Hf.
  destruct (fold_preload_lookup index_loads (load_db_metadata meta_file)
              (filter (fun f => String.prefix VECTOR_DB_FOLDER f = true) listdir) a) as (c & Hrun & Hc).
  exists (set_db_cache c a). split.
  - unfold restore_system_state. rewrite Hf. apply run_catch_ok.
    rewrite run_bind. unfold preload_vector_dbs. rewrite Hrun, run_bind, preload_graphs_loaded by done.
    reflexivity.
  - split; [done|]. split; [done|]. intros d. simpl. rewrite Hc.
    rewrite (bool_decide_ext _ (d ∈ listdir /\ String.prefix VECTOR_DB_FOLDER d = true /\ index_loads d = true));
      [done|]. rewrite list_elem_of_filter. tauto.
Qed.

Lemma save_files_differ : SYSTEM_STATE_FILE <> SAVED_GRAPHS_FILE.
Proof. by_eval. Qed.

(** C34: a save followed by a restore: the save answers [True] only when both
    pickles succeed, but the restore answers [True] (and reloads the
    cache) as soon as the first one did, even when the graphs could not
    be saved; when the first pickle fails, the file is left truncated and
    the restore answers [False] without touching the process. *)
Theorem save_then_restore pickle_state_ok pickle_graphs_ok now a fs a0 :
  let r := save_system_state pickle_state_ok pickle_graphs_ok now a fs in
  (r.1 = true <-> pickle_state_ok (save_data now a) = true /\ pickle_graphs_ok (saved_graphs a) = true)
  /\ (pickle_state_ok (save_data now a) = true ->
      r.2 !! SYSTEM_STATE_FILE = Some (PickledState (save_data now a))
      /\ exists a1 a2, preload_vector_dbs index_loads listdir meta_file a0 = (inr tt, a1)
         /\ preload_graphs a1 = (inr tt, a2)
         /\ restore_system_state index_loads listdir meta_file r.2 a0 = (inr (Some true), a2))
  /\ (pickle_state_ok (save_data now a) = false ->
      r.2 !! SYSTEM_STATE_FILE = Some Truncated
      /\ restore_system_state index_loads listdir meta_file r.2 a0 = (inr (Some false), a0)).
Proof.
  pose proof save_files_differ as Hne. unfold save_system_state. cbn zeta.
  destruct (pickle_state_ok (save_data now a)) eqn:Hs; [destruct (pickle_graphs_ok (saved_graphs a)) eqn:Hg|];
    simpl; (split; [naive_solver|]); (split; [intros Hok | intros Hok; try discriminate Hok]).
  - rewrite lookup_insert_ne, lookup_insert_eq by congruence. split; [done|].
    eapply restore_reloads; [rewrite lookup_insert_ne, lookup_insert_eq by congruence; reflexivity | discriminate].
  - rewrite lookup_insert_ne, lookup_insert_eq by congruence. split; [done|].
    eapply restore_reloads; [rewrite lookup_insert_ne, lookup_insert_eq by congruence; reflexivity | discriminate].
  - discriminate Hok.
  - rewrite lookup_insert_eq. split; [done|]. unfold restore_system_state. by rewrite lookup_insert_eq.
Qed.
End Restore.

(** ** Examples *)

#[local] Existing Instance demo_services.

(** [stream_graph] on the deployment of [Graph]: the answer is returned
    and written once. *)
Example stream_graph_sample :
  (stream_graph 0 "What is RAG?" demo_world).1 = inr ("Answer: What is RAG?", ["Answer: What is RAG?"]).
Proof. vm_compute. reflexivity. Qed.

Definition demo_saved : gmap string pickle_file :=
  {[SYSTEM_STATE_FILE := PickledState (save_data "2025-04-17 12:30:45" demo_app)]}.

(** C35 witness: the running deployment of [Cache] (its corpus cached
    with graph [0]) restored from a saved state: the corpus's graph is
    gone. *)
Lemma restore_drops_graphs_witness :
  exists a', restore_system_state demo_index_loads [demo_db] None demo_saved demo_app = (inr (Some true), a')
  /\ graphs_loaded a' = true /\ store a' = store demo_app
  /\ forall d, db_cache a' !! d =
       if bool_decide (d ∈ [demo_db] /\ String.prefix VECTOR_DB_FOLDER d = true /\ demo_index_loads d = true)
       then Some (mkEntry d (match dbs (load_db_metadata None) !! d with
                              | Some m => display_name m | None => strip_db_prefix d end) None)
       else db_cache demo_app !! d.
Proof. apply (restore_drops_graphs demo_index_loads [demo_db] None demo_saved demo_app (save_data "2025-04-17 12:30:45" demo_app)); reflexivity. Defined.

Example restore_drops_demo_graph :
  db_cache (restore_system_state demo_index_loads [demo_db] None demo_saved demo_app).2 !! demo_db
  = Some (mkEntry demo_db "rag" None).
Proof. vm_compute. reflexivity. Qed.

(** Graphs that cannot be pickled: the save answers [False], the restore
    [True]. *)
Example save_fails_restore_succeeds :
  (save_system_state (fun _ => true) (fun _ => false) "2025-04-17 12:30:45" demo_app ∅).1 = false
  /\ (restore_system_state demo_index_loads [demo_db] None
        (save_system_state (fun _ => true) (fun _ => false) "2025-04-17 12:30:45" demo_app ∅).2 demo_app).1
     = inr (Some true).
Proof. split; vm_compute; reflexivity. Qed.
